(** * great_expectations.core.batch: batch definitions, batch requests and
      their reconciliation from keyword arguments

    A shallow embedding of [great_expectations/core/batch.py].

    Python objects live in a heap: dictionaries, in-memory payloads and
    request instances are heap objects, and a value is either atomic
    ([None], a bool, an int, a str, a function) or a reference to a heap
    object.  Aliasing is therefore explicit: the dictionary a caller passes
    in and the dictionary a request stores are the same address.

    Dictionary keys are strings (keyword arguments and JSON objects have no
    other keys); floats, lists, tuples and slices play no part in the code
    under study and are left out of the universe of values.

    Computations that touch only the heap run in the monad [H]; the
    reconciliation function also writes to the module's logger and runs in
    [M], whose state is the heap together with the log. *)

From Stdlib Require Import ZArith String Ascii List Permutation DecimalString.
From stdpp Require Import base numbers list.

Local Open Scope string_scope.
Local Open Scope list_scope.

Set Warnings "-register-all".

(** ** Python values and the heap *)

Module Py.

Abbreviation addr := nat.

(** [dict] and the subclasses of it that the module imports. *)
Inductive dict_class := cls_dict | cls_IDDict | cls_BatchKwargs | cls_BatchSpec.

Inductive request_class :=
  cls_BatchRequestBase | cls_BatchRequest | cls_RuntimeBatchRequest.

Inductive pyval :=
| VNone
| VBool (b : bool)
| VInt (n : Z)
| VStr (s : string)
| VFunc (name : string)          (* a function, known by its __name__ *)
| VRef (a : addr).

(** The value an instance may hold in its own [__deepcopy__] attribute:
    [None], or the method bound to some instance. *)
Inductive hook := HookNone | HookBound (self : addr).

(** A request instance holds its data attributes, in the order they were
    first assigned, and its own [__deepcopy__] attribute when one has been
    assigned. *)
Inductive pyobj :=
| ODict (c : dict_class) (items : list (string * pyval))
| OPayload (tyname : string)     (* an in-memory batch of data *)
| OReq (c : request_class) (attrs : list (string * pyval)) (own__deepcopy__ : option hook).

Abbreviation heap := (list pyobj).

Inductive exn :=
| TypeError (msg : string)
| GreatExpectationsTypeError (msg : string)   (* a subclass of TypeError *)
| ValueError (msg : string)
| AttributeError (msg : string)
| AssertionError
| RecursionError
| SystemError (msg : string).    (* a reference to no object: never raised on a closed heap *)

Definition is_TypeError (e : exn) : bool :=
  match e with
  | TypeError _ | GreatExpectationsTypeError _ => true
  | _ => false
  end.

Inductive result (A : Type) :=
| Ok (a : A)
| Raise (e : exn).
Arguments Ok {A} a.
Arguments Raise {A} e.

(** *** Insertion-ordered dictionaries *)

Abbreviation items_t := (list (string * pyval)).

Fixpoint dict_get (k : string) (items : items_t) : option pyval :=
  match items with
  | [] => None
  | (k', v) :: rest => if String.eqb k k' then Some v else dict_get k rest
  end.

Definition dict_has (k : string) (items : items_t) : bool :=
  match dict_get k items with Some _ => true | None => false end.

(** [d[k] = v]: an existing key keeps its position, a new one goes last. *)
Fixpoint dict_set (k : string) (v : pyval) (items : items_t) : items_t :=
  match items with
  | [] => [(k, v)]
  | (k', v') :: rest =>
      if String.eqb k k' then (k', v) :: rest else (k', v') :: dict_set k v rest
  end.

Fixpoint dict_del (k : string) (items : items_t) : items_t :=
  match items with
  | [] => []
  | (k', v') :: rest =>
      if String.eqb k k' then dict_del k rest else (k', v') :: dict_del k rest
  end.

(** [d.update(other)] *)
Definition dict_update (other items : items_t) : items_t :=
  fold_left (fun acc kv => dict_set (fst kv) (snd kv) acc) other items.

(** *** The heap monad *)

Definition H (A : Type) : Type := heap -> heap * result A.

Definition ret {A} (a : A) : H A := fun h => (h, Ok a).
Definition raise {A} (e : exn) : H A := fun h => (h, Raise e).
Definition bind {A B} (m : H A) (k : A -> H B) : H B :=
  fun h => match m h with
           | (h', Ok a) => k a h'
           | (h', Raise e) => (h', Raise e)
           end.

Notation "'let*' x ':=' c 'in' k" := (bind c (fun x => k))
  (at level 10, x pattern, c at level 100, k at level 200).
Notation "c ';;' k" := (bind c (fun _ => k))
  (at level 100, k at level 200, right associativity).

Definition reading {A} (f : heap -> A) : H A := fun h => (h, Ok (f h)).

Definition alloc (o : pyobj) : H pyval :=
  fun h => (h ++ [o], Ok (VRef (length h))).

Definition load (a : addr) : H pyobj :=
  fun h => match h !! a with
           | Some o => (h, Ok o)
           | None => (h, Raise (SystemError "dangling reference"))
           end.

Definition store (a : addr) (o : pyobj) : H unit :=
  fun h => (<[a:=o]> h, Ok tt).

(** [if c: raise e] *)
Definition raise_if (c : heap -> bool) (e : heap -> exn) : H unit :=
  fun h => if c h then (h, Raise (e h)) else (h, Ok tt).

(** *** Built-in operations *)

Definition is_None (v : pyval) : bool :=
  match v with VNone => true | _ => false end.

Definition is_empty_string (s : string) : bool :=
  match s with EmptyString => true | _ => false end.

(** [bool(v)]: instances and payloads define neither [__bool__] nor an
    empty length. *)
Definition truthy (h : heap) (v : pyval) : bool :=
  match v with
  | VNone => false
  | VBool b => b
  | VInt n => negb (Z.eqb n 0)
  | VStr s => negb (is_empty_string s)
  | VFunc _ => true
  | VRef a => match h !! a with
              | Some (ODict _ []) => false
              | _ => true
              end
  end.

Definition isinstance_str (v : pyval) : bool :=
  match v with VStr _ => true | _ => false end.

(** [bool] is a subclass of [int]. *)
Definition isinstance_int (v : pyval) : bool :=
  match v with VInt _ | VBool _ => true | _ => false end.

Definition isinstance_dict (h : heap) (v : pyval) : bool :=
  match v with
  | VRef a => match h !! a with Some (ODict _ _) => true | _ => false end
  | _ => false
  end.

Definition subclass_of_IDDict (c : dict_class) : bool :=
  match c with cls_dict => false | _ => true end.

Definition isinstance_IDDict (h : heap) (v : pyval) : bool :=
  match v with
  | VRef a => match h !! a with
              | Some (ODict c _) => subclass_of_IDDict c
              | _ => false
              end
  | _ => false
  end.

(** [type(v) == IDDict] *)
Definition type_is_IDDict (h : heap) (v : pyval) : bool :=
  match v with
  | VRef a => match h !! a with Some (ODict cls_IDDict _) => true | _ => false end
  | _ => false
  end.

Definition isinstance_BatchRequest (h : heap) (v : pyval) : bool :=
  match v with
  | VRef a => match h !! a with
              | Some (OReq cls_BatchRequest _ _)
              | Some (OReq cls_RuntimeBatchRequest _ _) => true
              | _ => false
              end
  | _ => false
  end.

Definition dict_class_name (c : dict_class) : string :=
  match c with
  | cls_dict => "dict"
  | cls_IDDict => "great_expectations.core.id_dict.IDDict"
  | cls_BatchKwargs => "great_expectations.core.id_dict.BatchKwargs"
  | cls_BatchSpec => "great_expectations.core.id_dict.BatchSpec"
  end.

Definition request_class_name (c : request_class) : string :=
  match c with
  | cls_BatchRequestBase => "great_expectations.core.batch.BatchRequestBase"
  | cls_BatchRequest => "great_expectations.core.batch.BatchRequest"
  | cls_RuntimeBatchRequest => "great_expectations.core.batch.RuntimeBatchRequest"
  end.

Definition type_name (h : heap) (v : pyval) : string :=
  match v with
  | VNone => "NoneType"
  | VBool _ => "bool"
  | VInt _ => "int"
  | VStr _ => "str"
  | VFunc _ => "function"
  | VRef a => match h !! a with
              | Some (ODict c _) => dict_class_name c
              | Some (OPayload t) => t
              | Some (OReq c _ _) => request_class_name c
              | None => "object"
              end
  end.

(** [str(type(v))] *)
Definition type_str (h : heap) (v : pyval) : string :=
  "<class '" ++ type_name h v ++ "'>".

Fixpoint has_dot (s : string) : bool :=
  match s with
  | EmptyString => false
  | String c rest => Ascii.eqb c "."%char || has_dot rest
  end.

(** The part of a dotted name after its last dot. *)
Fixpoint last_component (s : string) : string :=
  match s with
  | EmptyString => EmptyString
  | String c rest =>
      if has_dot rest then last_component rest
      else if Ascii.eqb c "."%char then rest else s
  end.

(** [type(v).__name__], by which the interpreter's own messages name a
    type: the name of the class without its module. *)
Definition class_name (h : heap) (v : pyval) : string :=
  last_component (type_name h v).

(** [str(n)] for a natural number *)
Definition decimal (n : nat) : string := NilEmpty.string_of_uint (Nat.to_uint n).

(** *** Item access on instances

    The request classes inherit item access from [DictDot], a class of
    [great_expectations.types] that is not part of this file: [v[i]], for
    an int [i], is the [i]-th name in the [__dict__] of the instance, and
    [v[k] = x] is [setattr(v, k, x)].  [DictDot] defines no [__contains__],
    no [__iter__] and no [keys], so that a membership test and the dict
    constructor go through [v[0]], [v[1]], ... *)

(** The names in the [__dict__] of an instance; its own [__deepcopy__] is
    taken to come last. *)
Definition instance_keys (attrs : items_t) (own : option hook) : list string :=
  map fst attrs ++ match own with Some _ => ["__deepcopy__"] | None => [] end.

(** The properties of the request classes that have no setter. *)
Definition read_only_properties : list string :=
  ["runtime_parameters"; "batch_identifiers"; "datasource_name"; "data_connector_name";
   "data_connector_query"; "limit"; "batch_spec_passthrough"; "id"].

(** Names whose assignment on an instance changes what the instance is
    ([__class__], [__dict__]) or what its methods do. *)
Definition structural_names : list string :=
  ["__class__"; "__dict__"; "__weakref__"; "to_json_dict"].

(** A name that [setattr] stores in the [__dict__] of a request instance
    as it is: not a property of the class, not [__deepcopy__], not one of
    the [structural_names]. *)
Definition plain_attribute (k : string) : bool :=
  negb (existsb (String.eqb k) read_only_properties)
  && negb (String.eqb k "data_asset_name")
  && negb (String.eqb k "__deepcopy__")
  && negb (existsb (String.eqb k) structural_names).

Fixpoint is_substring (needle hay : string) : bool :=
  String.prefix needle hay
  || match hay with
     | EmptyString => false
     | String _ rest => is_substring needle rest
     end.

(** [k in v]: key membership in a dict, substring test in a str; on a
    request instance the test goes through the names in its [__dict__]; the
    other values of the universe are not containers. *)
Definition py_contains (k : string) (v : pyval) : H bool :=
  fun h =>
    match v with
    | VStr s => (h, Ok (is_substring k s))
    | VRef a =>
        match h !! a with
        | Some (ODict _ items) => (h, Ok (dict_has k items))
        | Some (OReq _ attrs own) => (h, Ok (existsb (String.eqb k) (instance_keys attrs own)))
        | _ => (h, Raise (TypeError ("argument of type '" ++ class_name h v ++ "' is not iterable")))
        end
    | _ => (h, Raise (TypeError ("argument of type '" ++ class_name h v ++ "' is not iterable")))
    end.

(** [setattr(v, k, x)] for the instance [v] at address [a].  A property
    without a setter refuses the assignment (with the text CPython gives up
    to version 3.9; later versions name the attribute), [data_asset_name]
    has a setter, and any other name goes into the [__dict__] of the
    instance.  An
    assignment to one of the [structural_names], or of a value other than
    [None] to [__deepcopy__], leaves an instance that the universe of values
    does not hold. *)
Definition instance_setattr (a : addr) (c : request_class) (attrs : items_t)
    (own : option hook) (k : string) (x : pyval) : H unit :=
  fun h =>
    if existsb (String.eqb k) read_only_properties
    then (h, Raise (AttributeError "can't set attribute"))
    else if String.eqb k "data_asset_name"
    then (<[a:=OReq c (dict_set "_data_asset_name" x attrs) own]> h, Ok tt)
    else if String.eqb k "__deepcopy__"
    then match x with
         | VNone => (<[a:=OReq c attrs (Some HookNone)]> h, Ok tt)
         | _ => (h, Raise (SystemError "a __deepcopy__ that is neither None nor a bound method"))
         end
    else if existsb (String.eqb k) structural_names
    then (h, Raise (SystemError "an instance with a structural name reassigned"))
    else (<[a:=OReq c (dict_set k x attrs) own]> h, Ok tt).

(** [v[k] = x]: an entry of a dict, an attribute of a request instance. *)
Definition py_setitem (v : pyval) (k : string) (x : pyval) : H unit :=
  fun h =>
    match v with
    | VRef a =>
        match h !! a with
        | Some (ODict c items) => (<[a:=ODict c (dict_set k x items)]> h, Ok tt)
        | Some (OReq c attrs own) => instance_setattr a c attrs own k x h
        | _ => (h, Raise (TypeError ("'" ++ class_name h v ++ "' object does not support item assignment")))
        end
    | _ => (h, Raise (TypeError ("'" ++ class_name h v ++ "' object does not support item assignment")))
    end.

(** [y[k] = x] where [y] is known to be a dict, as in [copy._deepcopy_dict]. *)
Definition dict_setitem (y : pyval) (k : string) (x : pyval) : H unit :=
  fun h =>
    match y with
    | VRef a =>
        match h !! a with
        | Some (ODict c items) => (<[a:=ODict c (dict_set k x items)]> h, Ok tt)
        | _ => (h, Raise (TypeError ("'" ++ class_name h y ++ "' object does not support item assignment")))
        end
    | _ => (h, Raise (TypeError ("'" ++ class_name h y ++ "' object does not support item assignment")))
    end.

Definition no_attribute (h : heap) (v : pyval) (attr : string) : exn :=
  AttributeError ("'" ++ class_name h v ++ "' object has no attribute '" ++ attr ++ "'").

(** [v.items()] *)
Definition py_items (v : pyval) : H items_t :=
  fun h =>
    match v with
    | VRef a =>
        match h !! a with
        | Some (ODict _ items) => (h, Ok items)
        | _ => (h, Raise (no_attribute h v "items"))
        end
    | _ => (h, Raise (no_attribute h v "items"))
    end.

(** [v.get(k)] *)
Definition py_get (v : pyval) (k : string) : H pyval :=
  fun h =>
    match v with
    | VRef a =>
        match h !! a with
        | Some (ODict _ items) =>
            (h, Ok (match dict_get k items with Some x => x | None => VNone end))
        | _ => (h, Raise (no_attribute h v "get"))
        end
    | _ => (h, Raise (no_attribute h v "get"))
    end.

(** [v.pop(k)] for a key that is present *)
Definition py_pop (v : pyval) (k : string) : H pyval :=
  fun h =>
    match v with
    | VRef a =>
        match h !! a with
        | Some (ODict c items) =>
            match dict_get k items with
            | Some x => (<[a:=ODict c (dict_del k items)]> h, Ok x)
            | None => (h, Raise (SystemError "KeyError"))
            end
        | _ => (h, Raise (no_attribute h v "pop"))
        end
    | _ => (h, Raise (no_attribute h v "pop"))
    end.

(** [v.update(other)] *)
Definition py_update (v other : pyval) : H unit :=
  let* other_items := py_items other in
  fun h =>
    match v with
    | VRef a =>
        match h !! a with
        | Some (ODict c items) => (<[a:=ODict c (dict_update other_items items)]> h, Ok tt)
        | _ => (h, Raise (no_attribute h v "update"))
        end
    | _ => (h, Raise (no_attribute h v "update"))
    end.

(** [v.__name__] *)
Definition py_name (v : pyval) : H pyval :=
  fun h =>
    match v with
    | VFunc name => (h, Ok (VStr name))
    | _ => (h, Raise (no_attribute h v "__name__"))
    end.

(** [{k1: v1, ...}] *)
Definition new_dict (items : items_t) : H pyval := alloc (ODict cls_dict items).

(** The entries the dict constructor reads off a sequence of strs, from
    the [i]-th on: a str of two characters is a pair, the first character
    the key and the second the value, and a str of any other length is
    refused. *)
Fixpoint pairs_of_strs (i : nat) (strs : list string) (acc : items_t) : result items_t :=
  match strs with
  | [] => Ok acc
  | s :: rest =>
      match s with
      | String c0 (String c1 EmptyString) =>
          pairs_of_strs (S i) rest
            (dict_set (String c0 EmptyString) (VStr (String c1 EmptyString)) acc)
      | _ => Raise (ValueError ("dictionary update sequence element #" ++ decimal i
                                ++ " has length " ++ decimal (String.length s)
                                ++ "; 2 is required"))
      end
  end.

(** [dict(v)], as the entries of the new dict: the entries of a mapping; an
    empty str is an empty sequence of pairs; a request instance, which has
    no [keys], is read as the sequence of the names in its [__dict__] (an
    attribute named [keys] would be called instead); the rest is
    rejected. *)
Definition dict_entries (h : heap) (v : pyval) : result items_t :=
  match v with
  | VRef a =>
      match h !! a with
      | Some (ODict _ items) => Ok items
      | Some (OReq _ attrs own) =>
          match dict_get "keys" attrs with
          | Some (VFunc _) => Raise (SystemError "a call of a function of the caller")
          | Some keys => Raise (TypeError ("'" ++ class_name h keys ++ "' object is not callable"))
          | None => pairs_of_strs 0 (instance_keys attrs own) []
          end
      | _ => Raise (TypeError ("'" ++ class_name h v ++ "' object is not iterable"))
      end
  | VStr s =>
      if is_empty_string s then Ok []
      else Raise (ValueError "dictionary update sequence element #0 has length 1; 2 is required")
  | _ => Raise (TypeError ("'" ++ class_name h v ++ "' object is not iterable"))
  end.

(** [IDDict(v)] *)
Definition new_IDDict (v : pyval) : H pyval :=
  fun h =>
    match dict_entries h v with
    | Ok items => alloc (ODict cls_IDDict items) h
    | Raise e => (h, Raise e)
    end.

(** [v.attr] *)
Definition py_getattr (v : pyval) (attr : string) : H pyval :=
  fun h =>
    match v with
    | VRef a =>
        match h !! a with
        | Some (OReq _ attrs _) =>
            match dict_get attr attrs with
            | Some x => (h, Ok x)
            | None => (h, Raise (no_attribute h v attr))
            end
        | _ => (h, Raise (no_attribute h v attr))
        end
    | _ => (h, Raise (no_attribute h v attr))
    end.

(** [getattr(v, attr, None)] *)
Definition py_getattr_or_None (v : pyval) (attr : string) : H pyval :=
  fun h =>
    match v with
    | VRef a =>
        match h !! a with
        | Some (OReq _ attrs _) =>
            (h, Ok (match dict_get attr attrs with Some x => x | None => VNone end))
        | _ => (h, Ok VNone)
        end
    | _ => (h, Ok VNone)
    end.

(** [v.attr = x] on an instance *)
Definition py_setattr (v : pyval) (attr : string) (x : pyval) : H unit :=
  fun h =>
    match v with
    | VRef a =>
        match h !! a with
        | Some (OReq c attrs own) => (<[a:=OReq c (dict_set attr x attrs) own]> h, Ok tt)
        | _ => (h, Raise (no_attribute h v attr))
        end
    | _ => (h, Raise (no_attribute h v attr))
    end.

(** [v.__deepcopy__ = hk] on an instance *)
Definition set__deepcopy__ (v : pyval) (hk : hook) : H unit :=
  fun h =>
    match v with
    | VRef a =>
        match h !! a with
        | Some (OReq c attrs _) => (<[a:=OReq c attrs (Some hk)]> h, Ok tt)
        | _ => (h, Raise (no_attribute h v "__deepcopy__"))
        end
    | _ => (h, Raise (no_attribute h v "__deepcopy__"))
    end.

(** The [__deepcopy__] attribute as attribute lookup finds it: the
    instance's own, else the method [RuntimeBatchRequest] defines, bound to
    the instance. *)
Definition find__deepcopy__ (c : request_class) (self : addr) (own : option hook)
  : option hook :=
  match own with
  | Some hk => Some hk
  | None => match c with
            | cls_RuntimeBatchRequest => Some (HookBound self)
            | _ => None
            end
  end.

(** [self.__deepcopy__] *)
Definition get__deepcopy__ (self : addr) : H hook :=
  fun h =>
    match h !! self with
    | Some (OReq c _ own) =>
        match find__deepcopy__ c self own with
        | Some hk => (h, Ok hk)
        | None => (h, Raise (no_attribute h (VRef self) "__deepcopy__"))
        end
    | _ => (h, Raise (no_attribute h (VRef self) "__deepcopy__"))
    end.

(** The memo of [copy.deepcopy]: the copies made so far, by the address of
    the object copied. *)
Abbreviation memo_t := (list (nat * pyval)).

Fixpoint memo_get (a : addr) (memo : memo_t) : option pyval :=
  match memo with
  | [] => None
  | (a', y) :: rest => if Nat.eqb a a' then Some y else memo_get a rest
  end.

Definition memo_set (a : addr) (y : pyval) (memo : memo_t) : memo_t := (a, y) :: memo.

(** [x is y] *)
Definition py_is (x y : pyval) : bool :=
  match x, y with
  | VNone, VNone => true
  | VBool b, VBool b' => Bool.eqb b b'
  | VRef a, VRef a' => Nat.eqb a a'
  | VFunc f, VFunc f' => String.eqb f f'
  | _, _ => false
  end.

(** *** Text of the error messages *)

Definition dq : string := String (ascii_of_nat 34) EmptyString.
Definition nl : string := String (ascii_of_nat 10) EmptyString.
Definition quoted (s : string) : string := dq ++ s ++ dq.
Fixpoint spaces (n : nat) : string :=
  match n with O => EmptyString | S n' => String (ascii_of_nat 32) (spaces n') end.

End Py.

Import Py.

(** ** Helpers imported from the rest of the package *)

Module Util.

(** JSON-safe data: what [convert_to_json_serializable] returns. *)
Inductive json :=
| JNull
| JBool (b : bool)
| JInt (n : Z)
| JStr (s : string)
| JObj (members : list (string * json)).

Fixpoint convert_members (conv : pyval -> result json) (items : items_t)
  : result (list (string * json)) :=
  match items with
  | [] => Ok []
  | (k, v) :: rest =>
      match conv v with
      | Raise e => Raise e
      | Ok j => match convert_members conv rest with
                | Raise e => Raise e
                | Ok js => Ok ((k, j) :: js)
                end
      end
  end.

Definition not_serializable (h : heap) (v : pyval) : exn :=
  TypeError ("value is of type " ++ type_name h v ++ " which cannot be converted to JSON").

(** Modelled from the spec: [great_expectations.core.util.convert_to_json_serializable]
    is not part of this file; the spec describes it as the helper "that
    recursively converts arbitrary values to JSON-safe primitives".  Atomic
    JSON values convert to themselves and a mapping converts member by
    member; [fuel] is the interpreter's recursion limit. *)
Fixpoint convert (fuel : nat) (h : heap) (v : pyval) {struct fuel} : result json :=
  match fuel with
  | O => Raise RecursionError
  | S f =>
      match v with
      | VNone => Ok JNull
      | VBool b => Ok (JBool b)
      | VInt n => Ok (JInt n)
      | VStr s => Ok (JStr s)
      | VFunc _ => Raise (not_serializable h v)
      | VRef a =>
          match h !! a with
          | Some (ODict _ items) =>
              match convert_members (convert f h) items with
              | Ok js => Ok (JObj js)
              | Raise e => Raise e
              end
          | Some _ => Raise (not_serializable h v)
          | None => Raise (SystemError "dangling reference")
          end
      end
  end.

Definition convert_to_json_serializable (fuel : nat) (v : pyval) : H json :=
  fun h => (h, convert fuel h v).

(** The same helper applied to a dict display [{k1: v1, ...}]. *)
Definition convert_to_json_serializable_display (fuel : nat) (items : items_t) : H json :=
  fun h =>
    match fuel with
    | O => (h, Raise RecursionError)
    | S f => match convert_members (convert f h) items with
             | Ok js => (h, Ok (JObj js))
             | Raise e => (h, Raise e)
             end
    end.

(** Members in the order of their keys, as [json.dumps(..., sort_keys=True)]
    writes them. *)
Fixpoint insert_member (kv : string * json) (l : list (string * json)) :=
  match l with
  | [] => [kv]
  | kv' :: rest =>
      if String.leb (fst kv) (fst kv') then kv :: l else kv' :: insert_member kv rest
  end.

Definition sort_members (l : list (string * json)) : list (string * json) :=
  fold_right insert_member [] l.

Fixpoint sort_keys (j : json) : json :=
  match j with
  | JObj members =>
      JObj (sort_members (List.map (fun kv => match kv with (k, v) => (k, sort_keys v) end) members))
  | _ => j
  end.

Section Identity.

(** The digest of the text of a key-sorted JSON value. *)
Variable content_hash : json -> string.

(** Modelled from the spec: [IDDict.to_id] is not part of this file; the
    spec describes [IDDict] as "an ordered key-value container producing a
    deterministic, order-independent content hash (id) for any
    JSON-serializable structure".  The hash is taken of the structure with
    its keys sorted at every level. *)
Definition to_id (j : json) : string := content_hash (sort_keys j).

(** [IDDict(v).to_id()] for a heap dict [v]. *)
Definition IDDict_to_id (fuel : nat) (v : pyval) : H string :=
  let* j := convert_to_json_serializable fuel v in ret (to_id j).

End Identity.

(** The values the property filter takes for falsy: "empty mapping, empty
    string, null". *)
Definition falsy (h : heap) (v : pyval) : bool :=
  match v with
  | VNone => true
  | VStr s => is_empty_string s
  | VRef a => match h !! a with Some (ODict _ []) => true | _ => false end
  | _ => false
  end.

(** Modelled from the spec: [great_expectations.util.filter_properties_dict]
    is not part of this file; the spec describes it as "a property filter
    helper that strips falsy entries from a mapping, optionally in place",
    which with [clean_falsy=True, inplace=True] "strips any key whose value
    is falsy (empty mapping, empty string, null)". *)
Definition filter_properties_dict (properties : pyval) : H unit :=
  fun h =>
    match properties with
    | VRef a =>
        match h !! a with
        | Some (ODict c items) =>
            (<[a:=ODict c (List.filter (fun kv => negb (falsy h (snd kv))) items)]> h, Ok tt)
        | _ => (h, Raise (no_attribute h properties "items"))
        end
    | _ => (h, Raise (no_attribute h properties "items"))
    end.

End Util.

Import Util.

(** ** class BatchDefinition *)

Module BatchDefinition.

Record t := Build {
  _datasource_name : pyval;
  _data_connector_name : pyval;
  _data_asset_name : pyval;
  _batch_identifiers : pyval;
  _batch_spec_passthrough : pyval
}.

Definition name_type_message (what : string) (ty : string) (indent : nat) : string :=
  "The type of " ++ what ++ " name must be a string (Python " ++ quoted "str"
  ++ ").  The type given is" ++ nl ++ quoted ty ++ ", which is illegal." ++ nl
  ++ spaces indent.

Definition _validate_batch_definition
    (datasource_name data_connector_name data_asset_name batch_identifiers : pyval)
  : H unit :=
  raise_if (fun _ => is_None datasource_name)
           (fun _ => ValueError "A valid datasource must be specified.") ;;
  raise_if (fun h => truthy h datasource_name && negb (isinstance_str datasource_name))
           (fun h => TypeError (name_type_message "an datasource" (type_str h datasource_name) 12)) ;;
  raise_if (fun _ => is_None data_connector_name)
           (fun _ => ValueError "A valid data_connector must be specified.") ;;
  raise_if (fun h => truthy h data_connector_name && negb (isinstance_str data_connector_name))
           (fun h => TypeError (name_type_message "a data_connector" (type_str h data_connector_name) 16)) ;;
  raise_if (fun _ => is_None data_asset_name)
           (fun _ => ValueError "A valid data_asset_name must be specified.") ;;
  raise_if (fun h => truthy h data_asset_name && negb (isinstance_str data_asset_name))
           (fun h => TypeError (name_type_message "a data_asset" (type_str h data_asset_name) 16)) ;;
  raise_if (fun h => truthy h batch_identifiers && negb (isinstance_IDDict h batch_identifiers))
           (fun h => TypeError ("The type of batch_identifiers must be an IDDict object.  The type given is "
                                ++ quoted (type_str h batch_identifiers) ++ ", which is illegal." ++ nl)).

Definition __init__
    (datasource_name data_connector_name data_asset_name batch_identifiers
     batch_spec_passthrough : pyval)
  : H t :=
  _validate_batch_definition datasource_name data_connector_name data_asset_name
                             batch_identifiers ;;
  (* assert type(batch_identifiers) == IDDict *)
  raise_if (fun h => negb (type_is_IDDict h batch_identifiers)) (fun _ => AssertionError) ;;
  ret {| _datasource_name := datasource_name;
         _data_connector_name := data_connector_name;
         _data_asset_name := data_asset_name;
         _batch_identifiers := batch_identifiers;
         _batch_spec_passthrough := batch_spec_passthrough |}.

Definition to_json_dict (fuel : nat) (self : t) : H json :=
  convert_to_json_serializable_display fuel
    [("datasource_name", _datasource_name self);
     ("data_connector_name", _data_connector_name self);
     ("data_asset_name", _data_asset_name self);
     ("batch_identifiers", _batch_identifiers self)].

Section Identity.
Variable content_hash : json -> string.

(** [IDDict(self.to_json_dict()).to_id()] *)
Definition id (fuel : nat) (self : t) : H string :=
  let* j := to_json_dict fuel self in ret (to_id content_hash j).

(** [self == other] for [other] a [BatchDefinition] *)
Definition __eq__ (fuel : nat) (self other : t) : H bool :=
  let* i := id fuel self in
  let* i' := id fuel other in
  ret (String.eqb i i').

End Identity.

End BatchDefinition.

(** ** class BatchRequestBase *)

Module BatchRequestBase.

(** The attributes of the new instance, in the order they are assigned. *)
Definition __init__
    (datasource_name data_connector_name data_asset_name data_connector_query
     limit runtime_parameters batch_identifiers batch_spec_passthrough : pyval)
  : items_t :=
  [("_datasource_name", datasource_name);
   ("_data_connector_name", data_connector_name);
   ("_data_asset_name", data_asset_name);
   ("_data_connector_query", data_connector_query);
   ("_limit", limit);
   ("_runtime_parameters", runtime_parameters);
   ("_batch_identifiers", batch_identifiers);
   ("_batch_spec_passthrough", batch_spec_passthrough)].

Section Methods.

(** [copy.deepcopy], which dispatches on the class of its argument and is
    defined once all classes are. *)
Variable copy_deepcopy : pyval -> H pyval.

Definition to_json_dict (self : pyval) : H pyval :=
  let* self_data_connector_query := py_getattr self "_data_connector_query" in
  let* data_connector_query :=
    if negb (is_None self_data_connector_query) then
      let* data_connector_query := copy_deepcopy self_data_connector_query in
      let* f := py_get data_connector_query "custom_filter_function" in
      (if negb (is_None f) then
         let* name := py_name f in
         py_setitem data_connector_query "custom_filter_function" name
       else ret tt) ;;
      ret data_connector_query
    else ret VNone in
  let* datasource_name := py_getattr self "_datasource_name" in
  let* data_connector_name := py_getattr self "_data_connector_name" in
  let* data_asset_name := py_getattr self "_data_asset_name" in
  let* json_dict :=
    new_dict [("datasource_name", datasource_name);
              ("data_connector_name", data_connector_name);
              ("data_asset_name", data_asset_name);
              ("data_connector_query", data_connector_query)] in
  let* batch_spec_passthrough := py_getattr self "_batch_spec_passthrough" in
  (if negb (is_None batch_spec_passthrough)
   then py_setitem json_dict "batch_spec_passthrough" batch_spec_passthrough
   else ret tt) ;;
  let* limit := py_getattr self "_limit" in
  (if negb (is_None limit) then py_setitem json_dict "limit" limit else ret tt) ;;
  let* batch_identifiers := py_getattr self "_batch_identifiers" in
  (if negb (is_None batch_identifiers)
   then py_setitem json_dict "batch_identifiers" batch_identifiers
   else ret tt) ;;
  let* runtime_parameters := py_getattr self "_runtime_parameters" in
  (if negb (is_None runtime_parameters) then
     let* items := py_items runtime_parameters in
     let* d := new_dict (List.filter (fun kv => negb (String.eqb (fst kv) "batch_data")) items) in
     py_setitem json_dict "runtime_parameters" d ;;
     let* batch_data := py_get runtime_parameters "batch_data" in
     if negb (is_None batch_data) then
       let* ty := reading (fun h => type_str h batch_data) in
       py_setitem d "batch_data" (VStr ty)
     else ret tt
   else ret tt) ;;
  filter_properties_dict json_dict ;;
  ret json_dict.

Variable content_hash : json -> string.

(** [IDDict(self.to_json_dict()).to_id()] *)
Definition id (fuel : nat) (self : pyval) : H string :=
  let* json_dict := to_json_dict self in
  let* d := new_IDDict json_dict in
  IDDict_to_id content_hash fuel d.

(** [self == other] for [other] an instance of the class of [self] *)
Definition __eq__ (fuel : nat) (self other : pyval) : H bool :=
  let* i := id fuel self in
  let* i' := id fuel other in
  ret (String.eqb i i').

End Methods.

End BatchRequestBase.

(** ** class BatchRequest *)

Module BatchRequest.

Definition _validate_init_parameters
    (datasource_name data_connector_name data_asset_name data_connector_query limit : pyval)
  : H unit :=
  raise_if (fun h => negb (truthy h datasource_name && isinstance_str datasource_name))
           (fun h => TypeError (BatchDefinition.name_type_message "an datasource"
                                  (type_str h datasource_name) 12)) ;;
  raise_if (fun h => negb (truthy h data_connector_name && isinstance_str data_connector_name))
           (fun h => TypeError (BatchDefinition.name_type_message "data_connector"
                                  (type_str h data_connector_name) 16)) ;;
  raise_if (fun h => negb (truthy h data_asset_name && isinstance_str data_asset_name))
           (fun h => TypeError ("The type of data_asset name must be a string (Python "
                                ++ quoted "str" ++ ").  The type given is" ++ nl ++ spaces 8
                                ++ quoted (type_str h data_asset_name) ++ ", which is illegal."
                                ++ nl ++ spaces 24)) ;;
  raise_if (fun h => truthy h data_connector_query && negb (isinstance_dict h data_connector_query))
           (fun h => TypeError ("The type of data_connector_query must be a dict object.  The type given is"
                                ++ nl ++ quoted (type_str h data_connector_query)
                                ++ ", which is illegal." ++ nl ++ spaces 16)) ;;
  raise_if (fun h => truthy h limit && negb (isinstance_int limit))
           (fun h => TypeError ("The type of limit must be an integer (Python " ++ quoted "int"
                                ++ ").  The type given is " ++ quoted (type_str h limit)
                                ++ ", which" ++ nl ++ "is illegal." ++ nl ++ spaces 16)).

Definition __init__
    (datasource_name data_connector_name data_asset_name data_connector_query limit
     batch_spec_passthrough : pyval)
  : H items_t :=
  _validate_init_parameters datasource_name data_connector_name data_asset_name
                            data_connector_query limit ;;
  ret (BatchRequestBase.__init__ datasource_name data_connector_name data_asset_name
         data_connector_query limit VNone VNone batch_spec_passthrough).

(** The call [BatchRequest(...)] *)
Definition new
    (datasource_name data_connector_name data_asset_name data_connector_query limit
     batch_spec_passthrough : pyval)
  : H pyval :=
  let* self := __init__ datasource_name data_connector_name data_asset_name
                        data_connector_query limit batch_spec_passthrough in
  alloc (OReq cls_BatchRequest self None).

Definition _validate_runtime_batch_request_specific_init_parameters
    (runtime_parameters batch_identifiers batch_spec_passthrough : pyval)
  : H unit :=
  raise_if (fun h => negb (truthy h runtime_parameters && isinstance_dict h runtime_parameters))
           (fun h => TypeError ("The type for runtime_parameters must be a dict object." ++ nl
                                ++ spaces 16 ++ "The type given is "
                                ++ quoted (type_str h runtime_parameters) ++ ", which is illegal.")) ;;
  raise_if (fun h => negb (truthy h batch_identifiers && isinstance_dict h batch_identifiers))
           (fun h => TypeError ("The type for batch_identifiers must be a dict object, with keys being identifiers defined in the"
                                ++ nl ++ spaces 16
                                ++ "data connector configuration.  The type given is "
                                ++ quoted (type_str h batch_identifiers) ++ ", which is illegal.")) ;;
  raise_if (fun h => truthy h batch_spec_passthrough && negb (isinstance_dict h batch_spec_passthrough))
           (fun h => TypeError ("The type for batch_spec_passthrough must be a dict object. The type given is "
                                ++ quoted (type_str h batch_spec_passthrough) ++ ", which is illegal."
                                ++ nl)).

End BatchRequest.

(** ** class RuntimeBatchRequest *)

Module RuntimeBatchRequest.

Definition __init__
    (datasource_name data_connector_name data_asset_name runtime_parameters
     batch_identifiers batch_spec_passthrough : pyval)
  : H items_t :=
  let* self := BatchRequest.__init__ datasource_name data_connector_name data_asset_name
                                     VNone VNone batch_spec_passthrough in
  BatchRequest._validate_runtime_batch_request_specific_init_parameters
    runtime_parameters batch_identifiers batch_spec_passthrough ;;
  let self := dict_set "_runtime_parameters" runtime_parameters self in
  let self := dict_set "_batch_identifiers" batch_identifiers self in
  ret self.

(** The call [RuntimeBatchRequest(...)] *)
Definition new
    (datasource_name data_connector_name data_asset_name runtime_parameters
     batch_identifiers batch_spec_passthrough : pyval)
  : H pyval :=
  let* self := __init__ datasource_name data_connector_name data_asset_name
                        runtime_parameters batch_identifiers batch_spec_passthrough in
  alloc (OReq cls_RuntimeBatchRequest self None).

Section Deepcopy.

(** [copy.deepcopy(x, memo)], to which the method calls back. *)
Variable copy_deepcopy : pyval -> memo_t -> H (pyval * memo_t).

Definition __deepcopy__ (self : addr) (memo : memo_t) : H (pyval * memo_t) :=
  let* runtime_parameters := py_getattr_or_None (VRef self) "_runtime_parameters" in
  let* is_dict := reading (fun h => isinstance_dict h runtime_parameters) in
  let* has_batch_data :=
    if is_dict then py_contains "batch_data" runtime_parameters else ret false in
  if has_batch_data then
    let* batch_data := py_pop runtime_parameters "batch_data" in
    let* deepcopy_method := get__deepcopy__ self in
    set__deepcopy__ (VRef self) HookNone ;;
    let* cp_memo := copy_deepcopy (VRef self) memo in
    let cp := fst cp_memo in
    set__deepcopy__ (VRef self) deepcopy_method ;;
    (* Copy the function object *)
    match deepcopy_method with
    | HookNone => raise (AttributeError "'NoneType' object has no attribute '__code__'")
    | HookBound _ =>
        (* Bind to cp and set *)
        match cp with
        | VRef cp_addr => set__deepcopy__ cp (HookBound cp_addr)
        | _ => raise_if (fun _ => true) (fun h => no_attribute h cp "__deepcopy__")
        end ;;
        let* cp_runtime_parameters := py_getattr cp "_runtime_parameters" in
        py_setitem cp_runtime_parameters "batch_data" batch_data ;;
        let* self_runtime_parameters := py_getattr (VRef self) "_runtime_parameters" in
        py_setitem self_runtime_parameters "batch_data" batch_data ;;
        ret (cp, snd cp_memo)
    end
  else
    (* Don't use custom deepcopy if batch_data isn't found *)
    set__deepcopy__ (VRef self) HookNone ;;
    copy_deepcopy (VRef self) memo.

End Deepcopy.

End RuntimeBatchRequest.

(** ** The [copy] module of the standard library *)

Module copy.

Section Copiers.

Variable deepcopy : pyval -> memo_t -> H (pyval * memo_t).

(** [for key, value in items: y[key] = deepcopy(value, memo)], the entry
    being set by [set]. *)
Fixpoint _deepcopy_items (set : pyval -> string -> pyval -> H unit)
    (y : pyval) (items : items_t) (memo : memo_t) : H memo_t :=
  match items with
  | [] => ret memo
  | (key, value) :: rest =>
      let* value_memo := deepcopy value memo in
      set y key (fst value_memo) ;;
      _deepcopy_items set y rest (snd value_memo)
  end.

(** A dict, of class [dict] or a subclass: the copy is entered in the memo
    before its entries are copied. *)
Definition _deepcopy_dict (x : addr) (c : dict_class) (items : items_t) (memo : memo_t)
  : H (pyval * memo_t) :=
  let* y := alloc (ODict c []) in
  let* memo := _deepcopy_items dict_setitem y items (memo_set x y memo) in
  ret (y, memo).

(** An in-memory payload is duplicated. *)
Definition _deepcopy_payload (x : addr) (tyname : string) (memo : memo_t)
  : H (pyval * memo_t) :=
  let* y := alloc (OPayload tyname) in
  ret (y, memo_set x y memo).

(** An instance without a [__deepcopy__] to call: a new instance of the
    class, entered in the memo, receives a deep copy of each attribute.  The
    instance's own [__deepcopy__] is unset or [None] here, and the copy has
    the same. *)
Definition _reconstruct (x : addr) (c : request_class) (attrs : items_t)
    (own : option hook) (memo : memo_t)
  : H (pyval * memo_t) :=
  let* y := alloc (OReq c [] own) in
  let* memo := _deepcopy_items py_setattr y attrs (memo_set x y memo) in
  ret (y, memo).

End Copiers.

(** [copy.deepcopy(x, memo)]; [fuel] is the interpreter's recursion limit. *)
Fixpoint deepcopy_memo (fuel : nat) (x : pyval) (memo : memo_t) {struct fuel}
  : H (pyval * memo_t) :=
  match fuel with
  | O => raise RecursionError
  | S f =>
      match x with
      | VRef a =>
          match memo_get a memo with
          | Some y => ret (y, memo)
          | None =>
              let* o := load a in
              match o with
              | ODict c items => _deepcopy_dict (deepcopy_memo f) a c items memo
              | OPayload tyname => _deepcopy_payload a tyname memo
              | OReq c attrs own =>
                  (* copier = getattr(x, "__deepcopy__", None) *)
                  match find__deepcopy__ c a own with
                  | Some (HookBound self) =>
                      let* y_memo := RuntimeBatchRequest.__deepcopy__ (deepcopy_memo f) self memo in
                      (* If is its own copy, don't memoize. *)
                      if py_is (fst y_memo) x then ret y_memo
                      else ret (fst y_memo, memo_set a (fst y_memo) (snd y_memo))
                  | _ => _reconstruct (deepcopy_memo f) a c attrs own memo
                  end
              end
          end
      | _ => ret (x, memo)      (* atomic values are their own copies *)
      end
  end.

(** [copy.deepcopy(x)] *)
Definition deepcopy (fuel : nat) (x : pyval) : H pyval :=
  let* y_memo := deepcopy_memo fuel x [] in ret (fst y_memo).

End copy.

(** The methods of a request, run with the interpreter's [copy.deepcopy]. *)

Module Request.

Definition to_json_dict (fuel : nat) (self : pyval) : H pyval :=
  BatchRequestBase.to_json_dict (copy.deepcopy fuel) self.

Definition id (content_hash : json -> string) (fuel : nat) (self : pyval) : H string :=
  BatchRequestBase.id (copy.deepcopy fuel) content_hash fuel self.

End Request.

(** ** The module's logger *)

Module Log.

Record state := State { heap_of : heap; log : list string }.

Definition M (A : Type) : Type := state -> state * result A.

Definition ret {A} (a : A) : M A := fun s => (s, Ok a).
Definition raise {A} (e : exn) : M A := fun s => (s, Raise e).
Definition bind {A B} (m : M A) (k : A -> M B) : M B :=
  fun s => match m s with
           | (s', Ok a) => k a s'
           | (s', Raise e) => (s', Raise e)
           end.

(** A heap computation leaves the log alone. *)
Definition lift {A} (m : H A) : M A :=
  fun s => match m (heap_of s) with
           | (h', r) => ({| heap_of := h'; log := log s |}, r)
           end.

(** [logger.warning(msg)] *)
Definition warning (msg : string) : M unit :=
  fun s => ({| heap_of := heap_of s; log := log s ++ [msg] |}, Ok tt).

End Log.

Notation "'let+' x ':=' c 'in' k" := (Log.bind c (fun x => k))
  (at level 10, x pattern, c at level 100, k at level 200).
Notation "c ';;+' k" := (Log.bind c (fun _ => k))
  (at level 100, k at level 200, right associativity).

(** ** get_batch_request_from_acceptable_arguments *)

Module Args.

(** The arguments of a call, [None] for those left out, and the extra
    keyword arguments in the order they were written. *)
Record t := Build {
  datasource_name : pyval;
  data_connector_name : pyval;
  data_asset_name : pyval;
  batch_request : pyval;
  batch_data : pyval;
  data_connector_query : pyval;
  batch_identifiers : pyval;
  limit : pyval;
  index : pyval;
  custom_filter_function : pyval;
  batch_spec_passthrough : pyval;
  sampling_method : pyval;
  sampling_kwargs : pyval;
  splitter_method : pyval;
  splitter_kwargs : pyval;
  runtime_parameters : pyval;
  query : pyval;
  path : pyval;
  batch_filter_parameters : pyval;
  kwargs : items_t
}.

Definition default : t :=
  Build VNone VNone VNone VNone VNone VNone VNone VNone VNone VNone
        VNone VNone VNone VNone VNone VNone VNone VNone VNone [].

Definition with_batch_identifiers (x : pyval) (a : t) : t :=
  Build (datasource_name a) (data_connector_name a) (data_asset_name a) (batch_request a)
        (batch_data a) (data_connector_query a) x (limit a) (index a)
        (custom_filter_function a) (batch_spec_passthrough a) (sampling_method a)
        (sampling_kwargs a) (splitter_method a) (splitter_kwargs a) (runtime_parameters a)
        (query a) (path a) (batch_filter_parameters a) (kwargs a).

Definition with_batch_filter_parameters (x : pyval) (a : t) : t :=
  Build (datasource_name a) (data_connector_name a) (data_asset_name a) (batch_request a)
        (batch_data a) (data_connector_query a) (batch_identifiers a) (limit a) (index a)
        (custom_filter_function a) (batch_spec_passthrough a) (sampling_method a)
        (sampling_kwargs a) (splitter_method a) (splitter_kwargs a) (runtime_parameters a)
        (query a) (path a) x (kwargs a).

End Args.

Definition only_one_message : string :=
  "Must provide only one of batch_data, query, or path.".

Definition same_keys_message : string :=
  "If batch_data, query, or path arguments are provided, the same keys cannot appear in the "
  ++ "runtime_parameters argument.".

Definition not_both_message : string :=
  "Must provide either " ++ quoted "batch_filter_parameters" ++ " or "
  ++ quoted "batch_identifiers" ++ ", not both.".

Definition deprecation_message : string :=
  "Attempting to build data_connector_query but " ++ quoted "batch_identifiers"
  ++ " was provided instead of " ++ quoted "batch_filter_parameters" ++ ". The "
  ++ quoted "batch_identifiers" ++ " key on data_connector_query has been renamed to "
  ++ quoted "batch_filter_parameters" ++ ". Please update your code. Falling back on provided "
  ++ quoted "batch_identifiers" ++ ".".

(** [given and runtime_parameters and key in runtime_parameters], as a
    truth value *)
Definition appears_in (given : bool) (runtime_parameters : pyval) (key : string) : H bool :=
  if given then
    let* nonempty := reading (fun h => truthy h runtime_parameters) in
    if nonempty then py_contains key runtime_parameters else Py.ret false
  else Py.ret false.

Definition get_batch_request_from_acceptable_arguments (args : Args.t) : Log.M pyval :=
  let 'Args.Build datasource_name data_connector_name data_asset_name batch_request
        batch_data data_connector_query batch_identifiers limit index
        custom_filter_function batch_spec_passthrough sampling_method sampling_kwargs
        splitter_method splitter_kwargs runtime_parameters query path
        batch_filter_parameters kwargs_items := args in
  let+ kwargs := Log.lift (new_dict kwargs_items) in
  let+ given := Log.lift (reading (fun h => truthy h batch_request)) in
  let+ datasource_name :=
    if given then
      Log.lift
        (raise_if (fun h => negb (isinstance_BatchRequest h batch_request))
                  (fun h => TypeError ("batch_request must be an instance of BatchRequest object, not "
                                       ++ type_str h batch_request)) ;;
         py_getattr batch_request "_datasource_name")
    else Log.ret datasource_name in
  (* ensure that the first parameter is datasource_name, which should be a str *)
  Log.lift
    (raise_if (fun _ => negb (isinstance_str datasource_name))
              (fun h => GreatExpectationsTypeError
                          ("the first parameter, datasource_name, must be a str, not "
                           ++ type_str h datasource_name))) ;;+
  Log.lift
    (raise_if (fun _ => Nat.ltb 1 (length (List.filter (fun arg => negb (is_None arg))
                                                      [batch_data; query; path])))
              (fun _ => ValueError only_one_message)) ;;+
  let+ c1 := Log.lift (appears_in (negb (is_None batch_data)) runtime_parameters "batch_data") in
  let+ query_given := Log.lift (reading (fun h => truthy h query)) in
  let+ c2 := Log.lift (appears_in query_given runtime_parameters "query") in
  let+ path_given := Log.lift (reading (fun h => truthy h path)) in
  let+ c3 := Log.lift (appears_in path_given runtime_parameters "path") in
  if c1 || c2 || c3 then Log.raise (ValueError same_keys_message) else
  let+ given := Log.lift (reading (fun h => truthy h batch_request)) in
  if given then Log.ret batch_request else
  let+ runtime := Log.lift (reading (fun h => negb (is_None batch_data) || truthy h query
                                               || truthy h path || truthy h runtime_parameters)) in
  if runtime then
    (* runtime_parameters = runtime_parameters or {} *)
    let+ nonempty := Log.lift (reading (fun h => truthy h runtime_parameters)) in
    let+ runtime_parameters :=
      if nonempty then Log.ret runtime_parameters else Log.lift (new_dict []) in
    Log.lift
      (if negb (is_None batch_data) then py_setitem runtime_parameters "batch_data" batch_data
       else if negb (is_None query) then py_setitem runtime_parameters "query" query
       else if negb (is_None path) then py_setitem runtime_parameters "path" path
       else Py.ret tt) ;;+
    let batch_identifiers := if is_None batch_identifiers then kwargs else batch_identifiers in
    Log.lift (RuntimeBatchRequest.new datasource_name data_connector_name data_asset_name
                runtime_parameters batch_identifiers batch_spec_passthrough)
  else
    let+ data_connector_query :=
      if is_None data_connector_query then
        let+ batch_filter_parameters :=
          if negb (is_None batch_filter_parameters) && negb (is_None batch_identifiers) then
            Log.raise (ValueError not_both_message)
          else if is_None batch_filter_parameters && negb (is_None batch_identifiers) then
            Log.warning deprecation_message ;;+
            Log.ret batch_identifiers
          else if is_None batch_filter_parameters && is_None batch_identifiers then
            Log.ret kwargs
          else Log.ret batch_filter_parameters in
        let+ data_connector_query_params :=
          Log.lift (new_dict [("batch_filter_parameters", batch_filter_parameters);
                              ("limit", limit);
                              ("index", index);
                              ("custom_filter_function", custom_filter_function)]) in
        Log.lift (new_IDDict data_connector_query_params)
      else Log.lift (new_IDDict data_connector_query) in
    let+ batch_spec_passthrough :=
      if is_None batch_spec_passthrough then
        let+ batch_spec_passthrough := Log.lift (new_dict []) in
        (if negb (is_None sampling_method) then
           let+ sampling_params := Log.lift (new_dict [("sampling_method", sampling_method)]) in
           (if negb (is_None sampling_kwargs)
            then Log.lift (py_setitem sampling_params "sampling_kwargs" sampling_kwargs)
            else Log.ret tt) ;;+
           Log.lift (py_update batch_spec_passthrough sampling_params)
         else Log.ret tt) ;;+
        (if negb (is_None splitter_method) then
           let+ splitter_params := Log.lift (new_dict [("splitter_method", splitter_method)]) in
           (if negb (is_None splitter_kwargs)
            then Log.lift (py_setitem splitter_params "splitter_kwargs" splitter_kwargs)
            else Log.ret tt) ;;+
           Log.lift (py_update batch_spec_passthrough splitter_params)
         else Log.ret tt) ;;+
        Log.ret batch_spec_passthrough
      else Log.ret batch_spec_passthrough in
    Log.lift (BatchRequest.new datasource_name data_connector_name data_asset_name
                data_connector_query VNone batch_spec_passthrough).

(** ** The parts of [get_batch_request_from_acceptable_arguments]

    The function is one body in the source; its lines are named here so
    that statements can say which part a call reaches.  Lemmas
    [call_checks_raise] and [call_checks_ok] below show that the function is
    the composition of these parts. *)

(** The heap once the call has bound [**kwargs] to a fresh dict. *)
Definition on_entry (h : heap) (args : Args.t) : heap :=
  (h ++ [ODict cls_dict (Args.kwargs args)])%list.

(** More than one of [batch_data], [query], [path] is not [None]. *)
Definition several_given (args : Args.t) : bool :=
  Nat.ltb 1 (length (List.filter (fun arg => negb (is_None arg))
                       [Args.batch_data args; Args.query args; Args.path args])).

(** The [any([...])] of the second check: one of the three is given and is
    also a key of [runtime_parameters]. *)
Definition collision (args : Args.t) : H bool :=
  let* c1 := appears_in (negb (is_None (Args.batch_data args)))
                        (Args.runtime_parameters args) "batch_data" in
  let* query_given := reading (fun h => truthy h (Args.query args)) in
  let* c2 := appears_in query_given (Args.runtime_parameters args) "query" in
  let* path_given := reading (fun h => truthy h (Args.path args)) in
  let* c3 := appears_in path_given (Args.runtime_parameters args) "path" in
  Py.ret (c1 || c2 || c3).

(** The checks every call goes through, up to the second
    [if batch_request:]; the value is the [datasource_name] they leave. *)
Definition checks (args : Args.t) : H pyval :=
  let* given := reading (fun h => truthy h (Args.batch_request args)) in
  let* datasource_name :=
    if given then
      raise_if (fun h => negb (isinstance_BatchRequest h (Args.batch_request args)))
               (fun h => TypeError ("batch_request must be an instance of BatchRequest object, not "
                                    ++ type_str h (Args.batch_request args))) ;;
      py_getattr (Args.batch_request args) "_datasource_name"
    else Py.ret (Args.datasource_name args) in
  raise_if (fun _ => negb (isinstance_str datasource_name))
           (fun h => GreatExpectationsTypeError
                       ("the first parameter, datasource_name, must be a str, not "
                        ++ type_str h datasource_name)) ;;
  raise_if (fun _ => several_given args) (fun _ => ValueError only_one_message) ;;
  let* c := collision args in
  if c then Py.raise (ValueError same_keys_message) else Py.ret datasource_name.

(** The condition of the [if any([...])] that selects the runtime branch. *)
Definition is_runtime (h : heap) (args : Args.t) : bool :=
  negb (is_None (Args.batch_data args)) || truthy h (Args.query args)
  || truthy h (Args.path args) || truthy h (Args.runtime_parameters args).

(** The body of that [if]. *)
Definition runtime_branch (args : Args.t) (kwargs datasource_name : pyval) : H pyval :=
  let* nonempty := reading (fun h => truthy h (Args.runtime_parameters args)) in
  let* runtime_parameters :=
    if nonempty then Py.ret (Args.runtime_parameters args) else new_dict [] in
  (if negb (is_None (Args.batch_data args))
   then py_setitem runtime_parameters "batch_data" (Args.batch_data args)
   else if negb (is_None (Args.query args))
   then py_setitem runtime_parameters "query" (Args.query args)
   else if negb (is_None (Args.path args))
   then py_setitem runtime_parameters "path" (Args.path args)
   else Py.ret tt) ;;
  let batch_identifiers :=
    if is_None (Args.batch_identifiers args) then kwargs else Args.batch_identifiers args in
  RuntimeBatchRequest.new datasource_name (Args.data_connector_name args)
    (Args.data_asset_name args) runtime_parameters batch_identifiers
    (Args.batch_spec_passthrough args).

(** The [batch_spec_passthrough] of the [else] branch. *)
Definition passthrough (args : Args.t) : H pyval :=
  if is_None (Args.batch_spec_passthrough args) then
    let* batch_spec_passthrough := new_dict [] in
    (if negb (is_None (Args.sampling_method args)) then
       let* sampling_params := new_dict [("sampling_method", Args.sampling_method args)] in
       (if negb (is_None (Args.sampling_kwargs args))
        then py_setitem sampling_params "sampling_kwargs" (Args.sampling_kwargs args)
        else Py.ret tt) ;;
       py_update batch_spec_passthrough sampling_params
     else Py.ret tt) ;;
    (if negb (is_None (Args.splitter_method args)) then
       let* splitter_params := new_dict [("splitter_method", Args.splitter_method args)] in
       (if negb (is_None (Args.splitter_kwargs args))
        then py_setitem splitter_params "splitter_kwargs" (Args.splitter_kwargs args)
        else Py.ret tt) ;;
       py_update batch_spec_passthrough splitter_params
     else Py.ret tt) ;;
    Py.ret batch_spec_passthrough
  else Py.ret (Args.batch_spec_passthrough args).

(** The [else] branch once [batch_filter_parameters] is settled. *)
Definition catalog_request (args : Args.t) (datasource_name batch_filter_parameters : pyval)
  : H pyval :=
  let* data_connector_query :=
    if is_None (Args.data_connector_query args) then
      let* data_connector_query_params :=
        new_dict [("batch_filter_parameters", batch_filter_parameters);
                  ("limit", Args.limit args);
                  ("index", Args.index args);
                  ("custom_filter_function", Args.custom_filter_function args)] in
      new_IDDict data_connector_query_params
    else new_IDDict (Args.data_connector_query args) in
  let* batch_spec_passthrough := passthrough args in
  BatchRequest.new datasource_name (Args.data_connector_name args) (Args.data_asset_name args)
    data_connector_query VNone batch_spec_passthrough.

(** The [else] branch. *)
Definition catalog_branch (args : Args.t) (kwargs datasource_name : pyval) : Log.M pyval :=
  if is_None (Args.data_connector_query args) then
    if negb (is_None (Args.batch_filter_parameters args))
       && negb (is_None (Args.batch_identifiers args))
    then Log.raise (ValueError not_both_message)
    else if is_None (Args.batch_filter_parameters args)
            && negb (is_None (Args.batch_identifiers args))
    then Log.warning deprecation_message ;;+
         Log.lift (catalog_request args datasource_name (Args.batch_identifiers args))
    else if is_None (Args.batch_filter_parameters args) && is_None (Args.batch_identifiers args)
    then Log.lift (catalog_request args datasource_name kwargs)
    else Log.lift (catalog_request args datasource_name (Args.batch_filter_parameters args))
  else Log.lift (catalog_request args datasource_name VNone).

(** What the call does once the checks have passed. *)
Definition after_checks (args : Args.t) (kwargs datasource_name : pyval) : Log.M pyval :=
  fun s =>
    if truthy (Log.heap_of s) (Args.batch_request args) then (s, Ok (Args.batch_request args))
    else if is_runtime (Log.heap_of s) args
    then Log.lift (runtime_branch args kwargs datasource_name) s
    else catalog_branch args kwargs datasource_name s.

(** The two type checks that open the function pass: a [batch_request]
    that is given is a [BatchRequest] whose [datasource_name] is a str, and
    without one the [datasource_name] argument is a str. *)
Definition type_checks_pass (h : heap) (args : Args.t) : Prop :=
  if truthy h (Args.batch_request args)
  then isinstance_BatchRequest h (Args.batch_request args) = true
       /\ exists n, snd (py_getattr (Args.batch_request args) "_datasource_name" h)
                    = Ok (VStr n)
  else isinstance_str (Args.datasource_name args) = true.

(** ** Heaps as [copy.deepcopy] sees them *)

(** A value that refers, if it refers at all, to an object allocated
    before address [n]. *)
Definition old_val (n : nat) (v : pyval) : Prop :=
  match v with VRef a => a < n | _ => True end.

(** A value that refers, if it refers at all, to an object allocated from
    address [n] on. *)
Definition fresh_from (n : nat) (v : pyval) : Prop :=
  match v with VRef b => n <= b | _ => True end.

(** An own [__deepcopy__] bound, if bound at all, to an object allocated
    before address [n]. *)
Definition old_hook (n : nat) (own : option hook) : Prop :=
  match own with Some (HookBound self) => self < n | _ => True end.

(** An instance's own [__deepcopy__], when it is a method, is the method
    of that instance. *)
Definition self_hook (a : addr) (own : option hook) : Prop :=
  match own with Some (HookBound self) => self = a | _ => True end.

(** An object that refers only to objects allocated before address [n]. *)
Definition old_obj (n : nat) (o : pyobj) : Prop :=
  match o with
  | ODict _ items => Forall (fun kv => old_val n (snd kv)) items
  | OPayload _ => True
  | OReq _ attrs own => Forall (fun kv => old_val n (snd kv)) attrs /\ old_hook n own
  end.

(** An object without its contents: its kind and its class. *)
Inductive shape :=
  | SDict (c : dict_class)
  | SPayload (tyname : string)
  | SReq (c : request_class).

(** The shape of an object, and of the object at an address. *)
Definition shape_of (o : pyobj) : shape :=
  match o with
  | ODict c _ => SDict c
  | OPayload tyname => SPayload tyname
  | OReq c _ _ => SReq c
  end.

Definition shape_at (h : heap) (a : addr) : option shape :=
  match h !! a with Some o => Some (shape_of o) | None => None end.

(** [y] is what a deep copy started at heap size [n] may return for [x]: an
    atomic value is its own copy, and an object is copied by an object of
    the same shape allocated since. *)
Definition copied (n : nat) (h h' : heap) (x y : pyval) : Prop :=
  match x with
  | VRef a => exists b, y = VRef b /\ n <= b /\ shape_at h' b = shape_at h a
  | _ => y = x
  end.

(** What a deep copy started at heap size [n] leaves of an object that
    existed at address [a]: its class; the attributes of an instance; the
    entries, as a mapping, of a dict, but for the ["batch_data"] entry of a
    dict that is itself a copy; and that the keys of a dict are distinct. *)
Definition stable (n : nat) (a : addr) (o o' : pyobj) : Prop :=
  match o, o' with
  | ODict c items, ODict c' items' =>
      c' = c
      /\ (forall k, a < n \/ k <> "batch_data" -> dict_get k items' = dict_get k items)
      /\ (List.NoDup (map fst items) -> List.NoDup (map fst items'))
  | OPayload t, OPayload t' => t' = t
  | OReq c attrs _, OReq c' attrs' _ => c' = c /\ attrs' = attrs
  | _, _ => False
  end.

(** Every object of [h] is in [h'], and is [stable]. *)
Definition frame (n : nat) (h h' : heap) : Prop :=
  forall a o, h !! a = Some o -> exists o', h' !! a = Some o' /\ stable n a o o'.

(** The same, but for the object at [y], which only keeps its shape. *)
Definition frame_except (y : addr) (n : nat) (h h' : heap) : Prop :=
  forall a o, h !! a = Some o ->
    exists o', h' !! a = Some o'
               /\ (if Nat.eqb a y then shape_of o' = shape_of o else stable n a o o').

(** The invariant of a deep copy started at heap size [n]. *)
Record inv (n : nat) (h : heap) (memo : memo_t) : Prop := {
  inv_len : n <= length h;
  inv_old : forall a, a < n -> exists o, h !! a = Some o /\ old_obj n o;
  inv_new : forall b c attrs own,
      n <= b -> h !! b = Some (OReq c attrs own) ->
      Forall (fun kv => fresh_from n (snd kv)) attrs;
  inv_hooks : forall a c attrs own,
      h !! a = Some (OReq c attrs own) -> self_hook a own;
  inv_memo : forall a y,
      memo_get a memo = Some y ->
      a < n /\ exists b, y = VRef b /\ n <= b /\ shape_at h b = shape_at h a;
  inv_keys : forall a c attrs own,
      a < n -> h !! a = Some (OReq c attrs own) -> List.NoDup (map fst attrs)
}.

(** What is asked of [copy.deepcopy(x, memo)]. *)
Definition deepcopy_spec (n : nat) (rec : pyval -> memo_t -> H (pyval * memo_t)) : Prop :=
  forall x memo h h' y memo',
    inv n h memo -> old_val n x ->
    rec x memo h = (h', Ok (y, memo')) ->
    inv n h' memo' /\ frame n h h' /\ copied n h h' x y.

(** What is asked of [copy.deepcopy(x, memo)] for an instance whose
    [__deepcopy__] is [None] and which the memo does not record: if its
    [runtime_parameters] is a dict, so is that of the copy. *)
Definition rp_spec (n : nat) (rec : pyval -> memo_t -> H (pyval * memo_t)) : Prop :=
  forall self c attrs memo h h' cp memo' d cd,
    inv n h memo -> self < n ->
    h !! self = Some (OReq c attrs (Some HookNone)) ->
    memo_get self memo = None ->
    dict_get "_runtime_parameters" attrs = Some (VRef d) ->
    shape_at h d = Some (SDict cd) ->
    rec (VRef self) memo h = (h', Ok (cp, memo')) ->
    exists cpa attrs' own' d',
      cp = VRef cpa
      /\ h' !! cpa = Some (OReq c attrs' own')
      /\ dict_get "_runtime_parameters" attrs' = Some (VRef d')
      /\ shape_at h' d' = Some (SDict cd).

(** The heap once [RuntimeBatchRequest.__deepcopy__] has restored the
    method on the instance [self], bound it to the copy [cpa], and entered
    [batch_data] in the [runtime_parameters] [d'] of the copy and [d] of
    the instance; [h3] is the heap [copy.deepcopy] returned. *)
Definition after_method (h3 : heap) (self cpa d d' : addr) (c c' : request_class)
    (attrs attrs' : items_t) (cd cd' : dict_class) (items3 items' : items_t)
    (hk : hook) (v : pyval) : heap :=
  <[d := ODict cd (dict_set "batch_data" v items3)]>
    (<[d' := ODict cd' (dict_set "batch_data" v items')]>
       (<[cpa := OReq c' attrs' (Some (HookBound cpa))]>
          (<[self := OReq c attrs (Some hk)]> h3))).

(** What an assignment through [set] does when it returns. *)
Definition setter_ok (set : pyval -> string -> pyval -> H unit) : Prop :=
  forall yb k v h h',
    set (VRef yb) k v h = (h', Ok tt) ->
    exists o o',
      h !! yb = Some o /\ h' = <[yb:=o']> h /\ shape_of o' = shape_of o
      /\ match o with
         | ODict c items => o' = ODict c (dict_set k v items)
         | OReq c attrs own => o' = OReq c (dict_set k v attrs) own
         | OPayload _ => False
         end.

(** Whatever [memo] records, [memo'] records too. *)
Definition memo_le (memo memo' : memo_t) : Prop :=
  forall a, is_Some (memo_get a memo) -> is_Some (memo_get a memo').

(** A copy that returns only adds to the memo. *)
Definition memo_grows (rec : pyval -> memo_t -> H (pyval * memo_t)) : Prop :=
  forall x memo h h' y memo', rec x memo h = (h', Ok (y, memo')) -> memo_le memo memo'.

(** Entry by entry: the same key, and a copy of the value. *)
Definition copied_items (n : nat) (h h' : heap) (items items' : items_t) : Prop :=
  Forall2 (fun kv kv' => fst kv' = fst kv /\ copied n h h' (snd kv) (snd kv')) items items'.

(** The objects that are still to copy. *)
Definition uncovered (n : nat) (memo : memo_t) : nat :=
  length (List.filter (fun a => match memo_get a memo with None => true | Some _ => false end)
                 (seq 0 n)).

(** The attributes of an instance have distinct names. *)
Definition keys_ok (n : nat) (h : heap) : Prop :=
  forall a c attrs own, a < n -> h !! a = Some (OReq c attrs own) -> List.NoDup (map fst attrs).

(** Assignments that cannot fail on a container of the right shape. *)
Definition setter_total (set : pyval -> string -> pyval -> H unit) (sh : shape) : Prop :=
  forall yb k v h, shape_at h yb = Some sh -> exists h', set (VRef yb) k v h = (h', Ok tt).

(** [copy.deepcopy] with recursion limit [f] returns whenever at most [m]
    objects are still to copy. *)
Definition total_at (n m f : nat) : Prop :=
  forall x memo h,
    inv n h memo -> keys_ok n h -> old_val n x -> uncovered n memo <= m ->
    exists h' y memo', copy.deepcopy_memo f x memo h = (h', Ok (y, memo')).

(** The test of [RuntimeBatchRequest.__deepcopy__]:
    [isinstance(runtime_parameters, dict) and "batch_data" in runtime_parameters]. *)
Definition holds_batch_data (h : heap) (attrs : items_t) : bool :=
  match dict_get "_runtime_parameters" attrs with
  | Some (VRef d) =>
      match h !! d with
      | Some (ODict _ items) => dict_has "batch_data" items
      | _ => false
      end
  | _ => false
  end.

(** Key by key, but for ["batch_data"], which [RuntimeBatchRequest.__deepcopy__]
    sets in the copy: the same keys, and a copy of each value. *)
Definition copied_entries (n : nat) (h h' : heap) (items items' : items_t) : Prop :=
  forall k, k <> "batch_data" ->
    match dict_get k items with
    | Some x => exists x', dict_get k items' = Some x' /\ copied n h h' x x'
    | None => dict_get k items' = None
    end.

(** ** Heaps as Python builds them *)

(** The entries of a dict, the attributes of an instance. *)
Definition entries (o : pyobj) : items_t :=
  match o with ODict _ items => items | OPayload _ => [] | OReq _ attrs _ => attrs end.

(** Every reference is to an object of the heap, the keys of a dict and the
    attribute names of an instance are distinct, and an instance's own
    [__deepcopy__] is unset, [None], or the method bound to the instance. *)
Definition well_formed (h : heap) : Prop :=
  forall a o, h !! a = Some o ->
    Forall (fun kv => old_val (length h) (snd kv)) (entries o)
    /\ List.NoDup (map fst (entries o))
    /\ match o with OReq _ _ own => self_hook a own | _ => True end.

(** The same, as a test. *)
Definition old_valb (n : nat) (v : pyval) : bool :=
  match v with VRef a => Nat.ltb a n | _ => true end.

Fixpoint distinct (keys : list string) : bool :=
  match keys with
  | [] => true
  | k :: rest => negb (existsb (String.eqb k) rest) && distinct rest
  end.

Definition self_hookb (a : addr) (o : pyobj) : bool :=
  match o with OReq _ _ (Some (HookBound self)) => Nat.eqb self a | _ => true end.

Definition object_ok (n a : nat) (o : pyobj) : bool :=
  forallb (fun kv => old_valb n (snd kv)) (entries o)
  && distinct (map fst (entries o))
  && self_hookb a o.

Fixpoint objects_ok (n a : nat) (objects : list pyobj) : bool :=
  match objects with
  | [] => true
  | o :: rest => object_ok n a o && objects_ok n (S a) rest
  end.

Definition is_well_formed (h : heap) : bool := objects_ok (length h) 0 h.

(** ** The copy as the image of the original *)

(** [y] is the copy the memo records for [x]; an atomic value is its own. *)
Definition image (memo : memo_t) (x y : pyval) : Prop :=
  match x with VRef a => memo_get a memo = Some y | _ => y = x end.

(** The memo grows, and keeps what it records. *)
Definition memo_ext (memo memo' : memo_t) : Prop :=
  forall a y, memo_get a memo = Some y -> memo_get a memo' = Some y.

(** Key by key, but for ["batch_data"]: the same keys, and the image of
    each value. *)
Definition image_entries (memo : memo_t) (items items' : items_t) : Prop :=
  forall k, k <> "batch_data" ->
    match dict_get k items with
    | Some x => exists x', dict_get k items' = Some x' /\ image memo x x'
    | None => dict_get k items' = None
    end.

(** [o'] is [o] with every reference replaced by the copy the memo
    records: the same kind and class, and the image of each entry or
    attribute. *)
Definition content (memo : memo_t) (o o' : pyobj) : Prop :=
  shape_of o' = shape_of o /\ image_entries memo (entries o) (entries o').

(** Every object the memo records, but those in [busy], whose copy is
    under way, has been copied in full. *)
Definition done (busy : list addr) (h : heap) (memo : memo_t) : Prop :=
  forall a y, memo_get a memo = Some y -> ~ In a busy ->
    exists b o o', y = VRef b /\ h !! a = Some o /\ h !! b = Some o' /\ content memo o o'.

(** What the memo records anew are objects allocated since. *)
Definition memo_fresh (h : heap) (memo memo' : memo_t) : Prop :=
  forall a y, memo_get a memo' = Some y -> memo_get a memo = None -> fresh_from (length h) y.

(** The keys of a dict and the attribute names of an instance are
    distinct. *)
Definition keys_all (n : nat) (h : heap) : Prop :=
  forall a o, a < n -> h !! a = Some o -> List.NoDup (map fst (entries o)).

(** The only objects the memo maps to [yb] are in [busy]. *)
Definition owner (yb : addr) (busy : list addr) (memo : memo_t) : Prop :=
  forall a, memo_get a memo = Some (VRef yb) -> In a busy.

(** Every object keeps its kind, its class and its entries, but for
    ["batch_data"]. *)
Definition alike (h h' : heap) : Prop :=
  forall a o, h !! a = Some o ->
    exists o', h' !! a = Some o' /\ shape_of o' = shape_of o
               /\ forall k, k <> "batch_data" -> dict_get k (entries o') = dict_get k (entries o).

(** What is asked of [copy.deepcopy(x, memo)], as to contents: it returns
    the image of [x] under the memo it leaves, which extends the memo it
    was given by objects allocated since, copied in full but for those in
    [busy]. *)
Definition image_spec (n : nat) (rec : pyval -> memo_t -> H (pyval * memo_t)) : Prop :=
  forall busy x memo h h' y memo',
    inv n h memo -> keys_all n h -> done busy h memo -> old_val n x ->
    rec x memo h = (h', Ok (y, memo')) ->
    memo_ext memo memo' /\ image memo' x y /\ done busy h' memo' /\ memo_fresh h memo memo'.

(** ** The canonical form, as the specification words it *)

(** The entry [key: value], unless [value] is [None]. *)
Definition optional (key : string) (value : pyval) : items_t :=
  if is_None value then [] else [(key, value)].

(** "strips every key whose value is falsy" *)
Definition strip (h : heap) (items : items_t) : items_t :=
  List.filter (fun kv => negb (falsy h (snd kv))) items.

(** "replaced by its function name" *)
Definition function_name (v : pyval) : pyval :=
  match v with VFunc name => VStr name | _ => v end.

(** The runtime parameters of the canonical form, key by key: the
    ["batch_data"] entry is the name of the type of the value, and there is
    none when the value is [None]; every other entry is as it was. *)
Definition json_runtime_parameters (h : heap) (items : items_t) (k : string) : option pyval :=
  if String.eqb k "batch_data" then
    match dict_get "batch_data" items with
    | Some batch_data => if is_None batch_data then None else Some (VStr (type_str h batch_data))
    | None => None
    end
  else dict_get k items.

(** What [to_json_dict] asks of the attributes it reads: a
    [data_connector_query] is a dict whose ["custom_filter_function"], if
    any, is a function, and [runtime_parameters] is a dict. *)
Definition query_ok (h : heap) (data_connector_query : pyval) : Prop :=
  match data_connector_query with
  | VNone => True
  | VRef q =>
      exists c items,
        h !! q = Some (ODict c items)
        /\ match dict_get "custom_filter_function" items with
           | None | Some VNone | Some (VFunc _) => True
           | _ => False
           end
  | _ => False
  end.

(** [runtime_parameters] is [None] or a dict. *)
Definition parameters_ok (h : heap) (runtime_parameters : pyval) : Prop :=
  match runtime_parameters with
  | VNone => True
  | VRef p => exists c items, h !! p = Some (ODict c items)
  | _ => False
  end.

(** The [data_connector_query] of the canonical form: a deep copy in which
    the ["custom_filter_function"] is the name of the function.  The copy is
    a new dict of the same class; under the memo of the deep copy its
    entries are, key by key, the images of the entries of the original, and
    every object the memo records existed, has a copy that is new, and the
    copy is the object with each reference replaced by its image
    ([content]).  (Key by key but for a ["batch_data"], which
    [RuntimeBatchRequest.__deepcopy__] may set in a copy.) *)
Definition json_query (h h' : heap) (data_connector_query json : pyval) : Prop :=
  match data_connector_query with
  | VRef q =>
      exists q' c items items' memo,
        json = VRef q' /\ length h <= q'
        /\ h !! q = Some (ODict c items)
        /\ h' !! q' = Some (ODict c items')
        /\ memo_get q memo = Some (VRef q')
        /\ dict_get "custom_filter_function" items'
           = option_map function_name (dict_get "custom_filter_function" items)
        /\ (forall k, k <> "batch_data" -> k <> "custom_filter_function" ->
              match dict_get k items with
              | Some x => exists x', dict_get k items' = Some x' /\ image memo x x'
              | None => dict_get k items' = None
              end)
        /\ (forall a y,
              memo_get a memo = Some y ->
              exists b o o',
                y = VRef b /\ a < length h <= b
                /\ h !! a = Some o /\ h' !! b = Some o'
                /\ (b <> q' -> content memo o o'))
  | _ => json = data_connector_query
  end.

(** "with any [custom_filter_function] entry replaced by its function
    name", on the entries of a dict. *)
Definition name_filter (items : items_t) : items_t :=
  match dict_get "custom_filter_function" items with
  | Some (VFunc name) => dict_set "custom_filter_function" (VStr name) items
  | _ => items
  end.

(** The [data_connector_query] of the canonical form is the object
    [copy.deepcopy] returns for the [data_connector_query] of the instance,
    with the function under ["custom_filter_function"] replaced by its name
    ([name_filter]); every other object the deep copy leaves is in [h'] as
    it is. *)
Definition query_is_deepcopy (fuel : nat) (h h' : heap) (data_connector_query json : pyval)
  : Prop :=
  match data_connector_query with
  | VRef q =>
      exists h1 q' c items1,
        json = VRef q'
        /\ copy.deepcopy fuel (VRef q) h = (h1, Ok (VRef q'))
        /\ h1 !! q' = Some (ODict c items1)
        /\ h' !! q' = Some (ODict c (name_filter items1))
        /\ forall b, b <> q' -> b < length h1 -> h' !! b = h1 !! b
  | _ => json = data_connector_query
  end.

(** A value that JSON can hold as it is: [None], a bool, an int, a str, or
    a dict of such values, nested at most [depth] deep. *)
Fixpoint json_safe (depth : nat) (h : heap) (v : pyval) : bool :=
  match v with
  | VNone | VBool _ | VInt _ | VStr _ => true
  | VFunc _ => false
  | VRef a =>
      match depth with
      | O => false
      | S depth =>
          match h !! a with
          | Some (ODict _ items) => forallb (fun kv => json_safe depth h (snd kv)) items
          | _ => false
          end
      end
  end.

(** The [runtime_parameters] of the canonical form: a new dict, with the
    entries [json_runtime_parameters] gives. *)
Definition json_parameters (h h' : heap) (runtime_parameters json : pyval) : Prop :=
  match runtime_parameters with
  | VRef p =>
      exists r c items items',
        json = VRef r /\ length h <= r
        /\ h !! p = Some (ODict c items)
        /\ h' !! r = Some (ODict cls_dict items')
        /\ forall k, dict_get k items' = json_runtime_parameters h items k
  | _ => json = runtime_parameters
  end.

(** The entries of the canonical form before the falsy ones are stripped. *)
Definition json_entries (ds dc da dcq bsp limit bi rp : pyval) : items_t :=
  [("datasource_name", ds); ("data_connector_name", dc); ("data_asset_name", da);
   ("data_connector_query", dcq)]
  ++ optional "batch_spec_passthrough" bsp
  ++ optional "limit" limit
  ++ optional "batch_identifiers" bi
  ++ optional "runtime_parameters" rp.

(** ** What a call leaves of the heap *)

(** [h'] holds every object of [h], unchanged. *)
Definition extends (h h' : heap) : Prop :=
  forall a o, h !! a = Some o -> h' !! a = Some o.

(** The object [o] once [k] has been entered with value [v]: as an entry
    in a non-empty dict, as an attribute on a request instance. *)
Definition entered (k : string) (v : pyval) (o o' : pyobj) : Prop :=
  match o with
  | ODict c items => items <> [] /\ o' = ODict c (dict_set k v items)
  | OReq c attrs own => o' = OReq c (dict_set k v attrs) own
  | OPayload _ => False
  end.

(** What [get_batch_request_from_acceptable_arguments] leaves of the heap
    [h]: every object unchanged, but possibly the [runtime_parameters]
    argument, in which [batch_data], [query] or [path] has been
    [entered]. *)
Definition reconciled (args : Args.t) (h h' : heap) : Prop :=
  forall a o, h !! a = Some o ->
    h' !! a = Some o
    \/ (Args.runtime_parameters args = VRef a
        /\ exists k v o',
             In (k, v) [("batch_data", Args.batch_data args);
                       ("query", Args.query args);
                       ("path", Args.path args)]
             /\ v <> VNone
             /\ entered k v o o'
             /\ h' !! a = Some o').

(** What the call leaves of the log [lg] of the module's logger: nothing
    new, or the deprecation warning. *)
Definition logged (lg lg' : list string) : Prop :=
  lg' = lg \/ lg' = lg ++ [deprecation_message].

(** ** What the constructors accept *)

(** A name as [BatchDefinition._validate_batch_definition] lets it through:
    not [None], and a str unless it is falsy. *)
Definition name_passes (h : heap) (name : pyval) : Prop :=
  name <> VNone /\ (truthy h name = true -> isinstance_str name = true).

(** A name as [BatchRequest._validate_init_parameters] lets it through: a
    str that is not empty. *)
Definition name_required (name : pyval) : Prop :=
  exists s, name = VStr s /\ s <> EmptyString.

(** ** What [get_batch_request_from_acceptable_arguments] builds *)

(** The entries [dict(v)] reads off [v]: those of a dict; nothing where the
    constructor refuses [v]. *)
Definition entries_of (h : heap) (v : pyval) : items_t :=
  match dict_entries h v with Ok items => items | Raise _ => [] end.

(** The entry lines 714-719 enter in [runtime_parameters]: [batch_data] if
    it is not [None], else [query] if it is not [None], else [path] if it is
    not [None]. *)
Definition source_entry (args : Args.t) : option (string * pyval) :=
  if negb (is_None (Args.batch_data args)) then Some ("batch_data", Args.batch_data args)
  else if negb (is_None (Args.query args)) then Some ("query", Args.query args)
  else if negb (is_None (Args.path args)) then Some ("path", Args.path args)
  else None.

Definition enter (entry : option (string * pyval)) (items : items_t) : items_t :=
  match entry with Some (k, v) => dict_set k v items | None => items end.

(** The entries a method and its keyword arguments contribute to
    [batch_spec_passthrough] (lines 768-781): none without the method. *)
Definition method_entries (method_key : string) (method : pyval)
    (kwargs_key : string) (kwargs : pyval) : items_t :=
  if is_None method then []
  else (method_key, method) :: (if is_None kwargs then [] else [(kwargs_key, kwargs)]).

(** A call that passes a request and nothing else. *)
Definition passing (batch_request : pyval) : Args.t :=
  Args.Build VNone VNone VNone batch_request VNone VNone VNone VNone VNone VNone
             VNone VNone VNone VNone VNone VNone VNone VNone VNone [].

(** *** The runtime branch *)

(** [v] is a dict that is not empty. *)
Definition nonempty_dict (h : heap) (v : pyval) : Prop :=
  exists a c items, v = VRef a /\ h !! a = Some (ODict c items) /\ items <> [].

(** [v] is a dict unless it is falsy. *)
Definition dict_if_truthy (h : heap) (v : pyval) : Prop :=
  truthy h v = true -> isinstance_dict h v = true.

(** Every dict is still a dict of its class, and is not empty if it was
    not. *)
Definition dicts_kept (h h' : heap) : Prop :=
  forall a c items, h !! a = Some (ODict c items) ->
    exists items', h' !! a = Some (ODict c items') /\ (items <> [] -> items' <> []).

(** *** The branch that builds a [BatchRequest] *)

(** The entries of the [data_connector_query] the function assembles
    (lines 755-760). *)
Definition query_params (args : Args.t) (batch_filter_parameters : pyval) : items_t :=
  [("batch_filter_parameters", batch_filter_parameters);
   ("limit", Args.limit args);
   ("index", Args.index args);
   ("custom_filter_function", Args.custom_filter_function args)].

(** The entries of the [batch_spec_passthrough] the function assembles
    (lines 767-781). *)
Definition passthrough_entries (args : Args.t) : items_t :=
  method_entries "sampling_method" (Args.sampling_method args)
                 "sampling_kwargs" (Args.sampling_kwargs args)
  ++ method_entries "splitter_method" (Args.splitter_method args)
                    "splitter_kwargs" (Args.splitter_kwargs args).

(** The dicts [passthrough] allocates on the way: one for each method
    given. *)
Definition passthrough_params (args : Args.t) : heap :=
  (if is_None (Args.sampling_method args) then []
   else [ODict cls_dict (method_entries "sampling_method" (Args.sampling_method args)
                                        "sampling_kwargs" (Args.sampling_kwargs args))])
  ++ (if is_None (Args.splitter_method args) then []
      else [ODict cls_dict (method_entries "splitter_method" (Args.splitter_method args)
                                           "splitter_kwargs" (Args.splitter_kwargs args))]).

(** ** Deep copies keep the heap well formed *)

(** What [well_formed] asks of the object at address [a] in a heap of [n]
    objects. *)
Definition object_ok_at (n : nat) (a : addr) (o : pyobj) : Prop :=
  Forall (fun kv => old_val n (snd kv)) (entries o)
  /\ List.NoDup (map fst (entries o))
  /\ match o with OReq _ _ own => self_hook a own | _ => True end.

(** The copies the memo records are objects of the heap. *)
Definition memo_in (h : heap) (memo : memo_t) : Prop :=
  forall a y, memo_get a memo = Some y -> old_val (length h) y.

(** The instance at [b] has no [__deepcopy__] method to call: its own
    [__deepcopy__] is [None], or it has none and is not a
    [RuntimeBatchRequest]. *)
Definition unhooked (c : request_class) (b : addr) (own : option hook) : Prop :=
  forall self, find__deepcopy__ c b own <> Some (HookBound self).

(** An instance without a [__deepcopy__] method stays as it is in this
    respect: its class and its own [__deepcopy__] are kept. *)
Definition unhooked_kept (h h' : heap) : Prop :=
  forall b c attrs own,
    h !! b = Some (OReq c attrs own) -> unhooked c b own ->
    exists attrs', h' !! b = Some (OReq c attrs' own).

(** What is asked of [copy.deepcopy(x, memo)] on a well-formed heap. *)
Definition closed_spec (rec : pyval -> memo_t -> H (pyval * memo_t)) : Prop :=
  forall x memo h h' y memo',
    well_formed h -> old_val (length h) x -> memo_in h memo ->
    rec x memo h = (h', Ok (y, memo')) ->
    well_formed h' /\ length h <= length h' /\ old_val (length h') y /\ memo_in h' memo'
    /\ unhooked_kept h h'
    /\ (forall a, x = VRef a -> memo_get a memo = None ->
          exists b, y = VRef b /\ length h <= b).

(** ** class BatchMarkers *)

Module BatchMarkers.

(** What the constructor comes to: the entries of the new [BatchMarkers], a
    dict, or an exception -- [InvalidBatchIdError], which the module imports
    from [great_expectations.exceptions], or one of the built-in ones. *)
Inductive outcome :=
| Built (self : items_t)
| InvalidBatchIdError (msg : string)
| Raised (e : exn).

(** Modelled from the spec: [BatchKwargs] is not part of this file; the
    spec has the constructor of [BatchMarkers] delegate "to the generic
    identifier-bag constructor", that of a dict.  So this is
    [dict.__init__(self, *args, **kwargs)]: at most one positional argument,
    whose entries are read as [dict(v)] reads them ([dict_entries]), then
    the keyword arguments, which are assigned over them. *)
Definition dict__init__ (h : heap) (args : list pyval) (kwargs : items_t) : result items_t :=
  match args with
  | [] => Ok (dict_update kwargs [])
  | [v] =>
      match dict_entries h v with
      | Ok items => Ok (dict_update kwargs items)
      | Raise e => Raise e
      end
  | _ => Raise (TypeError ("dict expected at most 1 argument, got " ++ decimal (length args)))
  end.

Definition __init__ (h : heap) (args : list pyval) (kwargs : items_t) : outcome :=
  match dict__init__ h args kwargs with
  | Raise e => Raised e
  | Ok self =>
      if negb (dict_has "ge_load_time" self)
      then InvalidBatchIdError "BatchMarkers requires a ge_load_time"
      else Built self
  end.

(** [self.get("ge_load_time")] *)
Definition ge_load_time (self : items_t) : pyval :=
  match dict_get "ge_load_time" self with Some x => x | None => VNone end.

End BatchMarkers.

(** ** Sample heaps and calls *)

Definition query_and_path : Args.t :=
  Args.Build (VStr "s1") (VStr "c1") (VStr "a1") VNone VNone VNone VNone VNone VNone VNone
             VNone VNone VNone VNone VNone VNone (VStr "SELECT 1") (VStr "/x") VNone [].

Definition query_and_path_unnamed : Args.t :=
  Args.Build VNone VNone VNone VNone VNone VNone VNone VNone VNone VNone
             VNone VNone VNone VNone VNone VNone (VStr "SELECT 1") (VStr "/x") VNone [].

(** A heap holding one [BatchRequest]. *)
Definition one_request : heap :=
  [OReq cls_BatchRequest
        (BatchRequestBase.__init__ (VStr "s1") (VStr "c1") (VStr "a1")
                                   VNone VNone VNone VNone VNone)
        None].

Definition prebuilt : Args.t :=
  Args.Build VNone VNone VNone (VRef 0) VNone VNone VNone VNone VNone VNone
             VNone VNone VNone VNone VNone VNone VNone VNone VNone [].

Definition prebuilt_query_and_path : Args.t :=
  Args.Build VNone VNone VNone (VRef 0) VNone VNone VNone VNone VNone VNone
             VNone VNone VNone VNone VNone VNone (VStr "SELECT 1") (VStr "/x") VNone [].

Definition query_only : Args.t :=
  Args.Build (VStr "s1") (VStr "c1") (VStr "a1") VNone VNone VNone VNone VNone VNone VNone
             VNone VNone VNone VNone VNone VNone (VStr "SELECT 1") VNone VNone [].

Definition names_only : Args.t :=
  Args.Build (VStr "s1") (VStr "c1") (VStr "a1") VNone VNone VNone VNone VNone VNone VNone
             VNone VNone VNone VNone VNone VNone VNone VNone VNone [].

(** A heap holding the dict [{"a": 1}]. *)
Definition one_mapping : heap := [ODict cls_dict [("a", VInt 1)]].

(** A stand-in for the digest: the keys of the top-level object, joined. *)
Definition key_digest (j : json) : string :=
  match j with
  | JObj members => String.concat "," (List.map fst members)
  | _ => EmptyString
  end.

(** Two [IDDict]s with the same entries in a different insertion order. *)
Definition two_orders : heap :=
  [ODict cls_IDDict [("year", VInt 2021); ("month", VInt 7)];
   ODict cls_IDDict [("month", VInt 7); ("year", VInt 2021)]].

(** A [RuntimeBatchRequest] whose batch data is a data frame in memory. *)
Definition frame_request : heap :=
  [OPayload "pandas.core.frame.DataFrame";
   ODict cls_dict [("batch_data", VRef 0)];
   ODict cls_dict [("run_id", VStr "r1")];
   OReq cls_RuntimeBatchRequest
        (BatchRequestBase.__init__ (VStr "s1") (VStr "c1") (VStr "a1")
                                   VNone VNone (VRef 1) (VRef 2) VNone)
        None].

(** A [RuntimeBatchRequest] for a query. *)
Definition query_request : heap :=
  [ODict cls_dict [("query", VStr "SELECT 1")];
   ODict cls_dict [("run_id", VStr "r1")];
   OReq cls_RuntimeBatchRequest
        (BatchRequestBase.__init__ (VStr "s1") (VStr "c1") (VStr "a1")
                                   VNone VNone (VRef 0) (VRef 1) VNone)
        None].

(** A [RuntimeBatchRequest] whose ["batch_data"] is [None]. *)
Definition null_batch_data : heap :=
  [ODict cls_dict [("batch_data", VNone); ("query", VStr "SELECT 1")];
   ODict cls_dict [("run_id", VStr "r1")];
   OReq cls_RuntimeBatchRequest
        (BatchRequestBase.__init__ (VStr "s1") (VStr "c1") (VStr "a1")
                                   VNone VNone (VRef 0) (VRef 1) VNone)
        None].

(** A [RuntimeBatchRequest] that holds a data frame under a key of the
    caller's. *)
Definition frame_under_other_key : heap :=
  [OPayload "pandas.core.frame.DataFrame";
   ODict cls_dict [("my_frame", VRef 0)];
   ODict cls_dict [("run_id", VStr "r1")];
   OReq cls_RuntimeBatchRequest
        (BatchRequestBase.__init__ (VStr "s1") (VStr "c1") (VStr "a1")
                                   VNone VNone (VRef 1) (VRef 2) VNone)
        None].

(** A data frame in memory, and the [runtime_parameters] and
    [batch_identifiers] of a request for a query. *)
Definition query_and_frame : heap :=
  [OPayload "pandas.core.frame.DataFrame";
   ODict cls_dict [("query", VStr "SELECT 1")];
   ODict cls_dict [("run_id", VStr "r1")]].

(** A request for a query is built and deep-copied; the data frame is then
    entered in its [runtime_parameters], and it is deep-copied again:

    [r = RuntimeBatchRequest("s1", "c1", "a1", runtime_parameters, batch_identifiers)]
    [copy.deepcopy(r)]
    [r.runtime_parameters["batch_data"] = frame]
    [cp = copy.deepcopy(r)]

    The value is [cp] with [cp.runtime_parameters.get("batch_data")]. *)
Definition copied_then_given_batch_data (fuel : nat) : H (pyval * pyval) :=
  let* r := RuntimeBatchRequest.new (VStr "s1") (VStr "c1") (VStr "a1")
              (VRef 1) (VRef 2) VNone in
  copy.deepcopy fuel r ;;
  let* runtime_parameters := py_getattr r "_runtime_parameters" in
  py_setitem runtime_parameters "batch_data" (VRef 0) ;;
  let* cp := copy.deepcopy fuel r in
  let* cp_parameters := py_getattr cp "_runtime_parameters" in
  let* batch_data := py_get cp_parameters "batch_data" in
  Py.ret (cp, batch_data).

(** The caller's [runtime_parameters] and [batch_identifiers]. *)
Definition two_mappings : heap :=
  [ODict cls_dict [("schema", VStr "public")];
   ODict cls_dict [("run_id", VStr "r1")]].

(** A call with a [query] and the caller's two mappings. *)
Definition query_with_parameters : Args.t :=
  Args.Build (VStr "s1") (VStr "c1") (VStr "a1") VNone VNone VNone (VRef 1) VNone VNone VNone
             VNone VNone VNone VNone VNone (VRef 0) (VStr "SELECT 1") VNone VNone [].

(** The caller's [runtime_parameters], with a query in it, and
    [batch_identifiers]. *)
Definition query_mapping : heap :=
  [ODict cls_dict [("query", VStr "SELECT 2")];
   ODict cls_dict [("run_id", VStr "r1")]].

(** A call with an empty [query] and the caller's two mappings. *)
Definition empty_query : Args.t :=
  Args.Build (VStr "s1") (VStr "c1") (VStr "a1") VNone VNone VNone (VRef 1) VNone VNone VNone
             VNone VNone VNone VNone VNone (VRef 0) (VStr EmptyString) VNone VNone [].

(** A call with a [data_connector_query]. *)
Definition explicit_query : Args.t :=
  Args.Build (VStr "s1") (VStr "c1") (VStr "a1") VNone VNone (VRef 0) VNone VNone VNone VNone
             VNone VNone VNone VNone VNone VNone VNone VNone VNone [].

(** A call with a sampling method and its keyword arguments, and with
    keyword arguments for a splitter but no splitter. *)
Definition sampled : Args.t :=
  Args.Build (VStr "s1") (VStr "c1") (VStr "a1") VNone VNone VNone VNone VNone VNone VNone
             VNone (VStr "_sample_using_random") (VRef 0) VNone (VRef 0) VNone VNone VNone
             VNone [].

(** A call with both [batch_identifiers] and [batch_filter_parameters]. *)
Definition both_filters : Args.t :=
  Args.Build (VStr "s1") (VStr "c1") (VStr "a1") VNone VNone VNone (VRef 0) VNone VNone VNone
             VNone VNone VNone VNone VNone VNone VNone VNone (VRef 0) [].

(** A call with a [query] and [runtime_parameters], and no identifiers. *)
Definition query_no_identifiers : Args.t :=
  Args.Build (VStr "s1") (VStr "c1") (VStr "a1") VNone VNone VNone VNone VNone VNone VNone
             VNone VNone VNone VNone VNone (VRef 0) (VStr "SELECT 1") VNone VNone [].

(** A [BatchRequest] whose filter function is given by its name. *)
Definition named_filter : heap :=
  [ODict cls_IDDict [("custom_filter_function", VStr "my_filter")];
   OReq cls_BatchRequest
        (BatchRequestBase.__init__ (VStr "s1") (VStr "c1") (VStr "a1")
                                   (VRef 0) VNone VNone VNone VNone)
        None].

(** A mapping with a load time. *)
Definition load_time : heap :=
  [ODict cls_dict [("ge_load_time", VStr "20210101T000000.000000Z")]].

(** * Properties *)

(** ** Stepping through monadic code *)

Ltac run :=
  cbv beta iota zeta delta
    [Log.bind Log.lift Log.ret Log.raise Log.warning Log.heap_of Log.log
     Py.bind Py.ret Py.raise reading raise_if new_dict alloc].

Ltac case_step :=
  match goal with
  | |- context [match ?x with _ => _ end] =>
      lazymatch x with
      | context [match _ with _ => _ end] => fail
      | _ => destruct x eqn:?; cbv beta iota
      end
  end.

Ltac args_simpl :=
  cbn [Args.datasource_name Args.data_connector_name Args.data_asset_name
       Args.batch_request Args.batch_data Args.data_connector_query
       Args.batch_identifiers Args.limit Args.index Args.custom_filter_function
       Args.batch_spec_passthrough Args.sampling_method Args.sampling_kwargs
       Args.splitter_method Args.splitter_kwargs Args.runtime_parameters Args.query
       Args.path Args.batch_filter_parameters Args.kwargs] in *.

(** One step of a computation that returns. *)
Ltac bind_step h x E :=
  unfold Py.bind at 1;
  match goal with
  | |- (let (_, _) := ?c in _) = _ -> _ =>
      destruct c as [h [x|?]] eqn:E; [|discriminate]
  end.

(** ** The function is the composition of its parts *)

Lemma call_checks_raise args h lg h1 e :
  checks args (on_entry h args) = (h1, Raise e) ->
  get_batch_request_from_acceptable_arguments args (Log.State h lg)
  = (Log.State h1 lg, Raise e).
Proof.
  destruct args. unfold checks, collision, several_given, on_entry. args_simpl.
  unfold get_batch_request_from_acceptable_arguments. run.
  repeat (case_step; try congruence; try (intros [= <- <-]; reflexivity)).
Qed.

Lemma call_checks_ok args h lg h1 ds :
  checks args (on_entry h args) = (h1, Ok ds) ->
  get_batch_request_from_acceptable_arguments args (Log.State h lg)
  = after_checks args (VRef (length h)) ds (Log.State h1 lg).
Proof.
  destruct args. unfold checks, collision, several_given, on_entry. args_simpl.
  unfold get_batch_request_from_acceptable_arguments, after_checks, is_runtime,
    catalog_branch, runtime_branch, catalog_request, passthrough.
  args_simpl. run.
  repeat (case_step; try congruence; try (intros [= <- <-]; try reflexivity)).
Qed.

(** ** Computations that only read the heap *)

Lemma bind_pure {A B} (m : H A) (k : A -> H B) h :
  fst (m h) = h -> (forall a, fst (k a h) = h) -> fst (Py.bind m k h) = h.
Proof.
  unfold Py.bind. intros Hm Hk.
  destruct (m h) as [h' [a|e]]; cbn in Hm; subst; [apply Hk|reflexivity].
Qed.

Lemma raise_if_pure c e h : fst (raise_if c e h) = h.
Proof. unfold raise_if. destruct (c h); reflexivity. Qed.

Lemma getattr_pure self attr h : fst (py_getattr self attr h) = h.
Proof.
  unfold py_getattr. destruct self; try reflexivity.
  destruct (h !! a) as [[| |c attrs own]|]; try reflexivity.
  destruct (dict_get attr attrs); reflexivity.
Qed.

Lemma py_contains_pure k v h : fst (py_contains k v h) = h.
Proof.
  unfold py_contains. destruct v; try reflexivity.
  destruct (h !! a) as [[]|]; reflexivity.
Qed.

Lemma appears_in_pure g rp k h : fst (appears_in g rp k h) = h.
Proof.
  unfold appears_in. destruct g; [|reflexivity].
  unfold Py.bind, reading. destruct (truthy h rp); [|reflexivity]. apply py_contains_pure.
Qed.

Lemma collision_pure args h : fst (collision args h) = h.
Proof.
  unfold collision.
  repeat (apply bind_pure; [first [apply appears_in_pure | reflexivity] | intros ?]).
  reflexivity.
Qed.

Lemma checks_pure args h : fst (checks args h) = h.
Proof.
  unfold checks. apply bind_pure; [reflexivity|intros given].
  apply bind_pure.
  - destruct given; [|reflexivity].
    apply bind_pure; [apply raise_if_pure|intros _; apply getattr_pure].
  - intros ds. apply bind_pure; [apply raise_if_pure|intros _].
    apply bind_pure; [apply raise_if_pure|intros _].
    apply bind_pure; [apply collision_pure|intros c]. destruct c; reflexivity.
Qed.

Lemma checks_result args h r : snd (checks args h) = r -> checks args h = (h, r).
Proof.
  intros <-. pose proof (checks_pure args h) as Hp.
  destruct (checks args h); cbn in *; subst; reflexivity.
Qed.

(** ** Assignments into dictionaries *)

(** An attribute that is stored as it is. *)
Lemma instance_setattr_plain a c attrs own k x h :
  plain_attribute k = true ->
  instance_setattr a c attrs own k x h = (<[a:=OReq c (dict_set k x attrs) own]> h, Ok tt).
Proof.
  unfold plain_attribute, instance_setattr. intros Hk.
  apply andb_prop in Hk as [Hk H4]. apply andb_prop in Hk as [Hk H3].
  apply andb_prop in Hk as [H1 H2].
  apply Bool.negb_true_iff in H1, H2, H3, H4. rewrite H1, H2, H3, H4. reflexivity.
Qed.

(** An assignment under a name that is stored as it is: the object is not
    one that takes items, or it is a dict and gets the entry, or it is an
    instance and gets the attribute. *)
Lemma py_setitem_cases v k x h :
  plain_attribute k = true ->
  (exists msg, py_setitem v k x h = (h, Raise (TypeError msg)))
  \/ (exists a c items, v = VRef a /\ h !! a = Some (ODict c items)
      /\ py_setitem v k x h = (<[a:=ODict c (dict_set k x items)]> h, Ok tt))
  \/ (exists a c attrs own, v = VRef a /\ h !! a = Some (OReq c attrs own)
      /\ py_setitem v k x h = (<[a:=OReq c (dict_set k x attrs) own]> h, Ok tt)).
Proof.
  intros Hk. unfold py_setitem. destruct v; try (left; eexists; reflexivity).
  destruct (h !! a) as [[c items| |c attrs own]|] eqn:E; try (left; eexists; reflexivity).
  - right; left. exists a, c, items. split; [reflexivity|]. split; [exact E|]. reflexivity.
  - right; right. exists a, c, attrs, own. split; [reflexivity|]. split; [exact E|].
    apply instance_setattr_plain. exact Hk.
Qed.

(** ** Validation of runtime requests *)

Lemma RuntimeBatchRequest_new_empty_identifiers ds dc da rp bi bsp h :
  truthy h bi = false ->
  exists msg, RuntimeBatchRequest.new ds dc da rp bi bsp h = (h, Raise (TypeError msg)).
Proof.
  intros Hbi.
  unfold RuntimeBatchRequest.new, RuntimeBatchRequest.__init__, BatchRequest.__init__,
    BatchRequest._validate_init_parameters,
    BatchRequest._validate_runtime_batch_request_specific_init_parameters.
  run.
  repeat (try rewrite Hbi; cbn [andb negb]; try (eexists; reflexivity); case_step).
Qed.

Lemma runtime_branch_empty_kwargs args h ds :
  Args.batch_identifiers args = VNone -> Args.kwargs args = [] ->
  exists h' msg,
    runtime_branch args (VRef (length h)) ds (on_entry h args) = (h', Raise (TypeError msg)).
Proof.
  intros Hbi Hkw. unfold on_entry. rewrite Hkw. unfold runtime_branch. rewrite Hbi.
  cbn [is_None].
  set (h1 := (h ++ [ODict cls_dict []])%list).
  assert (Hk : h1 !! length h = Some (ODict cls_dict [])).
  { subst h1. rewrite lookup_app_r by lia.
    replace (length h - length h) with 0 by lia. reflexivity. }
  assert (Hlen : length h1 = S (length h)).
  { subst h1. rewrite length_app. cbn. lia. }
  unfold Py.bind at 1. cbn [reading].
  destruct (truthy h1 (Args.runtime_parameters args)) eqn:Hrp.
  - unfold Py.bind at 1. cbn [Py.ret].
    assert (Hne : forall b, Args.runtime_parameters args = VRef b -> b <> length h).
    { intros b Hb ->. rewrite Hb in Hrp. unfold truthy in Hrp. rewrite Hk in Hrp.
      discriminate. }
    unfold Py.bind at 1.
    assert (Hset : forall k x,
      plain_attribute k = true ->
      (exists msg, py_setitem (Args.runtime_parameters args) k x h1 = (h1, Raise (TypeError msg)))
      \/ (exists h2, py_setitem (Args.runtime_parameters args) k x h1 = (h2, Ok tt)
                     /\ truthy h2 (VRef (length h)) = false)).
    { intros k x Hplain.
      destruct (py_setitem_cases (Args.runtime_parameters args) k x h1 Hplain)
        as [?|[(a & c & items & Ha & Hl & Hs)|(a & c & attrs & own & Ha & Hl & Hs)]];
        [left; assumption| |];
        (right; eexists; split; [exact Hs|]; unfold truthy;
         rewrite list_lookup_insert_ne by (apply Hne; exact Ha); rewrite Hk; reflexivity). }
    destruct (negb (is_None (Args.batch_data args)));
      [|destruct (negb (is_None (Args.query args)));
        [|destruct (negb (is_None (Args.path args)))]].
    1-3: match goal with
         | |- context [py_setitem ?v ?k ?x _] =>
             destruct (Hset k x eq_refl) as [[msg ->]|(h2 & -> & Ht)]
         end; [eauto|];
         destruct (RuntimeBatchRequest_new_empty_identifiers ds
                     (Args.data_connector_name args) (Args.data_asset_name args)
                     (Args.runtime_parameters args) (VRef (length h))
                     (Args.batch_spec_passthrough args) h2 Ht) as [msg ->]; eauto.
    cbn [Py.ret].
    destruct (RuntimeBatchRequest_new_empty_identifiers ds
                (Args.data_connector_name args) (Args.data_asset_name args)
                (Args.runtime_parameters args) (VRef (length h))
                (Args.batch_spec_passthrough args) h1) as [msg ->];
      [unfold truthy; rewrite Hk; reflexivity|eauto].
  - unfold Py.bind at 1. cbn [new_dict alloc].
    set (h2 := (h1 ++ [ODict cls_dict []])%list).
    assert (Hk2 : h2 !! length h = Some (ODict cls_dict [])).
    { subst h2. rewrite lookup_app_l by lia. exact Hk. }
    assert (Hn2 : h2 !! length h1 = Some (ODict cls_dict [])).
    { subst h2. rewrite lookup_app_r by lia.
      replace (length h1 - length h1) with 0 by lia. reflexivity. }
    unfold Py.bind at 1.
    assert (Hset : forall k x, exists h3,
      py_setitem (VRef (length h1)) k x h2 = (h3, Ok tt)
      /\ truthy h3 (VRef (length h)) = false).
    { intros k x. unfold py_setitem. rewrite Hn2. eexists; split; [reflexivity|].
      unfold truthy. rewrite list_lookup_insert_ne by lia. rewrite Hk2. reflexivity. }
    destruct (negb (is_None (Args.batch_data args)));
      [|destruct (negb (is_None (Args.query args)));
        [|destruct (negb (is_None (Args.path args)))]].
    1-3: match goal with
         | |- context [py_setitem ?v ?k ?x _] => destruct (Hset k x) as (h3 & -> & Ht)
         end;
         destruct (RuntimeBatchRequest_new_empty_identifiers ds
                     (Args.data_connector_name args) (Args.data_asset_name args)
                     (VRef (length h1)) (VRef (length h))
                     (Args.batch_spec_passthrough args) h3 Ht) as [msg ->]; eauto.
    cbn [Py.ret].
    destruct (RuntimeBatchRequest_new_empty_identifiers ds
                (Args.data_connector_name args) (Args.data_asset_name args)
                (VRef (length h1)) (VRef (length h))
                (Args.batch_spec_passthrough args) h2) as [msg ->];
      [unfold truthy; rewrite Hk2; reflexivity|eauto].
Qed.

Lemma type_checks_pass_several args h :
  type_checks_pass h args -> several_given args = true ->
  checks args h = (h, Raise (ValueError only_one_message)).
Proof.
  unfold type_checks_pass. intros Ht Hs. apply checks_result.
  unfold checks. run.
  destruct (truthy h (Args.batch_request args)).
  - destruct Ht as [Hi [n Hn]]. rewrite Hi. cbn [negb].
    pose proof (getattr_pure (Args.batch_request args) "_datasource_name" h) as Hp.
    destruct (py_getattr _ _ h) as [h1 r1]. cbn in Hp, Hn. subst.
    cbn [isinstance_str negb]. rewrite Hs. reflexivity.
  - destruct (Args.datasource_name args); try discriminate.
    cbn [isinstance_str negb]. rewrite Hs. reflexivity.
Qed.

(** ** Checks, construction and validation *)

(** C1, as amended.  A call in which two or more of [batch_data], [query]
    and [path] are not [None] raises the value error "Must provide only one
    of batch_data, query, or path.", for every pairing of the three,
    provided the two type checks that come first pass: a [batch_request]
    that is given is a [BatchRequest], and the [datasource_name] in force is
    a str.  Nothing but the fresh [kwargs] dict is added to the heap. *)
Theorem ambiguous_source_is_value_error args h lg :
  type_checks_pass (on_entry h args) args ->
  several_given args = true ->
  get_batch_request_from_acceptable_arguments args (Log.State h lg)
  = (Log.State (on_entry h args) lg, Raise (ValueError only_one_message)).
Proof.
  intros Ht Hs. apply call_checks_raise. apply type_checks_pass_several; assumption.
Qed.

Lemma ambiguous_source_is_value_error_witness :
  get_batch_request_from_acceptable_arguments query_and_path (Log.State [] [])
  = (Log.State [ODict cls_dict []] [], Raise (ValueError only_one_message)).
Proof.
  apply (ambiguous_source_is_value_error query_and_path [] []); reflexivity.
Defined.

(** C1 as stated fails: with [query] and [path] both given but no
    [datasource_name], the call raises the type error of the first check,
    not the value error. *)
Lemma ambiguous_source_counterexample :
  several_given query_and_path_unnamed = true
  /\ snd (get_batch_request_from_acceptable_arguments query_and_path_unnamed (Log.State [] []))
     = Raise (GreatExpectationsTypeError
                "the first parameter, datasource_name, must be a str, not <class 'NoneType'>")
  /\ snd (get_batch_request_from_acceptable_arguments query_and_path_unnamed (Log.State [] []))
     <> Raise (ValueError only_one_message).
Proof. split; [reflexivity|]. split; [reflexivity|]. vm_compute. discriminate. Qed.

Lemma checks_prebuilt args h n :
  truthy h (Args.batch_request args) = true ->
  isinstance_BatchRequest h (Args.batch_request args) = true ->
  snd (py_getattr (Args.batch_request args) "_datasource_name" h) = Ok (VStr n) ->
  several_given args = false ->
  collision args h = (h, Ok false) ->
  checks args h = (h, Ok (VStr n)).
Proof.
  intros Ht Hi Hn Hs Hc. apply checks_result. unfold checks. run.
  rewrite Ht, Hi. cbn [negb].
  pose proof (getattr_pure (Args.batch_request args) "_datasource_name" h) as Hp.
  destruct (py_getattr _ _ h) as [h1 r1]. cbn in Hp, Hn. subst.
  cbn [isinstance_str negb]. rewrite Hs, Hc. reflexivity.
Qed.

Lemma checks_not_a_request args h :
  truthy h (Args.batch_request args) = true ->
  isinstance_BatchRequest h (Args.batch_request args) = false ->
  exists msg, checks args h = (h, Raise (TypeError msg)).
Proof.
  intros Ht Hi. eexists. apply checks_result. unfold checks. run.
  rewrite Ht, Hi. reflexivity.
Qed.

(** C2, as amended.  A [batch_request] that is given (truthy) must be a
    [BatchRequest], else the call fails with a type error; one that is, and
    whose [datasource_name] is a str, is returned as it is -- the same
    object, the heap gaining only the fresh [kwargs] dict -- provided at most
    one of [batch_data], [query], [path] is given and none of them is also a
    key of [runtime_parameters]. *)
Theorem prebuilt_request_returned_unchanged args h lg :
  truthy (on_entry h args) (Args.batch_request args) = true ->
  (isinstance_BatchRequest (on_entry h args) (Args.batch_request args) = false ->
   exists msg,
     get_batch_request_from_acceptable_arguments args (Log.State h lg)
     = (Log.State (on_entry h args) lg, Raise (TypeError msg)))
  /\ (isinstance_BatchRequest (on_entry h args) (Args.batch_request args) = true ->
      (exists n, snd (py_getattr (Args.batch_request args) "_datasource_name"
                        (on_entry h args)) = Ok (VStr n)) ->
      several_given args = false ->
      collision args (on_entry h args) = (on_entry h args, Ok false) ->
      get_batch_request_from_acceptable_arguments args (Log.State h lg)
      = (Log.State (on_entry h args) lg, Ok (Args.batch_request args))).
Proof.
  intros Ht. split.
  - intros Hi. destruct (checks_not_a_request args _ Ht Hi) as [msg Hc].
    exists msg. apply call_checks_raise. exact Hc.
  - intros Hi [n Hn] Hs Hc.
    rewrite (call_checks_ok args h lg _ _ (checks_prebuilt args _ n Ht Hi Hn Hs Hc)).
    unfold after_checks. cbn [Log.heap_of]. rewrite Ht. reflexivity.
Qed.

Lemma prebuilt_request_returned_unchanged_witness :
  get_batch_request_from_acceptable_arguments prebuilt (Log.State one_request [])
  = (Log.State (on_entry one_request prebuilt) [], Ok (VRef 0)).
Proof.
  destruct (prebuilt_request_returned_unchanged prebuilt one_request [] eq_refl) as [_ Hret].
  apply Hret; [reflexivity|exists "s1"; reflexivity|reflexivity|reflexivity].
Defined.

(** C2 as stated fails: a [BatchRequest] is supplied together with both
    [query] and [path], and the call raises the value error instead of
    returning the request. *)
Lemma prebuilt_request_counterexample :
  isinstance_BatchRequest (on_entry one_request prebuilt_query_and_path)
                          (Args.batch_request prebuilt_query_and_path) = true
  /\ snd (get_batch_request_from_acceptable_arguments prebuilt_query_and_path
            (Log.State one_request []))
     = Raise (ValueError only_one_message)
  /\ snd (get_batch_request_from_acceptable_arguments prebuilt_query_and_path
            (Log.State one_request []))
     <> Ok (Args.batch_request prebuilt_query_and_path).
Proof. split; [reflexivity|]. split; [reflexivity|]. vm_compute. discriminate. Qed.

(** C10.  A call that takes the runtime branch -- the checks pass, no
    [batch_request] is given, and one of [batch_data], [query], [path],
    [runtime_parameters] selects the branch -- with [batch_identifiers] left
    [None] and no extra keyword arguments raises a [TypeError]. *)
Theorem runtime_branch_needs_identifiers args h lg :
  (exists datasource_name,
     checks args (on_entry h args) = (on_entry h args, Ok datasource_name)) ->
  truthy (on_entry h args) (Args.batch_request args) = false ->
  is_runtime (on_entry h args) args = true ->
  Args.batch_identifiers args = VNone ->
  Args.kwargs args = [] ->
  exists s' msg,
    get_batch_request_from_acceptable_arguments args (Log.State h lg)
    = (s', Raise (TypeError msg)).
Proof.
  intros [ds Hc] Hbr Hrt Hbi Hkw.
  rewrite (call_checks_ok args h lg _ _ Hc).
  unfold after_checks. cbn [Log.heap_of]. rewrite Hbr, Hrt.
  destruct (runtime_branch_empty_kwargs args h ds Hbi Hkw) as (h' & msg & Hr).
  unfold Log.lift. cbn [Log.heap_of Log.log]. rewrite Hr. eauto.
Qed.

Lemma runtime_branch_needs_identifiers_witness :
  exists s' msg,
    get_batch_request_from_acceptable_arguments query_only (Log.State [] [])
    = (s', Raise (TypeError msg)).
Proof.
  apply (runtime_branch_needs_identifiers query_only [] []);
    [exists (VStr "s1"); reflexivity|reflexivity|reflexivity|reflexivity|reflexivity].
Defined.

(** C6: the code at the failing input.  A definition is built with an empty
    [datasource_name], an empty [data_connector_name] and an empty
    [data_asset_name]. *)
Theorem batch_definition_accepts_empty_names :
  BatchDefinition.__init__ (VStr EmptyString) (VStr EmptyString) (VStr EmptyString)
    (VRef 0) VNone [ODict cls_IDDict []]
  = ([ODict cls_IDDict []],
     Ok (BatchDefinition.Build (VStr EmptyString) (VStr EmptyString) (VStr EmptyString)
           (VRef 0) VNone)).
Proof. reflexivity. Qed.

(** What the constructor of [BatchDefinition] does establish: the names are
    not [None], a name that is truthy is a str, and [batch_identifiers] is of
    type [IDDict] exactly. *)
Lemma BatchDefinition_init_establishes dn dc da bi bsp h h' self :
  BatchDefinition.__init__ dn dc da bi bsp h = (h', Ok self) ->
  h' = h
  /\ self = BatchDefinition.Build dn dc da bi bsp
  /\ type_is_IDDict h bi = true
  /\ Forall (fun name => is_None name = false
                        /\ (truthy h name = true -> isinstance_str name = true))
            [dn; dc; da].
Proof.
  unfold BatchDefinition.__init__, BatchDefinition._validate_batch_definition. run.
  repeat (case_step; try congruence).
  intros [= <- <-].
  repeat match goal with
         | H : negb _ = false |- _ => apply Bool.negb_false_iff in H
         | H : _ && _ = false |- _ => apply Bool.andb_false_iff in H
         end.
  repeat split; try assumption.
  repeat constructor; try assumption;
    intros Ht;
    match goal with
    | H : truthy h ?x = false \/ negb (isinstance_str ?x) = false, Ht : truthy h ?x = true |- _ =>
        destruct H as [H|H]; [congruence|apply Bool.negb_false_iff in H; exact H]
    end.
Qed.

(** What [RuntimeBatchRequest.__init__] checks.  It first runs the
    constructor of [BatchRequest] on the names with no
    [data_connector_query] and no [limit]; it then fails with a type error
    unless [runtime_parameters] is a non-empty dict, unless
    [batch_identifiers] is a non-empty dict, and if [batch_spec_passthrough]
    is truthy and is not a dict; every failure is a [TypeError]; on success
    the instance carries the [runtime_parameters] and [batch_identifiers]
    supplied.  The heap is not touched. *)
Theorem runtime_batch_request_validation dn dc da rp bi bsp h :
  let parent := BatchRequest.__init__ dn dc da VNone VNone bsp h in
  let res := RuntimeBatchRequest.__init__ dn dc da rp bi bsp h in
  fst res = h
  /\ (forall e, snd parent = Raise e -> snd res = Raise e)
  /\ (forall e, snd res = Raise e -> exists msg, e = TypeError msg)
  /\ (forall self, snd parent = Ok self ->
        (truthy h rp && isinstance_dict h rp = false ->
         exists msg, snd res = Raise (TypeError msg))
        /\ (truthy h bi && isinstance_dict h bi = false ->
            exists msg, snd res = Raise (TypeError msg))
        /\ (truthy h bsp && negb (isinstance_dict h bsp) = true ->
            exists msg, snd res = Raise (TypeError msg))
        /\ (truthy h rp && isinstance_dict h rp = true ->
            truthy h bi && isinstance_dict h bi = true ->
            truthy h bsp && negb (isinstance_dict h bsp) = false ->
            snd res = Ok (dict_set "_batch_identifiers" bi
                            (dict_set "_runtime_parameters" rp self))))
  /\ (forall self, snd res = Ok self ->
        self = [("_datasource_name", dn);
                ("_data_connector_name", dc);
                ("_data_asset_name", da);
                ("_data_connector_query", VNone);
                ("_limit", VNone);
                ("_runtime_parameters", rp);
                ("_batch_identifiers", bi);
                ("_batch_spec_passthrough", bsp)]).
Proof.
  cbv zeta.
  unfold RuntimeBatchRequest.__init__, BatchRequest.__init__,
    BatchRequest._validate_init_parameters,
    BatchRequest._validate_runtime_batch_request_specific_init_parameters.
  run.
  repeat case_step;
    repeat match goal with
           | H : negb _ = true |- _ => apply Bool.negb_true_iff in H
           | H : negb _ = false |- _ => apply Bool.negb_false_iff in H
           end;
    cbn [fst snd];
    repeat split; intros; try congruence; try discriminate; eauto;
    try (match goal with H : Raise _ = Raise _ |- _ => injection H as <- end; eauto);
    try (match goal with H : Ok _ = Ok _ |- _ => injection H as <- end; reflexivity).
Qed.

(** C7 does not hold of the code.  The claim has construction fail with a
    type error if [batch_spec_passthrough] is given and is not a mapping.
    Line 416 tests [batch_spec_passthrough and not isinstance(...)]: an
    empty str is given (it is not [None]) and is not a mapping, yet
    [RuntimeBatchRequest("s1", "c1", "a1", {"query": "SELECT 2"},
    {"run_id": "r1"}, batch_spec_passthrough="")] returns an instance, which
    carries the empty str as its [batch_spec_passthrough]. *)
Theorem runtime_batch_request_accepts_empty_passthrough :
  let bsp := VStr EmptyString in
  let res := RuntimeBatchRequest.new (VStr "s1") (VStr "c1") (VStr "a1")
               (VRef 0) (VRef 1) bsp query_mapping in
  is_None bsp = false
  /\ isinstance_dict query_mapping bsp = false
  /\ snd res = Ok (VRef 2)
  /\ fst res !! 2
     = Some (OReq cls_RuntimeBatchRequest
               (BatchRequestBase.__init__ (VStr "s1") (VStr "c1") (VStr "a1")
                  VNone VNone (VRef 0) (VRef 1) bsp)
               None).
Proof. cbv zeta. repeat split; reflexivity. Qed.

(** ** The deprecated alias *)

Lemma checks_with_batch_identifiers x args h :
  checks (Args.with_batch_identifiers x args) h = checks args h.
Proof. destruct args; reflexivity. Qed.

Lemma checks_with_batch_filter_parameters x args h :
  checks (Args.with_batch_filter_parameters x args) h = checks args h.
Proof. destruct args; reflexivity. Qed.

Lemma catalog_request_with_batch_identifiers x args ds bfp h :
  catalog_request (Args.with_batch_identifiers x args) ds bfp h = catalog_request args ds bfp h.
Proof. destruct args; reflexivity. Qed.

Lemma catalog_request_with_batch_filter_parameters x args ds bfp h :
  catalog_request (Args.with_batch_filter_parameters x args) ds bfp h
  = catalog_request args ds bfp h.
Proof. destruct args; reflexivity. Qed.

(** What the two spellings of a call do once the checks have passed. *)
Lemma after_checks_alias args x kwargs ds h lg :
  Args.batch_identifiers args = VNone ->
  Args.batch_filter_parameters args = VNone ->
  x <> VNone ->
  let spelled_old := after_checks (Args.with_batch_identifiers x args) kwargs ds (Log.State h lg) in
  let spelled_new := after_checks (Args.with_batch_filter_parameters x args) kwargs ds (Log.State h lg) in
  (* a request was supplied: the same outcome *)
  (truthy h (Args.batch_request args) = true /\ spelled_old = spelled_new)
  (* the runtime branch *)
  \/ (truthy h (Args.batch_request args) = false /\ is_runtime h args = true
      /\ spelled_new = Log.lift (runtime_branch args kwargs ds) (Log.State h lg))
  (* an explicit query: the same outcome *)
  \/ (truthy h (Args.batch_request args) = false
      /\ is_None (Args.data_connector_query args) = false
      /\ spelled_old = spelled_new)
  (* the alias: the same outcome, and a warning *)
  \/ (truthy h (Args.batch_request args) = false
      /\ is_None (Args.data_connector_query args) = true
      /\ exists h' r, spelled_new = (Log.State h' lg, r)
                      /\ spelled_old = (Log.State h' (lg ++ [deprecation_message]), r)).
Proof.
  intros Hbi Hbfp Hx. cbv zeta.
  assert (Hxn : is_None x = false) by (destruct x; try reflexivity; congruence).
  destruct args. args_simpl. subst.
  unfold after_checks, is_runtime. cbn [Log.heap_of]. args_simpl.
  unfold Args.with_batch_identifiers, Args.with_batch_filter_parameters. args_simpl.
  destruct (truthy h batch_request) eqn:Hbr; [left; split; reflexivity|].
  match goal with
  | |- context [if ?c then Log.lift _ _ else _] => destruct c eqn:Hrt
  end.
  - right; left. repeat split; reflexivity.
  - unfold catalog_branch. args_simpl.
    destruct (is_None data_connector_query) eqn:Hq;
      [|right; right; left; repeat split; reflexivity].
    right; right; right. repeat split. rewrite Hxn. cbn [is_None negb andb].
    unfold Log.bind, Log.warning, Log.lift. cbn [Log.heap_of Log.log].
    match goal with
    | |- context [catalog_request ?a ds x h] =>
        destruct (catalog_request a ds x h) as [h' r] eqn:Hc
    end.
    exists h', r. split; [reflexivity|].
    match goal with
    | |- context [catalog_request ?a ds x h] =>
        replace (catalog_request a ds x h) with (h', r) by (rewrite <- Hc; reflexivity)
    end.
    reflexivity.
Qed.

(** C3.  Let a call leave [batch_identifiers] and [batch_filter_parameters]
    out and pass no extra keyword arguments, and let [x] be a value other
    than [None].  If the call with [batch_identifiers = x] builds [r1] and
    the call with [batch_filter_parameters = x] builds [r2], then the two
    requests are the same object in the same heap, so that
    [r1.to_json_dict()] and [r2.to_json_dict()] have the same outcome and so
    have [r1.id] and [r2.id].  Where no request and no [data_connector_query] is supplied
    and the modern spelling builds a request, the deprecated spelling builds
    it too and logs one warning. *)
Theorem alias_same_canonical_form content_hash fuel args x h lg :
  Args.batch_identifiers args = VNone ->
  Args.batch_filter_parameters args = VNone ->
  Args.kwargs args = [] ->
  x <> VNone ->
  let spelled_old :=
    get_batch_request_from_acceptable_arguments (Args.with_batch_identifiers x args)
                                                (Log.State h lg) in
  let spelled_new :=
    get_batch_request_from_acceptable_arguments (Args.with_batch_filter_parameters x args)
                                                (Log.State h lg) in
  (forall s1 r1 s2 r2,
      spelled_old = (s1, Ok r1) -> spelled_new = (s2, Ok r2) ->
      r1 = r2 /\ Log.heap_of s1 = Log.heap_of s2
      /\ Request.to_json_dict fuel r1 (Log.heap_of s1)
         = Request.to_json_dict fuel r2 (Log.heap_of s2)
      /\ Request.id content_hash fuel r1 (Log.heap_of s1)
         = Request.id content_hash fuel r2 (Log.heap_of s2))
  /\ (forall s2 r2,
         spelled_new = (s2, Ok r2) ->
         truthy (on_entry h args) (Args.batch_request args) = false ->
         is_None (Args.data_connector_query args) = true ->
         spelled_old
         = (Log.State (Log.heap_of s2) (Log.log s2 ++ [deprecation_message]), Ok r2)).
Proof.
  intros Hbi Hbfp Hkw Hx. cbv zeta.
  assert (Hk1 : Args.kwargs (Args.with_batch_identifiers x args) = Args.kwargs args)
    by (destruct args; reflexivity).
  assert (Hk2 : Args.kwargs (Args.with_batch_filter_parameters x args) = Args.kwargs args)
    by (destruct args; reflexivity).
  assert (He1 : on_entry h (Args.with_batch_identifiers x args) = on_entry h args)
    by (unfold on_entry; rewrite Hk1; reflexivity).
  assert (He2 : on_entry h (Args.with_batch_filter_parameters x args) = on_entry h args)
    by (unfold on_entry; rewrite Hk2; reflexivity).
  destruct (checks args (on_entry h args)) as [h1 [ds|e]] eqn:Hc.
  - pose proof (checks_pure args (on_entry h args)) as Hp. rewrite Hc in Hp. cbn in Hp. subst h1.
    rewrite (call_checks_ok (Args.with_batch_identifiers x args) h lg (on_entry h args) ds)
      by (rewrite He1, checks_with_batch_identifiers; exact Hc).
    rewrite (call_checks_ok (Args.with_batch_filter_parameters x args) h lg (on_entry h args) ds)
      by (rewrite He2, checks_with_batch_filter_parameters; exact Hc).
    destruct (after_checks_alias args x (VRef (length h)) ds (on_entry h args) lg Hbi Hbfp Hx)
      as [(Hbr & Heq)|[(Hbr & Hrt & Hnew)|[(Hbr & Hq & Heq)|(Hbr & Hq & h' & r & Hnew & Hold)]]].
    + rewrite Heq. split.
      * intros s1 r1 s2 r2 H1 H2. rewrite H1 in H2. injection H2 as <- <-.
        repeat split; reflexivity.
      * intros s2 r2 _ Hbr'. congruence.
    + destruct (runtime_branch_empty_kwargs args h ds Hbi Hkw) as (h' & msg & Hr).
      assert (Hfail : forall s2 r2,
                after_checks (Args.with_batch_filter_parameters x args) (VRef (length h)) ds
                             (Log.State (on_entry h args) lg) = (s2, Ok r2) -> False).
      { intros s2 r2 H2. rewrite Hnew in H2. unfold Log.lift in H2.
        cbn [Log.heap_of Log.log] in H2. rewrite Hr in H2. discriminate. }
      split.
      * intros s1 r1 s2 r2 _ H2. exfalso. eapply Hfail; exact H2.
      * intros s2 r2 H2. exfalso. eapply Hfail; exact H2.
    + rewrite Heq. split.
      * intros s1 r1 s2 r2 H1 H2. rewrite H1 in H2. injection H2 as <- <-.
        repeat split; reflexivity.
      * intros s2 r2 _ _ Hq'. congruence.
    + rewrite Hnew, Hold. split.
      * intros s1 r1 s2 r2 H1 H2. injection H1 as <- ->. injection H2 as <- <-.
        repeat split; reflexivity.
      * intros s2 r2 H2 _ _. injection H2 as <- ->. reflexivity.
  - pose proof (checks_pure args (on_entry h args)) as Hp. rewrite Hc in Hp. cbn in Hp. subst h1.
    rewrite (call_checks_raise (Args.with_batch_identifiers x args) h lg (on_entry h args) e)
      by (rewrite He1, checks_with_batch_identifiers; exact Hc).
    rewrite (call_checks_raise (Args.with_batch_filter_parameters x args) h lg (on_entry h args) e)
      by (rewrite He2, checks_with_batch_filter_parameters; exact Hc).
    split; intros; discriminate.
Qed.

(** ** Identity does not depend on insertion order *)

Lemma string_leb_trans a b c :
  String.leb a b = true -> String.leb b c = true -> String.leb a c = true.
Proof.
  unfold String.leb. revert b c.
  induction a as [|x a IH]; intros [|y b] [|z c]; cbn; try congruence.
  unfold Ascii.compare.
  destruct (N.compare_spec (N_of_ascii x) (N_of_ascii y)) as [E|L|G];
    destruct (N.compare_spec (N_of_ascii y) (N_of_ascii z)) as [E'|L'|G'];
    destruct (N.compare_spec (N_of_ascii x) (N_of_ascii z)) as [E''|L''|G''];
    try congruence; try lia.
  apply IH.
Qed.

Lemma string_leb_false a b : String.leb a b = false -> String.leb b a = true.
Proof. destruct (String.leb_total a b) as [H|H]; congruence. Qed.

Lemma insert_member_comm x y l :
  fst x <> fst y ->
  insert_member x (insert_member y l) = insert_member y (insert_member x l).
Proof.
  intros Hne. induction l as [|z l IH]; cbn [insert_member].
  - destruct (String.leb (fst x) (fst y)) eqn:Hxy, (String.leb (fst y) (fst x)) eqn:Hyx;
      try reflexivity.
    + exfalso. apply Hne. apply String.leb_antisym; assumption.
    + apply string_leb_false in Hxy. congruence.
  - destruct (String.leb (fst y) (fst z)) eqn:Hyz, (String.leb (fst x) (fst z)) eqn:Hxz;
      cbn [insert_member]; rewrite ?Hyz, ?Hxz.
    + destruct (String.leb (fst x) (fst y)) eqn:Hxy, (String.leb (fst y) (fst x)) eqn:Hyx;
        try reflexivity.
      * exfalso. apply Hne. apply String.leb_antisym; assumption.
      * apply string_leb_false in Hxy. congruence.
    + destruct (String.leb (fst x) (fst y)) eqn:Hxy; [|reflexivity].
      rewrite (string_leb_trans _ _ _ Hxy Hyz) in Hxz. discriminate.
    + destruct (String.leb (fst y) (fst x)) eqn:Hyx; [|reflexivity].
      rewrite (string_leb_trans _ _ _ Hyx Hxz) in Hyz. discriminate.
    + rewrite IH. reflexivity.
Qed.

Lemma sort_members_perm l1 l2 :
  Permutation l1 l2 -> List.NoDup (List.map fst l1) -> sort_members l1 = sort_members l2.
Proof.
  unfold sort_members. induction 1 as [|x l l' Hp IH|x y l|l l' l'' Hp1 IH1 Hp2 IH2]; intros Hnd.
  - reflexivity.
  - cbn. rewrite IH; [reflexivity|]. inversion Hnd; assumption.
  - cbn. apply insert_member_comm. inversion Hnd as [|? ? Hin _]; subst.
    intros E. apply Hin. left. symmetry. exact E.
  - rewrite IH1 by assumption. apply IH2.
    eapply Permutation_NoDup; [|exact Hnd]. apply Permutation_map. exact Hp1.
Qed.

Lemma convert_members_keys conv items js :
  convert_members conv items = Ok js -> List.map fst js = List.map fst items.
Proof.
  revert js. induction items as [|[k v] items IH]; intros js; cbn.
  - intros [= <-]. reflexivity.
  - destruct (conv v); [|discriminate].
    destruct (convert_members conv items); [|discriminate].
    intros [= <-]. cbn. f_equal. apply IH. reflexivity.
Qed.

Lemma convert_members_perm conv items1 items2 js1 :
  Permutation items1 items2 ->
  convert_members conv items1 = Ok js1 ->
  exists js2, convert_members conv items2 = Ok js2 /\ Permutation js1 js2.
Proof.
  intros Hp. revert js1.
  induction Hp as [|[k v] l l' Hp IH|[k v] [k' v'] l|l l' l'' Hp1 IH1 Hp2 IH2]; intros js1; cbn.
  - intros [= <-]. exists []. split; [reflexivity|constructor].
  - destruct (conv v) as [j|]; [|discriminate].
    destruct (convert_members conv l) as [js|] eqn:E; [|discriminate].
    intros [= <-]. destruct (IH js eq_refl) as (js2 & -> & Hp2).
    exists ((k, j) :: js2). split; [reflexivity|]. constructor. exact Hp2.
  - destruct (conv v') as [j'|]; [|discriminate].
    destruct (conv v) as [j|]; [|discriminate].
    destruct (convert_members conv l) as [js|]; [|discriminate].
    intros [= <-]. exists ((k, j) :: (k', j') :: js). split; [reflexivity|]. constructor.
  - intros H1. destruct (IH1 _ H1) as (js2 & H2 & Hp12).
    destruct (IH2 _ H2) as (js3 & H3 & Hp23).
    exists js3. split; [exact H3|]. eapply Permutation_trans; eassumption.
Qed.

Lemma sort_keys_members_perm js1 js2 :
  Permutation js1 js2 -> List.NoDup (List.map fst js1) ->
  sort_keys (JObj js1) = sort_keys (JObj js2).
Proof.
  intros Hp Hnd. cbn [sort_keys]. f_equal. apply sort_members_perm.
  - apply Permutation_map. exact Hp.
  - rewrite List.map_map.
    erewrite List.map_ext; [exact Hnd|]. intros [k v]. reflexivity.
Qed.

(** C4.  The id of a [BatchDefinition] is a function of the heap and of the
    four identifying attributes: [batch_spec_passthrough] takes no part in it;
    two definitions whose [batch_identifiers] hold the same entries in a
    different insertion order have the same id; and [==] between two
    definitions answers whether their ids are the same string. *)
Theorem batch_definition_identity content_hash fuel h dn dc da bi bi' p p' :
  (* the passthrough is excluded *)
  BatchDefinition.id content_hash fuel (BatchDefinition.Build dn dc da bi p) h
  = BatchDefinition.id content_hash fuel (BatchDefinition.Build dn dc da bi p') h
  (* the insertion order of the identifiers is immaterial *)
  /\ (forall a a' c c' items items' i,
         bi = VRef a -> h !! a = Some (ODict c items) ->
         bi' = VRef a' -> h !! a' = Some (ODict c' items') ->
         Permutation items items' -> List.NoDup (List.map fst items) ->
         BatchDefinition.id content_hash fuel (BatchDefinition.Build dn dc da bi p) h = (h, Ok i) ->
         BatchDefinition.id content_hash fuel (BatchDefinition.Build dn dc da bi' p') h = (h, Ok i))
  (* equality is equality of ids *)
  /\ (forall d d' i i',
         BatchDefinition.id content_hash fuel d h = (h, Ok i) ->
         BatchDefinition.id content_hash fuel d' h = (h, Ok i') ->
         exists b, BatchDefinition.__eq__ content_hash fuel d d' h = (h, Ok b)
                   /\ (b = true <-> i = i')).
Proof.
  split; [reflexivity|]. split.
  - intros a a' c c' items items' i -> Ha -> Ha' Hp Hnd.
    unfold BatchDefinition.id, BatchDefinition.to_json_dict,
      convert_to_json_serializable_display.
    cbn [BatchDefinition._datasource_name BatchDefinition._data_connector_name
         BatchDefinition._data_asset_name BatchDefinition._batch_identifiers].
    run. destruct fuel as [|f]; [discriminate|].
    cbn [convert_members].
    destruct (convert f h dn) as [jn|]; [|discriminate].
    destruct (convert f h dc) as [jc|]; [|discriminate].
    destruct (convert f h da) as [ja|]; [|discriminate].
    destruct f as [|f]; [discriminate|]. cbn [convert]. rewrite Ha, Ha'.
    destruct (convert_members (convert f h) items) as [js|] eqn:Hjs; [|discriminate].
    destruct (convert_members_perm _ _ _ _ Hp Hjs) as (js' & -> & Hpj).
    intros [= <-]. do 2 f_equal. unfold to_id. f_equal.
    assert (Hs : sort_keys (JObj js') = sort_keys (JObj js)).
    { symmetry. apply sort_keys_members_perm; [exact Hpj|].
      rewrite (convert_members_keys _ _ _ Hjs). exact Hnd. }
    cbn [sort_keys List.map] in Hs |- *. injection Hs as Hs. rewrite Hs. reflexivity.
  - intros d d' i i' Hi Hi'. unfold BatchDefinition.__eq__, Py.bind.
    rewrite Hi, Hi'. eexists. split; [reflexivity|]. apply String.eqb_eq.
Qed.

Lemma alias_same_canonical_form_witness :
  let spelled_new :=
    get_batch_request_from_acceptable_arguments
      (Args.with_batch_filter_parameters (VRef 0) names_only) (Log.State one_mapping []) in
  get_batch_request_from_acceptable_arguments
    (Args.with_batch_identifiers (VRef 0) names_only) (Log.State one_mapping [])
  = (Log.State (Log.heap_of (fst spelled_new)) (Log.log (fst spelled_new) ++ [deprecation_message]),
     Ok (VRef 5)).
Proof.
  destruct (alias_same_canonical_form key_digest 8 names_only (VRef 0) one_mapping []
              eq_refl eq_refl eq_refl ltac:(discriminate)) as [_ Hw].
  cbv zeta. apply Hw; reflexivity.
Defined.

Lemma batch_definition_identity_witness :
  BatchDefinition.id key_digest 8
    (BatchDefinition.Build (VStr "s1") (VStr "c1") (VStr "a1") (VRef 1) VNone) two_orders
  = (two_orders, Ok "batch_identifiers,data_asset_name,data_connector_name,datasource_name").
Proof.
  destruct (batch_definition_identity key_digest 8 two_orders (VStr "s1") (VStr "c1") (VStr "a1")
              (VRef 0) (VRef 1) VNone VNone) as (_ & Hperm & _).
  eapply Hperm; try reflexivity.
  - apply perm_swap.
  - repeat constructor; cbn; intuition discriminate.
Defined.

(** ** Deep copies *)

(** *** Dictionaries *)

Lemma dict_get_set_eq k v items : dict_get k (dict_set k v items) = Some v.
Proof.
  induction items as [|[k' v'] items IH]; cbn.
  - rewrite String.eqb_refl. reflexivity.
  - destruct (String.eqb k k') eqn:E; cbn; rewrite E; [reflexivity|exact IH].
Qed.

Lemma dict_get_set_ne k k' v items :
  k' <> k -> dict_get k' (dict_set k v items) = dict_get k' items.
Proof.
  intros Hne. induction items as [|[k1 v1] items IH]; cbn.
  - destruct (String.eqb k' k) eqn:E; [apply String.eqb_eq in E; congruence|reflexivity].
  - destruct (String.eqb k k1) eqn:E; cbn.
    + apply String.eqb_eq in E. subst k1.
      destruct (String.eqb k' k) eqn:E'; [apply String.eqb_eq in E'; congruence|reflexivity].
    + rewrite IH. reflexivity.
Qed.

Lemma dict_get_del_eq k items : dict_get k (dict_del k items) = None.
Proof.
  induction items as [|[k' v'] items IH]; cbn; [reflexivity|].
  destruct (String.eqb k k') eqn:E; cbn; rewrite ?E; exact IH.
Qed.

Lemma dict_get_del_ne k k' items :
  k' <> k -> dict_get k' (dict_del k items) = dict_get k' items.
Proof.
  intros Hne. induction items as [|[k1 v1] items IH]; cbn; [reflexivity|].
  destruct (String.eqb k k1) eqn:E; cbn.
  - apply String.eqb_eq in E. subst k1.
    destruct (String.eqb k' k) eqn:E'; [apply String.eqb_eq in E'; congruence|exact IH].
  - rewrite IH. reflexivity.
Qed.

Lemma dict_get_Forall (P : pyval -> Prop) k v items :
  Forall (fun kv => P (snd kv)) items -> dict_get k items = Some v -> P v.
Proof.
  induction 1 as [|[k' v'] items Hx _ IH]; cbn; [discriminate|].
  destruct (String.eqb k k'); [intros [= <-]; exact Hx|exact IH].
Qed.

Lemma dict_set_Forall (P : pyval -> Prop) k v items :
  Forall (fun kv => P (snd kv)) items -> P v ->
  Forall (fun kv => P (snd kv)) (dict_set k v items).
Proof.
  intros Hall Hv. induction Hall as [|[k' v'] items Hx Hall IH]; cbn.
  - constructor; [exact Hv|constructor].
  - destruct (String.eqb k k'); constructor; try assumption.
Qed.

Lemma dict_del_Forall (P : pyval -> Prop) k items :
  Forall (fun kv => P (snd kv)) items -> Forall (fun kv => P (snd kv)) (dict_del k items).
Proof.
  induction 1 as [|[k' v'] items Hx Hall IH]; cbn; [constructor|].
  destruct (String.eqb k k'); [exact IH|constructor; assumption].
Qed.

Lemma dict_set_fresh_key k v items :
  dict_get k items = None -> dict_set k v items = items ++ [(k, v)].
Proof.
  induction items as [|[k' v'] items IH]; cbn; [reflexivity|].
  destruct (String.eqb k k'); [discriminate|]. intros Hn. rewrite IH by exact Hn. reflexivity.
Qed.

Lemma dict_del_keys k k' (items : items_t) :
  In k' (map fst (dict_del k items)) -> In k' (map fst items).
Proof.
  induction items as [|[k1 v1] items IH]; cbn; [auto|].
  destruct (String.eqb k k1); cbn; tauto.
Qed.

Lemma dict_del_NoDup k (items : items_t) :
  List.NoDup (map fst items) -> List.NoDup (map fst (dict_del k items)).
Proof.
  induction items as [|[k1 v1] items IH]; cbn; [auto|].
  intros Hnd. inversion Hnd as [|? ? Hk1 Hnd']; subst.
  destruct (String.eqb k k1); cbn; [apply IH; exact Hnd'|].
  constructor; [|apply IH; exact Hnd']. intros Hin. apply Hk1. eapply dict_del_keys; exact Hin.
Qed.

Lemma dict_set_keys k v k' (items : items_t) :
  In k' (map fst (dict_set k v items)) -> k' = k \/ In k' (map fst items).
Proof.
  induction items as [|[k1 v1] items IH]; cbn; [intuition|].
  destruct (String.eqb k k1); cbn; intuition.
Qed.

Lemma dict_set_NoDup k v (items : items_t) :
  List.NoDup (map fst items) -> List.NoDup (map fst (dict_set k v items)).
Proof.
  induction items as [|[k1 v1] items IH]; cbn.
  - intros _. constructor; [intros []|constructor].
  - intros Hnd. inversion Hnd as [|? ? Hk1 Hnd']; subst.
    destruct (String.eqb k k1) eqn:E; cbn; [constructor; assumption|].
    constructor; [|apply IH; exact Hnd']. intros Hin.
    destruct (dict_set_keys _ _ _ _ Hin) as [->|Hin']; [|contradiction].
    rewrite String.eqb_refl in E. discriminate.
Qed.

(** *** Shapes *)

Lemma shape_at_app h o a : a < length h -> shape_at (h ++ [o]) a = shape_at h a.
Proof. intros Hlt. unfold shape_at. rewrite lookup_app_l by exact Hlt. reflexivity. Qed.

Lemma lookup_new (h : heap) o : (h ++ [o]) !! length h = Some o.
Proof.
  rewrite lookup_app_r by lia. replace (length h - length h) with 0 by lia. reflexivity.
Qed.

(** *** Frames *)

Lemma stable_refl n a o : stable n a o o.
Proof. destruct o; cbn; auto. Qed.

Lemma stable_trans n a o1 o2 o3 : stable n a o1 o2 -> stable n a o2 o3 -> stable n a o1 o3.
Proof.
  destruct o1, o2, o3; cbn; try tauto.
  - intros (-> & H1 & N1) (-> & H2 & N2). split; [reflexivity|]. split; [|auto].
    intros k Hk. rewrite H2, H1 by exact Hk. reflexivity.
  - congruence.
  - intros [-> ->] [-> ->]. split; reflexivity.
Qed.

Lemma stable_shape n a o o' : stable n a o o' -> shape_of o' = shape_of o.
Proof.
  destruct o, o'; cbn; try tauto.
  - intros [-> _]. reflexivity.
  - intros ->. reflexivity.
  - intros [-> _]. reflexivity.
Qed.

Lemma frame_refl n h : frame n h h.
Proof. intros a o Ha. exists o. split; [exact Ha|apply stable_refl]. Qed.

Lemma frame_trans n h1 h2 h3 : frame n h1 h2 -> frame n h2 h3 -> frame n h1 h3.
Proof.
  intros H12 H23 a o Ha. destruct (H12 a o Ha) as (o2 & Ha2 & S12).
  destruct (H23 a o2 Ha2) as (o3 & Ha3 & S23). exists o3. split; [exact Ha3|].
  eapply stable_trans; eassumption.
Qed.

Lemma frame_alloc n (h : heap) o : frame n h (h ++ [o]).
Proof.
  intros a o' Ha. exists o'. split; [|apply stable_refl].
  rewrite lookup_app_l; [exact Ha|]. eapply lookup_lt_Some; exact Ha.
Qed.

Lemma frame_insert n (h : heap) a o o' :
  h !! a = Some o -> stable n a o o' -> frame n h (<[a:=o']> h).
Proof.
  intros Ha Hs b ob Hb. destruct (Nat.eq_dec b a) as [->|Hne].
  - exists o'. split.
    + apply list_lookup_insert_eq. eapply lookup_lt_Some; exact Ha.
    + rewrite Ha in Hb. injection Hb as <-. exact Hs.
  - exists ob. split; [|apply stable_refl]. rewrite list_lookup_insert_ne by congruence. exact Hb.
Qed.

Lemma frame_shape n h h' a : frame n h h' -> is_Some (h !! a) -> shape_at h' a = shape_at h a.
Proof.
  intros Hf [o Ha]. destruct (Hf a o Ha) as (o' & Ha' & Hs).
  unfold shape_at. rewrite Ha, Ha'. f_equal. eapply stable_shape; exact Hs.
Qed.

Lemma frame_frame_except y n h h' : frame n h h' -> frame_except y n h h'.
Proof.
  intros Hf a o Ha. destruct (Hf a o Ha) as (o' & Ha' & Hs). exists o'. split; [exact Ha'|].
  destruct (Nat.eqb a y); [eapply stable_shape|]; exact Hs.
Qed.

Lemma frame_except_trans y n h1 h2 h3 :
  frame_except y n h1 h2 -> frame_except y n h2 h3 -> frame_except y n h1 h3.
Proof.
  intros H12 H23 a o Ha. destruct (H12 a o Ha) as (o2 & Ha2 & S12).
  destruct (H23 a o2 Ha2) as (o3 & Ha3 & S23). exists o3. split; [exact Ha3|].
  destruct (Nat.eqb a y); [congruence|eapply stable_trans; eassumption].
Qed.

Lemma frame_except_insert y n (h : heap) o o' :
  h !! y = Some o -> shape_of o' = shape_of o -> frame_except y n h (<[y:=o']> h).
Proof.
  intros Hy Hs b ob Hb. destruct (Nat.eqb b y) eqn:E.
  - apply Nat.eqb_eq in E. subst b. exists o'. split.
    + apply list_lookup_insert_eq. eapply lookup_lt_Some; exact Hy.
    + rewrite Hy in Hb. injection Hb as <-. exact Hs.
  - apply Nat.eqb_neq in E. exists ob. split; [|apply stable_refl].
    rewrite list_lookup_insert_ne by congruence. exact Hb.
Qed.

Lemma frame_except_shape y n h h' a :
  frame_except y n h h' -> is_Some (h !! a) -> shape_at h' a = shape_at h a.
Proof.
  intros Hf [o Ha]. destruct (Hf a o Ha) as (o' & Ha' & Hs).
  unfold shape_at. rewrite Ha, Ha'. f_equal.
  destruct (Nat.eqb a y); [exact Hs|eapply stable_shape; exact Hs].
Qed.

(** An allocation that follows leaves the frame of what came before, and
    the object allocated is outside it. *)
Lemma frame_except_frame y n (h h' : heap) :
  length h <= y -> frame_except y n h h' -> frame n h h'.
Proof.
  intros Hy Hf a o Ha. destruct (Hf a o Ha) as (o' & Ha' & Hs). exists o'. split; [exact Ha'|].
  destruct (Nat.eqb a y) eqn:E; [|exact Hs].
  apply Nat.eqb_eq in E. subst a. apply lookup_lt_Some in Ha. lia.
Qed.

(** *** The invariant *)

Lemma copied_fresh n h h' x y : copied n h h' x y -> old_val n x -> fresh_from n y.
Proof.
  destruct x; cbn; try (intros -> _; exact I).
  intros (b & -> & Hb & _) _. exact Hb.
Qed.

Lemma inv_alloc n (h : heap) memo o :
  inv n h memo ->
  (forall c attrs own, o = OReq c attrs own -> attrs = [] /\ self_hook (length h) own) ->
  inv n (h ++ [o]) memo.
Proof.
  intros [Hlen Hold Hnew Hhooks Hmemo Hkeys] Ho. split.
  - rewrite length_app. lia.
  - intros a Ha. destruct (Hold a Ha) as (oa & Hoa & Hcl). exists oa. split; [|exact Hcl].
    rewrite lookup_app_l; [exact Hoa|]. eapply lookup_lt_Some; exact Hoa.
  - intros b c attrs own Hb Hlk.
    destruct (Nat.lt_ge_cases b (length h)) as [Hlt|Hge].
    + rewrite lookup_app_l in Hlk by exact Hlt. eapply Hnew; eassumption.
    + assert (b = length h) as ->.
      { apply lookup_lt_Some in Hlk. rewrite length_app in Hlk. cbn in Hlk. lia. }
      rewrite lookup_new in Hlk. injection Hlk as ->.
      rewrite (proj1 (Ho _ _ _ eq_refl)). constructor.
  - intros b c attrs own Hlk.
    destruct (Nat.lt_ge_cases b (length h)) as [Hlt|Hge].
    + rewrite lookup_app_l in Hlk by exact Hlt. eapply Hhooks; eassumption.
    + assert (b = length h) as ->.
      { apply lookup_lt_Some in Hlk. rewrite length_app in Hlk. cbn in Hlk. lia. }
      rewrite lookup_new in Hlk. injection Hlk as ->.
      exact (proj2 (Ho _ _ _ eq_refl)).
  - intros a y Hm. destruct (Hmemo a y Hm) as (Ha & b & -> & Hb & Hs).
    split; [exact Ha|]. exists b. split; [reflexivity|]. split; [exact Hb|].
    assert (Hal : a < length h) by lia.
    assert (Hbl : b < length h).
    { destruct (Hold a Ha) as (oa & Hoa & _). unfold shape_at in Hs. rewrite Hoa in Hs.
      destruct (h !! b) eqn:E; [|discriminate]. eapply lookup_lt_Some; exact E. }
    rewrite !shape_at_app by assumption. exact Hs.
  - intros a c attrs own Ha Hlk. rewrite lookup_app_l in Hlk by lia.
    eapply Hkeys; eassumption.
Qed.

Lemma inv_memo_set n (h : heap) memo a b :
  inv n h memo -> a < n -> n <= b -> shape_at h b = shape_at h a ->
  inv n h (memo_set a (VRef b) memo).
Proof.
  intros [Hlen Hold Hnew Hhooks Hmemo Hkeys] Ha Hb Hs. split; try assumption.
  intros a' y. unfold memo_set. cbn.
  destruct (Nat.eqb a' a) eqn:E.
  - apply Nat.eqb_eq in E. subst a'. intros [= <-]. split; [exact Ha|]. exists b. auto.
  - apply Hmemo.
Qed.

Lemma inv_insert n (h : heap) memo a o o' :
  inv n h memo ->
  h !! a = Some o -> shape_of o' = shape_of o ->
  (a < n -> old_obj n o') ->
  (n <= a -> forall c attrs own, o' = OReq c attrs own ->
             Forall (fun kv => fresh_from n (snd kv)) attrs) ->
  (forall c attrs own, o' = OReq c attrs own -> self_hook a own) ->
  (a < n -> forall c attrs own, o' = OReq c attrs own -> List.NoDup (map fst attrs)) ->
  inv n (<[a:=o']> h) memo.
Proof.
  intros [Hlen Hold Hnew Hhooks Hmemo Hkeys] Ha Hsh Ho Hn Hhk Hnd.
  assert (Hal : a < length h) by (eapply lookup_lt_Some; exact Ha).
  assert (Hshape : forall b, shape_at (<[a:=o']> h) b = shape_at h b).
  { intros b. unfold shape_at. destruct (Nat.eq_dec b a) as [->|Hne].
    - rewrite list_lookup_insert_eq by exact Hal. rewrite Ha. f_equal. exact Hsh.
    - rewrite list_lookup_insert_ne by congruence. reflexivity. }
  split.
  - rewrite length_insert. exact Hlen.
  - intros b Hb. destruct (Nat.eq_dec b a) as [->|Hne].
    + exists o'. split; [apply list_lookup_insert_eq; exact Hal|apply Ho; exact Hb].
    + destruct (Hold b Hb) as (ob & Hob & Hcl). exists ob. split; [|exact Hcl].
      rewrite list_lookup_insert_ne by congruence. exact Hob.
  - intros b c attrs own Hb Hlk. destruct (Nat.eq_dec b a) as [->|Hne].
    + rewrite list_lookup_insert_eq in Hlk by exact Hal. injection Hlk as ->.
      eapply Hn; [exact Hb|reflexivity].
    + rewrite list_lookup_insert_ne in Hlk by congruence. eapply Hnew; eassumption.
  - intros b c attrs own Hlk. destruct (Nat.eq_dec b a) as [->|Hne].
    + rewrite list_lookup_insert_eq in Hlk by exact Hal. injection Hlk as ->.
      eapply Hhk; reflexivity.
    + rewrite list_lookup_insert_ne in Hlk by congruence. eapply Hhooks; eassumption.
  - intros a' y Hm. destruct (Hmemo a' y Hm) as (Ha' & b & -> & Hb & Hs).
    split; [exact Ha'|]. exists b. rewrite !Hshape. auto.
  - intros b c attrs own Hb Hlk. destruct (Nat.eq_dec b a) as [->|Hne].
    + rewrite list_lookup_insert_eq in Hlk by exact Hal. injection Hlk as ->.
      eapply Hnd; [exact Hb|reflexivity].
    + rewrite list_lookup_insert_ne in Hlk by congruence. eapply Hkeys; eassumption.
Qed.

Lemma dict_setitem_ok : setter_ok dict_setitem.
Proof.
  intros yb k v h h'. unfold dict_setitem.
  destruct (h !! yb) as [[c items| |]|] eqn:E; try discriminate.
  intros [= <-]. exists (ODict c items), (ODict c (dict_set k v items)). auto.
Qed.

Lemma py_setattr_ok : setter_ok py_setattr.
Proof.
  intros yb k v h h'. unfold py_setattr.
  destruct (h !! yb) as [[| |c attrs own]|] eqn:E; try discriminate.
  intros [= <-]. exists (OReq c attrs own), (OReq c (dict_set k v attrs) own). auto.
Qed.

Lemma copied_shift n h0 h1 h2 h3 x y :
  copied n h1 h2 x y -> old_val n x ->
  (forall a, a < n -> is_Some (h1 !! a) /\ shape_at h0 a = shape_at h1 a) ->
  (forall b, is_Some (h2 !! b) -> shape_at h3 b = shape_at h2 b) ->
  copied n h0 h3 x y.
Proof.
  destruct x; cbn; try tauto.
  intros (b & -> & Hb & Hs) Ha H01 H23. exists b. split; [reflexivity|]. split; [exact Hb|].
  destruct (H01 a Ha) as [[o Ho] Hsa]. rewrite Hsa.
  rewrite H23; [exact Hs|].
  unfold shape_at in Hs. rewrite Ho in Hs. destruct (h2 !! b); [eauto|discriminate].
Qed.

Section Copiers.

Variable n : nat.
Variable rec : pyval -> memo_t -> H (pyval * memo_t).
Hypothesis Hrec : deepcopy_spec n rec.

Lemma deepcopy_items_inv set yb :
  setter_ok set -> n <= yb ->
  forall items memo h h' memo',
    inv n h memo -> is_Some (h !! yb) ->
    Forall (fun kv => old_val n (snd kv)) items ->
    copy._deepcopy_items rec set (VRef yb) items memo h = (h', Ok memo') ->
    inv n h' memo' /\ frame_except yb n h h'.
Proof.
  intros Hset Hyb. induction items as [|[k v] items IH]; intros memo h h' memo' Hinv Hy Hold.
  - cbn. intros [= <- <-]. split; [exact Hinv|]. apply frame_frame_except, frame_refl.
  - cbn [copy._deepcopy_items]. unfold Py.bind at 1.
    destruct (rec v memo h) as [h1 [[v' memo1]|e]] eqn:Hr; [|discriminate].
    cbn [fst snd]. unfold Py.bind at 1.
    destruct (set (VRef yb) k v' h1) as [h2 [[]|e]] eqn:Hs; [|discriminate].
    inversion Hold as [|? ? Hv Hold']; subst. cbn in Hv.
    destruct (Hrec _ _ _ _ _ _ Hinv Hv Hr) as (Hinv1 & Hf1 & Hc1).
    destruct (Hset _ _ _ _ _ Hs) as (o & o' & Ho & -> & Hsh & Hcase).
    assert (Hinv2 : inv n (<[yb:=o']> h1) memo1).
    { eapply inv_insert; [exact Hinv1|exact Ho|exact Hsh|lia| | |intros; lia].
      - intros _ c attrs own ->.
        destruct o as [| |c0 attrs0 own0]; try discriminate; try contradiction.
        injection Hcase as -> -> ->.
        apply dict_set_Forall.
        + eapply (inv_new _ _ _ Hinv1); [exact Hyb|exact Ho].
        + eapply copied_fresh; eassumption.
      - intros c attrs own ->.
        destruct o as [| |c0 attrs0 own0]; try discriminate; try contradiction.
        injection Hcase as -> -> ->.
        exact (inv_hooks _ _ _ Hinv1 _ _ _ _ Ho). }
    intros Hloop.
    assert (Hy2 : is_Some (<[yb:=o']> h1 !! yb)).
    { rewrite list_lookup_insert_eq; [eauto|]. eapply lookup_lt_Some; exact Ho. }
    destruct (IH _ _ _ _ Hinv2 Hy2 Hold' Hloop) as (Hinv' & Hf').
    split; [exact Hinv'|].
    eapply frame_except_trans; [apply frame_frame_except; exact Hf1|].
    eapply frame_except_trans; [|exact Hf'].
    eapply frame_except_insert; eassumption.
Qed.

End Copiers.

Lemma frame_then_except y n (h h0 h' : heap) :
  length h <= y -> frame n h h0 -> frame_except y n h0 h' -> frame n h h'.
Proof.
  intros Hy Hf He. apply (frame_except_frame y); [exact Hy|].
  eapply frame_except_trans; [apply frame_frame_except; exact Hf|exact He].
Qed.

Lemma inv_old_obj n h memo a o : inv n h memo -> a < n -> h !! a = Some o -> old_obj n o.
Proof.
  intros Hinv Ha Ho. destruct (inv_old _ _ _ Hinv a Ha) as (o' & Ho' & Hcl). congruence.
Qed.

Section Copiers.

Variable n : nat.
Variable rec : pyval -> memo_t -> H (pyval * memo_t).
Hypothesis Hrec : deepcopy_spec n rec.

(** A container, dict or instance, copied into a new container [blank]. *)
Lemma deepcopy_container_spec set blank a o items memo h h' memo' :
  setter_ok set ->
  inv n h memo -> a < n -> h !! a = Some o ->
  shape_of blank = shape_of o ->
  (forall c attrs own, blank = OReq c attrs own -> attrs = [] /\ self_hook (length h) own) ->
  Forall (fun kv => old_val n (snd kv)) items ->
  copy._deepcopy_items rec set (VRef (length h)) items (memo_set a (VRef (length h)) memo)
                       (h ++ [blank]) = (h', Ok memo') ->
  inv n h' memo' /\ frame n h h' /\ copied n h h' (VRef a) (VRef (length h)).
Proof.
  intros Hset Hinv Ha Ho Hsh Hblank Hitems Hloop.
  pose proof (inv_len _ _ _ Hinv) as Hlen.
  assert (Hal : a < length h) by lia.
  assert (Hinv0 : inv n (h ++ [blank]) (memo_set a (VRef (length h)) memo)).
  { apply inv_memo_set; [apply inv_alloc; assumption|exact Ha|exact Hlen|].
    unfold shape_at. rewrite lookup_new, lookup_app_l, Ho by exact Hal. f_equal. exact Hsh. }
  assert (Hy : is_Some ((h ++ [blank]) !! length h)) by (rewrite lookup_new; eauto).
  destruct (deepcopy_items_inv n rec Hrec set (length h) Hset Hlen _ _ _ _ _ Hinv0 Hy Hitems Hloop)
    as (Hinv' & Hfe).
  split; [exact Hinv'|]. split.
  - eapply frame_then_except; [reflexivity|apply frame_alloc|exact Hfe].
  - cbn. exists (length h). split; [reflexivity|]. split; [exact Hlen|].
    rewrite (frame_except_shape _ _ _ _ _ Hfe Hy).
    unfold shape_at. rewrite lookup_new, Ho. f_equal. exact Hsh.
Qed.

Lemma deepcopy_dict_spec a c items memo h h' y memo' :
  inv n h memo -> a < n -> h !! a = Some (ODict c items) ->
  copy._deepcopy_dict rec a c items memo h = (h', Ok (y, memo')) ->
  inv n h' memo' /\ frame n h h' /\ copied n h h' (VRef a) y.
Proof.
  intros Hinv Ha Ho. unfold copy._deepcopy_dict, Py.bind, alloc.
  destruct (copy._deepcopy_items _ _ _ _ _ _) as [h1 [m1|e]] eqn:Hloop; [|discriminate].
  intros [= <- <- <-].
  eapply (deepcopy_container_spec _ (ODict c [])); try eassumption.
  - apply dict_setitem_ok.
  - reflexivity.
  - discriminate.
  - exact (inv_old_obj _ _ _ _ _ Hinv Ha Ho).
Qed.

Lemma reconstruct_spec a c attrs own memo h h' y memo' :
  inv n h memo -> a < n -> h !! a = Some (OReq c attrs own) ->
  (forall self, own <> Some (HookBound self)) ->
  copy._reconstruct rec a c attrs own memo h = (h', Ok (y, memo')) ->
  inv n h' memo' /\ frame n h h' /\ copied n h h' (VRef a) y.
Proof.
  intros Hinv Ha Ho Hown. unfold copy._reconstruct, Py.bind, alloc.
  destruct (copy._deepcopy_items _ _ _ _ _ _) as [h1 [m1|e]] eqn:Hloop; [|discriminate].
  intros [= <- <- <-].
  eapply (deepcopy_container_spec _ (OReq c [] own)); try eassumption.
  - apply py_setattr_ok.
  - reflexivity.
  - intros ? ? ? [= _ <- <-]. split; [reflexivity|].
    destruct own as [[|self]|]; try exact I. destruct (Hown self eq_refl).
  - exact (proj1 (inv_old_obj _ _ _ _ _ Hinv Ha Ho)).
Qed.

Lemma deepcopy_payload_spec a t memo h h' y memo' :
  inv n h memo -> a < n -> h !! a = Some (OPayload t) ->
  copy._deepcopy_payload a t memo h = (h', Ok (y, memo')) ->
  inv n h' memo' /\ frame n h h' /\ copied n h h' (VRef a) y.
Proof.
  intros Hinv Ha Ho. unfold copy._deepcopy_payload, Py.bind, alloc, Py.ret.
  intros [= <- <- <-].
  pose proof (inv_len _ _ _ Hinv) as Hlen.
  assert (Hs : shape_at (h ++ [OPayload t]) (length h) = shape_at (h ++ [OPayload t]) a).
  { unfold shape_at. rewrite lookup_new, lookup_app_l, Ho by lia. reflexivity. }
  split; [|split].
  - apply inv_memo_set; [apply inv_alloc; [assumption|discriminate]|exact Ha|exact Hlen|exact Hs].
  - apply frame_alloc.
  - cbn. exists (length h). split; [reflexivity|]. split; [exact Hlen|].
    rewrite Hs. apply shape_at_app. lia.
Qed.

End Copiers.

Lemma dict_has_get k items : dict_has k items = true -> exists v, dict_get k items = Some v.
Proof. unfold dict_has. destruct (dict_get k items); [eauto|discriminate]. Qed.

Lemma old_obj_hook n c self own hk :
  self < n -> old_hook n own -> find__deepcopy__ c self own = Some hk -> old_hook n (Some hk).
Proof.
  unfold find__deepcopy__. destruct own as [hk'|].
  - intros _ Ho [= <-]. exact Ho.
  - destruct c; try discriminate. intros Hs _ [= <-]. exact Hs.
Qed.

Lemma find_self_hook c self own hk :
  self_hook self own -> find__deepcopy__ c self own = Some hk -> self_hook self (Some hk).
Proof.
  unfold find__deepcopy__. destruct own as [hk'|].
  - intros Ho [= <-]. exact Ho.
  - destruct c; try discriminate. intros _ [= <-]. reflexivity.
Qed.

(** *** The attributes of the copy of an instance *)

Lemma dict_get_app_None k (items items' : items_t) :
  dict_get k (items ++ items') = None <->
  dict_get k items = None /\ dict_get k items' = None.
Proof.
  induction items as [|[k' v'] items IH]; cbn; [tauto|].
  destruct (String.eqb k k'); [|exact IH]. split; [discriminate|]. intros [? _]. discriminate.
Qed.

Lemma dict_get_In_None k (items : items_t) :
  ~ In k (map fst items) -> dict_get k items = None.
Proof.
  induction items as [|[k' v'] items IH]; cbn; [reflexivity|].
  intros Hn. destruct (String.eqb k k') eqn:E.
  - apply String.eqb_eq in E. subst. tauto.
  - apply IH. tauto.
Qed.

Lemma copied_items_get n h h' items items' k x :
  copied_items n h h' items items' ->
  dict_get k items = Some x ->
  exists x', dict_get k items' = Some x' /\ copied n h h' x x'.
Proof.
  induction 1 as [|[k1 v1] [k1' v1'] items items' [Hk Hc] Hall IH]; cbn; [discriminate|].
  cbn in Hk, Hc. subst k1'. destruct (String.eqb k k1).
  - intros [= <-]. eauto.
  - exact IH.
Qed.

Lemma copied_items_shift n h0 h1 h2 h3 items items' :
  copied_items n h1 h2 items items' ->
  Forall (fun kv => old_val n (snd kv)) items ->
  (forall a, a < n -> is_Some (h1 !! a) /\ shape_at h0 a = shape_at h1 a) ->
  (forall b, is_Some (h2 !! b) -> shape_at h3 b = shape_at h2 b) ->
  copied_items n h0 h3 items items'.
Proof.
  intros Hall Hold H01 H23. induction Hall as [|kv kv' items items' [Hk Hc] Hall IH].
  - constructor.
  - inversion Hold as [|? ? Hv Hold']; subst. constructor; [|apply IH; exact Hold'].
    split; [exact Hk|]. eapply copied_shift; eassumption.
Qed.

Lemma inv_setter n set yb k v h h' memo :
  setter_ok set -> inv n h memo -> n <= yb -> fresh_from n v ->
  set (VRef yb) k v h = (h', Ok tt) ->
  inv n h' memo.
Proof.
  intros Hset Hinv Hyb Hv Hs.
  destruct (Hset _ _ _ _ _ Hs) as (o & o' & Ho & -> & Hsh & Hcase).
  eapply inv_insert; [exact Hinv|exact Ho|exact Hsh|lia| | |intros; lia].
  - intros _ c attrs own ->.
    destruct o as [| |c0 attrs0 own0]; try discriminate; try contradiction.
    injection Hcase as -> -> ->.
    apply dict_set_Forall; [|exact Hv].
    eapply (inv_new _ _ _ Hinv); [exact Hyb|exact Ho].
  - intros c attrs own ->.
    destruct o as [| |c0 attrs0 own0]; try discriminate; try contradiction.
    injection Hcase as -> -> ->.
    exact (inv_hooks _ _ _ Hinv _ _ _ _ Ho).
Qed.

Section Content.

Variable n : nat.
Variable rec : pyval -> memo_t -> H (pyval * memo_t).
Hypothesis Hrec : deepcopy_spec n rec.

Lemma deepcopy_attrs_content yb c :
  n <= yb ->
  forall items acc own memo h h' memo',
    inv n h memo -> h !! yb = Some (OReq c acc own) ->
    Forall (fun kv => old_val n (snd kv)) items ->
    List.NoDup (map fst items) ->
    (forall k, In k (map fst items) -> dict_get k acc = None) ->
    copy._deepcopy_items rec py_setattr (VRef yb) items memo h = (h', Ok memo') ->
    exists items' own',
      h' !! yb = Some (OReq c (acc ++ items') own')
      /\ copied_items n h h' items items'.
Proof.
  intros Hyb. induction items as [|[k v] items IH];
    intros acc own memo h h' memo' Hinv Hy Hold Hnd Hfresh.
  - cbn. intros [= <- <-]. exists [], own. rewrite app_nil_r. split; [exact Hy|constructor].
  - intros Hrun. pose proof Hrun as Hloop. revert Hloop.
    cbn [copy._deepcopy_items].
    bind_step h1 p E1. destruct p as [v' memo1]. cbn [fst snd].
    bind_step h2 u E2. destruct u. intros Hloop.
    inversion Hold as [|? ? Hv Hold']; subst. cbn in Hv.
    inversion Hnd as [|? ? Hk Hnd']; subst.
    destruct (Hrec _ _ _ _ _ _ Hinv Hv E1) as (Hinv1 & Hf1 & Hc1).
    destruct (Hf1 _ _ Hy) as (o1 & Hy1 & Hst1).
    destruct o1 as [| |c1 acc1 own1]; try contradiction. destruct Hst1 as [-> ->].
    assert (Hinv2 : inv n h2 memo1).
    { eapply (inv_setter n py_setattr); [apply py_setattr_ok|exact Hinv1|exact Hyb| |exact E2].
      eapply copied_fresh; eassumption. }
    revert E2. unfold py_setattr. rewrite Hy1. intros [= <-].
    set (h2 := <[yb:=OReq c (dict_set k v' acc) own1]> h1) in *.
    assert (Hyl : yb < length h1) by (eapply lookup_lt_Some; exact Hy1).
    assert (Hy2 : h2 !! yb = Some (OReq c (acc ++ [(k, v')]) own1)).
    { subst h2. rewrite list_lookup_insert_eq by exact Hyl.
      rewrite dict_set_fresh_key; [reflexivity|]. apply Hfresh. left. reflexivity. }
    assert (Hfresh' : forall k0, In k0 (map fst items) -> dict_get k0 (acc ++ [(k, v')]) = None).
    { intros k0 Hin. apply dict_get_app_None. split; [apply Hfresh; right; exact Hin|].
      cbn. destruct (String.eqb k0 k) eqn:E; [|reflexivity].
      apply String.eqb_eq in E. subst k0. contradiction. }
    destruct (IH _ _ _ _ _ _ Hinv2 Hy2 Hold' Hnd' Hfresh' Hloop) as (items' & own' & Hy' & Hall).
    exists ((k, v') :: items'), own'. split.
    { rewrite Hy'. rewrite <- app_assoc. reflexivity. }
    (* shapes along the way *)
    assert (Hs12 : forall b, shape_at h2 b = shape_at h1 b).
    { intros b. unfold shape_at. subst h2. destruct (Nat.eq_dec b yb) as [->|Hne].
      - rewrite list_lookup_insert_eq by exact Hyl. rewrite Hy1. reflexivity.
      - rewrite list_lookup_insert_ne by congruence. reflexivity. }
    assert (Hfe : frame_except yb n h2 h').
    { eapply (deepcopy_items_inv n rec Hrec py_setattr yb py_setattr_ok Hyb);
        [exact Hinv2|rewrite Hy2; eauto|exact Hold'|exact Hloop]. }
    assert (Hs2' : forall b, is_Some (h2 !! b) -> shape_at h' b = shape_at h2 b).
    { intros b Hb. eapply frame_except_shape; eassumption. }
    assert (Hsome12 : forall b, is_Some (h1 !! b) -> is_Some (h2 !! b)).
    { intros b Hb. apply lookup_lt_is_Some_2. subst h2. rewrite length_insert.
      apply lookup_lt_is_Some_1. exact Hb. }
    constructor.
    + split; [reflexivity|]. cbn [snd].
      eapply (copied_shift n h h h1 h'); [exact Hc1|exact Hv| |].
      * intros a Ha. split; [|reflexivity].
        destruct (inv_old _ _ _ Hinv a Ha) as (o & Ho & _). eauto.
      * intros b Hb. rewrite Hs2' by (apply Hsome12; exact Hb). apply Hs12.
    + eapply (copied_items_shift n h h2 h' h'); [exact Hall|exact Hold'| |auto].
      intros a Ha. destruct (inv_old _ _ _ Hinv a Ha) as (o & Ho & _).
      destruct (Hf1 _ _ Ho) as (o1 & Ho1 & _). split.
      * apply Hsome12. eauto.
      * rewrite Hs12. symmetry. apply (frame_shape n); [exact Hf1|eauto].
Qed.

Lemma reconstruct_content a c attrs own memo h h' y memo' :
  inv n h memo -> a < n -> h !! a = Some (OReq c attrs own) ->
  (forall self, own <> Some (HookBound self)) ->
  List.NoDup (map fst attrs) ->
  copy._reconstruct rec a c attrs own memo h = (h', Ok (y, memo')) ->
  y = VRef (length h)
  /\ exists attrs' own',
       h' !! length h = Some (OReq c attrs' own')
       /\ copied_items n h h' attrs attrs'.
Proof.
  intros Hinv Ha Ho Hown Hnd. unfold copy._reconstruct, Py.bind, alloc.
  destruct (copy._deepcopy_items _ _ _ _ _ _) as [h1 [m1|e]] eqn:Hloop; [|discriminate].
  intros [= <- <- <-]. split; [reflexivity|].
  pose proof (inv_len _ _ _ Hinv) as Hlen.
  assert (Hal : a < length h) by lia.
  assert (Hinv0 : inv n (h ++ [OReq c [] own]) (memo_set a (VRef (length h)) memo)).
  { apply inv_memo_set; [apply inv_alloc; [assumption|]|exact Ha|exact Hlen|].
    - intros ? ? ? [= _ <- <-]. split; [reflexivity|].
      destruct own as [[|self]|]; try exact I. destruct (Hown self eq_refl).
    - unfold shape_at. rewrite lookup_new, lookup_app_l, Ho by exact Hal. reflexivity. }
  destruct (deepcopy_attrs_content (length h) c Hlen attrs [] own _ _ _ _ Hinv0
              (lookup_new h _) (proj1 (inv_old_obj _ _ _ _ _ Hinv Ha Ho)) Hnd
              (fun _ _ => eq_refl) Hloop) as (attrs' & own' & Hy & Hall).
  exists attrs', own'. split; [exact Hy|].
  eapply (copied_items_shift n h (h ++ [OReq c [] own]) h1 h1);
    [exact Hall|exact (proj1 (inv_old_obj _ _ _ _ _ Hinv Ha Ho))| |auto].
  intros b Hb. assert (Hbl : b < length h) by lia. split.
  - apply lookup_lt_is_Some_2. rewrite length_app. lia.
  - symmetry. apply shape_at_app. exact Hbl.
Qed.

End Content.

(** *** The method *)

Section Method.

Variable n : nat.
Variable rec : pyval -> memo_t -> H (pyval * memo_t).
Hypothesis Hrec : deepcopy_spec n rec.
Hypothesis Hrp_rec : rp_spec n rec.

Lemma method_without_batch_data self memo h h' cp memo' c attrs own :
  inv n h memo -> self < n -> h !! self = Some (OReq c attrs own) ->
  (let* _ := set__deepcopy__ (VRef self) HookNone in rec (VRef self) memo) h
  = (h', Ok (cp, memo')) ->
  inv n h' memo' /\ frame n h h' /\ copied n h h' (VRef self) cp.
Proof.
  intros Hinv Hs Ho. unfold Py.bind, set__deepcopy__. rewrite Ho.
  set (h1 := <[self:=OReq c attrs (Some HookNone)]> h).
  intros Hr.
  assert (Hinv1 : inv n h1 memo).
  { eapply inv_insert; [exact Hinv|exact Ho|reflexivity| | | |].
    - intros _. split; [|exact I]. exact (proj1 (inv_old_obj _ _ _ _ _ Hinv Hs Ho)).
    - intros; lia.
    - intros ? ? ? [= <- <- <-]. exact I.
    - intros _ ? ? ? [= <- <- <-]. exact (inv_keys _ _ _ Hinv _ _ _ _ Hs Ho). }
  assert (Hf1 : frame n h h1).
  { eapply frame_insert; [exact Ho|]. cbn. auto. }
  destruct (Hrec (VRef self) _ _ _ _ _ Hinv1 Hs Hr) as (Hinv' & Hf' & Hc').
  split; [exact Hinv'|]. split; [eapply frame_trans; eassumption|].
  destruct Hc' as (b & -> & Hb & Hsh). exists b. split; [reflexivity|]. split; [exact Hb|].
  rewrite Hsh. apply (frame_shape n); [exact Hf1|eauto].
Qed.

Lemma method_with_batch_data self memo h h' cp memo' c attrs own d cd items v :
  inv n h memo -> self < n -> memo_get self memo = None ->
  h !! self = Some (OReq c attrs own) ->
  dict_get "_runtime_parameters" attrs = Some (VRef d) ->
  h !! d = Some (ODict cd items) ->
  dict_get "batch_data" items = Some v ->
  RuntimeBatchRequest.__deepcopy__ rec self memo h = (h', Ok (cp, memo')) ->
  inv n h' memo' /\ frame n h h' /\ copied n h h' (VRef self) cp
  /\ exists h3 cpa attrs' own3 ownx hk d' cd' items' items3,
       cp = VRef cpa
       /\ rec (VRef self) memo
              (<[self:=OReq c attrs (Some HookNone)]>
                 (<[d:=ODict cd (dict_del "batch_data" items)]> h))
          = (h3, Ok (VRef cpa, memo'))
       /\ h3 !! self = Some (OReq c attrs ownx)
       /\ h3 !! cpa = Some (OReq c attrs' own3)
       /\ dict_get "_runtime_parameters" attrs' = Some (VRef d')
       /\ n <= cpa /\ n <= d'
       /\ h3 !! d' = Some (ODict cd' items')
       /\ h3 !! d = Some (ODict cd items3)
       /\ h' = after_method h3 self cpa d d' c c attrs attrs' cd cd' items3 items' hk v.
Proof.
  intros Hinv Hs Hmemo Ho Hrp Hd Hv.
  assert (Hsd : self <> d) by (intros ->; congruence).
  assert (Hsl : self < length h) by (eapply lookup_lt_Some; exact Ho).
  assert (Hdl : d < length h) by (eapply lookup_lt_Some; exact Hd).
  destruct (inv_old_obj _ _ _ _ _ Hinv Hs Ho) as [Hattrs Hown].
  assert (Hdn : d < n) by exact (dict_get_Forall (old_val n) _ _ _ Hattrs Hrp).
  pose proof (inv_old_obj _ _ _ _ _ Hinv Hdn Hd) as Hitems. cbn in Hitems.
  assert (Hvo : old_val n v) by exact (dict_get_Forall (old_val n) _ _ _ Hitems Hv).
  unfold RuntimeBatchRequest.__deepcopy__.
  unfold Py.bind at 1. unfold py_getattr_or_None. rewrite Ho, Hrp.
  unfold Py.bind at 1. unfold reading, isinstance_dict. rewrite Hd.
  unfold Py.bind at 1. unfold py_contains. rewrite Hd. unfold dict_has. rewrite Hv.
  unfold Py.bind at 1. unfold py_pop. rewrite Hd, Hv.
  set (h1 := <[d:=ODict cd (dict_del "batch_data" items)]> h).
  assert (Ho1 : h1 !! self = Some (OReq c attrs own)).
  { subst h1. rewrite list_lookup_insert_ne by congruence. exact Ho. }
  unfold Py.bind at 1. unfold get__deepcopy__. rewrite Ho1.
  destruct (find__deepcopy__ c self own) as [hk|] eqn:Hfind; [|discriminate].
  pose proof (old_obj_hook _ _ _ _ _ Hs Hown Hfind) as Hhk.
  pose proof (find_self_hook _ _ _ _ (inv_hooks _ _ _ Hinv _ _ _ _ Ho) Hfind) as Hshk.
  unfold Py.bind at 1. unfold set__deepcopy__ at 1. rewrite Ho1.
  set (h2 := <[self:=OReq c attrs (Some HookNone)]> h1).
  assert (Hinv1 : inv n h1 memo).
  { eapply inv_insert; [exact Hinv|exact Hd|reflexivity| |intros _ ? ? ? [=]|intros ? ? ? [=]|intros _ ? ? ? [=]].
    intros _. cbn. apply dict_del_Forall. exact Hitems. }
  assert (Hinv2 : inv n h2 memo).
  { eapply inv_insert; [exact Hinv1|exact Ho1|reflexivity| |intros; lia| |].
    - intros _. split; [exact Hattrs|exact I].
    - intros ? ? ? [= <- <- <-]. exact I.
    - intros _ ? ? ? [= <- <- <-]. exact (inv_keys _ _ _ Hinv _ _ _ _ Hs Ho). }
  unfold Py.bind at 1.
  destruct (rec (VRef self) memo h2) as [h3 [[cp3 memo3]|e]] eqn:Hr; [|discriminate].
  destruct (Hrec (VRef self) _ _ _ _ _ Hinv2 Hs Hr) as (Hinv3 & Hf3 & (cpa & -> & Hcpa & Hshape)).
  cbn [fst snd].
  assert (Ho2 : h2 !! self = Some (OReq c attrs (Some HookNone))).
  { subst h2. apply list_lookup_insert_eq. subst h1. rewrite length_insert. exact Hsl. }
  assert (Hd2 : h2 !! d = Some (ODict cd (dict_del "batch_data" items))).
  { subst h2. rewrite list_lookup_insert_ne by congruence.
    subst h1. apply list_lookup_insert_eq. exact Hdl. }
  destruct (Hf3 _ _ Ho2) as (o3 & Ho3 & Hst3).
  destruct o3 as [| |c3 attrs3 own3]; try contradiction. destruct Hst3 as [-> ->].
  destruct (Hf3 _ _ Hd2) as (od3 & Hd3 & Hstd3).
  destruct od3 as [cd3 items3| |]; try contradiction. destruct Hstd3 as (-> & Hlk3 & Hnd3).
  pose proof (fun k => Hlk3 k (or_introl Hdn)) as Hlk3'. clear Hlk3. rename Hlk3' into Hlk3.
  unfold Py.bind at 1. unfold set__deepcopy__ at 1. rewrite Ho3.
  set (h4 := <[self:=OReq c attrs (Some hk)]> h3).
  destruct hk as [|bound]; [discriminate|].
  (* the copy *)
  assert (Hcs : cpa <> self) by lia.
  assert (Hcd : cpa <> d) by lia.
  assert (Hc3 : exists attrs' own', h3 !! cpa = Some (OReq c attrs' own')).
  { unfold shape_at in Hshape. rewrite Ho2 in Hshape.
    destruct (h3 !! cpa) as [[| |c' attrs' own']|]; try discriminate.
    injection Hshape as ->. eauto. }
  destruct Hc3 as (attrs' & own' & Hc3).
  assert (Hc4 : h4 !! cpa = Some (OReq c attrs' own')).
  { subst h4. rewrite list_lookup_insert_ne by congruence. exact Hc3. }
  unfold Py.bind at 1. unfold set__deepcopy__ at 1. rewrite Hc4.
  set (h5 := <[cpa:=OReq c attrs' (Some (HookBound cpa))]> h4).
  assert (Hl3 : cpa < length h3) by (eapply lookup_lt_Some; exact Hc3).
  assert (Hc5 : h5 !! cpa = Some (OReq c attrs' (Some (HookBound cpa)))).
  { subst h5. apply list_lookup_insert_eq. subst h4. rewrite length_insert. exact Hl3. }
  unfold Py.bind at 1. unfold py_getattr at 1. rewrite Hc5.
  destruct (dict_get "_runtime_parameters" attrs') as [rp'|] eqn:Hrp'; [|discriminate].
  assert (Hfresh : fresh_from n rp').
  { apply (dict_get_Forall (fresh_from n) _ _ _ (inv_new _ _ _ Hinv3 _ _ _ _ Hcpa Hc3) Hrp'). }
  (* the [runtime_parameters] of the copy is a dict, as that of the instance *)
  destruct (Hrp_rec self c attrs memo h2 h3 (VRef cpa) memo3 d cd Hinv2 Hs Ho2 Hmemo Hrp
              ltac:(unfold shape_at; rewrite Hd2; reflexivity) Hr)
    as (cpa0 & attrs0 & own0 & d' & [= <-] & Hc0 & Hrp0 & Hsd').
  rewrite Hc3 in Hc0. injection Hc0 as <- <-. rewrite Hrp' in Hrp0. injection Hrp0 as ->.
  assert (Hd3' : exists cd' items', h3 !! d' = Some (ODict cd' items')).
  { unfold shape_at in Hsd'. destruct (h3 !! d') as [[cd' items'| |]|]; try discriminate. eauto. }
  destruct Hd3' as (cd' & items' & Hd3').
  assert (Hd5 : h5 !! d' = Some (ODict cd' items')).
  { subst h5 h4. rewrite !list_lookup_insert_ne by (intros ->; congruence). exact Hd3'. }
  unfold Py.bind at 1. unfold py_setitem at 1. rewrite Hd5. cbv beta iota.
  cbn in Hfresh.
  assert (Hd'c : d' <> cpa) by (intros ->; congruence).
  assert (Hd's : d' <> self) by lia.
  assert (Hd'd : d' <> d) by lia.
  set (h6 := <[d':=ODict cd' (dict_set "batch_data" v items')]> h5).
  assert (Ho6 : h6 !! self = Some (OReq c attrs (Some (HookBound bound)))).
  { subst h6 h5 h4. rewrite !list_lookup_insert_ne by congruence.
    apply list_lookup_insert_eq. eapply lookup_lt_Some; exact Ho3. }
  unfold Py.bind at 1. unfold py_getattr at 1. rewrite Ho6, Hrp.
  assert (Hd6 : h6 !! d = Some (ODict cd items3)).
  { subst h6 h5 h4. rewrite !list_lookup_insert_ne by congruence. exact Hd3. }
  unfold Py.bind at 1. unfold py_setitem. rewrite Hd6.
  unfold Py.ret. intros [= <- <- <-].
  set (h7 := <[d:=ODict cd (dict_set "batch_data" v items3)]> h6).
  (* the invariant *)
  assert (Hinv4 : inv n h4 memo3).
  { eapply inv_insert; [exact Hinv3|exact Ho3|reflexivity| |intros; lia| |].
    - intros _. split; [exact Hattrs|exact Hhk].
    - intros ? ? ? [= <- <- <-]. exact Hshk.
    - intros _ ? ? ? [= <- <- <-]. exact (inv_keys _ _ _ Hinv _ _ _ _ Hs Ho). }
  assert (Hinv5 : inv n h5 memo3).
  { eapply inv_insert; [exact Hinv4|exact Hc4|reflexivity|intros; lia| | |intros; lia].
    - intros _ ? ? ? [= <- <- <-]. exact (inv_new _ _ _ Hinv3 _ _ _ _ Hcpa Hc3).
    - intros ? ? ? [= <- <- <-]. reflexivity. }
  assert (Hinv6 : inv n h6 memo3).
  { eapply inv_insert;
      [exact Hinv5|exact Hd5|reflexivity|intros; lia|intros _ ? ? ? [=]|intros ? ? ? [=]|intros _ ? ? ? [=]]. }
  assert (Hinv7 : inv n h7 memo3).
  { eapply inv_insert; [exact Hinv6|exact Hd6|reflexivity| |intros _ ? ? ? [=]|intros ? ? ? [=]|intros _ ? ? ? [=]].
    intros _. cbn. apply dict_set_Forall; [|exact Hvo].
    exact (inv_old_obj _ _ _ _ _ Hinv6 Hdn Hd6). }
  (* the frame from [h2] to [h6] *)
  assert (Hf26 : frame n h2 h6).
  { assert (Hf34 : frame n h3 h4)
      by (apply (frame_insert n h3 self _ _ Ho3); cbn; auto).
    assert (Hf45 : frame n h4 h5)
      by (apply (frame_insert n h4 cpa _ _ Hc4); cbn; auto).
    assert (Hf56 : frame n h5 h6)
      by (apply (frame_insert n h5 d' _ _ Hd5); cbn; split;
          [reflexivity
          |split; [intros k [Hlt|Hne]; [lia|apply dict_get_set_ne; exact Hne]
                  |apply dict_set_NoDup]]).
    exact (frame_trans _ _ _ _ Hf3 (frame_trans _ _ _ _ Hf34 (frame_trans _ _ _ _ Hf45 Hf56))). }
  assert (Hd7 : h7 !! d = Some (ODict cd (dict_set "batch_data" v items3))).
  { subst h7. apply list_lookup_insert_eq. eapply lookup_lt_Some; exact Hd6. }
  split; [exact Hinv7|]. split; [|split].
  - intros a o Ha. destruct (Nat.eq_dec a d) as [->|Had].
    + exists (ODict cd (dict_set "batch_data" v items3)). split; [exact Hd7|].
      rewrite Hd in Ha. injection Ha as <-. cbn. split; [reflexivity|].
      split; [|intros Hnd; apply dict_set_NoDup, Hnd3, dict_del_NoDup; exact Hnd].
      intros k _.
      destruct (String.eqb k "batch_data") eqn:Ek.
      * apply String.eqb_eq in Ek. subst k. rewrite dict_get_set_eq. symmetry. exact Hv.
      * apply String.eqb_neq in Ek. rewrite dict_get_set_ne by exact Ek.
        rewrite Hlk3. apply dict_get_del_ne. exact Ek.
    + assert (Ha2 : exists o2, h2 !! a = Some o2 /\ stable n a o o2).
      { destruct (Nat.eq_dec a self) as [->|Has].
        - exists (OReq c attrs (Some HookNone)). split; [exact Ho2|].
          rewrite Ho in Ha. injection Ha as <-. cbn. auto.
        - exists o. split; [|apply stable_refl].
          subst h2 h1. rewrite !list_lookup_insert_ne by congruence. exact Ha. }
      destruct Ha2 as (o2 & Ha2 & Hst2). destruct (Hf26 _ _ Ha2) as (o6 & Ha6 & Hst6).
      exists o6. split; [subst h7; rewrite list_lookup_insert_ne by congruence; exact Ha6|].
      eapply stable_trans; eassumption.
  - cbn. exists cpa. split; [reflexivity|]. split; [exact Hcpa|].
    unfold shape_at. rewrite Ho.
    subst h7 h6. rewrite !list_lookup_insert_ne by congruence. rewrite Hc5. reflexivity.
  - exists h3, cpa, attrs', own', own3, (HookBound bound), d', cd', items', items3.
    split; [reflexivity|]. split; [first [exact Hr|reflexivity]|]. split; [exact Ho3|].
    split; [exact Hc3|]. split; [exact Hrp'|]. split; [exact Hcpa|]. split; [exact Hfresh|].
    split; [|split; [exact Hd3|reflexivity]].
    subst h5 h4. rewrite !list_lookup_insert_ne in Hd5 by congruence. exact Hd5.
Qed.

End Method.

Lemma method_spec n rec self memo h h' cp memo' :
  deepcopy_spec n rec -> rp_spec n rec ->
  inv n h memo -> self < n -> memo_get self memo = None ->
  RuntimeBatchRequest.__deepcopy__ rec self memo h = (h', Ok (cp, memo')) ->
  inv n h' memo' /\ frame n h h' /\ copied n h h' (VRef self) cp.
Proof.
  intros Hrec Hrprec Hinv Hs Hmemo Hm.
  destruct (inv_old _ _ _ Hinv self Hs) as (o & Ho & _).
  destruct o as [c0 items0|t|c attrs own].
  1-2: exfalso; revert Hm; unfold RuntimeBatchRequest.__deepcopy__, Py.bind,
         py_getattr_or_None, reading, isinstance_dict, set__deepcopy__;
       rewrite Ho; unfold Py.ret; cbv beta iota; rewrite ?Ho; discriminate.
  destruct (dict_get "_runtime_parameters" attrs) as [rpv|] eqn:Hrp.
  - destruct rpv as [| | | | |d].
    1-5: eapply (method_without_batch_data n rec Hrec); try eassumption;
         revert Hm; unfold RuntimeBatchRequest.__deepcopy__;
         unfold Py.bind at 1; unfold py_getattr_or_None; rewrite Ho, Hrp;
         intros Hm; exact Hm.
    destruct (h !! d) as [[cd items| |]|] eqn:Hd.
    + destruct (dict_get "batch_data" items) as [v|] eqn:Hv.
      * eapply (method_with_batch_data n rec Hrec Hrprec) in Hm; try eassumption.
        destruct Hm as (? & ? & ? & _). auto.
      * eapply (method_without_batch_data n rec Hrec); try eassumption.
        revert Hm. unfold RuntimeBatchRequest.__deepcopy__.
        unfold Py.bind at 1. unfold py_getattr_or_None. rewrite Ho, Hrp.
        unfold Py.bind at 1. unfold reading, isinstance_dict. rewrite Hd.
        unfold Py.bind at 1. unfold py_contains. rewrite Hd. unfold dict_has. rewrite Hv.
        intros Hm; exact Hm.
    + eapply (method_without_batch_data n rec Hrec); try eassumption.
      revert Hm. unfold RuntimeBatchRequest.__deepcopy__.
      unfold Py.bind at 1. unfold py_getattr_or_None. rewrite Ho, Hrp.
      unfold Py.bind at 1. unfold reading, isinstance_dict. rewrite Hd.
      intros Hm; exact Hm.
    + eapply (method_without_batch_data n rec Hrec); try eassumption.
      revert Hm. unfold RuntimeBatchRequest.__deepcopy__.
      unfold Py.bind at 1. unfold py_getattr_or_None. rewrite Ho, Hrp.
      unfold Py.bind at 1. unfold reading, isinstance_dict. rewrite Hd.
      intros Hm; exact Hm.
    + eapply (method_without_batch_data n rec Hrec); try eassumption.
      revert Hm. unfold RuntimeBatchRequest.__deepcopy__.
      unfold Py.bind at 1. unfold py_getattr_or_None. rewrite Ho, Hrp.
      unfold Py.bind at 1. unfold reading, isinstance_dict. rewrite Hd.
      intros Hm; exact Hm.
  - eapply (method_without_batch_data n rec Hrec); try eassumption.
    revert Hm. unfold RuntimeBatchRequest.__deepcopy__.
    unfold Py.bind at 1. unfold py_getattr_or_None. rewrite Ho, Hrp.
    intros Hm; exact Hm.
Qed.

Lemma find__deepcopy__old n c a own self :
  a < n -> old_hook n own -> find__deepcopy__ c a own = Some (HookBound self) -> self < n.
Proof. intros Ha Hown Hf. exact (old_obj_hook n c a own _ Ha Hown Hf). Qed.

Lemma deepcopy_memo_rp_step n f :
  deepcopy_spec n (copy.deepcopy_memo f) -> rp_spec n (copy.deepcopy_memo (S f)).
Proof.
  intros IH self c attrs memo h h' cp memo' d cd Hinv Hs Ho Hmemo Hrp Hd.
  cbn [copy.deepcopy_memo]. rewrite Hmemo.
  unfold Py.bind at 1. unfold load. rewrite Ho. cbn [find__deepcopy__].
  intros Hr.
  destruct (reconstruct_content n _ IH _ _ _ _ _ _ _ _ _ Hinv Hs Ho
              ltac:(intros ? [=]) (inv_keys _ _ _ Hinv _ _ _ _ Hs Ho) Hr)
    as (-> & attrs' & own' & Hy & Hall).
  destruct (copied_items_get _ _ _ _ _ _ _ Hall Hrp) as (x' & Hx' & b & -> & _ & Hb).
  exists (length h), attrs', own', b. rewrite Hb, Hd. auto.
Qed.

Lemma deepcopy_memo_specs n f :
  deepcopy_spec n (copy.deepcopy_memo f) /\ rp_spec n (copy.deepcopy_memo f).
Proof.
  induction f as [|f [IH IHrp]].
  { split; [intros x memo h h' y memo' Hinv Hx; discriminate|].
    intros self c attrs memo h h' cp memo' d cd _ _ _ _ _ _. discriminate. }
  split; [|apply deepcopy_memo_rp_step; exact IH].
  intros x memo h h' y memo' Hinv Hx.
  cbn [copy.deepcopy_memo].
  destruct x as [| | | | |a];
    try (unfold Py.ret; intros [= <- <- <-]; split; [exact Hinv|];
         split; [apply frame_refl|reflexivity]).
  cbn in Hx.
  destruct (memo_get a memo) as [ym|] eqn:Hmemo.
  - unfold Py.ret. intros [= <- <- <-]. split; [exact Hinv|]. split; [apply frame_refl|].
    destruct (inv_memo _ _ _ Hinv _ _ Hmemo) as (_ & b & -> & Hb & Hs). cbn. eauto.
  - destruct (inv_old _ _ _ Hinv a Hx) as (o & Ho & Hcl).
    unfold Py.bind at 1. unfold load. rewrite Ho.
    destruct o as [c items|t|c attrs own].
    + apply (deepcopy_dict_spec n _ IH); assumption.
    + apply (deepcopy_payload_spec n); assumption.
    + destruct (find__deepcopy__ c a own) as [[|self]|] eqn:Hfind.
      * apply (reconstruct_spec n _ IH); try assumption.
        intros self ->. discriminate.
      * pose proof (find__deepcopy__old n c a own self Hx (proj2 Hcl) Hfind) as Hself.
        unfold Py.bind at 1.
        destruct (RuntimeBatchRequest.__deepcopy__ _ self memo h) as [h1 [[cp memo1]|e]] eqn:Hm;
          [|discriminate].
        pose proof (find_self_hook _ _ _ _ (inv_hooks _ _ _ Hinv _ _ _ _ Ho) Hfind) as Hsa.
        cbn in Hsa. subst self.
        destruct (method_spec n _ _ _ _ _ _ _ IH IHrp Hinv Hself Hmemo Hm) as (Hinv1 & Hf1 & Hc1).
        destruct Hc1 as (b & -> & Hb & Hs).
        assert (Hsa : shape_at h1 b = shape_at h1 a).
        { rewrite Hs. symmetry. apply (frame_shape n); [exact Hf1|eauto]. }
        cbn [fst snd]. destruct (py_is (VRef b) (VRef a)); unfold Py.ret; intros [= <- <- <-].
        -- split; [exact Hinv1|]. split; [exact Hf1|]. cbn. exists b.
           split; [reflexivity|]. split; [exact Hb|].
           rewrite Hsa. apply (frame_shape n); [exact Hf1|eauto].
        -- split; [apply inv_memo_set; assumption|]. split; [exact Hf1|]. cbn. exists b.
           split; [reflexivity|]. split; [exact Hb|].
           rewrite Hsa. apply (frame_shape n); [exact Hf1|eauto].
      * apply (reconstruct_spec n _ IH); try assumption.
        intros self ->. discriminate.
Qed.

Theorem deepcopy_memo_spec n f : deepcopy_spec n (copy.deepcopy_memo f).
Proof. exact (proj1 (deepcopy_memo_specs n f)). Qed.

Lemma deepcopy_memo_rp n f : rp_spec n (copy.deepcopy_memo f).
Proof. exact (proj2 (deepcopy_memo_specs n f)). Qed.

(** *** The memo only grows *)

Lemma memo_le_refl memo : memo_le memo memo.
Proof. intros a Ha. exact Ha. Qed.

Lemma memo_le_trans m1 m2 m3 : memo_le m1 m2 -> memo_le m2 m3 -> memo_le m1 m3.
Proof. intros H12 H23 a Ha. auto. Qed.

Lemma memo_le_set a y memo : memo_le memo (memo_set a y memo).
Proof.
  intros a' Ha'. unfold memo_set. cbn. destruct (Nat.eqb a' a); [eauto|exact Ha'].
Qed.

Lemma deepcopy_items_grows rec set y :
  memo_grows rec ->
  forall items memo h h' memo',
    copy._deepcopy_items rec set y items memo h = (h', Ok memo') -> memo_le memo memo'.
Proof.
  intros Hrec. induction items as [|[k v] items IH]; intros memo h h' memo'.
  - cbn. intros [= _ <-]. apply memo_le_refl.
  - cbn [copy._deepcopy_items]. bind_step h1 p E1. bind_step h2 u E2. intros Hloop.
    destruct p as [v' memo1]. apply Hrec in E1. apply IH in Hloop.
    eapply memo_le_trans; eassumption.
Qed.

Lemma method_grows rec self :
  memo_grows rec ->
  forall memo h h' cp memo',
    RuntimeBatchRequest.__deepcopy__ rec self memo h = (h', Ok (cp, memo')) ->
    memo_le memo memo'.
Proof.
  intros Hrec memo h h' cp memo'. unfold RuntimeBatchRequest.__deepcopy__.
  bind_step h1 rp E1. bind_step h2 isd E2. bind_step h3 has E3. destruct has.
  - bind_step h4 bd E4. bind_step h5 hk E5. bind_step h6 u6 E6. bind_step h7 p E7.
    bind_step h8 u8 E8. destruct hk; [discriminate|].
    bind_step h9 u9 E9. bind_step h10 rp' E10. bind_step h11 u11 E11.
    bind_step h12 rp2 E12. bind_step h13 u13 E13.
    unfold Py.ret. intros [= _ _ <-]. destruct p as [cp' memo1]. eapply Hrec. exact E7.
  - bind_step h4 u4 E4. intros Hr. eapply Hrec. exact Hr.
Qed.

Theorem deepcopy_memo_grows f : memo_grows (copy.deepcopy_memo f).
Proof.
  induction f as [|f IH]; intros x memo h h' y memo'; [discriminate|].
  cbn [copy.deepcopy_memo].
  destruct x as [| | | | |a]; try (unfold Py.ret; intros [= _ _ <-]; apply memo_le_refl).
  destruct (memo_get a memo) as [ym|] eqn:Hmemo.
  - unfold Py.ret; intros [= _ _ <-]; apply memo_le_refl.
  - bind_step h1 o E1. destruct o as [c items|t|c attrs own].
    + unfold copy._deepcopy_dict. bind_step h2 y2 E2. bind_step h3 m3 E3.
      unfold Py.ret. intros [= _ _ <-].
      apply (deepcopy_items_grows _ _ _ IH) in E3.
      eapply memo_le_trans; [apply memo_le_set|exact E3].
    + unfold copy._deepcopy_payload. bind_step h2 y2 E2. unfold Py.ret. intros [= _ _ <-].
      apply memo_le_set.
    + assert (Hre : forall h h' y memo',
                 copy._reconstruct (copy.deepcopy_memo f) a c attrs own memo h
                 = (h', Ok (y, memo')) -> memo_le memo memo').
      { clear -IH. intros h h' y memo'. unfold copy._reconstruct.
        bind_step h2 y2 E2. bind_step h3 m3 E3.
        unfold Py.ret. intros [= _ _ <-].
        apply (deepcopy_items_grows _ _ _ IH) in E3.
        eapply memo_le_trans; [apply memo_le_set|exact E3]. }
      destruct (find__deepcopy__ c a own) as [[|self]|]; try apply Hre.
      bind_step h2 p E2. destruct p as [cp memo1]. apply (method_grows _ _ IH) in E2.
      cbn [fst snd]. destruct (py_is cp (VRef a)); unfold Py.ret; intros [= _ _ <-].
      * exact E2.
      * eapply memo_le_trans; [exact E2|apply memo_le_set].
Qed.

(** *** What the method does, step by step *)

Lemma method_with_batch_data_run rec self memo h c attrs own d cd items v s
      h3 cpa memo3 ownx c' attrs' own3 d' cd' items' items3 :
  h !! self = Some (OReq c attrs own) ->
  dict_get "_runtime_parameters" attrs = Some (VRef d) ->
  h !! d = Some (ODict cd items) ->
  dict_get "batch_data" items = Some v ->
  find__deepcopy__ c self own = Some (HookBound s) ->
  rec (VRef self) memo
      (<[self:=OReq c attrs (Some HookNone)]> (<[d:=ODict cd (dict_del "batch_data" items)]> h))
  = (h3, Ok (VRef cpa, memo3)) ->
  h3 !! self = Some (OReq c attrs ownx) ->
  h3 !! cpa = Some (OReq c' attrs' own3) -> cpa <> self ->
  dict_get "_runtime_parameters" attrs' = Some (VRef d') ->
  h3 !! d' = Some (ODict cd' items') ->
  h3 !! d = Some (ODict cd items3) -> d <> d' ->
  RuntimeBatchRequest.__deepcopy__ rec self memo h
  = (after_method h3 self cpa d d' c c' attrs attrs' cd cd' items3 items' (HookBound s) v,
     Ok (VRef cpa, memo3)).
Proof.
  intros Ho Hrp Hd Hv Hfind Hr Ho3 Hc3 Hcs Hrp' Hd'3 Hd3 Hdd.
  assert (Hsd : self <> d) by (intros ->; congruence).
  assert (Hcd : cpa <> d) by (intros ->; congruence).
  assert (Hcd' : cpa <> d') by (intros ->; congruence).
  assert (Hsd' : self <> d') by (intros ->; congruence).
  unfold RuntimeBatchRequest.__deepcopy__.
  unfold Py.bind at 1. unfold py_getattr_or_None. rewrite Ho, Hrp.
  unfold Py.bind at 1. unfold reading, isinstance_dict. rewrite Hd.
  unfold Py.bind at 1. unfold py_contains. rewrite Hd. unfold dict_has. rewrite Hv.
  unfold Py.bind at 1. unfold py_pop. rewrite Hd, Hv.
  unfold Py.bind at 1. unfold get__deepcopy__.
  rewrite list_lookup_insert_ne by congruence. rewrite Ho, Hfind.
  unfold Py.bind at 1. unfold set__deepcopy__ at 1.
  rewrite list_lookup_insert_ne by congruence. rewrite Ho.
  unfold Py.bind at 1. rewrite Hr. cbn [fst snd].
  unfold Py.bind at 1. unfold set__deepcopy__ at 1. rewrite Ho3.
  unfold Py.bind at 1. unfold set__deepcopy__ at 1.
  rewrite list_lookup_insert_ne by congruence. rewrite Hc3.
  unfold Py.bind at 1. unfold py_getattr at 1.
  rewrite list_lookup_insert_eq
    by (rewrite length_insert; eapply lookup_lt_Some; exact Hc3).
  rewrite Hrp'.
  unfold Py.bind at 1. unfold py_setitem at 1.
  rewrite !list_lookup_insert_ne by congruence. rewrite Hd'3.
  unfold Py.bind at 1. unfold py_getattr at 1.
  rewrite !list_lookup_insert_ne by congruence.
  rewrite list_lookup_insert_eq by (eapply lookup_lt_Some; exact Ho3).
  rewrite Hrp.
  unfold Py.bind at 1. unfold py_setitem at 1.
  rewrite !list_lookup_insert_ne by congruence. rewrite Hd3.
  reflexivity.
Qed.

(** With the instance's [__deepcopy__] set to [None], [copy.deepcopy] takes
    the general path. *)
Lemma deepcopy_memo_unhooked f a c attrs own memo h :
  memo_get a memo = None ->
  h !! a = Some (OReq c attrs own) ->
  (forall self, find__deepcopy__ c a own <> Some (HookBound self)) ->
  copy.deepcopy_memo (S f) (VRef a) memo h
  = copy._reconstruct (copy.deepcopy_memo f) a c attrs own memo h.
Proof.
  intros Hm Ho Hf. cbn [copy.deepcopy_memo]. rewrite Hm.
  unfold Py.bind at 1. unfold load. rewrite Ho.
  destruct (find__deepcopy__ c a own) as [[|self]|]; try reflexivity.
  destruct (Hf self eq_refl).
Qed.

(** *** Termination *)

Lemma filter_length_le {A} (p q : A -> bool) (l : list A) :
  (forall x, q x = true -> p x = true) ->
  length (List.filter q l) <= length (List.filter p l).
Proof.
  intros Hpq. induction l as [|x l IH]; cbn; [lia|].
  destruct (q x) eqn:Eq.
  - rewrite (Hpq x Eq). cbn. lia.
  - destruct (p x); cbn; lia.
Qed.

Lemma filter_length_lt {A} (p q : A -> bool) (l : list A) a :
  (forall x, q x = true -> p x = true) ->
  In a l -> p a = true -> q a = false ->
  S (length (List.filter q l)) <= length (List.filter p l).
Proof.
  intros Hpq. induction l as [|x l IH]; cbn; [contradiction|].
  intros [->|Hin] Hp Hq.
  - rewrite Hp, Hq. cbn. pose proof (filter_length_le p q l Hpq). lia.
  - specialize (IH Hin Hp Hq). destruct (q x) eqn:Eq.
    + rewrite (Hpq x Eq). cbn. lia.
    + destruct (p x); cbn; lia.
Qed.

Lemma uncovered_le n memo memo' : memo_le memo memo' -> uncovered n memo' <= uncovered n memo.
Proof.
  intros Hle. apply filter_length_le. intros a.
  destruct (memo_get a memo) eqn:E; [|reflexivity].
  destruct (Hle a) as [y ->]; [eauto|discriminate].
Qed.

Lemma uncovered_set n a y memo :
  a < n -> memo_get a memo = None ->
  S (uncovered n (memo_set a y memo)) <= uncovered n memo.
Proof.
  intros Ha Hm. apply (filter_length_lt _ _ _ a).
  - intros a'. unfold memo_set. cbn. destruct (Nat.eqb a' a); [discriminate|auto].
  - apply in_seq. lia.
  - rewrite Hm. reflexivity.
  - unfold memo_set. cbn. rewrite Nat.eqb_refl. reflexivity.
Qed.

Lemma keys_ok_frame n h h' memo :
  inv n h memo -> keys_ok n h -> frame n h h' -> keys_ok n h'.
Proof.
  intros Hinv Hk Hf a c attrs own Ha Ho'.
  destruct (inv_old _ _ _ Hinv a Ha) as (o & Ho & _).
  destruct (Hf _ _ Ho) as (o' & Ho2 & Hst). rewrite Ho' in Ho2. injection Ho2 as <-.
  destruct o as [| |c0 attrs0 own0]; try contradiction. destruct Hst as [-> ->].
  eapply Hk; eassumption.
Qed.

Lemma keys_ok_insert n (h : heap) a o :
  keys_ok n h ->
  (a < n -> forall c attrs own, o = OReq c attrs own -> List.NoDup (map fst attrs)) ->
  keys_ok n (<[a:=o]> h).
Proof.
  intros Hk Ho b c attrs own Hb Hlk. destruct (Nat.eq_dec b a) as [->|Hne].
  - destruct (Nat.lt_ge_cases a (length h)) as [Hal|Hal].
    + rewrite list_lookup_insert_eq in Hlk by exact Hal. injection Hlk as ->.
      eapply Ho; [exact Hb|reflexivity].
    + rewrite lookup_ge_None_2 in Hlk; [discriminate|]. rewrite length_insert. exact Hal.
  - rewrite list_lookup_insert_ne in Hlk by congruence. eapply Hk; eassumption.
Qed.

Lemma keys_ok_alloc n (h : heap) o memo : inv n h memo -> keys_ok n h -> keys_ok n (h ++ [o]).
Proof.
  intros Hinv Hk a c attrs own Ha Hlk.
  rewrite lookup_app_l in Hlk by (pose proof (inv_len _ _ _ Hinv); lia).
  eapply Hk; eassumption.
Qed.

Lemma dict_setitem_total c : setter_total dict_setitem (SDict c).
Proof.
  intros yb k v h. unfold shape_at, dict_setitem.
  destruct (h !! yb) as [[| |]|]; try discriminate. eauto.
Qed.

Lemma py_setattr_total c : setter_total py_setattr (SReq c).
Proof.
  intros yb k v h. unfold shape_at, py_setattr.
  destruct (h !! yb) as [[| |]|]; try discriminate. eauto.
Qed.

Lemma deepcopy_items_total n m f set sh yb :
  total_at n m f -> setter_ok set -> setter_total set sh -> n <= yb ->
  forall items memo h,
    inv n h memo -> keys_ok n h -> shape_at h yb = Some sh ->
    Forall (fun kv => old_val n (snd kv)) items ->
    uncovered n memo <= m ->
    exists h' memo',
      copy._deepcopy_items (copy.deepcopy_memo f) set (VRef yb) items memo h = (h', Ok memo').
Proof.
  intros Htot Hset Hst Hyb. induction items as [|[k v] items IH];
    intros memo h Hinv Hk Hsh Hold Hm.
  - cbn. unfold Py.ret. eauto.
  - inversion Hold as [|? ? Hv Hold']; subst. cbn in Hv.
    cbn [copy._deepcopy_items].
    destruct (Htot v memo h Hinv Hk Hv Hm) as (h1 & v' & memo1 & Hr).
    unfold Py.bind at 1. rewrite Hr. cbn [fst snd].
    destruct (deepcopy_memo_spec n f _ _ _ _ _ _ Hinv Hv Hr) as (Hinv1 & Hf1 & Hc1).
    pose proof (deepcopy_memo_grows f _ _ _ _ _ _ Hr) as Hle.
    assert (Hsh1 : shape_at h1 yb = Some sh).
    { rewrite (frame_shape n h h1 yb Hf1); [exact Hsh|].
      unfold shape_at in Hsh. destruct (h !! yb); [eauto|discriminate]. }
    destruct (Hst yb k v' h1 Hsh1) as (h2 & Hs).
    unfold Py.bind at 1. rewrite Hs.
    assert (Hinv2 : inv n h2 memo1).
    { eapply (inv_setter n set); [exact Hset|exact Hinv1|exact Hyb| |exact Hs].
      eapply copied_fresh; eassumption. }
    destruct (Hset _ _ _ _ _ Hs) as (o & o' & Ho & -> & Hso & _).
    apply IH; [exact Hinv2| | |exact Hold'|].
    + apply keys_ok_insert; [exact (keys_ok_frame n h h1 memo Hinv Hk Hf1)|]. intros; lia.
    + unfold shape_at. rewrite list_lookup_insert_eq by (eapply lookup_lt_Some; exact Ho).
      rewrite Hso. unfold shape_at in Hsh1. rewrite Ho in Hsh1. exact Hsh1.
    + pose proof (uncovered_le n _ _ Hle). lia.
Qed.

(** A container, dict or instance, copied into a new container [blank]. *)
Lemma deepcopy_container_total n m f set sh blank a o items memo h :
  total_at n m f -> setter_ok set -> setter_total set sh ->
  inv n h memo -> keys_ok n h -> a < n -> h !! a = Some o ->
  shape_of blank = sh -> shape_of o = sh ->
  (forall c attrs own, blank = OReq c attrs own -> attrs = [] /\ self_hook (length h) own) ->
  Forall (fun kv => old_val n (snd kv)) items ->
  memo_get a memo = None ->
  uncovered n memo <= S m ->
  exists h' memo',
    copy._deepcopy_items (copy.deepcopy_memo f) set (VRef (length h)) items
                         (memo_set a (VRef (length h)) memo) (h ++ [blank]) = (h', Ok memo').
Proof.
  intros Htot Hset Hst Hinv Hk Ha Ho Hb Hso Hblank Hitems Hmemo Hm.
  pose proof (inv_len _ _ _ Hinv) as Hlen.
  apply (deepcopy_items_total n m f set sh (length h) Htot Hset Hst Hlen).
  - apply inv_memo_set; [apply inv_alloc; assumption|exact Ha|exact Hlen|].
    unfold shape_at. rewrite lookup_new, lookup_app_l, Ho by lia. congruence.
  - eapply keys_ok_alloc; eassumption.
  - unfold shape_at. rewrite lookup_new. congruence.
  - exact Hitems.
  - pose proof (uncovered_set n a (VRef (length h)) memo Ha Hmemo). lia.
Qed.

Lemma reconstruct_total n m f a c attrs own memo h :
  total_at n m f ->
  inv n h memo -> keys_ok n h -> a < n -> h !! a = Some (OReq c attrs own) ->
  (forall self, own <> Some (HookBound self)) ->
  memo_get a memo = None ->
  uncovered n memo <= S m ->
  exists h' y memo',
    copy._reconstruct (copy.deepcopy_memo f) a c attrs own memo h = (h', Ok (y, memo')).
Proof.
  intros Htot Hinv Hk Ha Ho Hown Hmemo Hm.
  destruct (deepcopy_container_total n m f py_setattr (SReq c) (OReq c [] own) a _ attrs memo h
              Htot py_setattr_ok (py_setattr_total c) Hinv Hk Ha Ho eq_refl eq_refl)
    as (h' & memo' & Hloop); try assumption.
  - intros ? ? ? [= _ <- <-]. split; [reflexivity|].
    destruct own as [[|self]|]; try exact I. destruct (Hown self eq_refl).
  - exact (proj1 (inv_old_obj _ _ _ _ _ Hinv Ha Ho)).
  - unfold copy._reconstruct, Py.bind, alloc. rewrite Hloop. unfold Py.ret. eauto.
Qed.

Lemma deepcopy_dict_total n m f a c items memo h :
  total_at n m f ->
  inv n h memo -> keys_ok n h -> a < n -> h !! a = Some (ODict c items) ->
  memo_get a memo = None ->
  uncovered n memo <= S m ->
  exists h' y memo',
    copy._deepcopy_dict (copy.deepcopy_memo f) a c items memo h = (h', Ok (y, memo')).
Proof.
  intros Htot Hinv Hk Ha Ho Hmemo Hm.
  destruct (deepcopy_container_total n m f dict_setitem (SDict c) (ODict c []) a _ items memo h
              Htot dict_setitem_ok (dict_setitem_total c) Hinv Hk Ha Ho eq_refl eq_refl)
    as (h' & memo' & Hloop); try assumption.
  - discriminate.
  - exact (inv_old_obj _ _ _ _ _ Hinv Ha Ho).
  - unfold copy._deepcopy_dict, Py.bind, alloc. rewrite Hloop. unfold Py.ret. eauto.
Qed.

Lemma inv_unhook n h memo a c attrs own :
  inv n h memo -> a < n -> h !! a = Some (OReq c attrs own) ->
  inv n (<[a:=OReq c attrs (Some HookNone)]> h) memo.
Proof.
  intros Hinv Ha Ho.
  eapply inv_insert; [exact Hinv|exact Ho|reflexivity| | | |].
  - intros _. split; [|exact I]. exact (proj1 (inv_old_obj _ _ _ _ _ Hinv Ha Ho)).
  - intros; lia.
  - intros ? ? ? [= <- <- <-]. exact I.
  - intros _ ? ? ? [= <- <- <-]. exact (inv_keys _ _ _ Hinv _ _ _ _ Ha Ho).
Qed.

Lemma keys_ok_unhook n (h : heap) a c attrs own hk :
  keys_ok n h -> h !! a = Some (OReq c attrs own) ->
  keys_ok n (<[a:=OReq c attrs hk]> h).
Proof.
  intros Hk Ho. apply keys_ok_insert; [exact Hk|].
  intros Ha ? ? ? [= <- <- <-]. exact (Hk _ _ _ _ Ha Ho).
Qed.

Lemma unhooked_total n m f a c attrs own memo h :
  total_at n m f ->
  inv n h memo -> keys_ok n h -> a < n -> h !! a = Some (OReq c attrs own) ->
  memo_get a memo = None -> uncovered n memo <= S m ->
  exists h' y memo',
    copy.deepcopy_memo (S f) (VRef a) memo (<[a:=OReq c attrs (Some HookNone)]> h)
    = (h', Ok (y, memo')).
Proof.
  intros Htot Hinv Hk Ha Ho Hmemo Hm.
  assert (Ho1 : <[a:=OReq c attrs (Some HookNone)]> h !! a
                = Some (OReq c attrs (Some HookNone))).
  { apply list_lookup_insert_eq. eapply lookup_lt_Some; exact Ho. }
  rewrite (deepcopy_memo_unhooked f a c attrs (Some HookNone)); [|exact Hmemo|exact Ho1|discriminate].
  eapply reconstruct_total; try eassumption.
  - eapply inv_unhook; eassumption.
  - eapply keys_ok_unhook; eassumption.
  - discriminate.
Qed.

(** The method on an instance that holds ["batch_data"], once the call back
    to [copy.deepcopy] has returned. *)
Lemma method_with_batch_data_result n f a c attrs own memo h d cd items v h3 y memo3 :
  inv n h memo -> keys_ok n h -> a < n -> h !! a = Some (OReq c attrs own) ->
  find__deepcopy__ c a own = Some (HookBound a) ->
  memo_get a memo = None ->
  dict_get "_runtime_parameters" attrs = Some (VRef d) ->
  h !! d = Some (ODict cd items) ->
  dict_get "batch_data" items = Some v ->
  copy.deepcopy_memo (S f) (VRef a) memo
    (<[a:=OReq c attrs (Some HookNone)]> (<[d:=ODict cd (dict_del "batch_data" items)]> h))
  = (h3, Ok (y, memo3)) ->
  exists attrs' own' ownx d' items' items3,
    y = VRef (length h)
    /\ h3 !! a = Some (OReq c attrs ownx)
    /\ h3 !! length h = Some (OReq c attrs' own')
    /\ copied_items n h h3 attrs attrs'
    /\ dict_get "_runtime_parameters" attrs' = Some (VRef d')
    /\ n <= d'
    /\ h3 !! d' = Some (ODict cd items')
    /\ h3 !! d = Some (ODict cd items3)
    /\ (forall b, is_Some (h !! b) -> shape_at h3 b = shape_at h b)
    /\ RuntimeBatchRequest.__deepcopy__ (copy.deepcopy_memo (S f)) a memo h
       = (after_method h3 a (length h) d d' c c attrs attrs' cd cd items3 items' (HookBound a) v,
          Ok (VRef (length h), memo3)).
Proof.
  intros Hinv Hk Ha Ho Hfind Hmemo Hrp Hd Hv Hr.
  assert (Had : a <> d) by (intros ->; congruence).
  destruct (inv_old_obj _ _ _ _ _ Hinv Ha Ho) as [Hattrs Hown].
  assert (Hdn : d < n) by exact (dict_get_Forall (old_val n) _ _ _ Hattrs Hrp).
  pose proof (inv_old_obj _ _ _ _ _ Hinv Hdn Hd) as Hitems. cbn in Hitems.
  set (h1 := <[d:=ODict cd (dict_del "batch_data" items)]> h) in *.
  assert (Ho1 : h1 !! a = Some (OReq c attrs own)).
  { subst h1. rewrite list_lookup_insert_ne by congruence. exact Ho. }
  assert (Hinv1 : inv n h1 memo).
  { eapply inv_insert; [exact Hinv|exact Hd|reflexivity| |intros _ ? ? ? [=]|intros ? ? ? [=]|intros _ ? ? ? [=]].
    intros _. cbn. apply dict_del_Forall. exact Hitems. }
  set (h2 := <[a:=OReq c attrs (Some HookNone)]> h1) in *.
  assert (Hinv2 : inv n h2 memo) by (eapply inv_unhook; eassumption).
  assert (Ho2 : h2 !! a = Some (OReq c attrs (Some HookNone))).
  { subst h2. apply list_lookup_insert_eq. eapply lookup_lt_Some; exact Ho1. }
  assert (Hd2 : h2 !! d = Some (ODict cd (dict_del "batch_data" items))).
  { subst h2. rewrite list_lookup_insert_ne by congruence.
    subst h1. apply list_lookup_insert_eq. eapply lookup_lt_Some; exact Hd. }
  assert (Hlen : length h2 = length h).
  { subst h2 h1. rewrite !length_insert. reflexivity. }
  assert (Hs02 : forall b, shape_at h2 b = shape_at h b).
  { intros b. unfold shape_at. destruct (Nat.eq_dec b a) as [->|Hba].
    - rewrite Ho2, Ho. reflexivity.
    - destruct (Nat.eq_dec b d) as [->|Hbd].
      + rewrite Hd2, Hd. reflexivity.
      + subst h2 h1. rewrite !list_lookup_insert_ne by congruence. reflexivity. }
  pose proof Hr as Hre.
  rewrite (deepcopy_memo_unhooked f a c attrs (Some HookNone)) in Hre;
    [|exact Hmemo|exact Ho2|discriminate].
  assert (Hnd : List.NoDup (map fst attrs)) by exact (Hk _ _ _ _ Ha Ho).
  destruct (reconstruct_content n _ (deepcopy_memo_spec n f) _ _ _ _ _ _ _ _ _
              Hinv2 Ha Ho2 ltac:(discriminate) Hnd Hre)
    as (-> & attrs' & own' & Hc3 & Hall).
  destruct (reconstruct_spec n _ (deepcopy_memo_spec n f) _ _ _ _ _ _ _ _ _
              Hinv2 Ha Ho2 ltac:(discriminate) Hre) as (Hinv3 & Hf3 & _).
  destruct (Hf3 _ _ Ho2) as (o3 & Ho3 & Hst3).
  destruct o3 as [| |c3 attrs3 own3]; try contradiction. destruct Hst3 as [-> ->].
  destruct (Hf3 _ _ Hd2) as (od3 & Hd3 & Hstd3).
  destruct od3 as [cd3 items3| |]; try contradiction. destruct Hstd3 as (-> & _).
  destruct (copied_items_get _ _ _ _ _ _ _ Hall Hrp) as (x' & Hrp' & (d' & -> & Hd'n & Hsh)).
  assert (Hd' : exists items', h3 !! d' = Some (ODict cd items')).
  { unfold shape_at in Hsh. rewrite Hd2 in Hsh.
    destruct (h3 !! d') as [[cd' items'| |]|]; try discriminate.
    injection Hsh as ->. eauto. }
  destruct Hd' as (items' & Hd').
  pose proof (inv_len _ _ _ Hinv2) as Hlen2.
  rewrite Hlen in *.
  exists attrs', own', own3, d', items', items3.
  split; [reflexivity|]. split; [exact Ho3|]. split; [exact Hc3|]. split.
  { eapply (copied_items_shift n h h2 h3 h3); [exact Hall|exact Hattrs| |auto].
    intros b Hb. split; [|symmetry; apply Hs02].
    destruct (inv_old _ _ _ Hinv2 b Hb) as (o & Hob & _). eauto. }
  split; [exact Hrp'|]. split; [exact Hd'n|]. split; [exact Hd'|]. split; [exact Hd3|].
  split.
  { intros b Hb. rewrite <- Hs02. apply (frame_shape n); [exact Hf3|].
    apply lookup_lt_is_Some_2. rewrite Hlen. apply lookup_lt_is_Some_1. exact Hb. }
  eapply (method_with_batch_data_run _ a memo h c attrs own d cd items v a h3 (length h));
    [exact Ho|exact Hrp|exact Hd|exact Hv|exact Hfind|exact Hr|exact Ho3|exact Hc3|lia
     |exact Hrp'|exact Hd'|exact Hd3|lia].
Qed.

Lemma holds_batch_data_true h attrs :
  holds_batch_data h attrs = true ->
  exists d cd items v,
    dict_get "_runtime_parameters" attrs = Some (VRef d)
    /\ h !! d = Some (ODict cd items)
    /\ dict_get "batch_data" items = Some v.
Proof.
  unfold holds_batch_data.
  destruct (dict_get "_runtime_parameters" attrs) as [[| | | | |d]|]; try discriminate.
  destruct (h !! d) as [[cd items| |]|] eqn:Hd; try discriminate.
  intros Hhas. destruct (dict_has_get _ _ Hhas) as [v Hv].
  exists d, cd, items, v. auto.
Qed.

(** Without the entry the method hands over to [copy.deepcopy]. *)
Lemma method_without_batch_data_run rec a memo h c attrs own :
  h !! a = Some (OReq c attrs own) ->
  holds_batch_data h attrs = false ->
  RuntimeBatchRequest.__deepcopy__ rec a memo h
  = rec (VRef a) memo (<[a:=OReq c attrs (Some HookNone)]> h).
Proof.
  intros Ho. unfold holds_batch_data, RuntimeBatchRequest.__deepcopy__.
  unfold Py.bind at 1. unfold py_getattr_or_None. rewrite Ho.
  assert (Helse : forall h0 : heap, h0 = h ->
            (let* _ := set__deepcopy__ (VRef a) HookNone in rec (VRef a) memo) h0
            = rec (VRef a) memo (<[a:=OReq c attrs (Some HookNone)]> h)).
  { intros h0 ->. unfold Py.bind, set__deepcopy__. rewrite Ho. reflexivity. }
  destruct (dict_get "_runtime_parameters" attrs) as [[| | | | |d]|];
    try (intros _; apply Helse; reflexivity).
  unfold Py.bind at 1. unfold reading, isinstance_dict.
  destruct (h !! d) as [[cd items| |]|] eqn:Hd; try (intros _; apply Helse; reflexivity).
  unfold Py.bind at 1. unfold py_contains. rewrite Hd.
  intros ->. apply Helse; reflexivity.
Qed.

Lemma method_total n m f a c attrs own memo h :
  total_at n m f ->
  inv n h memo -> keys_ok n h -> a < n -> h !! a = Some (OReq c attrs own) ->
  find__deepcopy__ c a own = Some (HookBound a) ->
  memo_get a memo = None -> uncovered n memo <= S m ->
  exists h' cp memo',
    RuntimeBatchRequest.__deepcopy__ (copy.deepcopy_memo (S f)) a memo h
    = (h', Ok (cp, memo')).
Proof.
  intros Htot Hinv Hk Ha Ho Hfind Hmemo Hm.
  destruct (holds_batch_data h attrs) eqn:Hhas.
  - destruct (holds_batch_data_true _ _ Hhas) as (d & cd & items & v & Hrp & Hd & Hv).
    assert (Had : a <> d) by (intros ->; congruence).
    destruct (inv_old_obj _ _ _ _ _ Hinv Ha Ho) as [Hattrs Hown].
    assert (Hdn : d < n) by exact (dict_get_Forall (old_val n) _ _ _ Hattrs Hrp).
    pose proof (inv_old_obj _ _ _ _ _ Hinv Hdn Hd) as Hitems. cbn in Hitems.
    set (h1 := <[d:=ODict cd (dict_del "batch_data" items)]> h).
    assert (Ho1 : h1 !! a = Some (OReq c attrs own)).
    { subst h1. rewrite list_lookup_insert_ne by congruence. exact Ho. }
    assert (Hinv1 : inv n h1 memo).
    { eapply inv_insert; [exact Hinv|exact Hd|reflexivity| |intros _ ? ? ? [=]|intros ? ? ? [=]|intros _ ? ? ? [=]].
      intros _. cbn. apply dict_del_Forall. exact Hitems. }
    assert (Hk1 : keys_ok n h1).
    { apply keys_ok_insert; [exact Hk|]. intros _ ? ? ? [=]. }
    destruct (unhooked_total n m f a c attrs own memo h1 Htot Hinv1 Hk1 Ha Ho1 Hmemo Hm)
      as (h3 & y & memo3 & Hr).
    destruct (method_with_batch_data_result n f a c attrs own memo h d cd items v h3 y memo3
                Hinv Hk Ha Ho Hfind Hmemo Hrp Hd Hv Hr)
      as (attrs' & own' & ownx & d' & items' & items3 & _ & _ & _ & _ & _ & _ & _ & _ & _ & Hrun).
    rewrite Hrun. eauto.
  - rewrite (method_without_batch_data_run _ a memo h c attrs own Ho Hhas).
    eapply unhooked_total; eassumption.
Qed.

Lemma deepcopy_memo_S f x memo :
  copy.deepcopy_memo (S f) x memo
  = match x with
    | VRef a =>
        match memo_get a memo with
        | Some y => ret (y, memo)
        | None =>
            let* o := load a in
            match o with
            | ODict c items => copy._deepcopy_dict (copy.deepcopy_memo f) a c items memo
            | OPayload tyname => copy._deepcopy_payload a tyname memo
            | OReq c attrs own =>
                match find__deepcopy__ c a own with
                | Some (HookBound self) =>
                    let* y_memo :=
                      RuntimeBatchRequest.__deepcopy__ (copy.deepcopy_memo f) self memo in
                    if py_is (fst y_memo) x then ret y_memo
                    else ret (fst y_memo, memo_set a (fst y_memo) (snd y_memo))
                | _ => copy._reconstruct (copy.deepcopy_memo f) a c attrs own memo
                end
            end
        end
    | _ => ret (x, memo)
    end.
Proof. reflexivity. Qed.

Lemma total_zero n f : total_at n 0 (S f).
Proof.
  intros x memo h Hinv Hk Hx Hm. cbn [copy.deepcopy_memo].
  destruct x as [| | | | |a]; unfold Py.ret; eauto.
  destruct (memo_get a memo) eqn:Hmemo; eauto.
  cbn in Hx. pose proof (uncovered_set n a VNone memo Hx Hmemo). lia.
Qed.

Lemma total_step n m f :
  total_at n m f -> total_at n m (S f) -> total_at n (S m) (S (S f)).
Proof.
  intros Htot Htot' x memo h Hinv Hk Hx Hm. rewrite deepcopy_memo_S.
  destruct x as [| | | | |a]; try (unfold Py.ret; eauto; fail).
  destruct (memo_get a memo) eqn:Hmemo; [unfold Py.ret; eauto|].
  cbn in Hx. destruct (inv_old _ _ _ Hinv a Hx) as (o & Ho & _).
  unfold Py.bind at 1. unfold load. rewrite Ho.
  destruct o as [c items|t|c attrs own].
  - eapply deepcopy_dict_total; eassumption.
  - unfold copy._deepcopy_payload, Py.bind, alloc, Py.ret. eauto.
  - destruct (find__deepcopy__ c a own) as [[|self]|] eqn:Hfind.
    + eapply reconstruct_total; try eassumption. intros self ->. discriminate.
    + pose proof (find_self_hook _ _ _ _ (inv_hooks _ _ _ Hinv _ _ _ _ Ho) Hfind) as Hself.
      cbn in Hself. subst self.
      destruct (method_total n m f a c attrs own memo h Htot Hinv Hk Hx Ho Hfind Hmemo Hm)
        as (h' & cp & memo' & Hrun).
      unfold Py.bind at 1. rewrite Hrun. cbn [fst snd].
      destruct (py_is cp (VRef a)); unfold Py.ret; eauto.
    + eapply reconstruct_total; try eassumption. intros self ->. discriminate.
Qed.

(** [copy.deepcopy] returns when the recursion limit is at least two more
    than twice the number of objects still to copy. *)
Theorem deepcopy_memo_total n m : forall f, 2 * m + 2 <= f -> total_at n m f.
Proof.
  induction m as [|m IH]; intros f Hf.
  - destruct f as [|f]; [lia|]. apply total_zero.
  - destruct f as [|[|f]]; try lia. apply total_step; apply IH; lia.
Qed.

(** *** The entries of the copy of a dict *)

Section Content.

Variable n : nat.
Variable rec : pyval -> memo_t -> H (pyval * memo_t).
Hypothesis Hrec : deepcopy_spec n rec.

Lemma deepcopy_entries_content yb c :
  n <= yb ->
  forall items acc memo h h' memo',
    inv n h memo -> h !! yb = Some (ODict c acc) ->
    Forall (fun kv => old_val n (snd kv)) items ->
    List.NoDup (map fst items) ->
    copy._deepcopy_items rec dict_setitem (VRef yb) items memo h = (h', Ok memo') ->
    exists acc',
      h' !! yb = Some (ODict c acc')
      /\ forall k, k <> "batch_data" ->
           match dict_get k items with
           | Some x => exists x', dict_get k acc' = Some x' /\ copied n h h' x x'
           | None => dict_get k acc' = dict_get k acc
           end.
Proof.
  intros Hyb. induction items as [|[k0 v] items IH];
    intros acc memo h h' memo' Hinv Hy Hold Hnd.
  - cbn. intros [= <- <-]. exists acc. split; [exact Hy|]. intros k _. reflexivity.
  - intros Hrun. pose proof Hrun as Hloop. revert Hloop.
    cbn [copy._deepcopy_items].
    bind_step h1 p E1. destruct p as [v' memo1]. cbn [fst snd].
    bind_step h2 u E2. destruct u. intros Hloop.
    inversion Hold as [|? ? Hv Hold']; subst. cbn in Hv.
    inversion Hnd as [|? ? Hk0 Hnd']; subst.
    destruct (Hrec _ _ _ _ _ _ Hinv Hv E1) as (Hinv1 & Hf1 & Hc1).
    destruct (Hf1 _ _ Hy) as (o1 & Hy1 & Hst1).
    destruct o1 as [c1 acc1| |]; try contradiction. destruct Hst1 as [-> Hacc1].
    assert (Hinv2 : inv n h2 memo1).
    { eapply (inv_setter n dict_setitem); [apply dict_setitem_ok|exact Hinv1|exact Hyb| |exact E2].
      eapply copied_fresh; eassumption. }
    revert E2. unfold dict_setitem. rewrite Hy1. intros [= <-].
    set (h2 := <[yb:=ODict c (dict_set k0 v' acc1)]> h1) in *.
    assert (Hyl : yb < length h1) by (eapply lookup_lt_Some; exact Hy1).
    assert (Hy2 : h2 !! yb = Some (ODict c (dict_set k0 v' acc1))).
    { subst h2. apply list_lookup_insert_eq. exact Hyl. }
    destruct (IH _ _ _ _ _ Hinv2 Hy2 Hold' Hnd' Hloop) as (acc' & Hy' & Hall).
    exists acc'. split; [exact Hy'|].
    assert (Hs12 : forall b, shape_at h2 b = shape_at h1 b).
    { intros b. unfold shape_at. subst h2. destruct (Nat.eq_dec b yb) as [->|Hne].
      - rewrite list_lookup_insert_eq by exact Hyl. rewrite Hy1. reflexivity.
      - rewrite list_lookup_insert_ne by congruence. reflexivity. }
    assert (Hfe : frame_except yb n h2 h').
    { eapply (deepcopy_items_inv n rec Hrec dict_setitem yb dict_setitem_ok Hyb);
        [exact Hinv2|rewrite Hy2; eauto|exact Hold'|exact Hloop]. }
    assert (Hs2' : forall b, is_Some (h2 !! b) -> shape_at h' b = shape_at h2 b).
    { intros b Hb. eapply frame_except_shape; eassumption. }
    assert (Hsome12 : forall b, is_Some (h1 !! b) -> is_Some (h2 !! b)).
    { intros b Hb. apply lookup_lt_is_Some_2. subst h2. rewrite length_insert.
      apply lookup_lt_is_Some_1. exact Hb. }
    intros k Hk. specialize (Hall k Hk). cbn [dict_get].
    destruct (String.eqb k k0) eqn:Ek.
    + apply String.eqb_eq in Ek. subst k0.
      rewrite (dict_get_In_None k items Hk0) in Hall.
      rewrite Hall, dict_get_set_eq. exists v'. split; [reflexivity|].
      eapply (copied_shift n h h h1 h'); [exact Hc1|exact Hv| |].
      * intros a Ha. split; [|reflexivity].
        destruct (inv_old _ _ _ Hinv a Ha) as (o & Ho & _). eauto.
      * intros b Hb. rewrite Hs2' by (apply Hsome12; exact Hb). apply Hs12.
    + apply String.eqb_neq in Ek.
      destruct (dict_get k items) as [x|] eqn:Hget.
      * destruct Hall as (x' & Hx' & Hc). exists x'. split; [exact Hx'|].
        assert (Hxo : old_val n x) by exact (dict_get_Forall (old_val n) _ _ _ Hold' Hget).
        eapply (copied_shift n h h2 h' h'); [exact Hc|exact Hxo| |auto].
        intros a Ha. destruct (inv_old _ _ _ Hinv a Ha) as (o & Ho & _).
        destruct (Hf1 _ _ Ho) as (o1 & Ho1 & _). split.
        -- apply Hsome12. eauto.
        -- rewrite Hs12. symmetry. apply (frame_shape n); [exact Hf1|eauto].
      * rewrite Hall, dict_get_set_ne by exact Ek. apply Hacc1. right. exact Hk.
Qed.

Lemma deepcopy_dict_content a c items memo h h' y memo' :
  inv n h memo -> a < n -> h !! a = Some (ODict c items) ->
  List.NoDup (map fst items) ->
  copy._deepcopy_dict rec a c items memo h = (h', Ok (y, memo')) ->
  y = VRef (length h)
  /\ exists items',
       h' !! length h = Some (ODict c items')
       /\ copied_entries n h h' items items'.
Proof.
  intros Hinv Ha Ho Hnd. unfold copy._deepcopy_dict, Py.bind, alloc.
  destruct (copy._deepcopy_items _ _ _ _ _ _) as [h1 [m1|e]] eqn:Hloop; [|discriminate].
  intros [= <- <- <-]. split; [reflexivity|].
  pose proof (inv_len _ _ _ Hinv) as Hlen.
  assert (Hal : a < length h) by lia.
  pose proof (inv_old_obj _ _ _ _ _ Hinv Ha Ho) as Hitems. cbn in Hitems.
  assert (Hinv0 : inv n (h ++ [ODict c []]) (memo_set a (VRef (length h)) memo)).
  { apply inv_memo_set; [apply inv_alloc; [assumption|discriminate]|exact Ha|exact Hlen|].
    unfold shape_at. rewrite lookup_new, lookup_app_l, Ho by exact Hal. reflexivity. }
  destruct (deepcopy_entries_content (length h) c Hlen items [] _ _ _ _ Hinv0
              (lookup_new h _) Hitems Hnd Hloop) as (items' & Hy & Hall).
  exists items'. split; [exact Hy|].
  intros k Hk. specialize (Hall k Hk).
  destruct (dict_get k items) as [x|] eqn:Hget; [|exact Hall].
  destruct Hall as (x' & Hx' & Hc). exists x'. split; [exact Hx'|].
  assert (Hxo : old_val n x) by exact (dict_get_Forall (old_val n) _ _ _ Hitems Hget).
  eapply (copied_shift n h (h ++ [ODict c []]) h1 h1); [exact Hc|exact Hxo| |auto].
  intros b Hb. assert (Hbl : b < length h) by lia. split.
  - apply lookup_lt_is_Some_2. rewrite length_app. lia.
  - symmetry. apply shape_at_app. exact Hbl.
Qed.

End Content.

Lemma distinct_NoDup keys : distinct keys = true -> List.NoDup keys.
Proof.
  induction keys as [|k keys IH]; cbn; [constructor|].
  intros H. apply andb_prop in H as [Hk Hd]. constructor; [|apply IH; exact Hd].
  intros Hin. apply negb_true_iff in Hk.
  assert (existsb (String.eqb k) keys = true); [|congruence].
  apply existsb_exists. exists k. split; [exact Hin|apply String.eqb_refl].
Qed.

Lemma objects_ok_lookup n objects : forall a0 a o,
  objects_ok n a0 objects = true -> objects !! a = Some o -> object_ok n (a0 + a) o = true.
Proof.
  induction objects as [|o' objects IH]; intros a0 a o; [discriminate|].
  cbn [objects_ok]. intros H. apply andb_prop in H as [Ho Hrest].
  destruct a as [|a]; cbn.
  - intros [= <-]. rewrite Nat.add_0_r. exact Ho.
  - intros Hlk. replace (a0 + S a) with (S a0 + a) by lia. eapply IH; eassumption.
Qed.

Lemma is_well_formed_sound h : is_well_formed h = true -> well_formed h.
Proof.
  intros Hwf a o Ho. pose proof (objects_ok_lookup _ _ 0 a o Hwf Ho) as Hok.
  cbn in Hok. unfold object_ok in Hok.
  apply andb_prop in Hok as [Hok Hhook]. apply andb_prop in Hok as [Hold Hnd].
  split; [|split].
  - apply List.Forall_forall. intros kv Hin.
    rewrite forallb_forall in Hold. specialize (Hold kv Hin).
    destruct (snd kv); cbn in *; try exact I. apply Nat.ltb_lt. exact Hold.
  - apply distinct_NoDup. exact Hnd.
  - destruct o as [| |c attrs [[|self]|]]; cbn in *; try exact I.
    apply Nat.eqb_eq. exact Hhook.
Qed.

Lemma well_formed_inv h : well_formed h -> inv (length h) h [] /\ keys_ok (length h) h.
Proof.
  intros Hwf. split; [split|].
  - reflexivity.
  - intros a Ha. destruct (lookup_lt_is_Some_2 h a Ha) as [o Ho]. exists o. split; [exact Ho|].
    destruct (Hwf a o Ho) as (Hold & _ & Hhook).
    destruct o as [| |c attrs own]; cbn in *; try assumption; try exact I.
    split; [exact Hold|]. destruct own as [[|self]|]; cbn in *; try exact I. lia.
  - intros b c attrs own Hb Hlk. apply lookup_lt_Some in Hlk. lia.
  - intros a c attrs own Ho. exact (proj2 (proj2 (Hwf a _ Ho))).
  - intros a y. discriminate.
  - intros a c attrs own _ Ho. exact (proj1 (proj2 (Hwf a _ Ho))).
  - intros a c attrs own _ Ho. exact (proj1 (proj2 (Hwf a _ Ho))).
Qed.

Lemma shape_at_insert (h : heap) a o o' b :
  h !! a = Some o -> shape_of o' = shape_of o ->
  shape_at (<[a:=o']> h) b = shape_at h b.
Proof.
  intros Ho Hs. unfold shape_at. destruct (Nat.eq_dec b a) as [->|Hne].
  - rewrite list_lookup_insert_eq by (eapply lookup_lt_Some; exact Ho). rewrite Ho. congruence.
  - rewrite list_lookup_insert_ne by congruence. reflexivity.
Qed.

(** [copy.deepcopy] returns on a heap as Python builds it. *)
Theorem deepcopy_total h x fuel :
  well_formed h -> old_val (length h) x -> 2 * length h + 2 <= fuel ->
  exists h' y, copy.deepcopy fuel x h = (h', Ok y).
Proof.
  intros Hwf Hx Hfuel. destruct (well_formed_inv h Hwf) as [Hinv Hk].
  assert (Hm : uncovered (length h) [] <= length h).
  { unfold uncovered. etransitivity; [apply List.filter_length_le|]. rewrite length_seq. lia. }
  destruct (deepcopy_memo_total (length h) (length h) fuel Hfuel x [] h Hinv Hk Hx Hm)
    as (h' & y & memo' & Hr).
  unfold copy.deepcopy, Py.bind. rewrite Hr. unfold Py.ret. eauto.
Qed.

(** What [copy.deepcopy] returns and leaves behind. *)
Theorem deepcopy_spec_top h x fuel h' y :
  well_formed h -> old_val (length h) x ->
  copy.deepcopy fuel x h = (h', Ok y) ->
  frame (length h) h h' /\ copied (length h) h h' x y.
Proof.
  intros Hwf Hx. destruct (well_formed_inv h Hwf) as [Hinv Hk].
  unfold copy.deepcopy. bind_step h1 p E1. destruct p as [y1 memo1].
  unfold Py.ret. intros [= <- <-].
  destruct (deepcopy_memo_spec _ _ _ _ _ _ _ _ Hinv Hx E1) as (_ & Hf & Hc). auto.
Qed.

Lemma deepcopy_memo_hooked f a c attrs own self memo h :
  memo_get a memo = None ->
  h !! a = Some (OReq c attrs own) ->
  find__deepcopy__ c a own = Some (HookBound self) ->
  copy.deepcopy_memo (S f) (VRef a) memo h
  = (let* y_memo := RuntimeBatchRequest.__deepcopy__ (copy.deepcopy_memo f) self memo in
     if py_is (fst y_memo) (VRef a) then ret y_memo
     else ret (fst y_memo, memo_set a (fst y_memo) (snd y_memo))) h.
Proof.
  intros Hm Ho Hf. rewrite deepcopy_memo_S, Hm.
  unfold Py.bind at 1. unfold load. rewrite Ho, Hf. reflexivity.
Qed.

Lemma after_method_shape h3 self cpa d d' c c' attrs attrs' cd cd' items3 items' hk v
      ownx own3 b :
  h3 !! self = Some (OReq c attrs ownx) ->
  h3 !! cpa = Some (OReq c' attrs' own3) ->
  h3 !! d' = Some (ODict cd' items') ->
  h3 !! d = Some (ODict cd items3) ->
  cpa <> self -> d <> d' ->
  shape_at (after_method h3 self cpa d d' c c' attrs attrs' cd cd' items3 items' hk v) b
  = shape_at h3 b.
Proof.
  intros Ho Hc Hd' Hd Hcs Hdd. unfold after_method.
  assert (Hsd : self <> d) by (intros ->; congruence).
  assert (Hcd : cpa <> d) by (intros ->; congruence).
  assert (Hcd' : cpa <> d') by (intros ->; congruence).
  assert (Hsd' : self <> d') by (intros ->; congruence).
  erewrite shape_at_insert;
    [|rewrite !list_lookup_insert_ne by congruence; exact Hd|reflexivity].
  erewrite shape_at_insert;
    [|rewrite !list_lookup_insert_ne by congruence; exact Hd'|reflexivity].
  erewrite shape_at_insert;
    [|rewrite !list_lookup_insert_ne by congruence; exact Hc|reflexivity].
  erewrite shape_at_insert; [reflexivity|exact Ho|reflexivity].
Qed.

Lemma after_method_lookups h3 self cpa d d' c c' attrs attrs' cd cd' items3 items' hk v
      ownx own3 :
  h3 !! self = Some (OReq c attrs ownx) ->
  h3 !! cpa = Some (OReq c' attrs' own3) ->
  h3 !! d' = Some (ODict cd' items') ->
  h3 !! d = Some (ODict cd items3) ->
  cpa <> self -> d <> d' ->
  let h' := after_method h3 self cpa d d' c c' attrs attrs' cd cd' items3 items' hk v in
  h' !! self = Some (OReq c attrs (Some hk))
  /\ h' !! cpa = Some (OReq c' attrs' (Some (HookBound cpa)))
  /\ h' !! d' = Some (ODict cd' (dict_set "batch_data" v items'))
  /\ h' !! d = Some (ODict cd (dict_set "batch_data" v items3)).
Proof.
  intros Ho Hc Hd' Hd Hcs Hdd. unfold after_method.
  assert (Hsd : self <> d) by (intros ->; congruence).
  assert (Hcd : cpa <> d) by (intros ->; congruence).
  assert (Hcd' : cpa <> d') by (intros ->; congruence).
  assert (Hsd' : self <> d') by (intros ->; congruence).
  pose proof (lookup_lt_Some _ _ _ Ho). pose proof (lookup_lt_Some _ _ _ Hc).
  pose proof (lookup_lt_Some _ _ _ Hd'). pose proof (lookup_lt_Some _ _ _ Hd).
  cbv zeta. repeat split.
  - rewrite !list_lookup_insert_ne by congruence. apply list_lookup_insert_eq. assumption.
  - rewrite !list_lookup_insert_ne by congruence. apply list_lookup_insert_eq.
    rewrite length_insert. assumption.
  - rewrite !list_lookup_insert_ne by congruence. apply list_lookup_insert_eq.
    rewrite !length_insert. assumption.
  - apply list_lookup_insert_eq. rewrite !length_insert. assumption.
Qed.

Lemma py_setitem_insert y k x h h' :
  py_setitem (VRef y) k x h = (h', Ok tt) ->
  exists o o', h !! y = Some o /\ h' = <[y:=o']> h /\ shape_of o' = shape_of o.
Proof.
  unfold py_setitem. destruct (h !! y) as [[c items|t|c attrs own]|] eqn:Hy; try discriminate.
  - intros [= <-]. eauto.
  - unfold instance_setattr.
    repeat match goal with
           | |- context [if ?b then _ else _] => destruct b
           | |- context [match x with _ => _ end] => destruct x
           end; try discriminate; intros [= <-]; eauto.
Qed.

Lemma py_setitem_elsewhere y k x h h' b :
  py_setitem (VRef y) k x h = (h', Ok tt) -> b <> y -> h' !! b = h !! b.
Proof.
  intros Hs Hne. destruct (py_setitem_insert _ _ _ _ _ Hs) as (o & o' & _ & -> & _).
  apply list_lookup_insert_ne. congruence.
Qed.

(** What the copy of an instance looks like, whichever way
    [RuntimeBatchRequest.__deepcopy__] goes. *)
Lemma deepcopy_instance h a c attrs own fuel h' y :
  well_formed h ->
  h !! a = Some (OReq c attrs own) ->
  find__deepcopy__ c a own = Some (HookBound a) ->
  copy.deepcopy fuel (VRef a) h = (h', Ok y) ->
  exists attrs' own',
    y = VRef (length h)
    /\ h' !! length h = Some (OReq c attrs' own')
    /\ copied_items (length h) h h' attrs attrs'
    /\ (forall d cd items v,
          dict_get "_runtime_parameters" attrs = Some (VRef d) ->
          h !! d = Some (ODict cd items) ->
          dict_get "batch_data" items = Some v ->
          own' = Some (HookBound (length h))
          /\ exists d' items' items1,
               dict_get "_runtime_parameters" attrs' = Some (VRef d')
               /\ length h <= d'
               /\ h' !! d' = Some (ODict cd items')
               /\ dict_get "batch_data" items' = Some v
               /\ h' !! d = Some (ODict cd items1)
               /\ dict_get "batch_data" items1 = Some v).
Proof.
  intros Hwf Ho Hfind Hrun.
  destruct (well_formed_inv h Hwf) as [Hinv Hk].
  assert (Ha : a < length h) by (eapply lookup_lt_Some; exact Ho).
  revert Hrun. unfold copy.deepcopy. bind_step h1 p E1. destruct p as [y1 memo1].
  unfold Py.ret. intros [= <- <-]. cbn [fst].
  destruct fuel as [|fuel]; [discriminate|].
  rewrite (deepcopy_memo_hooked fuel a c attrs own a [] h eq_refl Ho Hfind) in E1.
  revert E1. bind_step h2 q E2. destruct q as [cp memo2]. cbn [fst snd].
  intros E1.
  assert (h1 = h2 /\ y1 = cp) as [-> ->].
  { destruct (py_is cp (VRef a)); unfold Py.ret in E1; injection E1 as <- <- _; auto. }
  clear E1.
  assert (Hattrs : Forall (fun kv => old_val (length h) (snd kv)) attrs)
    by exact (proj1 (inv_old_obj _ _ _ _ _ Hinv Ha Ho)).
  destruct (holds_batch_data h attrs) eqn:Hhas.
  - destruct (holds_batch_data_true _ _ Hhas) as (d & cd & items & v & Hrp & Hd & Hv).
    destruct (method_with_batch_data (length h) _ (deepcopy_memo_spec _ fuel)
                (deepcopy_memo_rp _ fuel) a [] h h2 cp memo2
                c attrs own d cd items v Hinv Ha eq_refl Ho Hrp Hd Hv E2)
      as (_ & _ & _ & h3 & cpa & attrs0 & own3 & ownx0 & hk0 & d0 & cd0 & items0 & items1
          & -> & Hr & _).
    destruct fuel as [|fuel]; [discriminate|].
    destruct (method_with_batch_data_result (length h) fuel a c attrs own [] h d cd items v
                h3 _ _ Hinv Hk Ha Ho Hfind eq_refl Hrp Hd Hv Hr)
      as (attrs' & own' & ownx & d' & items' & items3 & Hcpa & Ho3 & Hc3 & Hall & Hrp' & Hd'n
          & Hd'3 & Hd3 & Hshape & Hrun).
    injection Hcpa as ->.
    rewrite Hrun in E2. injection E2 as <-.
    assert (Hdn : d < length h) by (eapply lookup_lt_Some; exact Hd).
    destruct (after_method_lookups h3 a (length h) d d' c c attrs attrs' cd cd items3 items'
                (HookBound a) v ownx own' Ho3 Hc3 Hd'3 Hd3 ltac:(lia) ltac:(lia))
      as (Ha' & Hc' & Hd'' & Hd').
    exists attrs', (Some (HookBound (length h))).
    split; [reflexivity|]. split; [exact Hc'|]. split.
    { eapply (copied_items_shift _ h h h3); [exact Hall|exact Hattrs| |].
      - intros b Hb. split; [apply lookup_lt_is_Some_2; exact Hb|reflexivity].
      - intros b _. eapply after_method_shape; try eassumption; lia. }
    intros d1 cd1 items1' v1 Hrp1 Hd1 Hv1.
    rewrite Hrp in Hrp1. injection Hrp1 as <-.
    rewrite Hd in Hd1. injection Hd1 as <- <-.
    rewrite Hv in Hv1. injection Hv1 as <-.
    split; [reflexivity|].
    exists d', (dict_set "batch_data" v items'), (dict_set "batch_data" v items3).
    split; [exact Hrp'|]. split; [exact Hd'n|]. split; [exact Hd''|].
    split; [apply dict_get_set_eq|]. split; [exact Hd'|apply dict_get_set_eq].
  - rewrite (method_without_batch_data_run _ a [] h c attrs own Ho Hhas) in E2.
    destruct fuel as [|fuel]; [discriminate|].
    set (h1 := <[a:=OReq c attrs (Some HookNone)]> h) in *.
    assert (Ho1 : h1 !! a = Some (OReq c attrs (Some HookNone))).
    { subst h1. apply list_lookup_insert_eq. exact Ha. }
    assert (Hinv1 : inv (length h) h1 []) by (eapply inv_unhook; eassumption).
    rewrite (deepcopy_memo_unhooked fuel a c attrs (Some HookNone)) in E2;
      [|reflexivity|exact Ho1|discriminate].
    destruct (reconstruct_content _ _ (deepcopy_memo_spec _ fuel) _ _ _ _ _ _ _ _ _
                Hinv1 Ha Ho1 ltac:(discriminate) (Hk _ _ _ _ Ha Ho) E2)
      as (-> & attrs' & own' & Hc' & Hall).
    assert (Hlen : length h1 = length h) by (subst h1; apply length_insert).
    rewrite Hlen in *.
    exists attrs', own'. split; [reflexivity|]. split; [exact Hc'|]. split.
    { eapply (copied_items_shift _ h h1 h2 h2); [exact Hall|exact Hattrs| |auto].
      intros b Hb. split.
      - apply lookup_lt_is_Some_2. rewrite Hlen. exact Hb.
      - symmetry. eapply shape_at_insert; [exact Ho|reflexivity]. }
    intros d cd items v Hrp Hd Hv. exfalso.
    unfold holds_batch_data in Hhas. rewrite Hrp, Hd in Hhas.
    unfold dict_has in Hhas. rewrite Hv in Hhas. discriminate.
Qed.

(** *** The copy is the image of the original under the memo *)

Lemma memo_ext_refl memo : memo_ext memo memo.
Proof. intros a y Ha. exact Ha. Qed.

Lemma memo_ext_trans m1 m2 m3 : memo_ext m1 m2 -> memo_ext m2 m3 -> memo_ext m1 m3.
Proof. intros H12 H23 a y Ha. auto. Qed.

Lemma memo_ext_set a y memo : memo_get a memo = None -> memo_ext memo (memo_set a y memo).
Proof.
  intros Hn a' y' Ha'. unfold memo_set. cbn. destruct (Nat.eqb a' a) eqn:E; [|exact Ha'].
  apply Nat.eqb_eq in E. subst a'. congruence.
Qed.

Lemma memo_fresh_refl h memo : memo_fresh h memo memo.
Proof. intros a y Ha Hn. congruence. Qed.

Lemma memo_fresh_trans (h h1 : heap) m m1 m2 :
  memo_ext m1 m2 -> length h <= length h1 ->
  memo_fresh h m m1 -> memo_fresh h1 m1 m2 -> memo_fresh h m m2.
Proof.
  intros Hext Hlen H1 H2 a y Ha Hn. destruct (memo_get a m1) as [z|] eqn:E.
  - rewrite (Hext _ _ E) in Ha. injection Ha as <-. eapply H1; eassumption.
  - specialize (H2 a y Ha E). destruct y; cbn in *; auto. lia.
Qed.

Lemma image_ext memo memo' x y : memo_ext memo memo' -> image memo x y -> image memo' x y.
Proof. intros Hext. destruct x; cbn; auto. Qed.

Lemma image_entries_ext memo memo' items items' :
  memo_ext memo memo' -> image_entries memo items items' -> image_entries memo' items items'.
Proof.
  intros Hext Hall k Hk. specialize (Hall k Hk). destruct (dict_get k items); [|exact Hall].
  destruct Hall as (x' & Hx' & Hi). exists x'. split; [exact Hx'|]. eapply image_ext; eassumption.
Qed.

Lemma content_ext memo memo' o o' :
  memo_ext memo memo' -> content memo o o' -> content memo' o o'.
Proof. intros Hext [Hs Hall]. split; [exact Hs|]. eapply image_entries_ext; eassumption. Qed.

Lemma content_alike memo o o' o1 o1' :
  shape_of o1 = shape_of o -> shape_of o1' = shape_of o' ->
  (forall k, k <> "batch_data" -> dict_get k (entries o1) = dict_get k (entries o)) ->
  (forall k, k <> "batch_data" -> dict_get k (entries o1') = dict_get k (entries o')) ->
  content memo o o' -> content memo o1 o1'.
Proof.
  intros Hs Hs' He He' [Hc Hall]. split; [congruence|].
  intros k Hk. rewrite (He k Hk), (He' k Hk). apply Hall. exact Hk.
Qed.

Lemma alike_trans h1 h2 h3 : alike h1 h2 -> alike h2 h3 -> alike h1 h3.
Proof.
  intros H12 H23 a o Ha. destruct (H12 a o Ha) as (o2 & Ha2 & Hs2 & He2).
  destruct (H23 a o2 Ha2) as (o3 & Ha3 & Hs3 & He3). exists o3.
  split; [exact Ha3|]. split; [congruence|]. intros k Hk. rewrite He3, He2 by exact Hk. reflexivity.
Qed.

Lemma alike_insert (h : heap) a o o' :
  h !! a = Some o -> shape_of o' = shape_of o ->
  (forall k, k <> "batch_data" -> dict_get k (entries o') = dict_get k (entries o)) ->
  alike h (<[a:=o']> h).
Proof.
  intros Ha Hs He b ob Hb. destruct (Nat.eq_dec b a) as [->|Hne].
  - exists o'. rewrite Ha in Hb. injection Hb as <-.
    split; [|auto]. apply list_lookup_insert_eq. eapply lookup_lt_Some; exact Ha.
  - exists ob. split; [|auto]. rewrite list_lookup_insert_ne by congruence. exact Hb.
Qed.

Lemma stable_entries n a o o' k :
  stable n a o o' -> k <> "batch_data" -> dict_get k (entries o') = dict_get k (entries o).
Proof.
  destruct o, o'; cbn; try tauto.
  - intros (_ & He & _) Hk. apply He. right. exact Hk.
  - intros [_ ->] _. reflexivity.
Qed.

Lemma stable_entries_old n a o o' k :
  stable n a o o' -> a < n -> dict_get k (entries o') = dict_get k (entries o).
Proof.
  destruct o, o'; cbn; try tauto.
  - intros (_ & He & _) Ha. apply He. left. exact Ha.
  - intros [_ ->] _. reflexivity.
Qed.

Lemma done_alike busy h h' memo : alike h h' -> done busy h memo -> done busy h' memo.
Proof.
  intros Hal Hd a y Ha Hb. destruct (Hd a y Ha Hb) as (b & o & o' & -> & Hoa & Hob & Hc).
  destruct (Hal _ _ Hoa) as (o1 & Hoa1 & Hs1 & He1).
  destruct (Hal _ _ Hob) as (o1' & Hob1 & Hs1' & He1').
  exists b, o1, o1'. split; [reflexivity|]. split; [exact Hoa1|]. split; [exact Hob1|].
  eapply content_alike; eassumption.
Qed.

Lemma keys_all_frame n h h' memo :
  inv n h memo -> keys_all n h -> frame n h h' -> keys_all n h'.
Proof.
  intros Hinv Hk Hf a o' Ha Ho'.
  destruct (inv_old _ _ _ Hinv a Ha) as (o & Ho & _).
  destruct (Hf _ _ Ho) as (o2 & Ho2 & Hst). rewrite Ho' in Ho2. injection Ho2 as <-.
  pose proof (Hk _ _ Ha Ho) as Hnd.
  destruct o, o'; cbn in *; try contradiction.
  - destruct Hst as (_ & _ & Hn). auto.
  - constructor.
  - destruct Hst as [_ ->]. exact Hnd.
Qed.

Lemma keys_all_insert n (h : heap) a o :
  keys_all n h -> (a < n -> List.NoDup (map fst (entries o))) -> keys_all n (<[a:=o]> h).
Proof.
  intros Hk Ho b ob Hb Hlk. destruct (Nat.eq_dec b a) as [->|Hne].
  - destruct (Nat.lt_ge_cases a (length h)) as [Hal|Hal].
    + rewrite list_lookup_insert_eq in Hlk by exact Hal. injection Hlk as <-. auto.
    + rewrite lookup_ge_None_2 in Hlk; [discriminate|]. rewrite length_insert. exact Hal.
  - rewrite list_lookup_insert_ne in Hlk by congruence. eapply Hk; eassumption.
Qed.

Lemma keys_all_alloc n (h : heap) o memo : inv n h memo -> keys_all n h -> keys_all n (h ++ [o]).
Proof.
  intros Hinv Hk a oa Ha Hlk.
  rewrite lookup_app_l in Hlk by (pose proof (inv_len _ _ _ Hinv); lia).
  eapply Hk; eassumption.
Qed.

Lemma setter_entries set yb k v h h' :
  setter_ok set -> set (VRef yb) k v h = (h', Ok tt) ->
  exists o o',
    h !! yb = Some o /\ h' = <[yb:=o']> h /\ shape_of o' = shape_of o
    /\ entries o' = dict_set k v (entries o).
Proof.
  intros Hset Hs. destruct (Hset _ _ _ _ _ Hs) as (o & o' & Ho & -> & Hsh & Hcase).
  exists o, o'. split; [exact Ho|]. split; [reflexivity|]. split; [exact Hsh|].
  destruct o; try contradiction; subst o'; reflexivity.
Qed.

Lemma inv_memo_lt n h memo a y : inv n h memo -> memo_get a memo = Some y -> a < n.
Proof. intros Hinv Ha. exact (proj1 (inv_memo _ _ _ Hinv _ _ Ha)). Qed.

Lemma inv_memo_in_heap n h memo a b :
  inv n h memo -> memo_get a memo = Some (VRef b) -> b < length h.
Proof.
  intros Hinv Ha. destruct (inv_memo _ _ _ Hinv _ _ Ha) as (Han & b' & [= <-] & _ & Hs).
  destruct (inv_old _ _ _ Hinv a Han) as (o & Ho & _).
  unfold shape_at in Hs. rewrite Ho in Hs.
  destruct (h !! b) eqn:E; [|discriminate]. eapply lookup_lt_Some; exact E.
Qed.

Lemma frame_length_le n (h h' : heap) : frame n h h' -> length h <= length h'.
Proof.
  intros Hf. destruct (Nat.le_gt_cases (length h) (length h')) as [Hle|Hgt]; [exact Hle|].
  destruct (lookup_lt_is_Some_2 h (length h') Hgt) as [o Hlk].
  destruct (Hf _ _ Hlk) as (o' & Hlk' & _). apply lookup_lt_Some in Hlk'. lia.
Qed.

Section Images.

Variable n : nat.
Variable rec : pyval -> memo_t -> H (pyval * memo_t).
Hypothesis Hrec : deepcopy_spec n rec.
Hypothesis Himg : image_spec n rec.

Lemma deepcopy_items_images set yb busy :
  setter_ok set -> n <= yb ->
  forall items memo h h' memo' o,
    inv n h memo -> keys_all n h -> done busy h memo -> owner yb busy memo ->
    h !! yb = Some o ->
    Forall (fun kv => old_val n (snd kv)) items ->
    List.NoDup (map fst items) ->
    copy._deepcopy_items rec set (VRef yb) items memo h = (h', Ok memo') ->
    memo_ext memo memo' /\ done busy h' memo' /\ memo_fresh h memo memo'
    /\ owner yb busy memo'
    /\ exists o',
         h' !! yb = Some o' /\ shape_of o' = shape_of o
         /\ forall k, k <> "batch_data" ->
              match dict_get k items with
              | Some x => exists x', dict_get k (entries o') = Some x' /\ image memo' x x'
              | None => dict_get k (entries o') = dict_get k (entries o)
              end.
Proof.
  intros Hset Hyb. induction items as [|[k0 v] items IH];
    intros memo h h' memo' o Hinv Hk Hdone Hown Hy Hold Hnd.
  - cbn. intros [= <- <-]. split; [apply memo_ext_refl|]. split; [exact Hdone|].
    split; [apply memo_fresh_refl|]. split; [exact Hown|].
    exists o. split; [exact Hy|]. split; [reflexivity|]. intros k _. reflexivity.
  - cbn [copy._deepcopy_items].
    bind_step h1 p E1. destruct p as [v' memo1]. cbn [fst snd].
    bind_step h2 u E2. destruct u. intros Hloop.
    inversion Hold as [|? ? Hv Hold']; subst. cbn in Hv.
    inversion Hnd as [|? ? Hk0 Hnd']; subst.
    destruct (Hrec _ _ _ _ _ _ Hinv Hv E1) as (Hinv1 & Hf1 & Hc1).
    destruct (Himg busy _ _ _ _ _ _ Hinv Hk Hdone Hv E1) as (Hext1 & Hi1 & Hdone1 & Hfresh1).
    pose proof (keys_all_frame _ _ _ _ Hinv Hk Hf1) as Hk1.
    pose proof (frame_length_le _ _ _ Hf1) as Hlen1.
    assert (Hyl : yb < length h) by (eapply lookup_lt_Some; exact Hy).
    destruct (Hf1 _ _ Hy) as (o1 & Hy1 & Hst1).
    assert (Hinv2 : inv n h2 memo1).
    { eapply (inv_setter n set); [exact Hset|exact Hinv1|exact Hyb| |exact E2].
      eapply copied_fresh; eassumption. }
    destruct (setter_entries _ _ _ _ _ _ Hset E2) as (o1' & o2 & Hy1' & -> & Hs2 & He2).
    rewrite Hy1 in Hy1'. injection Hy1' as <-.
    assert (Hown1 : owner yb busy memo1).
    { intros a Ha. destruct (memo_get a memo) as [z|] eqn:E.
      - pose proof (Hext1 _ _ E) as E'. rewrite Ha in E'. injection E' as <-.
        apply Hown. exact E.
      - specialize (Hfresh1 a _ Ha E). cbn in Hfresh1. lia. }
    assert (Hdone2 : done busy (<[yb:=o2]> h1) memo1).
    { intros a y Ha Hb. destruct (Hdone1 a y Ha Hb) as (b & oa & ob & -> & Hoa & Hob & Hc).
      exists b, oa, ob. split; [reflexivity|].
      assert (Hay : a <> yb) by (pose proof (inv_memo_lt _ _ _ _ _ Hinv1 Ha); lia).
      assert (Hby : b <> yb) by (intros ->; apply Hb, Hown1; exact Ha).
      rewrite !list_lookup_insert_ne by congruence. auto. }
    assert (Hk2 : keys_all n (<[yb:=o2]> h1)).
    { apply keys_all_insert; [exact Hk1|]. intros; lia. }
    assert (Hy2 : <[yb:=o2]> h1 !! yb = Some o2).
    { apply list_lookup_insert_eq. eapply lookup_lt_Some; exact Hy1. }
    destruct (IH _ _ _ _ _ Hinv2 Hk2 Hdone2 Hown1 Hy2 Hold' Hnd' Hloop)
      as (Hext2 & Hdone' & Hfresh2 & Hown' & o' & Hy' & Hs' & Hall).
    split; [eapply memo_ext_trans; eassumption|]. split; [exact Hdone'|].
    split.
    { eapply memo_fresh_trans; [exact Hext2| |exact Hfresh1|exact Hfresh2].
      rewrite length_insert. exact Hlen1. }
    split; [exact Hown'|].
    exists o'. split; [exact Hy'|].
    split; [rewrite Hs', Hs2; eapply stable_shape; exact Hst1|].
    intros k Hk'. specialize (Hall k Hk'). cbn [dict_get].
    destruct (String.eqb k k0) eqn:Ek.
    + apply String.eqb_eq in Ek. subst k0.
      rewrite (dict_get_In_None k items Hk0) in Hall.
      rewrite Hall, He2, dict_get_set_eq. exists v'. split; [reflexivity|].
      eapply image_ext; eassumption.
    + apply String.eqb_neq in Ek.
      destruct (dict_get k items) as [x|]; [exact Hall|].
      rewrite Hall, He2, dict_get_set_ne by exact Ek.
      eapply stable_entries; eassumption.
Qed.

(** A container, dict or instance, copied into a new container [blank]. *)
Lemma deepcopy_container_images set blank a o busy memo h h' memo' :
  setter_ok set ->
  inv n h memo -> keys_all n h -> done busy h memo ->
  a < n -> h !! a = Some o -> memo_get a memo = None ->
  shape_of blank = shape_of o -> entries blank = [] ->
  (forall c attrs own, blank = OReq c attrs own -> self_hook (length h) own) ->
  copy._deepcopy_items rec set (VRef (length h)) (entries o)
                       (memo_set a (VRef (length h)) memo) (h ++ [blank]) = (h', Ok memo') ->
  memo_ext memo memo' /\ image memo' (VRef a) (VRef (length h))
  /\ done busy h' memo' /\ memo_fresh h memo memo'.
Proof.
  intros Hset Hinv Hk Hdone Ha Ho Hmemo Hsh Hblank Hhook Hloop.
  pose proof (inv_len _ _ _ Hinv) as Hlen.
  assert (Hal : a < length h) by lia.
  assert (Hblank' : forall c attrs own, blank = OReq c attrs own ->
                                        attrs = [] /\ self_hook (length h) own).
  { intros c attrs own ->. split; [exact Hblank|]. eapply Hhook. reflexivity. }
  assert (Hitems : Forall (fun kv => old_val n (snd kv)) (entries o)).
  { pose proof (inv_old_obj _ _ _ _ _ Hinv Ha Ho) as Hob.
    destruct o; cbn in *; [exact Hob|constructor|exact (proj1 Hob)]. }
  destruct (deepcopy_container_spec n rec Hrec set blank a o (entries o) memo h h' memo'
              Hset Hinv Ha Ho Hsh Hblank' Hitems Hloop) as (Hinv' & Hf' & _).
  set (memo0 := memo_set a (VRef (length h)) memo) in *.
  assert (Hext0 : memo_ext memo memo0) by (apply memo_ext_set; exact Hmemo).
  assert (Hinv0 : inv n (h ++ [blank]) memo0).
  { apply inv_memo_set; [apply inv_alloc; assumption|exact Ha|exact Hlen|].
    unfold shape_at. rewrite lookup_new, lookup_app_l, Ho by exact Hal. f_equal. exact Hsh. }
  assert (Hget0 : forall a2, a2 <> a -> memo_get a2 memo0 = memo_get a2 memo).
  { intros a2 Hne. subst memo0. unfold memo_set. cbn.
    destruct (Nat.eqb a2 a) eqn:E; [apply Nat.eqb_eq in E; contradiction|reflexivity]. }
  assert (Hdone0 : done (a :: busy) (h ++ [blank]) memo0).
  { intros a2 y Ha2 Hb. assert (Hne : a2 <> a) by (intros ->; apply Hb; left; reflexivity).
    rewrite Hget0 in Ha2 by exact Hne.
    destruct (Hdone a2 y Ha2) as (b & oa & ob & -> & Hoa & Hob & Hc).
    { intros Hin. apply Hb. right. exact Hin. }
    exists b, oa, ob. split; [reflexivity|].
    split; [rewrite lookup_app_l by (eapply lookup_lt_Some; exact Hoa); exact Hoa|].
    split; [rewrite lookup_app_l by (eapply lookup_lt_Some; exact Hob); exact Hob|].
    eapply content_ext; eassumption. }
  assert (Hown0 : owner (length h) (a :: busy) memo0).
  { intros a2 Ha2. destruct (Nat.eq_dec a2 a) as [->|Hne]; [left; reflexivity|].
    rewrite Hget0 in Ha2 by exact Hne.
    pose proof (inv_memo_in_heap _ _ _ _ _ Hinv Ha2). lia. }
  destruct (deepcopy_items_images set (length h) (a :: busy) Hset Hlen _ _ _ _ _ blank
              Hinv0 (keys_all_alloc _ _ _ _ Hinv Hk) Hdone0 Hown0 (lookup_new h blank)
              Hitems (Hk _ _ Ha Ho) Hloop)
    as (Hext & Hdone' & Hfresh & _ & o' & Hy' & Hs' & Hall).
  assert (Himage : memo_get a memo' = Some (VRef (length h))).
  { apply Hext. subst memo0. unfold memo_set. cbn. rewrite Nat.eqb_refl. reflexivity. }
  split; [eapply memo_ext_trans; eassumption|]. split; [exact Himage|]. split.
  - intros a2 y Ha2 Hb. destruct (Nat.eq_dec a2 a) as [->|Hne].
    + rewrite Himage in Ha2. injection Ha2 as <-.
      destruct (Hf' _ _ Ho) as (oa' & Hoa' & Hst).
      exists (length h), oa', o'. split; [reflexivity|]. split; [exact Hoa'|].
      split; [exact Hy'|]. split.
      * rewrite Hs', Hsh. symmetry. eapply stable_shape; exact Hst.
      * intros k Hk'. rewrite (stable_entries_old _ _ _ _ k Hst Ha).
        specialize (Hall k Hk'). destruct (dict_get k (entries o)); [exact Hall|].
        rewrite Hall, Hblank. reflexivity.
    + apply Hdone'; [exact Ha2|]. intros [->|Hin]; [congruence|contradiction].
  - intros a2 y Ha2 Hn. destruct (Nat.eq_dec a2 a) as [->|Hne].
    + rewrite Himage in Ha2. injection Ha2 as <-. cbn. lia.
    + specialize (Hfresh a2 y Ha2). rewrite Hget0 in Hfresh by exact Hne.
      specialize (Hfresh Hn). destruct y; cbn in *; auto.
      rewrite length_app in Hfresh. lia.
Qed.

End Images.

Lemma alike_after_method h3 self cpa d d' c c' attrs attrs' cd cd' items3 items' hk v
      ownx own3 :
  h3 !! self = Some (OReq c attrs ownx) ->
  h3 !! cpa = Some (OReq c' attrs' own3) ->
  h3 !! d' = Some (ODict cd' items') ->
  h3 !! d = Some (ODict cd items3) ->
  cpa <> self -> d <> d' ->
  alike h3 (after_method h3 self cpa d d' c c' attrs attrs' cd cd' items3 items' hk v).
Proof.
  intros Ho Hc Hd' Hd Hcs Hdd. unfold after_method.
  assert (Hsd : self <> d) by (intros ->; congruence).
  assert (Hcd : cpa <> d) by (intros ->; congruence).
  assert (Hcd' : cpa <> d') by (intros ->; congruence).
  assert (Hsd' : self <> d') by (intros ->; congruence).
  set (h4 := <[self:=OReq c attrs (Some hk)]> h3).
  set (h5 := <[cpa:=OReq c' attrs' (Some (HookBound cpa))]> h4).
  set (h6 := <[d':=ODict cd' (dict_set "batch_data" v items')]> h5).
  assert (H34 : alike h3 h4).
  { apply (alike_insert h3 self _ _ Ho); reflexivity. }
  assert (Hc4 : h4 !! cpa = Some (OReq c' attrs' own3)).
  { subst h4. rewrite list_lookup_insert_ne by congruence. exact Hc. }
  assert (H45 : alike h4 h5).
  { apply (alike_insert h4 cpa _ _ Hc4); reflexivity. }
  assert (Hd5 : h5 !! d' = Some (ODict cd' items')).
  { subst h5 h4. rewrite !list_lookup_insert_ne by congruence. exact Hd'. }
  assert (H56 : alike h5 h6).
  { apply (alike_insert h5 d' _ _ Hd5); [reflexivity|].
    intros k Hk. cbn. apply dict_get_set_ne. exact Hk. }
  assert (Hd6 : h6 !! d = Some (ODict cd items3)).
  { subst h6 h5 h4. rewrite !list_lookup_insert_ne by congruence. exact Hd. }
  eapply alike_trans; [exact H34|]. eapply alike_trans; [exact H45|].
  eapply alike_trans; [exact H56|].
  apply (alike_insert h6 d _ _ Hd6); [reflexivity|].
  intros k Hk. cbn. apply dict_get_set_ne. exact Hk.
Qed.

Section Images.

Variable n : nat.
Variable rec : pyval -> memo_t -> H (pyval * memo_t).
Hypothesis Hrec : deepcopy_spec n rec.
Hypothesis Himg : image_spec n rec.
Hypothesis Hrp_rec : rp_spec n rec.

Lemma deepcopy_dict_images a c items busy memo h h' y memo' :
  inv n h memo -> keys_all n h -> done busy h memo ->
  a < n -> h !! a = Some (ODict c items) -> memo_get a memo = None ->
  copy._deepcopy_dict rec a c items memo h = (h', Ok (y, memo')) ->
  memo_ext memo memo' /\ image memo' (VRef a) y /\ done busy h' memo' /\ memo_fresh h memo memo'.
Proof.
  intros Hinv Hk Hdone Ha Ho Hmemo. unfold copy._deepcopy_dict, Py.bind, alloc.
  destruct (copy._deepcopy_items _ _ _ _ _ _) as [h1 [m1|e]] eqn:Hloop; [|discriminate].
  intros [= <- <- <-].
  eapply (deepcopy_container_images n rec Hrec Himg dict_setitem (ODict c []) a (ODict c items));
    try eassumption; try reflexivity.
  - apply dict_setitem_ok.
  - discriminate.
Qed.

Lemma reconstruct_images a c attrs own busy memo h h' y memo' :
  inv n h memo -> keys_all n h -> done busy h memo ->
  a < n -> h !! a = Some (OReq c attrs own) -> memo_get a memo = None ->
  (forall self, own <> Some (HookBound self)) ->
  copy._reconstruct rec a c attrs own memo h = (h', Ok (y, memo')) ->
  memo_ext memo memo' /\ image memo' (VRef a) y /\ done busy h' memo' /\ memo_fresh h memo memo'.
Proof.
  intros Hinv Hk Hdone Ha Ho Hmemo Hown. unfold copy._reconstruct, Py.bind, alloc.
  destruct (copy._deepcopy_items _ _ _ _ _ _) as [h1 [m1|e]] eqn:Hloop; [|discriminate].
  intros [= <- <- <-].
  eapply (deepcopy_container_images n rec Hrec Himg py_setattr (OReq c [] own) a
            (OReq c attrs own)); try eassumption; try reflexivity.
  - apply py_setattr_ok.
  - intros ? ? ? [= _ _ <-]. destruct own as [[|self]|]; try exact I.
    destruct (Hown self eq_refl).
Qed.

Lemma deepcopy_payload_images a t busy memo h h' y memo' :
  inv n h memo -> done busy h memo ->
  a < n -> h !! a = Some (OPayload t) -> memo_get a memo = None ->
  copy._deepcopy_payload a t memo h = (h', Ok (y, memo')) ->
  memo_ext memo memo' /\ image memo' (VRef a) y /\ done busy h' memo' /\ memo_fresh h memo memo'.
Proof.
  intros Hinv Hdone Ha Ho Hmemo. unfold copy._deepcopy_payload, Py.bind, alloc, Py.ret.
  intros [= <- <- <-].
  pose proof (inv_len _ _ _ Hinv) as Hlen.
  assert (Hext : memo_ext memo (memo_set a (VRef (length h)) memo))
    by (apply memo_ext_set; exact Hmemo).
  assert (Hget : memo_get a (memo_set a (VRef (length h)) memo) = Some (VRef (length h))).
  { unfold memo_set. cbn. rewrite Nat.eqb_refl. reflexivity. }
  assert (Hget0 : forall a2, a2 <> a ->
                             memo_get a2 (memo_set a (VRef (length h)) memo) = memo_get a2 memo).
  { intros a2 Hne. unfold memo_set. cbn.
    destruct (Nat.eqb a2 a) eqn:E; [apply Nat.eqb_eq in E; contradiction|reflexivity]. }
  split; [exact Hext|]. split; [exact Hget|]. split.
  - intros a2 y Ha2 Hb. destruct (Nat.eq_dec a2 a) as [->|Hne].
    + rewrite Hget in Ha2. injection Ha2 as <-.
      exists (length h), (OPayload t), (OPayload t). split; [reflexivity|].
      split; [rewrite lookup_app_l by lia; exact Ho|]. split; [apply lookup_new|].
      split; [reflexivity|]. intros k _. reflexivity.
    + rewrite Hget0 in Ha2 by exact Hne.
      destruct (Hdone a2 y Ha2 Hb) as (b & oa & ob & -> & Hoa & Hob & Hc).
      exists b, oa, ob. split; [reflexivity|].
      split; [rewrite lookup_app_l by (eapply lookup_lt_Some; exact Hoa); exact Hoa|].
      split; [rewrite lookup_app_l by (eapply lookup_lt_Some; exact Hob); exact Hob|].
      eapply content_ext; eassumption.
  - intros a2 y Ha2 Hn. destruct (Nat.eq_dec a2 a) as [->|Hne].
    + rewrite Hget in Ha2. injection Ha2 as <-. cbn. lia.
    + rewrite Hget0 in Ha2 by exact Hne. congruence.
Qed.

(** The call back to [copy.deepcopy], on the instance whose [__deepcopy__]
    has been set to [None]. *)
Lemma unhooked_images self c attrs own busy memo h h' cp memo' :
  inv n h memo -> keys_all n h -> done busy h memo ->
  self < n -> h !! self = Some (OReq c attrs own) ->
  rec (VRef self) memo (<[self:=OReq c attrs (Some HookNone)]> h) = (h', Ok (cp, memo')) ->
  memo_ext memo memo' /\ image memo' (VRef self) cp /\ done busy h' memo'
  /\ memo_fresh h memo memo'.
Proof.
  intros Hinv Hk Hdone Hs Ho Hr.
  assert (Hinv1 : inv n (<[self:=OReq c attrs (Some HookNone)]> h) memo)
    by (eapply inv_unhook; eassumption).
  assert (Hk1 : keys_all n (<[self:=OReq c attrs (Some HookNone)]> h)).
  { apply keys_all_insert; [exact Hk|]. intros _. exact (Hk _ _ Hs Ho). }
  assert (Hdone1 : done busy (<[self:=OReq c attrs (Some HookNone)]> h) memo).
  { eapply done_alike; [|exact Hdone].
    eapply alike_insert; [exact Ho|reflexivity|reflexivity]. }
  destruct (Himg busy (VRef self) _ _ _ _ _ Hinv1 Hk1 Hdone1 Hs Hr) as (Hext & Hi & Hd & Hf).
  split; [exact Hext|]. split; [exact Hi|]. split; [exact Hd|].
  intros a y Ha Hn. specialize (Hf a y Ha Hn). rewrite length_insert in Hf. exact Hf.
Qed.

Lemma method_images busy self memo h h' cp memo' :
  inv n h memo -> keys_all n h -> done busy h memo -> self < n ->
  memo_get self memo = None ->
  RuntimeBatchRequest.__deepcopy__ rec self memo h = (h', Ok (cp, memo')) ->
  memo_ext memo memo' /\ image memo' (VRef self) cp /\ done busy h' memo'
  /\ memo_fresh h memo memo'.
Proof.
  intros Hinv Hk Hdone Hs Hmemo Hm.
  destruct (inv_old _ _ _ Hinv self Hs) as (o & Ho & _).
  destruct o as [c0 items0|t|c attrs own].
  1-2: exfalso; revert Hm; unfold RuntimeBatchRequest.__deepcopy__, Py.bind,
         py_getattr_or_None, reading, isinstance_dict, set__deepcopy__;
       rewrite Ho; unfold Py.ret; cbv beta iota; rewrite ?Ho; discriminate.
  destruct (holds_batch_data h attrs) eqn:Hhas.
  - destruct (holds_batch_data_true _ _ Hhas) as (d & cd & items & v & Hrp & Hd & Hv).
    destruct (method_with_batch_data n rec Hrec Hrp_rec self memo h h' cp memo'
                c attrs own d cd items v Hinv Hs Hmemo Ho Hrp Hd Hv Hm)
      as (_ & _ & _ & h3 & cpa & attrs' & own3 & ownx & hk & d' & cd' & items' & items3
          & -> & Hr & Ho3 & Hc3 & Hrp' & Hcpa & Hd'n & Hd'3 & Hd3 & ->).
    assert (Hsd : self <> d) by (intros ->; congruence).
    destruct (inv_old_obj _ _ _ _ _ Hinv Hs Ho) as [Hattrs Hown].
    assert (Hdn : d < n) by exact (dict_get_Forall (old_val n) _ _ _ Hattrs Hrp).
    pose proof (inv_old_obj _ _ _ _ _ Hinv Hdn Hd) as Hitems. cbn in Hitems.
    set (h1 := <[d:=ODict cd (dict_del "batch_data" items)]> h) in *.
    assert (Ho1 : h1 !! self = Some (OReq c attrs own)).
    { subst h1. rewrite list_lookup_insert_ne by congruence. exact Ho. }
    assert (Hinv1 : inv n h1 memo).
    { eapply inv_insert; [exact Hinv|exact Hd|reflexivity| |intros _ ? ? ? [=]|intros ? ? ? [=]|intros _ ? ? ? [=]].
      intros _. cbn. apply dict_del_Forall. exact Hitems. }
    assert (Hk1 : keys_all n h1).
    { apply keys_all_insert; [exact Hk|]. intros _. cbn. apply dict_del_NoDup.
      exact (Hk _ _ Hdn Hd). }
    assert (Hdone1 : done busy h1 memo).
    { eapply done_alike; [|exact Hdone].
      eapply alike_insert; [exact Hd|reflexivity|].
      intros k Hk'. cbn. apply dict_get_del_ne. exact Hk'. }
    destruct (unhooked_images self c attrs own busy memo h1 h3 (VRef cpa) memo'
                Hinv1 Hk1 Hdone1 Hs Ho1 Hr) as (Hext & Hi & Hd3' & Hf).
    split; [exact Hext|]. split; [exact Hi|]. split.
    + eapply done_alike; [|exact Hd3'].
      eapply alike_after_method; try eassumption; lia.
    + intros a y Ha Hn. specialize (Hf a y Ha Hn). subst h1.
      rewrite length_insert in Hf. exact Hf.
  - rewrite (method_without_batch_data_run _ self memo h c attrs own Ho Hhas) in Hm.
    eapply unhooked_images; eassumption.
Qed.

End Images.

Theorem deepcopy_memo_images n f : image_spec n (copy.deepcopy_memo f).
Proof.
  induction f as [|f IH]; intros busy x memo h h' y memo' Hinv Hk Hdone Hx; [discriminate|].
  rewrite deepcopy_memo_S.
  destruct x as [| | | | |a];
    try (unfold Py.ret; intros [= <- <- <-]; split; [apply memo_ext_refl|];
         split; [reflexivity|]; split; [exact Hdone|apply memo_fresh_refl]).
  cbn in Hx.
  destruct (memo_get a memo) as [ym|] eqn:Hmemo.
  - unfold Py.ret. intros [= <- <- <-]. split; [apply memo_ext_refl|].
    split; [exact Hmemo|]. split; [exact Hdone|apply memo_fresh_refl].
  - destruct (inv_old _ _ _ Hinv a Hx) as (o & Ho & Hcl).
    unfold Py.bind at 1. unfold load. rewrite Ho.
    destruct o as [c items|t|c attrs own].
    + apply (deepcopy_dict_images n _ (deepcopy_memo_spec n f) IH); assumption.
    + apply (deepcopy_payload_images n); assumption.
    + destruct (find__deepcopy__ c a own) as [[|self]|] eqn:Hfind.
      * apply (reconstruct_images n _ (deepcopy_memo_spec n f) IH); try assumption.
        intros self ->. discriminate.
      * pose proof (find_self_hook _ _ _ _ (inv_hooks _ _ _ Hinv _ _ _ _ Ho) Hfind) as Hsa.
        cbn in Hsa. subst self.
        unfold Py.bind at 1.
        destruct (RuntimeBatchRequest.__deepcopy__ _ a memo h) as [h1 [[cp memo1]|e]] eqn:Hm;
          [|discriminate].
        destruct (method_images n _ (deepcopy_memo_spec n f) IH (deepcopy_memo_rp n f)
                    busy a memo h h1 cp memo1
                    Hinv Hk Hdone Hx Hmemo Hm) as (Hext & Hi & Hd & Hf).
        cbn [fst snd]. destruct (py_is cp (VRef a)); unfold Py.ret; intros [= <- <- <-].
        -- auto.
        -- cbn in Hi.
           assert (Hsame : forall a2, memo_get a2 (memo_set a cp memo1) = memo_get a2 memo1).
           { intros a2. unfold memo_set. cbn. destruct (Nat.eqb a2 a) eqn:E; [|reflexivity].
             apply Nat.eqb_eq in E. subst a2. symmetry. exact Hi. }
           split; [intros a2 y2 Ha2; rewrite Hsame; apply Hext; exact Ha2|].
           split; [unfold image; rewrite Hsame; exact Hi|]. split.
           ++ intros a2 y2 Ha2 Hb. rewrite Hsame in Ha2.
              destruct (Hd a2 y2 Ha2 Hb) as (b & oa & ob & -> & Hoa & Hob & Hsh & Hall).
              exists b, oa, ob. split; [reflexivity|]. split; [exact Hoa|].
              split; [exact Hob|]. split; [exact Hsh|].
              intros k Hk'. specialize (Hall k Hk').
              destruct (dict_get k (entries oa)) as [x|]; [|exact Hall].
              destruct Hall as (x' & Hx' & Hix). exists x'. split; [exact Hx'|].
              destruct x; unfold image in *; auto. rewrite Hsame. exact Hix.
           ++ intros a2 y2 Ha2 Hn. rewrite Hsame in Ha2. eapply Hf; eassumption.
      * apply (reconstruct_images n _ (deepcopy_memo_spec n f) IH); try assumption.
        intros self ->. discriminate.
Qed.

Lemma well_formed_keys_all h : well_formed h -> keys_all (length h) h.
Proof. intros Hwf a o _ Ho. exact (proj1 (proj2 (Hwf a o Ho))). Qed.

(** [copy.deepcopy] builds an image of what it copies: there is a memo
    under which the value returned is the image of the argument, and every
    object the memo records existed, its copy is new, and the copy is the
    object with its references replaced by their images (but for
    ["batch_data"] entries). *)
Theorem deepcopy_images h x fuel h' y :
  well_formed h -> old_val (length h) x ->
  copy.deepcopy fuel x h = (h', Ok y) ->
  exists memo,
    image memo x y
    /\ forall a y', memo_get a memo = Some y' ->
         exists b o o',
           y' = VRef b /\ a < length h <= b
           /\ h !! a = Some o /\ h' !! b = Some o' /\ content memo o o'.
Proof.
  intros Hwf Hx. destruct (well_formed_inv h Hwf) as [Hinv _].
  pose proof (well_formed_keys_all h Hwf) as Hk.
  unfold copy.deepcopy. bind_step h1 p E1. destruct p as [y1 memo1].
  unfold Py.ret. intros [= <- <-]. cbn [fst].
  assert (Hdone : done [] h []) by (intros a y'; discriminate).
  destruct (deepcopy_memo_images _ fuel [] x [] h h1 y1 memo1 Hinv Hk Hdone Hx E1)
    as (_ & Hi & Hd & _).
  destruct (deepcopy_memo_spec _ fuel _ _ _ _ _ _ Hinv Hx E1) as (Hinv1 & Hf1 & _).
  exists memo1. split; [exact Hi|].
  intros a y' Ha. destruct (Hd a y' Ha ltac:(auto)) as (b & oa & ob & -> & Hoa & Hob & Hc).
  destruct (inv_memo _ _ _ Hinv1 _ _ Ha) as (Han & b' & [= <-] & Hbn & _).
  destruct (inv_old _ _ _ Hinv a Han) as (o & Ho & _).
  destruct (Hf1 _ _ Ho) as (oa' & Hoa' & Hst). rewrite Hoa in Hoa'. injection Hoa' as <-.
  exists b, o, ob. split; [reflexivity|]. split; [lia|]. split; [exact Ho|].
  split; [exact Hob|].
  eapply content_alike; [| | | |exact Hc].
  - symmetry. eapply stable_shape; exact Hst.
  - reflexivity.
  - intros k _. symmetry. eapply stable_entries_old; eassumption.
  - reflexivity.
Qed.

(** X19.  Deep-copying a [RuntimeBatchRequest] on which the class's
    [__deepcopy__] is in force: the instance has no [__deepcopy__] of its
    own, or the method bound to it.

    (1) [copy.deepcopy] returns, given a recursion limit of twice the number
    of objects plus two.

    (2) It returns a new instance of the class.  There is a memo (the one
    [copy.deepcopy] builds) under which the copy is the image of the
    original, and every object the memo records existed before, has a copy
    that is new, and the copy is the object with each reference replaced by
    its image ([content]): so the attributes of the copy are, name by name
    and in the same order, the values of the original for atomic values and
    new objects for objects, and so on down; every object that existed keeps
    its contents ([frame]).  If [runtime_parameters] is a dict with a
    ["batch_data"] entry, the [runtime_parameters] of the copy is a new dict
    whose ["batch_data"] entry is the very value [v] the original holds (the
    same reference, not its image), and the original holds it still.  The
    [batch_identifiers] of the copy is a new dict of the same class whose
    entries are the images of the entries of the original, and an assignment
    into either dict leaves the other as it is.

    (3) If there is no ["batch_data"] entry, [copy.deepcopy] does what it
    does for an instance without [__deepcopy__]: the instance's
    [__deepcopy__] is set to [None] and [copy._reconstruct] runs. *)
Theorem deepcopy_shares_batch_data h a attrs own :
  well_formed h ->
  h !! a = Some (OReq cls_RuntimeBatchRequest attrs own) ->
  find__deepcopy__ cls_RuntimeBatchRequest a own = Some (HookBound a) ->
  (forall fuel, 2 * length h + 2 <= fuel ->
     exists h' y, copy.deepcopy fuel (VRef a) h = (h', Ok y))
  /\ (forall fuel h' y,
        copy.deepcopy fuel (VRef a) h = (h', Ok y) ->
        exists memo attrs' own',
          y = VRef (length h)
          /\ h' !! length h = Some (OReq cls_RuntimeBatchRequest attrs' own')
          /\ copied_items (length h) h h' attrs attrs'
          /\ image memo (VRef a) y
          /\ (forall a0 y0,
                memo_get a0 memo = Some y0 ->
                exists b o o',
                  y0 = VRef b /\ a0 < length h <= b
                  /\ h !! a0 = Some o /\ h' !! b = Some o' /\ content memo o o')
          /\ frame (length h) h h'
          /\ (forall d cd items v,
                dict_get "_runtime_parameters" attrs = Some (VRef d) ->
                h !! d = Some (ODict cd items) ->
                dict_get "batch_data" items = Some v ->
                exists d' items' items1,
                  dict_get "_runtime_parameters" attrs' = Some (VRef d')
                  /\ length h <= d'
                  /\ h' !! d' = Some (ODict cd items')
                  /\ dict_get "batch_data" items' = Some v
                  /\ h' !! d = Some (ODict cd items1)
                  /\ dict_get "batch_data" items1 = Some v)
          /\ (forall i ci items,
                dict_get "_batch_identifiers" attrs = Some (VRef i) ->
                h !! i = Some (ODict ci items) ->
                exists i' items',
                  dict_get "_batch_identifiers" attrs' = Some (VRef i')
                  /\ length h <= i'
                  /\ h' !! i' = Some (ODict ci items')
                  /\ image_entries memo items items'
                  /\ (forall k x h'', py_setitem (VRef i') k x h' = (h'', Ok tt) ->
                                      h'' !! i = h' !! i)
                  /\ (forall k x h'', py_setitem (VRef i) k x h' = (h'', Ok tt) ->
                                      h'' !! i' = h' !! i')))
  /\ (holds_batch_data h attrs = false ->
      forall f,
        copy.deepcopy (S (S f)) (VRef a) h
        = (let* _ := set__deepcopy__ (VRef a) HookNone in
           let* y_memo :=
             copy._reconstruct (copy.deepcopy_memo f) a cls_RuntimeBatchRequest attrs
                               (Some HookNone) [] in
           ret (fst y_memo)) h).
Proof.
  intros Hwf Ho Hfind.
  assert (Ha : a < length h) by (eapply lookup_lt_Some; exact Ho).
  split; [|split].
  - intros fuel Hfuel. apply deepcopy_total; assumption.
  - intros fuel h' y Hrun.
    destruct (deepcopy_spec_top h (VRef a) fuel h' y Hwf Ha Hrun) as [Hframe _].
    destruct (deepcopy_images h (VRef a) fuel h' y Hwf Ha Hrun) as (memo & Himage & Hmemo).
    destruct (deepcopy_instance h a _ attrs own fuel h' y Hwf Ho Hfind Hrun)
      as (attrs' & own' & -> & Hc' & Hall & Hbd).
    exists memo, attrs', own'. split; [reflexivity|]. split; [exact Hc'|].
    split; [exact Hall|]. split; [exact Himage|]. split; [exact Hmemo|].
    split; [exact Hframe|]. split.
    + intros d cd items v Hrp Hd Hv. exact (proj2 (Hbd d cd items v Hrp Hd Hv)).
    + intros i ci items Hbi Hi.
      (* the attributes of the copy are the images of the attributes *)
      destruct (Hmemo a _ Himage) as (b & o & o' & [= <-] & _ & Hoa & Hob & _ & Hattrs).
      rewrite Ho in Hoa. injection Hoa as <-. rewrite Hc' in Hob. injection Hob as <-.
      cbn [entries] in Hattrs.
      pose proof (Hattrs "_batch_identifiers" ltac:(discriminate)) as Hbi'.
      rewrite Hbi in Hbi'. destruct Hbi' as (x' & Hbi' & Hix). cbn in Hix.
      destruct (Hmemo i _ Hix) as (i' & o & o' & -> & Hi'n & Hoi & Hoi' & Hsh & Hitems).
      rewrite Hi in Hoi. injection Hoi as <-.
      destruct o' as [ci' items'| |]; try discriminate. injection Hsh as ->.
      cbn [entries] in Hitems.
      exists i', items'. split; [exact Hbi'|]. split; [lia|]. split; [exact Hoi'|].
      split; [exact Hitems|].
      split; intros k x h'' Hset; eapply py_setitem_elsewhere; try eassumption; lia.
  - intros Hhas f. unfold copy.deepcopy.
    unfold Py.bind at 1.
    rewrite (deepcopy_memo_hooked (S f) a _ attrs own a [] h eq_refl Ho Hfind).
    unfold Py.bind at 1.
    rewrite (method_without_batch_data_run _ a [] h _ attrs own Ho Hhas).
    rewrite (deepcopy_memo_unhooked f a cls_RuntimeBatchRequest attrs (Some HookNone));
      [|reflexivity|apply list_lookup_insert_eq; exact Ha|discriminate].
    unfold Py.bind at 1. unfold set__deepcopy__. rewrite Ho.
    unfold Py.bind at 1.
    destruct (copy._reconstruct _ _ _ _ _ _ _) as [h1 [[y1 memo1]|e]]; [|reflexivity].
    cbn [fst snd]. destruct (py_is y1 (VRef a)); reflexivity.
Qed.

Lemma deepcopy_shares_batch_data_witness :
  exists h' attrs' d' items',
    copy.deepcopy 10 (VRef 3) frame_request = (h', Ok (VRef 4))
    /\ h' !! 4 = Some (OReq cls_RuntimeBatchRequest attrs' (Some (HookBound 4)))
    /\ dict_get "_runtime_parameters" attrs' = Some (VRef d')
    /\ 4 <= d'
    /\ h' !! d' = Some (ODict cls_dict items')
    /\ dict_get "batch_data" items' = Some (VRef 0).
Proof.
  destruct (deepcopy_shares_batch_data frame_request 3 _ None
              (is_well_formed_sound frame_request eq_refl) eq_refl eq_refl)
    as (Htotal & Hcopy & _).
  destruct (Htotal 10 ltac:(cbn; lia)) as (h' & y & Hrun).
  destruct (Hcopy 10 h' y Hrun)
    as (memo & attrs' & own' & -> & Hy & _ & _ & _ & _ & Hshared & _).
  destruct (Hshared 1 cls_dict [("batch_data", VRef 0)] (VRef 0) eq_refl eq_refl eq_refl)
    as (d' & items' & items1 & Hrp' & Hd'n & Hd' & Hbd' & _).
  assert (Hown : own' = Some (HookBound 4)).
  { revert Hrun Hy. vm_compute. intros [= <-]. intros [= _ <-]. reflexivity. }
  subst own'. exists h', attrs', d', items'. auto 10.
Defined.

(** C8 does not hold of the code.  The claim has the deep copy of a
    [RuntimeBatchRequest] whose [runtime_parameters] contains ["batch_data"]
    hold the identical payload.  When an instance without ["batch_data"] is
    deep-copied, line 471 sets its [__deepcopy__] to [None] and nothing
    restores it (the other branch restores the method, line 454); from then
    on the interpreter finds no [__deepcopy__] to call on that instance.  So
    when the instance, a request for a query here, is given a
    ["batch_data"] after it was deep-copied once, its next deep copy holds a
    duplicate of the payload (the new object at address 9), not the payload
    (address 0), which the original holds. *)
Theorem deepcopy_after_deepcopy_duplicates_batch_data :
  let run := copied_then_given_batch_data 20 query_and_frame in
  snd run = Ok (VRef 7, VRef 9)
  /\ (exists attrs,
        fst run !! 3 = Some (OReq cls_RuntimeBatchRequest attrs (Some HookNone))
        /\ dict_get "_runtime_parameters" attrs = Some (VRef 1))
  /\ fst run !! 1
     = Some (ODict cls_dict [("query", VStr "SELECT 1"); ("batch_data", VRef 0)])
  /\ (exists attrs',
        fst run !! 7 = Some (OReq cls_RuntimeBatchRequest attrs' (Some HookNone))
        /\ dict_get "_runtime_parameters" attrs' = Some (VRef 8))
  /\ fst run !! 8
     = Some (ODict cls_dict [("query", VStr "SELECT 1"); ("batch_data", VRef 9)])
  /\ fst run !! 0 = Some (OPayload "pandas.core.frame.DataFrame")
  /\ fst run !! 9 = Some (OPayload "pandas.core.frame.DataFrame")
  /\ py_is (VRef 9) (VRef 0) = false.
Proof.
  cbv zeta. split; [vm_compute; reflexivity|].
  split; [eexists; split; vm_compute; reflexivity|].
  split; [vm_compute; reflexivity|].
  split; [eexists; split; vm_compute; reflexivity|].
  repeat split; vm_compute; reflexivity.
Qed.

(** ** The canonical form *)

Lemma deepcopy_memo_dict f a c items memo h :
  memo_get a memo = None ->
  h !! a = Some (ODict c items) ->
  copy.deepcopy_memo (S f) (VRef a) memo h
  = copy._deepcopy_dict (copy.deepcopy_memo f) a c items memo h.
Proof.
  intros Hm Ho. rewrite deepcopy_memo_S, Hm.
  unfold Py.bind at 1. unfold load. rewrite Ho. reflexivity.
Qed.

(** The copy of a dict. *)
Lemma deepcopy_dict_top h q c items fuel :
  well_formed h -> h !! q = Some (ODict c items) -> 2 * length h + 2 <= fuel ->
  exists h1 items',
    copy.deepcopy fuel (VRef q) h = (h1, Ok (VRef (length h)))
    /\ h1 !! length h = Some (ODict c items')
    /\ copied_entries (length h) h h1 items items'
    /\ frame (length h) h h1.
Proof.
  intros Hwf Ho Hfuel.
  assert (Hq : q < length h) by (eapply lookup_lt_Some; exact Ho).
  destruct (deepcopy_total h (VRef q) fuel Hwf Hq Hfuel) as (h1 & y & Hrun).
  destruct (deepcopy_spec_top h (VRef q) fuel h1 y Hwf Hq Hrun) as [Hframe _].
  destruct (well_formed_inv h Hwf) as [Hinv _].
  pose proof Hrun as Hrun'. revert Hrun'.
  unfold copy.deepcopy. bind_step h2 p E. destruct p as [y1 memo1].
  unfold Py.ret. intros [= <- <-]. cbn [fst] in *.
  destruct fuel as [|fuel]; [discriminate|].
  rewrite (deepcopy_memo_dict fuel q c items [] h eq_refl Ho) in E.
  destruct (deepcopy_dict_content _ _ (deepcopy_memo_spec _ fuel) _ _ _ _ _ _ _ _
              Hinv Hq Ho (proj1 (proj2 (Hwf _ _ Ho))) E) as (-> & items' & Hy & Hall).
  exists h2, items'. auto.
Qed.

Lemma dict_get_filter_ne k k0 (items : items_t) :
  k <> k0 ->
  dict_get k (List.filter (fun kv => negb (String.eqb (fst kv) k0)) items) = dict_get k items.
Proof.
  intros Hne. induction items as [|[k1 v1] items IH]; cbn; [reflexivity|].
  destruct (String.eqb k1 k0) eqn:E1; cbn.
  - apply String.eqb_eq in E1. subst k1.
    destruct (String.eqb k k0) eqn:E; [apply String.eqb_eq in E; contradiction|exact IH].
  - destruct (String.eqb k k1); [reflexivity|exact IH].
Qed.

Lemma dict_get_filter_eq k0 (items : items_t) :
  dict_get k0 (List.filter (fun kv => negb (String.eqb (fst kv) k0)) items) = None.
Proof.
  induction items as [|[k1 v1] items IH]; cbn; [reflexivity|].
  destruct (String.eqb k1 k0) eqn:E1; cbn; [exact IH|].
  rewrite String.eqb_sym, E1. exact IH.
Qed.

Lemma type_name_shape h h' v :
  (forall a, v = VRef a -> shape_at h' a = shape_at h a) ->
  type_name h' v = type_name h v.
Proof.
  destruct v; try reflexivity. intros Hs. specialize (Hs a eq_refl).
  unfold shape_at in Hs. cbn.
  destruct (h' !! a) as [[]|], (h !! a) as [[]|]; cbn in Hs; congruence.
Qed.

Lemma falsy_shape_new h h' v :
  (forall a, v = VRef a -> h' !! a = h !! a) -> falsy h' v = falsy h v.
Proof.
  destruct v; try reflexivity. intros Hs. cbn. rewrite (Hs a eq_refl). reflexivity.
Qed.

Lemma set_optional (h : heap) j c items k v :
  h !! j = Some (ODict c items) -> dict_get k items = None ->
  (if negb (is_None v) then py_setitem (VRef j) k v else Py.ret tt) h
  = (<[j:=ODict c (items ++ optional k v)]> h, Ok tt).
Proof.
  intros Hj Hk. unfold optional. destruct (is_None v); cbn [negb].
  - rewrite app_nil_r. rewrite list_insert_id by exact Hj. reflexivity.
  - unfold py_setitem. rewrite Hj. rewrite dict_set_fresh_key by exact Hk. reflexivity.
Qed.

Lemma frame_except_insert_at y n (h : heap) o o' :
  h !! y = Some o -> shape_of o' = shape_of o -> frame_except y n h (<[y:=o']> h).
Proof.
  intros Hy Hs a oa Ha. destruct (Nat.eqb a y) eqn:E.
  - apply Nat.eqb_eq in E. subst a. exists o'. split.
    + apply list_lookup_insert_eq. eapply lookup_lt_Some; exact Hy.
    + rewrite Hy in Ha. injection Ha as <-. exact Hs.
  - apply Nat.eqb_neq in E. exists oa. split; [|apply stable_refl].
    rewrite list_lookup_insert_ne by congruence. exact Ha.
Qed.

Lemma dict_get_app k (items items' : items_t) :
  dict_get k (items ++ items')
  = match dict_get k items with Some x => Some x | None => dict_get k items' end.
Proof.
  induction items as [|[k' v'] items IH]; cbn; [reflexivity|].
  destruct (String.eqb k k'); [reflexivity|exact IH].
Qed.

(** The [data_connector_query] of the canonical form. *)
Lemma query_part fuel h dcq :
  well_formed h -> 2 * length h + 2 <= fuel -> query_ok h dcq ->
  exists h2 dcq',
    (if negb (is_None dcq) then
       let* data_connector_query := copy.deepcopy fuel dcq in
       let* f := py_get data_connector_query "custom_filter_function" in
       (if negb (is_None f) then
          let* name := py_name f in
          py_setitem data_connector_query "custom_filter_function" name
        else Py.ret tt) ;;
       Py.ret data_connector_query
     else Py.ret VNone) h = (h2, Ok dcq')
    /\ json_query h h2 dcq dcq'
    /\ frame (length h) h h2
    /\ fresh_from (length h) dcq'
    /\ query_is_deepcopy fuel h h2 dcq dcq'.
Proof.
  intros Hwf Hfuel Hq. destruct dcq as [| | | | |q]; try contradiction.
  { exists h, VNone. cbn. split; [reflexivity|]. split; [reflexivity|].
    split; [apply frame_refl|]. split; [exact I|reflexivity]. }
  destruct Hq as (c & items & Ho & Hcff). cbn [is_None negb].
  assert (Hql : q < length h) by (eapply lookup_lt_Some; exact Ho).
  destruct (deepcopy_dict_top h q c items fuel Hwf Ho Hfuel)
    as (h1 & items' & Hrun & Hy & _ & Hframe).
  destruct (deepcopy_images h (VRef q) fuel h1 _ Hwf Hql Hrun) as (memo & Himg & Hrec).
  cbn [image] in Himg.
  assert (Hent : image_entries memo items items').
  { destruct (Hrec _ _ Himg) as (b & o & o' & [= <-] & _ & Ho0 & Ho1 & _ & Hent).
    rewrite Ho in Ho0. injection Ho0 as <-. rewrite Hy in Ho1. injection Ho1 as <-.
    exact Hent. }
  unfold Py.bind at 1. rewrite Hrun.
  unfold Py.bind at 1. unfold py_get. rewrite Hy.
  pose proof (Hent "custom_filter_function" ltac:(discriminate)) as Hc.
  assert (Hfin : forall h2 items2,
             h2 !! length h = Some (ODict c items2) ->
             (forall b, b <> length h -> h2 !! b = h1 !! b) ->
             dict_get "custom_filter_function" items2
             = option_map function_name (dict_get "custom_filter_function" items) ->
             (forall k, k <> "custom_filter_function" -> dict_get k items2 = dict_get k items') ->
             json_query h h2 (VRef q) (VRef (length h))).
  { intros h2 items2 Hy2 Hsame Hcff2 Hkeys.
    exists (length h), c, items, items2, memo. split; [reflexivity|]. split; [lia|].
    split; [exact Ho|]. split; [exact Hy2|]. split; [exact Himg|]. split; [exact Hcff2|].
    split.
    - intros k Hk1 Hk2. rewrite (Hkeys k Hk2). exact (Hent k Hk1).
    - intros a y Ha. destruct (Hrec a y Ha) as (b & o & o' & -> & Hab & Hoa & Hob & Hcont).
      destruct (Nat.eq_dec b (length h)) as [->|Hne].
      + exists (length h), o, (ODict c items2). split; [reflexivity|]. split; [exact Hab|].
        split; [exact Hoa|]. split; [exact Hy2|]. intros Hnn. contradiction.
      + exists b, o, o'. split; [reflexivity|]. split; [exact Hab|]. split; [exact Hoa|].
        split; [rewrite Hsame by exact Hne; exact Hob|]. intros _. exact Hcont. }
  assert (Hexact : forall h2,
             h2 !! length h = Some (ODict c (name_filter items')) ->
             (forall b, b <> length h -> h2 !! b = h1 !! b) ->
             query_is_deepcopy fuel h h2 (VRef q) (VRef (length h))).
  { intros h2 Hy2 Hsame. exists h1, (length h), c, items'. split; [reflexivity|].
    split; [exact Hrun|]. split; [exact Hy|]. split; [exact Hy2|].
    intros b Hb _. apply Hsame. exact Hb. }
  destruct (dict_get "custom_filter_function" items) as [x|] eqn:Hget.
  - destruct Hc as (x' & Hx' & Hcp). rewrite Hx'.
    destruct x as [| | | |name|]; try contradiction; cbn in Hcp; subst x'; cbn [is_None negb].
    + (* None *)
      unfold Py.bind, Py.ret.
      exists h1, (VRef (length h)). split; [reflexivity|].
      split; [|split; [exact Hframe|split; [cbn; lia|]]].
      * apply (Hfin h1 items'); [exact Hy|reflexivity|rewrite Hx'; reflexivity|reflexivity].
      * apply Hexact; [|reflexivity]. unfold name_filter. rewrite Hx'. exact Hy.
    + (* a function *)
      unfold Py.bind at 1. unfold Py.bind at 1. cbn [py_name].
      unfold py_setitem. rewrite Hy.
      set (h2 := <[length h:=ODict c (dict_set "custom_filter_function" (VStr name) items')]> h1).
      unfold Py.bind, Py.ret.
      assert (Hy2 : h2 !! length h
                    = Some (ODict c (dict_set "custom_filter_function" (VStr name) items'))).
      { subst h2. apply list_lookup_insert_eq. eapply lookup_lt_Some; exact Hy. }
      assert (Hsame2 : forall b, b <> length h -> h2 !! b = h1 !! b).
      { intros b Hb. subst h2. apply list_lookup_insert_ne. congruence. }
      exists h2, (VRef (length h)). split; [reflexivity|].
      split; [|split; [|split; [cbn; lia|]]].
      * apply (Hfin h2 _ Hy2).
        -- exact Hsame2.
        -- rewrite dict_get_set_eq. reflexivity.
        -- intros k Hk. apply dict_get_set_ne. exact Hk.
      * eapply (frame_then_except (length h)); [reflexivity|exact Hframe|].
        subst h2. eapply frame_except_insert_at; [exact Hy|reflexivity].
      * apply Hexact; [|exact Hsame2]. unfold name_filter. rewrite Hx'. exact Hy2.
  - rewrite Hc. cbn [is_None negb]. unfold Py.bind, Py.ret.
    exists h1, (VRef (length h)). split; [reflexivity|].
    split; [|split; [exact Hframe|split; [cbn; lia|]]].
    + apply (Hfin h1 items'); [exact Hy|reflexivity|rewrite Hc; reflexivity|reflexivity].
    + apply Hexact; [|reflexivity]. unfold name_filter. rewrite Hc. exact Hy.
Qed.

(** The [runtime_parameters] of the canonical form, entered in the dict
    [j] under construction. *)
Lemma parameters_part (h : heap) j cj jitems rp :
  h !! j = Some (ODict cj jitems) ->
  dict_get "runtime_parameters" jitems = None ->
  match rp with
  | VNone => True
  | VRef p => p <> j /\ exists c items, h !! p = Some (ODict c items)
  | _ => False
  end ->
  exists h' rp',
    (if negb (is_None rp) then
       let* items := py_items rp in
       let* d := new_dict (List.filter (fun kv => negb (String.eqb (fst kv) "batch_data")) items) in
       py_setitem (VRef j) "runtime_parameters" d ;;
       let* batch_data := py_get rp "batch_data" in
       if negb (is_None batch_data) then
         let* ty := reading (fun h => type_str h batch_data) in
         py_setitem d "batch_data" (VStr ty)
       else Py.ret tt
     else Py.ret tt) h = (h', Ok tt)
    /\ h' !! j = Some (ODict cj (jitems ++ optional "runtime_parameters" rp'))
    /\ (forall b, b <> j -> b < length h -> h' !! b = h !! b)
    /\ length h <= length h'
    /\ match rp with
       | VRef p =>
           exists c items items',
             rp' = VRef (length h)
             /\ h !! p = Some (ODict c items)
             /\ h' !! length h = Some (ODict cls_dict items')
             /\ length h' = S (length h)
             /\ forall k, dict_get k items'
                          = if String.eqb k "batch_data" then
                              match dict_get "batch_data" items with
                              | Some batch_data =>
                                  if is_None batch_data then None
                                  else Some (VStr (type_str h' batch_data))
                              | None => None
                              end
                            else dict_get k items
       | _ => rp' = VNone /\ h' = h
       end.
Proof.
  intros Hj Hk Hrp. destruct rp as [| | | | |p]; try contradiction.
  { exists h, VNone. cbn [is_None negb optional]. rewrite app_nil_r.
    split; [reflexivity|]. split; [exact Hj|]. split; [reflexivity|]. split; [lia|]. auto. }
  destruct Hrp as (Hpj & c & items & Hp). cbn [is_None negb].
  assert (Hjl : j < length h) by (eapply lookup_lt_Some; exact Hj).
  assert (Hpl : p < length h) by (eapply lookup_lt_Some; exact Hp).
  unfold Py.bind at 1. unfold py_items. rewrite Hp.
  unfold Py.bind at 1. cbn [new_dict alloc].
  set (kept := List.filter (fun kv => negb (String.eqb (fst kv) "batch_data")) items).
  set (h1 := h ++ [ODict cls_dict kept]).
  assert (Hj1 : h1 !! j = Some (ODict cj jitems)).
  { subst h1. rewrite lookup_app_l by exact Hjl. exact Hj. }
  unfold Py.bind at 1. unfold py_setitem at 1. rewrite Hj1.
  rewrite dict_set_fresh_key by exact Hk.
  set (h2 := <[j:=ODict cj (jitems ++ [("runtime_parameters", VRef (length h))])]> h1).
  assert (Hp2 : h2 !! p = Some (ODict c items)).
  { subst h2 h1. rewrite list_lookup_insert_ne by congruence.
    rewrite lookup_app_l by exact Hpl. exact Hp. }
  assert (Hr2 : h2 !! length h = Some (ODict cls_dict kept)).
  { subst h2 h1. rewrite list_lookup_insert_ne by lia. apply lookup_new. }
  assert (Hj2 : h2 !! j = Some (ODict cj (jitems ++ [("runtime_parameters", VRef (length h))]))).
  { subst h2. apply list_lookup_insert_eq. subst h1. rewrite length_app. cbn. lia. }
  assert (Hl2 : length h2 = S (length h)).
  { subst h2 h1. rewrite length_insert, length_app. cbn. lia. }
  assert (Hold2 : forall b, b <> j -> b < length h -> h2 !! b = h !! b).
  { intros b Hb Hbl. subst h2 h1. rewrite list_lookup_insert_ne by congruence.
    apply lookup_app_l. exact Hbl. }
  unfold Py.bind at 1. unfold py_get. rewrite Hp2.
  destruct (dict_get "batch_data" items) as [bd|] eqn:Hbd.
  - destruct (is_None bd) eqn:Hnone; cbn [negb].
    + exists h2, (VRef (length h)). cbn [Py.ret optional is_None].
      split; [reflexivity|]. split; [exact Hj2|]. split; [exact Hold2|]. split; [lia|].
      exists c, items, kept. split; [reflexivity|]. split; [first [exact Hp|reflexivity]|]. split; [exact Hr2|].
      split; [exact Hl2|]. intros k. destruct (String.eqb k "batch_data") eqn:E.
      * apply String.eqb_eq in E. subst k. rewrite Hbd, Hnone. apply dict_get_filter_eq.
      * apply String.eqb_neq in E. apply dict_get_filter_ne. exact E.
    + unfold Py.bind at 1. cbn [reading]. unfold py_setitem. rewrite Hr2.
      rewrite dict_set_fresh_key by apply dict_get_filter_eq.
      set (h3 := <[length h:=ODict cls_dict (kept ++ [("batch_data", VStr (type_str h2 bd))])]> h2).
      assert (Hty : type_str h3 bd = type_str h2 bd).
      { unfold type_str. f_equal. f_equal. apply type_name_shape. intros b _. subst h3.
        eapply shape_at_insert; [exact Hr2|reflexivity]. }
      exists h3, (VRef (length h)). cbn [Py.ret optional is_None].
      split; [reflexivity|]. split.
      { subst h3. rewrite list_lookup_insert_ne by lia. exact Hj2. }
      split.
      { intros b Hb Hbl. subst h3. rewrite list_lookup_insert_ne by lia. apply Hold2; assumption. }
      split; [subst h3; rewrite length_insert; lia|].
      exists c, items, (kept ++ [("batch_data", VStr (type_str h2 bd))]).
      split; [reflexivity|]. split; [first [exact Hp|reflexivity]|]. split.
      { subst h3. apply list_lookup_insert_eq. lia. }
      split; [subst h3; rewrite length_insert; exact Hl2|].
      intros k. destruct (String.eqb k "batch_data") eqn:E.
      * apply String.eqb_eq in E. subst k. rewrite Hbd, Hty, Hnone.
        rewrite dict_get_app. subst kept. rewrite dict_get_filter_eq. cbn. reflexivity.
      * rewrite dict_get_app. cbn [dict_get]. rewrite E.
        apply String.eqb_neq in E. subst kept. rewrite dict_get_filter_ne by exact E.
        destruct (dict_get k items); reflexivity.
  - cbn [is_None negb]. exists h2, (VRef (length h)). cbn [Py.ret optional is_None].
    split; [reflexivity|]. split; [exact Hj2|]. split; [exact Hold2|]. split; [lia|].
    exists c, items, kept. split; [reflexivity|]. split; [first [exact Hp|reflexivity]|]. split; [exact Hr2|].
    split; [exact Hl2|]. intros k. destruct (String.eqb k "batch_data") eqn:E.
    + apply String.eqb_eq in E. subst k. rewrite Hbd. apply dict_get_filter_eq.
    + apply String.eqb_neq in E. apply dict_get_filter_ne. exact E.
Qed.

Lemma frame_same_old n (h h2 h' : heap) :
  frame n h h2 -> (forall b, b < length h2 -> h' !! b = h2 !! b) -> frame n h h'.
Proof.
  intros Hf Hsame a o Ha. destruct (Hf a o Ha) as (o2 & Ha2 & Hst).
  exists o2. split; [|exact Hst]. rewrite Hsame; [exact Ha2|]. eapply lookup_lt_Some; exact Ha2.
Qed.

Lemma getattr_run (h : heap) a c attrs own attr x :
  h !! a = Some (OReq c attrs own) -> dict_get attr attrs = Some x ->
  py_getattr (VRef a) attr h = (h, Ok x).
Proof. intros Ha Hx. unfold py_getattr. rewrite Ha, Hx. reflexivity. Qed.

(** C5, as amended.  [to_json_dict] on an instance whose
    [data_connector_query] is [None] or a dict (with a function, [None] or
    nothing for ["custom_filter_function"]) and whose [runtime_parameters] is
    [None] or a dict returns a new dict.  Its entries are the three names and
    [data_connector_query], then [batch_spec_passthrough], [limit],
    [batch_identifiers] and [runtime_parameters], each only if not [None],
    less the entries whose value is falsy ([strip]).  The
    [data_connector_query] entry is a deep copy in which
    ["custom_filter_function"] is the name of the function: it is what
    [copy.deepcopy] returns for the [data_connector_query] of the instance,
    with that one entry replaced ([query_is_deepcopy]); a new dict whose
    entries are the images of the entries of the original, every object
    reached being copied by a new object with each reference replaced by
    its image ([json_query]).  The [runtime_parameters] entry is a new dict
    with the entries of the original, but for ["batch_data"]: it is the name
    of the type of the value when the value is not [None], and is left out
    when the value is [None] ([json_parameters]).  The other values are
    those of the instance, as they are.  The objects that existed keep
    their contents. *)
Theorem to_json_dict_entries fuel h a c own ds dc da dcq limit rp bi bsp :
  well_formed h -> 2 * length h + 2 <= fuel ->
  h !! a = Some (OReq c (BatchRequestBase.__init__ ds dc da dcq limit rp bi bsp) own) ->
  query_ok h dcq -> parameters_ok h rp ->
  exists h' j dcq' rp',
    Request.to_json_dict fuel (VRef a) h = (h', Ok (VRef j))
    /\ length h <= j
    /\ h' !! j = Some (ODict cls_dict (strip h' (json_entries ds dc da dcq' bsp limit bi rp')))
    /\ json_query h h' dcq dcq'
    /\ json_parameters h h' rp rp'
    /\ frame (length h) h h'
    /\ query_is_deepcopy fuel h h' dcq dcq'.
Proof.
  intros Hwf Hfuel Ho Hq Hp.
  set (attrs := BatchRequestBase.__init__ ds dc da dcq limit rp bi bsp) in *.
  assert (Hal : a < length h) by (eapply lookup_lt_Some; exact Ho).
  destruct (Hwf _ _ Ho) as (Hold & _ & _). cbn [entries] in Hold.
  assert (Hval : forall k x, dict_get k attrs = Some x -> old_val (length h) x).
  { intros k x Hk. exact (dict_get_Forall (old_val (length h)) _ _ _ Hold Hk). }
  pose proof (Hval "_datasource_name" ds eq_refl) as Hds.
  pose proof (Hval "_data_connector_name" dc eq_refl) as Hdc.
  pose proof (Hval "_data_asset_name" da eq_refl) as Hda.
  pose proof (Hval "_limit" limit eq_refl) as Hlimit.
  pose proof (Hval "_batch_identifiers" bi eq_refl) as Hbi.
  pose proof (Hval "_batch_spec_passthrough" bsp eq_refl) as Hbsp.
  pose proof (Hval "_runtime_parameters" rp eq_refl) as Hrp.
  unfold Request.to_json_dict, BatchRequestBase.to_json_dict.
  unfold Py.bind at 1. rewrite (getattr_run h a c attrs own "_data_connector_query" dcq Ho eq_refl).
  destruct (query_part fuel h dcq Hwf Hfuel Hq)
    as (h2 & dcq' & Hqrun & Hjq & Hf2 & Hdcq' & Hexact).
  unfold Py.bind at 1. rewrite Hqrun.
  (* the instance after the copy *)
  destruct (Hf2 _ _ Ho) as (o2 & Ho2 & Hst2).
  destruct o2 as [| |c2 attrs2 own2]; try contradiction. destruct Hst2 as [-> ->].
  fold attrs in Ho2.
  unfold Py.bind at 1. rewrite (getattr_run h2 a c attrs own2 "_datasource_name" ds Ho2 eq_refl).
  unfold Py.bind at 1. rewrite (getattr_run h2 a c attrs own2 "_data_connector_name" dc Ho2 eq_refl).
  unfold Py.bind at 1. rewrite (getattr_run h2 a c attrs own2 "_data_asset_name" da Ho2 eq_refl).
  unfold Py.bind at 1. cbn [new_dict alloc].
  set (j := length h2).
  set (base := [("datasource_name", ds); ("data_connector_name", dc); ("data_asset_name", da);
                ("data_connector_query", dcq')]).
  set (h3 := h2 ++ [ODict cls_dict base]).
  assert (Hlen2 : length h <= length h2).
  { destruct (Nat.le_gt_cases (length h) (length h2)) as [Hle|Hgt]; [exact Hle|].
    destruct (lookup_lt_is_Some_2 h (length h2) Hgt) as [o Hlk].
    destruct (Hf2 _ _ Hlk) as (o' & Hlk' & _). apply lookup_lt_Some in Hlk'. lia. }
  assert (Ho3 : h3 !! a = Some (OReq c attrs own2)).
  { subst h3. rewrite lookup_app_l by lia. exact Ho2. }
  assert (Hj3 : h3 !! j = Some (ODict cls_dict base)) by apply lookup_new.
  (* batch_spec_passthrough, limit, batch_identifiers *)
  unfold Py.bind at 1. rewrite (getattr_run h3 a c attrs own2 "_batch_spec_passthrough" bsp Ho3 eq_refl).
  unfold Py.bind at 1. rewrite (set_optional h3 j cls_dict base "batch_spec_passthrough" bsp Hj3 eq_refl).
  set (items4 := base ++ optional "batch_spec_passthrough" bsp).
  set (h4 := <[j:=ODict cls_dict items4]> h3).
  assert (Hl3 : length h3 = S j) by (subst h3 j; rewrite length_app; cbn; lia).
  assert (Ho4 : h4 !! a = Some (OReq c attrs own2)).
  { subst h4. rewrite list_lookup_insert_ne by (subst j; lia). exact Ho3. }
  assert (Hj4 : h4 !! j = Some (ODict cls_dict items4)).
  { subst h4. apply list_lookup_insert_eq. lia. }
  unfold Py.bind at 1. rewrite (getattr_run h4 a c attrs own2 "_limit" limit Ho4 eq_refl).
  assert (Hk4 : dict_get "limit" items4 = None).
  { subst items4. rewrite dict_get_app. unfold optional. destruct (is_None bsp); reflexivity. }
  unfold Py.bind at 1. rewrite (set_optional h4 j cls_dict items4 "limit" limit Hj4 Hk4).
  set (items5 := items4 ++ optional "limit" limit).
  set (h5 := <[j:=ODict cls_dict items5]> h4).
  assert (Hl4 : length h4 = S j) by (subst h4; rewrite length_insert; exact Hl3).
  assert (Ho5 : h5 !! a = Some (OReq c attrs own2)).
  { subst h5. rewrite list_lookup_insert_ne by (subst j; lia). exact Ho4. }
  assert (Hj5 : h5 !! j = Some (ODict cls_dict items5)).
  { subst h5. apply list_lookup_insert_eq. lia. }
  unfold Py.bind at 1. rewrite (getattr_run h5 a c attrs own2 "_batch_identifiers" bi Ho5 eq_refl).
  assert (Hk5 : dict_get "batch_identifiers" items5 = None).
  { subst items5 items4. rewrite !dict_get_app. unfold optional.
    destruct (is_None bsp), (is_None limit); reflexivity. }
  unfold Py.bind at 1. rewrite (set_optional h5 j cls_dict items5 "batch_identifiers" bi Hj5 Hk5).
  set (items6 := items5 ++ optional "batch_identifiers" bi).
  set (h6 := <[j:=ODict cls_dict items6]> h5).
  assert (Hl5 : length h5 = S j) by (subst h5; rewrite length_insert; exact Hl4).
  assert (Hl6 : length h6 = S j) by (subst h6; rewrite length_insert; exact Hl5).
  assert (Ho6 : h6 !! a = Some (OReq c attrs own2)).
  { subst h6. rewrite list_lookup_insert_ne by (subst j; lia). exact Ho5. }
  assert (Hj6 : h6 !! j = Some (ODict cls_dict items6)).
  { subst h6. apply list_lookup_insert_eq. lia. }
  assert (Hsame6 : forall b, b < j -> h6 !! b = h2 !! b).
  { intros b Hb. subst h6 h5 h4 h3. rewrite !list_lookup_insert_ne by lia.
    apply lookup_app_l. exact Hb. }
  (* runtime_parameters *)
  unfold Py.bind at 1. rewrite (getattr_run h6 a c attrs own2 "_runtime_parameters" rp Ho6 eq_refl).
  assert (Hk6 : dict_get "runtime_parameters" items6 = None).
  { subst items6 items5 items4. rewrite !dict_get_app. unfold optional.
    destruct (is_None bsp), (is_None limit), (is_None bi); reflexivity. }
  assert (Hp6 : match rp with
                | VNone => True
                | VRef p => p <> j /\ exists cp items, h6 !! p = Some (ODict cp items)
                | _ => False
                end).
  { destruct rp as [| | | | |p]; try contradiction; [exact I|].
    destruct Hp as (cp & items & Hlk). cbn in Hrp.
    destruct (Hf2 _ _ Hlk) as (o' & Hlk' & Hst).
    destruct o' as [cp' items1| |]; try contradiction. destruct Hst as (-> & _).
    split; [subst j; lia|]. exists cp, items1. rewrite Hsame6 by (subst j; lia). exact Hlk'. }
  destruct (parameters_part h6 j cls_dict items6 rp Hj6 Hk6 Hp6)
    as (h7 & rp' & Hprun & Hj7 & Hsame7 & Hl7 & Hrp').
  unfold Py.bind at 1. rewrite Hprun.
  unfold Py.bind at 1. unfold filter_properties_dict. rewrite Hj7.
  unfold Py.ret.
  set (items7 := items6 ++ optional "runtime_parameters" rp') in *.
  set (h8 := <[j:=ODict cls_dict (List.filter (fun kv => negb (falsy h7 (snd kv))) items7)]> h7).
  assert (Hentries : items7 = json_entries ds dc da dcq' bsp limit bi rp').
  { subst items7 items6 items5 items4 base. unfold json_entries.
    rewrite <- !app_assoc. reflexivity. }
  assert (Hsame8 : forall b, b <> j -> h8 !! b = h7 !! b).
  { intros b Hb. subst h8. apply list_lookup_insert_ne. congruence. }
  assert (Hsame28 : forall b, b < length h2 -> h8 !! b = h2 !! b).
  { intros b Hb. fold j in Hb. rewrite Hsame8 by lia. rewrite Hsame7 by lia.
    apply Hsame6. exact Hb. }
  exists h8, j, dcq', rp'.
  split; [reflexivity|]. split; [subst j; exact Hlen2|].
  assert (Hjl7 : j < length h7) by (eapply lookup_lt_Some; exact Hj7).
  assert (Hshape28 : forall b, is_Some (h2 !! b) -> shape_at h8 b = shape_at h2 b).
  { intros b Hb. unfold shape_at. rewrite Hsame28; [reflexivity|].
    apply lookup_lt_is_Some_1. exact Hb. }
  assert (Holdj : forall v, old_val (length h) v -> v <> VRef j).
  { intros v Hv ->. cbn in Hv. subst j. lia. }
  assert (Hdcqj : dcq' <> VRef j).
  { destruct dcq as [| | | | |q]; try contradiction.
    - cbn in Hjq. subst dcq'. discriminate.
    - destruct Hjq as (q' & cq & items & items' & memo & -> & _ & _ & Hq' & _).
      apply lookup_lt_Some in Hq'. intros [= ->]. subst j. lia. }
  assert (Hrpj : rp' <> VRef j).
  { destruct rp as [| | | | |p]; try contradiction.
    - destruct Hrp' as [-> _]. discriminate.
    - destruct Hrp' as (cp & items & items' & -> & _). rewrite Hl6. intros [= Hx]. lia. }
  split; [|split; [|split; [|split]]].
  - subst h8. rewrite list_lookup_insert_eq by exact Hjl7. f_equal. f_equal.
    rewrite <- Hentries. unfold strip. apply List.filter_ext_in.
    intros [k v] Hin. cbn [snd]. f_equal. symmetry. apply falsy_shape_new.
    intros b ->. apply list_lookup_insert_ne.
    assert (Hne : VRef b <> VRef j); [|congruence].
    subst items7 items6 items5 items4 base. unfold optional in Hin.
    repeat (apply in_app_or in Hin as [Hin|Hin]).
    + cbn in Hin. destruct Hin as [Hin|[Hin|[Hin|[Hin|[]]]]]; injection Hin as _ <-; auto.
    + destruct (is_None bsp); [destruct Hin|]. destruct Hin as [Hin|[]].
      injection Hin as _ <-. auto.
    + destruct (is_None limit); [destruct Hin|]. destruct Hin as [Hin|[]].
      injection Hin as _ <-. auto.
    + destruct (is_None bi); [destruct Hin|]. destruct Hin as [Hin|[]].
      injection Hin as _ <-. auto.
    + destruct (is_None rp'); [destruct Hin|]. destruct Hin as [Hin|[]].
      injection Hin as _ <-. auto.
  - destruct dcq as [| | | | |q]; try contradiction; [exact Hjq|].
    destruct Hjq as (q' & cq & items & items' & memo & -> & Hq'n & Hlk & Hq' & Himg & Hcff
                     & Hrest & Hrec).
    exists q', cq, items, items', memo. split; [reflexivity|]. split; [exact Hq'n|].
    split; [exact Hlk|]. split.
    { rewrite Hsame28; [exact Hq'|]. eapply lookup_lt_Some; exact Hq'. }
    split; [exact Himg|]. split; [exact Hcff|]. split; [exact Hrest|].
    intros a0 y0 Ha0. destruct (Hrec a0 y0 Ha0) as (b & o & o' & -> & Hab & Hoa & Hob & Hcont).
    exists b, o, o'. split; [reflexivity|]. split; [exact Hab|]. split; [exact Hoa|].
    split; [|exact Hcont]. rewrite Hsame28; [exact Hob|]. eapply lookup_lt_Some; exact Hob.
  - destruct rp as [| | | | |p]; try contradiction; [exact (proj1 Hrp')|].
    destruct Hrp' as (cp & items1 & items' & -> & Hp6' & Hr7 & _ & Hlookups).
    destruct Hp as (cp0 & items & Hlk). cbn in Hrp.
    destruct (Hf2 _ _ Hlk) as (o' & Hlk' & Hst).
    destruct o' as [cp' items2| |]; try contradiction. destruct Hst as (-> & Hsame & _).
    rewrite Hsame6 in Hp6' by (subst j; lia). rewrite Hlk' in Hp6'.
    injection Hp6' as <- <-.
    exists (length h6), cp0, items, items'. split; [reflexivity|].
    split; [rewrite Hl6; subst j; lia|]. split; [exact Hlk|]. split.
    { rewrite Hsame8 by lia. exact Hr7. }
    intros k. rewrite Hlookups. unfold json_runtime_parameters.
    destruct (String.eqb k "batch_data"); [|apply Hsame; left; exact Hrp].
    rewrite (Hsame "batch_data") by (left; exact Hrp).
    destruct (dict_get "batch_data" items) as [bd|] eqn:Hbd; [|reflexivity].
    destruct (is_None bd); [reflexivity|]. f_equal. f_equal.
    unfold type_str. f_equal. f_equal. apply type_name_shape. intros b ->.
    assert (Hbo : old_val (length h) (VRef b)).
    { exact (dict_get_Forall (old_val (length h)) _ _ _ (proj1 (Hwf _ _ Hlk)) Hbd). }
    cbn in Hbo. rewrite <- (frame_shape _ _ _ b Hf2) by (apply lookup_lt_is_Some_2; exact Hbo).
    unfold shape_at. rewrite Hsame7 by (subst j; lia).
    rewrite Hsame6 by (subst j; lia). reflexivity.
  - eapply frame_same_old; [exact Hf2|exact Hsame28].
  - destruct dcq as [| | | | |q]; try contradiction; [exact Hexact|].
    destruct Hexact as (h1 & q' & cq & items1 & -> & Hcopy & Hq1 & Hq2 & Hsame12).
    exists h1, q', cq, items1. split; [reflexivity|]. split; [exact Hcopy|].
    split; [exact Hq1|]. split.
    { rewrite Hsame28; [exact Hq2|]. eapply lookup_lt_Some; exact Hq2. }
    intros b Hb Hbl. rewrite <- (Hsame12 b Hb Hbl). apply Hsame28.
    apply lookup_lt_is_Some_1. rewrite (Hsame12 b Hb Hbl).
    apply lookup_lt_is_Some_2. exact Hbl.
Qed.

Lemma to_json_dict_entries_witness :
  exists h',
    Request.to_json_dict 10 (VRef 3) frame_request = (h', Ok (VRef 4))
    /\ h' !! 4 = Some (ODict cls_dict
                         (strip h' (json_entries (VStr "s1") (VStr "c1") (VStr "a1") VNone
                                                 VNone VNone (VRef 2) (VRef 5))))
    /\ json_parameters frame_request h' (VRef 1) (VRef 5).
Proof.
  destruct (to_json_dict_entries 10 frame_request 3 cls_RuntimeBatchRequest None
              (VStr "s1") (VStr "c1") (VStr "a1") VNone VNone (VRef 1) (VRef 2) VNone
              (is_well_formed_sound frame_request eq_refl) ltac:(cbn; lia) eq_refl I
              (ex_intro _ cls_dict (ex_intro _ [("batch_data", VRef 0)] eq_refl)))
    as (h' & j & dcq' & rp' & Hrun & _ & Hj & Hq & Hp & _).
  cbn in Hq. subst dcq'.
  assert (j = 4 /\ rp' = VRef 5) as [-> ->].
  { destruct Hp as (r & c & items & items' & -> & _ & _ & Hr & _).
    revert Hrun Hr. vm_compute. intros [= <- <-] Hr. split; [reflexivity|].
    destruct r as [|[|[|[|[|[|r]]]]]]; try discriminate; reflexivity. }
  exists h'. auto.
Defined.

(** C5 as stated fails, in three ways.  (1) The ["batch_data"] entry of the
    runtime parameters holds [None], and the canonical form has no
    ["batch_data"] entry at all (not the name of the type of [None]).
    (2) The runtime parameters hold a data frame under a key of the
    caller's: the canonical form holds the data frame itself, and is not
    JSON-safe (that of (1) is).  (3) The ["custom_filter_function"] is the
    name of a function, a str: [to_json_dict] builds no mapping, it
    raises. *)
Lemma to_json_dict_counterexample :
  let call := Request.to_json_dict 8 (VRef 2) null_batch_data in
  let frame_call := Request.to_json_dict 10 (VRef 3) frame_under_other_key in
  let filter_call := Request.to_json_dict 10 (VRef 1) named_filter in
  (null_batch_data !! 0
   = Some (ODict cls_dict [("batch_data", VNone); ("query", VStr "SELECT 1")])
   /\ snd call = Ok (VRef 3)
   /\ fst call !! 3
      = Some (ODict cls_dict [("datasource_name", VStr "s1");
                              ("data_connector_name", VStr "c1");
                              ("data_asset_name", VStr "a1");
                              ("batch_identifiers", VRef 1);
                              ("runtime_parameters", VRef 4)])
   /\ fst call !! 4 = Some (ODict cls_dict [("query", VStr "SELECT 1")])
   /\ json_safe 5 (fst call) (VRef 3) = true)
  /\ (snd frame_call = Ok (VRef 4)
      /\ fst frame_call !! 4
         = Some (ODict cls_dict [("datasource_name", VStr "s1");
                                 ("data_connector_name", VStr "c1");
                                 ("data_asset_name", VStr "a1");
                                 ("batch_identifiers", VRef 2);
                                 ("runtime_parameters", VRef 5)])
      /\ fst frame_call !! 5 = Some (ODict cls_dict [("my_frame", VRef 0)])
      /\ fst frame_call !! 0 = Some (OPayload "pandas.core.frame.DataFrame")
      /\ json_safe 5 (fst frame_call) (VRef 4) = false)
  /\ snd filter_call = Raise (AttributeError "'str' object has no attribute '__name__'").
Proof. cbv zeta. repeat split; vm_compute; reflexivity. Qed.

(** ** What a call leaves of the heap *)

Lemma extends_refl h : extends h h.
Proof. intros a o Ha. exact Ha. Qed.

Lemma extends_trans h1 h2 h3 : extends h1 h2 -> extends h2 h3 -> extends h1 h3.
Proof. intros H12 H23 a o Ha. auto. Qed.

Lemma extends_alloc (h : heap) o : extends h (h ++ [o]).
Proof.
  intros a o' Ha. rewrite lookup_app_l; [exact Ha|]. eapply lookup_lt_Some; exact Ha.
Qed.

Lemma extends_length (h h' : heap) : extends h h' -> length h <= length h'.
Proof.
  intros He. destruct (Nat.le_gt_cases (length h) (length h')) as [Hle|Hgt]; [exact Hle|].
  destruct (lookup_lt_is_Some_2 h (length h') Hgt) as [o Ho].
  apply He in Ho. apply lookup_lt_Some in Ho. lia.
Qed.

Lemma extends_insert_new (h0 h : heap) a o :
  extends h0 h -> length h0 <= a -> extends h0 (<[a:=o]> h).
Proof.
  intros He Ha b ob Hb. rewrite list_lookup_insert_ne; [apply He; exact Hb|].
  apply lookup_lt_Some in Hb. lia.
Qed.

(** One step of a computation, whether it returns or raises. *)
Ltac bind_case h x E :=
  unfold Py.bind at 1;
  match goal with
  | |- (let (_, _) := ?c in _) = _ -> _ => destruct c as [h [x|?]] eqn:E
  end.

Lemma py_setitem_heap v k x h h' r :
  py_setitem v k x h = (h', r) ->
  h' = h \/ exists a o', v = VRef a /\ h' = <[a:=o']> h.
Proof.
  unfold py_setitem. destruct v; try (intros [= <- _]; left; reflexivity).
  destruct (h !! a) as [[c items|t|c attrs own]|];
    try (intros [= <- _]; first [left; reflexivity|right; eauto]).
  unfold instance_setattr.
  repeat match goal with
         | |- context [if ?b then _ else _] => destruct b
         | |- context [match x with _ => _ end] => destruct x
         end; intros [= <- _]; first [left; reflexivity|right; eauto].
Qed.

Lemma py_setitem_extends h0 v k x h h' r :
  fresh_from (length h0) v -> extends h0 h -> py_setitem v k x h = (h', r) -> extends h0 h'.
Proof.
  intros Hv He Hs. destruct (py_setitem_heap _ _ _ _ _ _ Hs) as [->|(a & o' & -> & ->)];
    [exact He|].
  apply extends_insert_new; assumption.
Qed.

Lemma py_update_extends h0 v other h h' r :
  fresh_from (length h0) v -> extends h0 h -> py_update v other h = (h', r) -> extends h0 h'.
Proof.
  intros Hv He. unfold py_update, Py.bind, py_items.
  assert (Hgo : forall (items : items_t) r',
             match v with
             | VRef a =>
                 match h !! a with
                 | Some (ODict c items0) =>
                     (<[a:=ODict c (dict_update items items0)]> h, Ok ())
                 | _ => (h, Raise (no_attribute h v "update"))
                 end
             | _ => (h, Raise (no_attribute h v "update"))
             end = (h', r') -> extends h0 h').
  { intros items r'. destruct v; try (intros [= <- _]; exact He).
    destruct (h !! a) as [[c items0| |]|]; intros [= <- _]; try exact He.
    apply extends_insert_new; assumption. }
  destruct other; try (intros [= <- _]; exact He).
  destruct (h !! a) as [[c items| |]|]; try (intros [= <- _]; exact He).
  apply Hgo.
Qed.

Lemma new_IDDict_extends v h h' r :
  new_IDDict v h = (h', r) ->
  extends h h' /\ forall x, r = Ok x -> x = VRef (length h).
Proof.
  unfold new_IDDict, alloc. destruct (dict_entries h v) as [items|e]; intros [= <- <-].
  - split; [apply extends_alloc|]. intros x [= <-]. reflexivity.
  - split; [apply extends_refl|discriminate].
Qed.

Lemma BatchRequest_new_extends ds dc da q lim bsp h h' r :
  BatchRequest.new ds dc da q lim bsp h = (h', r) -> extends h h'.
Proof.
  unfold BatchRequest.new, BatchRequest.__init__, BatchRequest._validate_init_parameters.
  run. repeat case_step; intros [= <- _]; first [apply extends_refl|apply extends_alloc].
Qed.

Lemma RuntimeBatchRequest_new_extends ds dc da rp bi bsp h h' r :
  RuntimeBatchRequest.new ds dc da rp bi bsp h = (h', r) -> extends h h'.
Proof.
  unfold RuntimeBatchRequest.new, RuntimeBatchRequest.__init__, BatchRequest.__init__,
    BatchRequest._validate_init_parameters,
    BatchRequest._validate_runtime_batch_request_specific_init_parameters.
  run. repeat case_step; intros [= <- _]; first [apply extends_refl|apply extends_alloc].
Qed.

Lemma passthrough_extends args h h' r : passthrough args h = (h', r) -> extends h h'.
Proof.
  unfold passthrough.
  destruct (is_None (Args.batch_spec_passthrough args));
    [|intros [= <- _]; apply extends_refl].
  unfold Py.bind at 1. cbn [new_dict alloc].
  set (h1 := h ++ [ODict cls_dict []]).
  assert (He1 : extends h h1) by apply extends_alloc.
  assert (Hbsp : fresh_from (length h) (VRef (length h))) by (cbn; lia).
  (* each of the two groups of parameters *)
  assert (Hgroup : forall method params (key key' : string) h2 h3 r3,
             extends h h2 ->
             (if negb (is_None method) then
                let* p := new_dict [(key, method)] in
                (if negb (is_None params) then py_setitem p key' params else Py.ret tt) ;;
                py_update (VRef (length h)) p
              else Py.ret tt) h2 = (h3, r3) ->
             extends h h3).
  { intros method params key key' h2 h3 r3 He2.
    destruct (negb (is_None method)); [|intros [= <- _]; exact He2].
    unfold Py.bind at 1. cbn [new_dict alloc].
    assert (Hp : fresh_from (length h) (VRef (length h2))).
    { cbn. apply extends_length. exact He2. }
    assert (He2' : extends h (h2 ++ [ODict cls_dict [(key, method)]])).
    { eapply extends_trans; [exact He2|apply extends_alloc]. }
    bind_case h4 u E4.
    - intros Hup. eapply py_update_extends; [exact Hbsp| |exact Hup].
      destruct (negb (is_None params)).
      + eapply py_setitem_extends; [exact Hp|exact He2'|exact E4].
      + injection E4 as <- _. exact He2'.
    - intros [= <- _]. destruct (negb (is_None params)).
      + eapply py_setitem_extends; [exact Hp|exact He2'|exact E4].
      + discriminate. }
  bind_case h2 u2 E2.
  - apply Hgroup in E2; [|exact He1].
    bind_case h3 u3 E3.
    + apply Hgroup in E3; [|exact E2]. intros [= <- _]. exact E3.
    + apply Hgroup in E3; [|exact E2]. intros [= <- _]. exact E3.
  - apply Hgroup in E2; [|exact He1]. intros [= <- _]. exact E2.
Qed.

Lemma catalog_request_extends args ds bfp h h' r :
  catalog_request args ds bfp h = (h', r) -> extends h h'.
Proof.
  unfold catalog_request.
  bind_case h1 q E1.
  - assert (He1 : extends h h1).
    { destruct (is_None (Args.data_connector_query args)).
      - revert E1. unfold Py.bind at 1. cbn [new_dict alloc]. intros E1.
        apply new_IDDict_extends in E1 as [E1 _].
        eapply extends_trans; [apply extends_alloc|exact E1].
      - apply new_IDDict_extends in E1 as [E1 _]. exact E1. }
    bind_case h2 bsp E2.
    + apply passthrough_extends in E2. intros Hnew. apply BatchRequest_new_extends in Hnew.
      eapply extends_trans; [exact He1|]. eapply extends_trans; eassumption.
    + apply passthrough_extends in E2. intros [= <- _].
      eapply extends_trans; eassumption.
  - intros [= <- _].
    destruct (is_None (Args.data_connector_query args)).
    + revert E1. unfold Py.bind at 1. cbn [new_dict alloc]. intros E1.
      apply new_IDDict_extends in E1 as [E1 _].
      eapply extends_trans; [apply extends_alloc|exact E1].
    + apply new_IDDict_extends in E1 as [E1 _]. exact E1.
Qed.

Lemma catalog_branch_extends args kwargs ds s s' r :
  catalog_branch args kwargs ds s = (s', r) -> extends (Log.heap_of s) (Log.heap_of s').
Proof.
  unfold catalog_branch.
  assert (Hlift : forall bfp s0 s1 r1,
             Log.lift (catalog_request args ds bfp) s0 = (s1, r1) ->
             extends (Log.heap_of s0) (Log.heap_of s1)).
  { intros bfp s0 s1 r1. unfold Log.lift.
    destruct (catalog_request args ds bfp (Log.heap_of s0)) as [h1 r0] eqn:E.
    intros [= <- _]. cbn. eapply catalog_request_extends; exact E. }
  destruct (is_None (Args.data_connector_query args)); [|apply Hlift].
  destruct (negb (is_None (Args.batch_filter_parameters args))
            && negb (is_None (Args.batch_identifiers args))).
  { intros [= <- _]. apply extends_refl. }
  destruct (is_None (Args.batch_filter_parameters args)
            && negb (is_None (Args.batch_identifiers args))).
  { unfold Log.bind, Log.warning. intros Hl. apply Hlift in Hl. exact Hl. }
  destruct (is_None (Args.batch_filter_parameters args) && is_None (Args.batch_identifiers args));
    apply Hlift.
Qed.

Lemma extends_reconciled args h h' : extends h h' -> reconciled args h h'.
Proof. intros He a o Ha. left. apply He. exact Ha. Qed.

Lemma truthy_dict_nonempty h a c items :
  h !! a = Some (ODict c items) -> truthy h (VRef a) = true -> items <> [].
Proof. unfold truthy. intros ->. destruct items; [discriminate|discriminate]. Qed.

Lemma plain_runtime_key (k : string) (v : pyval) bd q p :
  In (k, v) [("batch_data", bd); ("query", q); ("path", p)] -> plain_attribute k = true.
Proof. intros [H|[H|[H|[]]]]; injection H as <- _; reflexivity. Qed.

Lemma runtime_branch_reconciled args ds h0 h h' r :
  extends h0 h ->
  runtime_branch args (VRef (length h0)) ds h = (h', r) ->
  reconciled args h0 h'.
Proof.
  intros He. unfold runtime_branch.
  unfold Py.bind at 1. cbn [reading].
  destruct (truthy h (Args.runtime_parameters args)) eqn:Hrp.
  - unfold Py.bind at 1. cbn [Py.ret].
    (* the assignment into the caller's mapping *)
    assert (Hset : forall k v h1 r1,
               In (k, v) [("batch_data", Args.batch_data args);
                          ("query", Args.query args);
                          ("path", Args.path args)] ->
               negb (is_None v) = true ->
               py_setitem (Args.runtime_parameters args) k v h = (h1, r1) ->
               reconciled args h0 h1
               /\ forall h2, extends h1 h2 -> reconciled args h0 h2).
    { intros k v h1 r1 Hin Hv Hs.
      assert (Hgo : forall h2, extends h1 h2 -> reconciled args h0 h2);
        [|split; [apply Hgo, extends_refl|exact Hgo]].
      intros h2 He2.
      destruct (py_setitem_cases (Args.runtime_parameters args) k v h
                  (plain_runtime_key _ _ _ _ _ Hin))
        as [[msg Hbad]|[(a & c & items & Ha & Hl & Hok)|(a & c & attrs & own & Ha & Hl & Hok)]].
      - rewrite Hbad in Hs. injection Hs as <- _.
        apply extends_reconciled. eapply extends_trans; eassumption.
      - rewrite Hok in Hs. injection Hs as <- _.
        intros b o Hb. destruct (Nat.eq_dec b a) as [->|Hne].
        + right. split; [exact Ha|].
          pose proof (He _ _ Hb) as Hb'. rewrite Hl in Hb'. injection Hb' as <-.
          exists k, v, (ODict c (dict_set k v items)). split; [exact Hin|].
          split; [destruct v; cbn in Hv; congruence|].
          split; [split; [eapply truthy_dict_nonempty; [exact Hl|rewrite <- Ha; exact Hrp]
                         |reflexivity]|].
          apply He2. apply list_lookup_insert_eq. eapply lookup_lt_Some; exact Hl.
        + left. apply He2. rewrite list_lookup_insert_ne by congruence. apply He. exact Hb.
      - rewrite Hok in Hs. injection Hs as <- _.
        intros b o Hb. destruct (Nat.eq_dec b a) as [->|Hne].
        + right. split; [exact Ha|].
          pose proof (He _ _ Hb) as Hb'. rewrite Hl in Hb'. injection Hb' as <-.
          exists k, v, (OReq c (dict_set k v attrs) own). split; [exact Hin|].
          split; [destruct v; cbn in Hv; congruence|].
          split; [reflexivity|].
          apply He2. apply list_lookup_insert_eq. eapply lookup_lt_Some; exact Hl.
        + left. apply He2. rewrite list_lookup_insert_ne by congruence. apply He. exact Hb. }
    assert (Hnew : forall h1 bi r1,
               (forall h2, extends h1 h2 -> reconciled args h0 h2) ->
               RuntimeBatchRequest.new ds (Args.data_connector_name args)
                 (Args.data_asset_name args) (Args.runtime_parameters args) bi
                 (Args.batch_spec_passthrough args) h1 = (h', r1) ->
               reconciled args h0 h').
    { intros h1 bi r1 Hgo Hn. apply Hgo. eapply RuntimeBatchRequest_new_extends; exact Hn. }
    destruct (negb (is_None (Args.batch_data args))) eqn:Hbd;
      [|destruct (negb (is_None (Args.query args))) eqn:Hq;
        [|destruct (negb (is_None (Args.path args))) eqn:Hp]].
    + bind_case h1 u E1.
      * apply Hset in E1 as [_ E1]; [|cbn; auto|exact Hbd]. apply Hnew. exact E1.
      * apply Hset in E1 as [E1 _]; [|cbn; auto|exact Hbd]. intros [= <- _]. exact E1.
    + bind_case h1 u E1.
      * apply Hset in E1 as [_ E1]; [|cbn; auto|exact Hq]. apply Hnew. exact E1.
      * apply Hset in E1 as [E1 _]; [|cbn; auto|exact Hq]. intros [= <- _]. exact E1.
    + bind_case h1 u E1.
      * apply Hset in E1 as [_ E1]; [|cbn; auto|exact Hp]. apply Hnew. exact E1.
      * apply Hset in E1 as [E1 _]; [|cbn; auto|exact Hp]. intros [= <- _]. exact E1.
    + unfold Py.bind at 1. cbn [Py.ret]. apply Hnew.
      intros h2 He2. apply extends_reconciled. eapply extends_trans; eassumption.
  - unfold Py.bind at 1. cbn [new_dict alloc].
    set (h1 := h ++ [ODict cls_dict []]).
    assert (He1 : extends h0 h1).
    { eapply extends_trans; [exact He|apply extends_alloc]. }
    assert (Hrp' : fresh_from (length h0) (VRef (length h))).
    { cbn. apply extends_length. exact He. }
    intros Hrun. apply extends_reconciled. revert Hrun.
    bind_case h2 u E2.
    + intros Hn. apply RuntimeBatchRequest_new_extends in Hn.
      eapply extends_trans; [|exact Hn].
      destruct (negb (is_None (Args.batch_data args)));
        [|destruct (negb (is_None (Args.query args)));
          [|destruct (negb (is_None (Args.path args)))]];
        try (eapply py_setitem_extends; [exact Hrp'|exact He1|exact E2]).
      injection E2 as <- _. exact He1.
    + intros [= <- _].
      destruct (negb (is_None (Args.batch_data args)));
        [|destruct (negb (is_None (Args.query args)));
          [|destruct (negb (is_None (Args.path args)))]];
        try (eapply py_setitem_extends; [exact Hrp'|exact He1|exact E2]).
      discriminate.
Qed.

(** The call as a whole. *)
Lemma get_batch_request_reconciled args h lg s' r :
  get_batch_request_from_acceptable_arguments args (Log.State h lg) = (s', r) ->
  reconciled args h (Log.heap_of s').
Proof.
  pose proof (checks_pure args (on_entry h args)) as Hpure.
  assert (He : extends h (on_entry h args)) by apply extends_alloc.
  destruct (checks args (on_entry h args)) as [h1 [ds|e]] eqn:Hc; cbn in Hpure; subst h1.
  - rewrite (call_checks_ok _ _ lg _ _ Hc). unfold after_checks. cbn [Log.heap_of].
    destruct (truthy (on_entry h args) (Args.batch_request args)).
    { intros [= <- _]. apply extends_reconciled. exact He. }
    destruct (is_runtime (on_entry h args) args).
    + unfold Log.lift. cbn [Log.heap_of Log.log].
      destruct (runtime_branch args (VRef (length h)) ds (on_entry h args)) as [h2 r2] eqn:Hr.
      intros [= <- _]. cbn. eapply runtime_branch_reconciled; eassumption.
    + intros Hcat. apply catalog_branch_extends in Hcat. cbn in Hcat.
      apply extends_reconciled. eapply extends_trans; eassumption.
  - rewrite (call_checks_raise _ _ lg _ _ Hc). intros [= <- _].
    apply extends_reconciled. exact He.
Qed.

(** The log of the call as a whole. *)
Lemma get_batch_request_logged args h lg s' r :
  get_batch_request_from_acceptable_arguments args (Log.State h lg) = (s', r) ->
  logged lg (Log.log s').
Proof.
  assert (Hlift : forall A (m : H A) s0 s1 r1,
             Log.lift m s0 = (s1, r1) -> Log.log s1 = Log.log s0).
  { intros A m s0 s1 r1. unfold Log.lift. destruct (m (Log.heap_of s0)) as [h1 r0].
    intros [= <- _]. reflexivity. }
  destruct (checks args (on_entry h args)) as [h1 [ds|e]] eqn:Hc.
  - pose proof (checks_pure args (on_entry h args)) as Hpure. rewrite Hc in Hpure.
    cbn in Hpure. subst h1.
    rewrite (call_checks_ok _ _ lg _ _ Hc). unfold after_checks. cbn [Log.heap_of].
    destruct (truthy (on_entry h args) (Args.batch_request args)).
    { intros [= <- _]. left. reflexivity. }
    destruct (is_runtime (on_entry h args) args).
    + intros Hl. apply Hlift in Hl. left. exact Hl.
    + unfold catalog_branch.
      destruct (is_None (Args.data_connector_query args));
        [|intros Hl; apply Hlift in Hl; left; exact Hl].
      destruct (negb (is_None (Args.batch_filter_parameters args))
                && negb (is_None (Args.batch_identifiers args))).
      { intros [= <- _]. left. reflexivity. }
      destruct (is_None (Args.batch_filter_parameters args)
                && negb (is_None (Args.batch_identifiers args))).
      { unfold Log.bind, Log.warning. intros Hl. apply Hlift in Hl. right. exact Hl. }
      destruct (is_None (Args.batch_filter_parameters args)
                && is_None (Args.batch_identifiers args));
        intros Hl; apply Hlift in Hl; left; exact Hl.
  - pose proof (checks_pure args (on_entry h args)) as Hpure. rewrite Hc in Hpure.
    cbn in Hpure. subst h1.
    rewrite (call_checks_raise _ _ lg _ _ Hc). intros [= <- _]. left. reflexivity.
Qed.

(** C9, as amended.  (1) Whatever a call to
    [get_batch_request_from_acceptable_arguments] does, returning or
    raising, it leaves every object that existed unchanged, but possibly the
    [runtime_parameters] argument, in which the [batch_data], [query] or
    [path] argument, not [None], has been entered: as an entry if it is a
    non-empty dict, as an attribute if it is a request instance; and it
    writes nothing to the module's logger but, possibly, the deprecation
    warning.  (2) A deep copy of a [RuntimeBatchRequest] that returns leaves
    the instance with the attributes it had, and every object that existed
    with its contents ([frame]); nothing is said of the instance's own
    [__deepcopy__]. *)
Theorem calls_leave_arguments_but_runtime_parameters :
  (forall args h lg s' r,
      get_batch_request_from_acceptable_arguments args (Log.State h lg) = (s', r) ->
      reconciled args h (Log.heap_of s') /\ logged lg (Log.log s'))
  /\ (forall h a attrs own fuel h' y,
        well_formed h ->
        h !! a = Some (OReq cls_RuntimeBatchRequest attrs own) ->
        copy.deepcopy fuel (VRef a) h = (h', Ok y) ->
        frame (length h) h h'
        /\ exists own', h' !! a = Some (OReq cls_RuntimeBatchRequest attrs own')).
Proof.
  split.
  - intros args h lg s' r Hcall.
    split; [eapply get_batch_request_reconciled|eapply get_batch_request_logged]; exact Hcall.
  - intros h a attrs own fuel h' y Hwf Ho Hrun.
    assert (Ha : a < length h) by (eapply lookup_lt_Some; exact Ho).
    destruct (deepcopy_spec_top h (VRef a) fuel h' y Hwf Ha Hrun) as [Hframe _].
    split; [exact Hframe|].
    destruct (Hframe _ _ Ho) as (o' & Ho' & Hst).
    destruct o' as [| |c' attrs' own']; try contradiction. destruct Hst as [-> ->].
    exists own'. exact Ho'.
Qed.

Lemma calls_leave_arguments_but_runtime_parameters_witness :
  (reconciled query_with_parameters two_mappings
     (Log.heap_of (fst (get_batch_request_from_acceptable_arguments
                          query_with_parameters (Log.State two_mappings []))))
   /\ logged []
        (Log.log (fst (get_batch_request_from_acceptable_arguments
                         query_with_parameters (Log.State two_mappings [])))))
  /\ frame 4 frame_request (fst (copy.deepcopy 10 (VRef 3) frame_request)).
Proof.
  destruct calls_leave_arguments_but_runtime_parameters as [Hcall Hcopy].
  split.
  - eapply (Hcall query_with_parameters two_mappings []). apply surjective_pairing.
  - eapply (Hcopy frame_request 3 _ None 10 _ (VRef 4)
              (is_well_formed_sound frame_request eq_refl) eq_refl).
    reflexivity.
Defined.

(** C9 as stated fails.  A call that passes a non-empty [runtime_parameters]
    together with [query] returns a request and leaves ["query"] entered in
    the caller's mapping; a call that passes [batch_identifiers] for a
    request that is not a runtime request writes the deprecation warning to
    the module's logger; and the deep copy of a [RuntimeBatchRequest]
    without ["batch_data"] leaves [__deepcopy__] set to [None] on the
    original. *)
Lemma runtime_parameters_counterexample :
  let call :=
    get_batch_request_from_acceptable_arguments query_with_parameters
      (Log.State two_mappings []) in
  let logging :=
    get_batch_request_from_acceptable_arguments
      (Args.with_batch_identifiers (VRef 0) names_only) (Log.State one_mapping []) in
  let duplication := copy.deepcopy 8 (VRef 2) query_request in
  (snd call = Ok (VRef 3)
   /\ two_mappings !! 0 = Some (ODict cls_dict [("schema", VStr "public")])
   /\ Log.heap_of (fst call) !! 0
      = Some (ODict cls_dict [("schema", VStr "public"); ("query", VStr "SELECT 1")]))
  /\ (snd logging = Ok (VRef 5) /\ Log.log (fst logging) = [deprecation_message])
  /\ (snd duplication = Ok (VRef 3)
      /\ (exists attrs, query_request !! 2 = Some (OReq cls_RuntimeBatchRequest attrs None)
                        /\ fst duplication !! 2
                           = Some (OReq cls_RuntimeBatchRequest attrs (Some HookNone)))).
Proof.
  cbv zeta. split; [split; [|split]; reflexivity|].
  split; [split; vm_compute; reflexivity|].
  split; [reflexivity|]. eexists. split; reflexivity.
Qed.

(** ** What the constructors accept *)

Lemma name_passes_dec h name :
  (is_None name = false /\ truthy h name && negb (isinstance_str name) = false)
  <-> name_passes h name.
Proof.
  unfold name_passes. split.
  - intros [Hn Ht]. split; [destruct name; discriminate|].
    intros Htr. rewrite Htr in Ht. cbn in Ht. apply Bool.negb_false_iff in Ht. exact Ht.
  - intros [Hn Ht]. split; [destruct name; try reflexivity; congruence|].
    destruct (truthy h name); [|reflexivity]. rewrite Ht by reflexivity. reflexivity.
Qed.

Lemma name_required_dec h name :
  negb (truthy h name && isinstance_str name) = false <-> name_required name.
Proof.
  unfold name_required. split.
  - intros Hn. apply Bool.negb_false_iff, Bool.andb_true_iff in Hn. destruct Hn as [Ht Hs].
    destruct name; try discriminate. exists s. split; [reflexivity|].
    intros ->. discriminate.
  - intros (s & -> & Hs). destruct s; [congruence|reflexivity].
Qed.

Lemma validate_batch_definition_pure ds dc da bi h :
  fst (BatchDefinition._validate_batch_definition ds dc da bi h) = h.
Proof.
  unfold BatchDefinition._validate_batch_definition.
  repeat (apply bind_pure; [apply raise_if_pure|intros _]). apply raise_if_pure.
Qed.

Lemma validate_batch_definition_iff ds dc da bi h :
  BatchDefinition._validate_batch_definition ds dc da bi h = (h, Ok tt)
  <-> Forall (name_passes h) [ds; dc; da]
      /\ (truthy h bi = true -> isinstance_IDDict h bi = true).
Proof.
  rewrite !Forall_cons, <- !name_passes_dec.
  unfold BatchDefinition._validate_batch_definition. run.
  destruct (is_None ds); [split; [discriminate|intros [[[? _] _] _]; discriminate]|].
  destruct (truthy h ds && negb (isinstance_str ds));
    [split; [discriminate|intros [[[_ ?] _] _]; discriminate]|].
  destruct (is_None dc); [split; [discriminate|intros [(_ & [? _] & _) _]; discriminate]|].
  destruct (truthy h dc && negb (isinstance_str dc));
    [split; [discriminate|intros [(_ & [_ ?] & _) _]; discriminate]|].
  destruct (is_None da);
    [split; [discriminate|intros [(_ & _ & [? _] & _) _]; discriminate]|].
  destruct (truthy h da && negb (isinstance_str da));
    [split; [discriminate|intros [(_ & _ & [_ ?] & _) _]; discriminate]|].
  destruct (truthy h bi); cbn [andb].
  - destruct (isinstance_IDDict h bi); cbn [negb].
    + split; [intros _|reflexivity]. repeat split; try constructor.
    + split; [discriminate|]. intros [_ Hbi]. specialize (Hbi eq_refl). discriminate.
  - split; [intros _|reflexivity]. repeat split; try constructor. discriminate.
Qed.

Lemma validate_batch_definition_raises ds dc da bi h e :
  snd (BatchDefinition._validate_batch_definition ds dc da bi h) = Raise e ->
  exists msg, e = ValueError msg \/ e = TypeError msg.
Proof.
  unfold BatchDefinition._validate_batch_definition. run. revert e.
  repeat (case_step; cbn [snd]; try discriminate;
          try (intros e [= <-]; eexists; eauto; fail)).
Qed.

(** X1.  [BatchDefinition._validate_batch_definition] returns exactly when
    each of the three names is not [None] and is a str unless it is falsy,
    and [batch_identifiers] is an [IDDict] unless it is falsy; it raises a
    [ValueError] or a [TypeError] otherwise, and never touches the heap. *)
Theorem validate_batch_definition_accepts ds dc da bi h :
  (BatchDefinition._validate_batch_definition ds dc da bi h = (h, Ok tt)
   <-> Forall (name_passes h) [ds; dc; da]
       /\ (truthy h bi = true -> isinstance_IDDict h bi = true))
  /\ fst (BatchDefinition._validate_batch_definition ds dc da bi h) = h
  /\ (forall e, snd (BatchDefinition._validate_batch_definition ds dc da bi h) = Raise e ->
        exists msg, e = ValueError msg \/ e = TypeError msg).
Proof.
  split; [apply validate_batch_definition_iff|].
  split; [apply validate_batch_definition_pure|apply validate_batch_definition_raises].
Qed.

Lemma type_is_IDDict_instance h v : type_is_IDDict h v = true -> isinstance_IDDict h v = true.
Proof.
  unfold type_is_IDDict, isinstance_IDDict. destruct v; try discriminate.
  destruct (h !! a) as [[[] ?| |]|]; try discriminate. reflexivity.
Qed.

Lemma BatchDefinition_init_run ds dc da bi bsp h :
  Forall (name_passes h) [ds; dc; da] ->
  (truthy h bi = true -> isinstance_IDDict h bi = true) ->
  BatchDefinition.__init__ ds dc da bi bsp h
  = if type_is_IDDict h bi then (h, Ok (BatchDefinition.Build ds dc da bi bsp))
    else (h, Raise AssertionError).
Proof.
  intros Hn Hb. unfold BatchDefinition.__init__.
  unfold Py.bind at 1.
  rewrite (proj2 (validate_batch_definition_iff ds dc da bi h) (conj Hn Hb)).
  unfold Py.bind, raise_if, Py.ret. destruct (type_is_IDDict h bi); reflexivity.
Qed.

Lemma BatchDefinition_init_validated ds dc da bi bsp h r :
  BatchDefinition.__init__ ds dc da bi bsp h = (h, r) ->
  (exists self, r = Ok self) \/ r = Raise AssertionError ->
  BatchDefinition._validate_batch_definition ds dc da bi h = (h, Ok tt).
Proof.
  unfold BatchDefinition.__init__. unfold Py.bind at 1.
  pose proof (validate_batch_definition_pure ds dc da bi h) as Hp.
  pose proof (validate_batch_definition_raises ds dc da bi h) as Hr.
  destruct (BatchDefinition._validate_batch_definition ds dc da bi h) as [h1 [[]|e]];
    cbn [fst snd] in *; subst h1; [reflexivity|].
  intros [= <-] [[self [=]]|[= ->]].
  destruct (Hr _ eq_refl) as [msg [|]]; discriminate.
Qed.

(** X2.  [BatchDefinition.__init__] builds the definition exactly when the
    names pass the validator and [batch_identifiers] is of type [IDDict]
    itself.  A [batch_identifiers] that the validator lets through but that
    is not of that very type -- a falsy value such as [None] or an empty dict,
    or an instance of a subclass of [IDDict] -- fails the assertion: the
    outcome is an [AssertionError], not a [TypeError].  The heap is left as
    it was. *)
Theorem batch_definition_needs_exact_IDDict ds dc da bi bsp h :
  (BatchDefinition.__init__ ds dc da bi bsp h
   = (h, Ok (BatchDefinition.Build ds dc da bi bsp))
   <-> Forall (name_passes h) [ds; dc; da] /\ type_is_IDDict h bi = true)
  /\ (BatchDefinition.__init__ ds dc da bi bsp h = (h, Raise AssertionError)
      <-> Forall (name_passes h) [ds; dc; da]
          /\ (truthy h bi = true -> isinstance_IDDict h bi = true)
          /\ type_is_IDDict h bi = false).
Proof.
  split; split.
  - intros Hrun.
    pose proof (BatchDefinition_init_validated _ _ _ _ _ _ _ Hrun (or_introl (ex_intro _ _ eq_refl)))
      as Hv.
    apply validate_batch_definition_iff in Hv. destruct Hv as [Hn Hb].
    split; [exact Hn|]. rewrite (BatchDefinition_init_run _ _ _ _ _ _ Hn Hb) in Hrun.
    destruct (type_is_IDDict h bi); [reflexivity|discriminate].
  - intros [Hn Ht].
    rewrite (BatchDefinition_init_run _ _ _ _ _ _ Hn (fun _ => type_is_IDDict_instance _ _ Ht)).
    rewrite Ht. reflexivity.
  - intros Hrun.
    pose proof (BatchDefinition_init_validated _ _ _ _ _ _ _ Hrun (or_intror eq_refl)) as Hv.
    apply validate_batch_definition_iff in Hv. destruct Hv as [Hn Hb].
    split; [exact Hn|]. split; [exact Hb|].
    rewrite (BatchDefinition_init_run _ _ _ _ _ _ Hn Hb) in Hrun.
    destruct (type_is_IDDict h bi); [discriminate|reflexivity].
  - intros (Hn & Hb & Ht). rewrite (BatchDefinition_init_run _ _ _ _ _ _ Hn Hb), Ht.
    reflexivity.
Qed.

Lemma validate_init_parameters_pure ds dc da dcq limit h :
  fst (BatchRequest._validate_init_parameters ds dc da dcq limit h) = h.
Proof.
  unfold BatchRequest._validate_init_parameters.
  repeat (apply bind_pure; [apply raise_if_pure|intros _]). apply raise_if_pure.
Qed.

Lemma validate_init_parameters_raises ds dc da dcq limit h e :
  snd (BatchRequest._validate_init_parameters ds dc da dcq limit h) = Raise e ->
  exists msg, e = TypeError msg.
Proof.
  unfold BatchRequest._validate_init_parameters. run. revert e.
  repeat (case_step; cbn [snd]; try discriminate;
          try (intros e [= <-]; eexists; eauto; fail)).
Qed.

Lemma validate_init_parameters_iff ds dc da dcq limit h :
  BatchRequest._validate_init_parameters ds dc da dcq limit h = (h, Ok tt)
  <-> Forall name_required [ds; dc; da]
      /\ (truthy h dcq = true -> isinstance_dict h dcq = true)
      /\ (truthy h limit = true -> isinstance_int limit = true).
Proof.
  rewrite !Forall_cons, <- !(name_required_dec h).
  unfold BatchRequest._validate_init_parameters. run.
  destruct (negb (truthy h ds && isinstance_str ds));
    [split; [discriminate|intros [[? _] _]; discriminate]|].
  destruct (negb (truthy h dc && isinstance_str dc));
    [split; [discriminate|intros [(_ & ? & _) _]; discriminate]|].
  destruct (negb (truthy h da && isinstance_str da));
    [split; [discriminate|intros [(_ & _ & ? & _) _]; discriminate]|].
  destruct (truthy h dcq); cbn [andb].
  - destruct (isinstance_dict h dcq); cbn [negb];
      [|split; [discriminate|intros (_ & Hq & _); specialize (Hq eq_refl); discriminate]].
    destruct (truthy h limit); cbn [andb].
    + destruct (isinstance_int limit); cbn [negb];
        [|split; [discriminate|intros (_ & _ & Hl); specialize (Hl eq_refl); discriminate]].
      split; [intros _|reflexivity]. repeat split; try constructor.
    + split; [intros _|reflexivity]. repeat split; try constructor. discriminate.
  - destruct (truthy h limit); cbn [andb].
    + destruct (isinstance_int limit); cbn [negb];
        [|split; [discriminate|intros (_ & _ & Hl); specialize (Hl eq_refl); discriminate]].
      split; [intros _|reflexivity]. repeat split; try constructor; discriminate.
    + split; [intros _|reflexivity]. repeat split; try constructor; discriminate.
Qed.

(** The call [BatchRequest(...)], whichever way it goes. *)
Lemma BatchRequest_new_cases ds dc da dcq limit bsp h :
  (Forall name_required [ds; dc; da]
   /\ (truthy h dcq = true -> isinstance_dict h dcq = true)
   /\ (truthy h limit = true -> isinstance_int limit = true)
   /\ BatchRequest.new ds dc da dcq limit bsp h
      = (h ++ [OReq cls_BatchRequest
                    (BatchRequestBase.__init__ ds dc da dcq limit VNone VNone bsp) None],
         Ok (VRef (length h))))
  \/ (exists msg, BatchRequest.new ds dc da dcq limit bsp h = (h, Raise (TypeError msg))).
Proof.
  unfold BatchRequest.new, BatchRequest.__init__.
  pose proof (validate_init_parameters_pure ds dc da dcq limit h) as Hp.
  pose proof (validate_init_parameters_raises ds dc da dcq limit h) as Hr.
  pose proof (validate_init_parameters_iff ds dc da dcq limit h) as Hi.
  unfold Py.bind, Py.ret, alloc.
  destruct (BatchRequest._validate_init_parameters ds dc da dcq limit h) as [h1 [[]|e]];
    cbn [fst snd] in *; subst h1.
  - left. destruct (proj1 Hi eq_refl) as (Hn & Hq & Hl). auto.
  - right. destruct (Hr _ eq_refl) as [msg ->]. eauto.
Qed.

(** X3.  The call [BatchRequest(...)] returns exactly when the three names
    are non-empty strs, [data_connector_query] is a dict unless it is falsy,
    and [limit] is an int unless it is falsy; [batch_spec_passthrough] is
    not looked at.  It then allocates one object, the request, with the
    attributes as given and neither [runtime_parameters] nor
    [batch_identifiers].  Every other call raises a [TypeError] and leaves
    the heap as it was. *)
Theorem batch_request_new_outcome ds dc da dcq limit bsp h :
  let accepted :=
    Forall name_required [ds; dc; da]
    /\ (truthy h dcq = true -> isinstance_dict h dcq = true)
    /\ (truthy h limit = true -> isinstance_int limit = true) in
  (accepted ->
   BatchRequest.new ds dc da dcq limit bsp h
   = (h ++ [OReq cls_BatchRequest
                 (BatchRequestBase.__init__ ds dc da dcq limit VNone VNone bsp) None],
      Ok (VRef (length h))))
  /\ (~ accepted ->
      exists msg, BatchRequest.new ds dc da dcq limit bsp h = (h, Raise (TypeError msg)))
  /\ (forall h' r, BatchRequest.new ds dc da dcq limit bsp h = (h', Ok r) -> accepted).
Proof.
  cbv zeta.
  destruct (BatchRequest_new_cases ds dc da dcq limit bsp h)
    as [(Hn & Hq & Hl & Hrun)|[msg Hrun]].
  - split; [intros _; exact Hrun|]. split; [intros Hno; exfalso; apply Hno; auto|]. auto.
  - split; [|split].
    + intros Hacc. exfalso.
      apply (proj2 (validate_init_parameters_iff ds dc da dcq limit h)) in Hacc.
      revert Hrun. unfold BatchRequest.new, BatchRequest.__init__, Py.bind.
      rewrite Hacc. discriminate.
    + intros _. eauto.
    + intros h' r Hok. rewrite Hrun in Hok. discriminate.
Qed.

(** ** What [get_batch_request_from_acceptable_arguments] builds *)

(** *** The heap and what is appended to it *)

Lemma lookup_tail (h l : heap) i : (h ++ l) !! (length h + i) = l !! i.
Proof. rewrite lookup_app_r by lia. f_equal. lia. Qed.

Lemma lookup_tail_0 (h l : heap) : (h ++ l) !! length h = l !! 0.
Proof. rewrite <- (lookup_tail h l 0). f_equal. lia. Qed.

Lemma insert_tail (h l : heap) i o : <[length h + i := o]> (h ++ l) = h ++ <[i := o]> l.
Proof. apply insert_app_r. Qed.

Lemma insert_tail_0 (h l : heap) o : <[length h := o]> (h ++ l) = h ++ <[0 := o]> l.
Proof. rewrite <- insert_tail. f_equal. lia. Qed.

Lemma lookup_head (h l : heap) a o : h !! a = Some o -> (h ++ l) !! a = Some o.
Proof. intros Ho. apply lookup_app_l_Some. exact Ho. Qed.

Lemma on_entry_length h args : length (on_entry h args) = S (length h).
Proof. unfold on_entry. rewrite length_app. cbn. lia. Qed.

Lemma on_entry_kwargs h args :
  on_entry h args !! length h = Some (ODict cls_dict (Args.kwargs args)).
Proof. unfold on_entry. rewrite lookup_tail_0. reflexivity. Qed.

(** *** Truth values and types across an assignment *)

Lemma dict_set_nonempty k v items : dict_set k v items <> [].
Proof. destruct items as [|[k' v'] items]; cbn; [discriminate|]. destruct (String.eqb k k'); discriminate. Qed.

Lemma py_setitem_run a c items k x h :
  h !! a = Some (ODict c items) ->
  py_setitem (VRef a) k x h = (<[a := ODict c (dict_set k x items)]> h, Ok tt).
Proof. intros Ho. unfold py_setitem. rewrite Ho. reflexivity. Qed.

Lemma truthy_dict h a c items :
  h !! a = Some (ODict c items) -> truthy h (VRef a) = negb (match items with [] => true | _ => false end).
Proof. intros Ho. unfold truthy. rewrite Ho. destruct items; reflexivity. Qed.

Lemma insert_dict_truthy a c items o' h w :
  h !! a = Some (ODict c items) ->
  (exists items', o' = ODict c items' /\ (items <> [] -> items' <> [])) ->
  truthy h w = true -> truthy (<[a := o']> h) w = true.
Proof.
  intros Ho (items' & -> & Hne) Hw. destruct w; try exact Hw.
  unfold truthy in *. destruct (decide (a0 = a)) as [->|Hn].
  - rewrite list_lookup_insert_eq by (eapply lookup_lt_Some; exact Ho).
    rewrite Ho in Hw. destruct items as [|kv items]; [discriminate|].
    destruct items'; [exfalso; apply Hne; [discriminate|reflexivity]|reflexivity].
  - rewrite list_lookup_insert_ne by congruence. exact Hw.
Qed.

Lemma insert_dict_isinstance a c items items' h w :
  h !! a = Some (ODict c items) ->
  isinstance_dict (<[a := ODict c items']> h) w = isinstance_dict h w.
Proof.
  intros Ho. destruct w; try reflexivity. unfold isinstance_dict.
  destruct (decide (a0 = a)) as [->|Hn].
  - rewrite list_lookup_insert_eq by (eapply lookup_lt_Some; exact Ho). rewrite Ho. reflexivity.
  - rewrite list_lookup_insert_ne by congruence. reflexivity.
Qed.

Lemma alloc_truthy o h w : truthy h w = true -> old_val (length h) w -> truthy (h ++ [o]) w = true.
Proof.
  intros Hw Hold. destruct w; try exact Hw. cbn in Hold. unfold truthy in *.
  rewrite lookup_app_l by exact Hold. exact Hw.
Qed.

(** *** The checks *)

Lemma appears_in_dict g a c items k h :
  h !! a = Some (ODict c items) ->
  appears_in g (VRef a) k h = (h, Ok (g && dict_has k items)).
Proof.
  intros Ho. unfold appears_in. destruct g; [|reflexivity].
  unfold Py.bind, reading. rewrite (truthy_dict _ _ _ _ Ho).
  destruct items as [|kv items]; [reflexivity|]. cbn [negb].
  unfold py_contains. rewrite Ho. reflexivity.
Qed.

Lemma appears_in_falsy g rp k h :
  truthy h rp = false -> appears_in g rp k h = (h, Ok false).
Proof.
  intros Hrp. unfold appears_in. destruct g; [|reflexivity].
  unfold Py.bind, reading. rewrite Hrp. reflexivity.
Qed.

Lemma collision_dict args a c items h :
  Args.runtime_parameters args = VRef a ->
  h !! a = Some (ODict c items) ->
  collision args h
  = (h, Ok (negb (is_None (Args.batch_data args)) && dict_has "batch_data" items
            || truthy h (Args.query args) && dict_has "query" items
            || truthy h (Args.path args) && dict_has "path" items)).
Proof.
  intros Hrp Ho. unfold collision. rewrite Hrp.
  unfold Py.bind at 1. rewrite (appears_in_dict _ _ _ _ _ _ Ho).
  unfold Py.bind at 1. unfold reading at 1.
  unfold Py.bind at 1. rewrite (appears_in_dict _ _ _ _ _ _ Ho).
  unfold Py.bind at 1. unfold reading at 1.
  unfold Py.bind at 1. rewrite (appears_in_dict _ _ _ _ _ _ Ho).
  reflexivity.
Qed.

Lemma collision_falsy args h :
  truthy h (Args.runtime_parameters args) = false -> collision args h = (h, Ok false).
Proof.
  intros Hrp. unfold collision.
  unfold Py.bind at 1. rewrite (appears_in_falsy _ _ _ _ Hrp).
  unfold Py.bind at 1. unfold reading at 1.
  unfold Py.bind at 1. rewrite (appears_in_falsy _ _ _ _ Hrp).
  unfold Py.bind at 1. unfold reading at 1.
  unfold Py.bind at 1. rewrite (appears_in_falsy _ _ _ _ Hrp).
  reflexivity.
Qed.

Lemma is_runtime_false h args :
  is_runtime h args = false ->
  Args.batch_data args = VNone /\ truthy h (Args.query args) = false
  /\ truthy h (Args.path args) = false /\ truthy h (Args.runtime_parameters args) = false.
Proof.
  unfold is_runtime. intros Hr.
  apply Bool.orb_false_iff in Hr. destruct Hr as [Hr Hrp].
  apply Bool.orb_false_iff in Hr. destruct Hr as [Hr Hp].
  apply Bool.orb_false_iff in Hr. destruct Hr as [Hb Hq].
  apply Bool.negb_false_iff in Hb. destruct (Args.batch_data args); try discriminate. auto.
Qed.

(** What the checks have established when they pass. *)
Lemma checks_ok_inv args h h1 ds :
  checks args h = (h1, Ok ds) ->
  h1 = h /\ (exists n, ds = VStr n) /\ several_given args = false
  /\ collision args h = (h, Ok false)
  /\ (if truthy h (Args.batch_request args)
      then isinstance_BatchRequest h (Args.batch_request args) = true
           /\ py_getattr (Args.batch_request args) "_datasource_name" h = (h, Ok ds)
      else ds = Args.datasource_name args).
Proof.
  intros Hc. pose proof (checks_pure args h) as Hp. rewrite Hc in Hp. cbn in Hp. subst h1.
  split; [reflexivity|]. revert Hc. unfold checks.
  unfold Py.bind at 1. unfold reading at 1.
  unfold Py.bind at 1.
  assert (Hstep : forall ds0,
    (let* _ := raise_if (fun _ => negb (isinstance_str ds0))
                 (fun h0 => GreatExpectationsTypeError
                    ("the first parameter, datasource_name, must be a str, not "
                     ++ type_str h0 ds0)) in
     let* _ := raise_if (fun _ => several_given args) (fun _ => ValueError only_one_message) in
     let* c := collision args in
     if c then Py.raise (ValueError same_keys_message) else Py.ret ds0) h = (h, Ok ds) ->
    ds0 = ds /\ (exists n, ds = VStr n) /\ several_given args = false
    /\ collision args h = (h, Ok false)).
  { intros ds0. unfold Py.bind, raise_if.
    destruct (isinstance_str ds0) eqn:Hs; cbn [negb]; [|discriminate].
    destruct (several_given args); [discriminate|].
    pose proof (collision_pure args h) as Hcp.
    destruct (collision args h) as [h2 [[|]|e]]; cbn in Hcp; subst h2; try discriminate.
    unfold Py.ret. intros [= <-]. destruct ds0; try discriminate. eauto 6. }
  destruct (truthy h (Args.batch_request args)).
  - unfold Py.bind at 1. unfold raise_if at 1.
    destruct (isinstance_BatchRequest h (Args.batch_request args)); cbn [negb]; [|discriminate].
    pose proof (getattr_pure (Args.batch_request args) "_datasource_name" h) as Hg.
    destruct (py_getattr (Args.batch_request args) "_datasource_name" h) as [h2 [ds0|e]];
      cbn in Hg; subst h2; [|discriminate].
    intros Hc. destruct (Hstep _ Hc) as (-> & Hn & Hs & Hcol). auto 6.
  - unfold Py.ret at 1. intros Hc. destruct (Hstep _ Hc) as (<- & Hn & Hs & Hcol). auto 6.
Qed.

(** The checks pass when no request is given, the [datasource_name] is a
    str, at most one source is given and none is a key of
    [runtime_parameters]. *)
Lemma checks_named args h n :
  truthy h (Args.batch_request args) = false ->
  Args.datasource_name args = VStr n ->
  several_given args = false ->
  collision args h = (h, Ok false) ->
  checks args h = (h, Ok (VStr n)).
Proof.
  intros Hbr Hn Hs Hc. unfold checks.
  unfold Py.bind at 1. unfold reading at 1. rewrite Hbr.
  unfold Py.bind at 1. unfold Py.ret at 1. rewrite Hn.
  unfold Py.bind, raise_if. cbn [isinstance_str negb]. rewrite Hs, Hc. reflexivity.
Qed.

Lemma type_checks_pass_inv args h :
  type_checks_pass h args -> several_given args = false ->
  forall b, collision args h = (h, Ok b) ->
  if b then checks args h = (h, Raise (ValueError same_keys_message))
  else exists n, checks args h = (h, Ok (VStr n)).
Proof.
  unfold type_checks_pass. intros Ht Hs b Hc.
  destruct (truthy h (Args.batch_request args)) eqn:Hbr.
  - destruct Ht as [Hi [n Hn]].
    destruct b; [|exists n; apply (checks_prebuilt args h n Hbr Hi Hn Hs Hc)].
    apply checks_result. unfold checks. run. rewrite Hbr, Hi. cbn [negb].
    pose proof (getattr_pure (Args.batch_request args) "_datasource_name" h) as Hp.
    destruct (py_getattr _ _ h) as [h1 r1]. cbn in Hp, Hn. subst.
    cbn [isinstance_str negb]. rewrite Hs, Hc. reflexivity.
  - destruct (Args.datasource_name args) eqn:Hn; try discriminate.
    destruct b; [|exists s; apply (checks_named args h s Hbr Hn Hs Hc)].
    apply checks_result. unfold checks. run. rewrite Hbr, Hn.
    cbn [isinstance_str negb]. rewrite Hs, Hc. reflexivity.
Qed.

(** *** The runtime branch *)

Lemma nonempty_dict_iff h v :
  nonempty_dict h v <-> truthy h v = true /\ isinstance_dict h v = true.
Proof.
  unfold nonempty_dict, truthy, isinstance_dict. split.
  - intros (a & c & items & -> & Ho & Hne). rewrite Ho.
    destruct items; [congruence|auto].
  - intros [Ht Hi]. destruct v; try discriminate.
    destruct (h !! a) as [[c items| |]|] eqn:Ho; try discriminate.
    exists a, c, items. split; [reflexivity|]. split; [exact Ho|].
    intros ->. discriminate.
Qed.

Lemma dicts_kept_refl h : dicts_kept h h.
Proof. intros a c items Ho. eauto. Qed.

Lemma dicts_kept_insert h a c items items' :
  h !! a = Some (ODict c items) -> (items <> [] -> items' <> []) ->
  dicts_kept h (<[a := ODict c items']> h).
Proof.
  intros Ho Hne b cb itemsb Hb. destruct (decide (b = a)) as [->|Hn].
  - rewrite Ho in Hb. injection Hb as <- <-.
    rewrite list_lookup_insert_eq by (eapply lookup_lt_Some; exact Ho). eauto.
  - rewrite list_lookup_insert_ne by congruence. eauto.
Qed.

Lemma dicts_kept_app h l : dicts_kept h (h ++ l).
Proof. intros a c items Ho. exists items. split; [apply lookup_head; exact Ho|auto]. Qed.

Lemma nonempty_dict_kept h h' v : dicts_kept h h' -> nonempty_dict h v -> nonempty_dict h' v.
Proof.
  intros Hk (a & c & items & -> & Ho & Hne).
  destruct (Hk _ _ _ Ho) as (items' & Ho' & Hne'). exists a, c, items'. auto.
Qed.

Lemma dict_if_truthy_kept h h' v : dicts_kept h h' -> dict_if_truthy h v -> dict_if_truthy h' v.
Proof.
  unfold dict_if_truthy. intros Hk Hv Ht. destruct v; try (apply Hv; exact Ht).
  unfold isinstance_dict, truthy in *.
  destruct (h !! a) as [[c items| |]|] eqn:Ho;
    try (specialize (Hv eq_refl); discriminate).
  destruct (Hk _ _ _ Ho) as (items' & -> & _). reflexivity.
Qed.

Lemma validate_runtime_pure rp bi bsp h :
  fst (BatchRequest._validate_runtime_batch_request_specific_init_parameters rp bi bsp h) = h.
Proof.
  unfold BatchRequest._validate_runtime_batch_request_specific_init_parameters.
  repeat (apply bind_pure; [apply raise_if_pure|intros _]). apply raise_if_pure.
Qed.

Lemma validate_runtime_raises rp bi bsp h e :
  snd (BatchRequest._validate_runtime_batch_request_specific_init_parameters rp bi bsp h)
  = Raise e ->
  exists msg, e = TypeError msg.
Proof.
  unfold BatchRequest._validate_runtime_batch_request_specific_init_parameters. run. revert e.
  repeat (case_step; cbn [snd]; try discriminate;
          try (intros e [= <-]; eexists; eauto; fail)).
Qed.

Lemma validate_runtime_iff rp bi bsp h :
  BatchRequest._validate_runtime_batch_request_specific_init_parameters rp bi bsp h = (h, Ok tt)
  <-> nonempty_dict h rp /\ nonempty_dict h bi /\ dict_if_truthy h bsp.
Proof.
  rewrite !nonempty_dict_iff. unfold dict_if_truthy.
  unfold BatchRequest._validate_runtime_batch_request_specific_init_parameters. run.
  destruct (truthy h rp), (isinstance_dict h rp); cbn [andb negb];
    try (split; [discriminate|intros [[? ?] _]; discriminate]).
  destruct (truthy h bi), (isinstance_dict h bi); cbn [andb negb];
    try (split; [discriminate|intros (_ & [? ?] & _); discriminate]).
  destruct (truthy h bsp); cbn [andb].
  - destruct (isinstance_dict h bsp); cbn [negb].
    + split; [auto|reflexivity].
    + split; [discriminate|]. intros (_ & _ & Hb). specialize (Hb eq_refl). discriminate.
  - split; [intros _; repeat split; discriminate|reflexivity].
Qed.

(** The call [RuntimeBatchRequest(...)] when its arguments are valid. *)
Lemma RuntimeBatchRequest_new_run ds dc da rp bi bsp h :
  Forall name_required [ds; dc; da] ->
  nonempty_dict h rp -> nonempty_dict h bi -> dict_if_truthy h bsp ->
  RuntimeBatchRequest.new ds dc da rp bi bsp h
  = (h ++ [OReq cls_RuntimeBatchRequest
                (BatchRequestBase.__init__ ds dc da VNone VNone rp bi bsp) None],
     Ok (VRef (length h))).
Proof.
  intros Hn Hrp Hbi Hbsp.
  unfold RuntimeBatchRequest.new, RuntimeBatchRequest.__init__, BatchRequest.__init__.
  unfold Py.bind at 1. unfold Py.bind at 1. unfold Py.bind at 1.
  rewrite (proj2 (validate_init_parameters_iff ds dc da VNone VNone h));
    [|split; [exact Hn|split; discriminate]].
  unfold Py.ret at 1. unfold Py.bind at 1.
  rewrite (proj2 (validate_runtime_iff rp bi bsp h)) by auto.
  reflexivity.
Qed.

(** The call, whichever way it goes. *)
Lemma RuntimeBatchRequest_new_cases ds dc da rp bi bsp h :
  (Forall name_required [ds; dc; da]
   /\ nonempty_dict h rp /\ nonempty_dict h bi /\ dict_if_truthy h bsp
   /\ RuntimeBatchRequest.new ds dc da rp bi bsp h
      = (h ++ [OReq cls_RuntimeBatchRequest
                    (BatchRequestBase.__init__ ds dc da VNone VNone rp bi bsp) None],
         Ok (VRef (length h))))
  \/ (exists msg, RuntimeBatchRequest.new ds dc da rp bi bsp h = (h, Raise (TypeError msg))).
Proof.
  pose proof (validate_init_parameters_pure ds dc da VNone VNone h) as Hp.
  pose proof (validate_init_parameters_raises ds dc da VNone VNone h) as Hr.
  pose proof (validate_init_parameters_iff ds dc da VNone VNone h) as Hi.
  pose proof (validate_runtime_pure rp bi bsp h) as Hp'.
  pose proof (validate_runtime_raises rp bi bsp h) as Hr'.
  pose proof (validate_runtime_iff rp bi bsp h) as Hi'.
  destruct (BatchRequest._validate_init_parameters ds dc da VNone VNone h)
    as [h1 [[]|e]] eqn:E1; cbn [fst snd] in *; subst h1.
  - destruct (BatchRequest._validate_runtime_batch_request_specific_init_parameters rp bi bsp h)
      as [h1 [[]|e]] eqn:E2; cbn [fst snd] in *; subst h1.
    + left. destruct (proj1 Hi eq_refl) as (Hn & _). destruct (proj1 Hi' eq_refl) as (? & ? & ?).
      repeat split; try assumption. apply RuntimeBatchRequest_new_run; assumption.
    + right. destruct (Hr' _ eq_refl) as [msg ->]. exists msg.
      unfold RuntimeBatchRequest.new, RuntimeBatchRequest.__init__, BatchRequest.__init__.
      unfold Py.bind at 1. unfold Py.bind at 1. unfold Py.bind at 1. rewrite E1.
      unfold Py.ret at 1. unfold Py.bind at 1. rewrite E2. reflexivity.
  - right. destruct (Hr _ eq_refl) as [msg ->]. exists msg.
    unfold RuntimeBatchRequest.new, RuntimeBatchRequest.__init__, BatchRequest.__init__.
    unfold Py.bind at 1. unfold Py.bind at 1. unfold Py.bind at 1. rewrite E1. reflexivity.
Qed.

(** Lines 714-719 enter the [source_entry]. *)
Lemma enter_source args rp :
  (if negb (is_None (Args.batch_data args))
   then py_setitem rp "batch_data" (Args.batch_data args)
   else if negb (is_None (Args.query args))
   then py_setitem rp "query" (Args.query args)
   else if negb (is_None (Args.path args))
   then py_setitem rp "path" (Args.path args)
   else Py.ret tt)
  = match source_entry args with
    | Some (k, v) => py_setitem rp k v
    | None => Py.ret tt
    end.
Proof.
  unfold source_entry.
  destruct (negb (is_None (Args.batch_data args))); [reflexivity|].
  destruct (negb (is_None (Args.query args))); [reflexivity|].
  destruct (negb (is_None (Args.path args))); reflexivity.
Qed.

(** The branch with a [runtime_parameters] that is a dict and not empty: the
    entry goes into the caller's dict. *)
Lemma runtime_branch_given args kwargs ds a c items h :
  Args.runtime_parameters args = VRef a ->
  h !! a = Some (ODict c items) -> items <> [] ->
  runtime_branch args kwargs ds h
  = RuntimeBatchRequest.new ds (Args.data_connector_name args) (Args.data_asset_name args)
      (VRef a)
      (if is_None (Args.batch_identifiers args) then kwargs else Args.batch_identifiers args)
      (Args.batch_spec_passthrough args)
      (<[a := ODict c (enter (source_entry args) items)]> h).
Proof.
  intros Hrp Ho Hne. unfold runtime_branch. rewrite Hrp.
  unfold Py.bind at 1. unfold reading at 1. rewrite (truthy_dict _ _ _ _ Ho).
  destruct items as [|kv items]; [congruence|]. cbn [negb].
  unfold Py.bind at 1. unfold Py.ret at 1.
  unfold Py.bind at 1. rewrite enter_source.
  destruct (source_entry args) as [[k v]|]; cbn [enter].
  - rewrite (py_setitem_run _ _ _ _ _ _ Ho). reflexivity.
  - unfold Py.ret at 1. rewrite list_insert_id by exact Ho. reflexivity.
Qed.

(** The branch with a falsy [runtime_parameters]: the entry goes into a new
    dict. *)
Lemma runtime_branch_fresh args kwargs ds h :
  truthy h (Args.runtime_parameters args) = false ->
  runtime_branch args kwargs ds h
  = RuntimeBatchRequest.new ds (Args.data_connector_name args) (Args.data_asset_name args)
      (VRef (length h))
      (if is_None (Args.batch_identifiers args) then kwargs else Args.batch_identifiers args)
      (Args.batch_spec_passthrough args)
      (h ++ [ODict cls_dict (enter (source_entry args) [])]).
Proof.
  intros Hrp. unfold runtime_branch.
  unfold Py.bind at 1. unfold reading at 1. rewrite Hrp.
  unfold Py.bind at 1. unfold new_dict, alloc.
  unfold Py.bind at 1. rewrite enter_source.
  destruct (source_entry args) as [[k v]|]; cbn [enter].
  - erewrite py_setitem_run by (rewrite lookup_tail_0; reflexivity).
    rewrite insert_tail_0. reflexivity.
  - reflexivity.
Qed.

Lemma entries_of_dict h a c items :
  h !! a = Some (ODict c items) -> entries_of h (VRef a) = items.
Proof. unfold entries_of, dict_entries. intros ->. reflexivity. Qed.

Lemma entries_of_falsy h v : truthy h v = false -> entries_of h v = [].
Proof.
  unfold truthy, entries_of, dict_entries. destruct v; try reflexivity.
  - destruct (is_empty_string s); reflexivity.
  - destruct (h !! a) as [[c [|kv items]| |]|]; try discriminate; reflexivity.
Qed.

(** What the call does once the checks have passed, no request being
    given, in the runtime branch. *)
Lemma call_runtime args h lg ds :
  checks args (on_entry h args) = (on_entry h args, Ok ds) ->
  truthy (on_entry h args) (Args.batch_request args) = false ->
  is_runtime (on_entry h args) args = true ->
  get_batch_request_from_acceptable_arguments args (Log.State h lg)
  = Log.lift (runtime_branch args (VRef (length h)) ds) (Log.State (on_entry h args) lg).
Proof.
  intros Hc Hbr Hrt. rewrite (call_checks_ok args h lg _ _ Hc).
  unfold after_checks. cbn [Log.heap_of]. rewrite Hbr, Hrt. reflexivity.
Qed.

(** X6.  Let the two type checks pass and at most one of [batch_data],
    [query], [path] be given.  If [runtime_parameters] is a dict and the
    argument given -- [batch_data] not [None], or a truthy [query] or [path] --
    is also one of its keys, the call raises the value error "If batch_data,
    query, or path arguments are provided, the same keys cannot appear in the
    runtime_parameters argument."; the caller's dict is not touched. *)
Theorem source_given_twice_is_value_error args h lg a c items :
  type_checks_pass (on_entry h args) args ->
  several_given args = false ->
  Args.runtime_parameters args = VRef a ->
  on_entry h args !! a = Some (ODict c items) ->
  negb (is_None (Args.batch_data args)) && dict_has "batch_data" items
  || truthy (on_entry h args) (Args.query args) && dict_has "query" items
  || truthy (on_entry h args) (Args.path args) && dict_has "path" items = true ->
  get_batch_request_from_acceptable_arguments args (Log.State h lg)
  = (Log.State (on_entry h args) lg, Raise (ValueError same_keys_message)).
Proof.
  intros Ht Hs Hrp Ho Hb. apply call_checks_raise.
  pose proof (type_checks_pass_inv args _ Ht Hs _ (collision_dict args a c items _ Hrp Ho)) as Hc.
  rewrite Hb in Hc. exact Hc.
Qed.

(** X7.  The check for a source given twice tests [query] and [path] for
    truth, the assignment tests them against [None].  So a [query] or [path]
    that is falsy without being [None] -- an empty str -- passes the check
    even if [runtime_parameters] has the key, and is then assigned into the
    caller's dict, over the entry that was there: whatever the call goes on
    to do, it does not raise the value error of that check, and the caller's
    dict holds the falsy value under the key. *)
Theorem falsy_source_overwrites_entry args h lg n k v a c items :
  truthy (on_entry h args) (Args.batch_request args) = false ->
  Args.datasource_name args = VStr n ->
  several_given args = false ->
  Args.batch_data args = VNone ->
  source_entry args = Some (k, v) ->
  truthy (on_entry h args) v = false ->
  Args.runtime_parameters args = VRef a ->
  on_entry h args !! a = Some (ODict c items) -> items <> [] ->
  exists s' r,
    get_batch_request_from_acceptable_arguments args (Log.State h lg) = (s', r)
    /\ Log.heap_of s' !! a = Some (ODict c (dict_set k v items))
    /\ r <> Raise (ValueError same_keys_message).
Proof.
  intros Hbr Hn Hs Hbd Hsrc Hv Hrp Ho Hne.
  assert (Hq : truthy (on_entry h args) (Args.query args) = false
               /\ truthy (on_entry h args) (Args.path args) = false).
  { unfold source_entry in Hsrc. unfold several_given in Hs. rewrite Hbd in Hsrc, Hs.
    cbn [is_None negb List.filter] in Hsrc, Hs.
    destruct (is_None (Args.query args)) eqn:Eq; cbn [negb] in Hsrc, Hs.
    - destruct (Args.query args); try discriminate Eq.
      destruct (is_None (Args.path args)); cbn [negb] in Hsrc; [discriminate|].
      injection Hsrc as <- <-. split; [reflexivity|exact Hv].
    - injection Hsrc as <- <-. split; [exact Hv|].
      destruct (is_None (Args.path args)) eqn:Ep; cbn [negb length] in Hs; [|discriminate].
      destruct (Args.path args); try discriminate Ep. reflexivity. }
  destruct Hq as [Hq Hp].
  assert (Hcol : collision args (on_entry h args) = (on_entry h args, Ok false)).
  { rewrite (collision_dict args a c items _ Hrp Ho), Hbd, Hq, Hp. reflexivity. }
  assert (Hrt : is_runtime (on_entry h args) args = true).
  { unfold is_runtime. rewrite Hrp, (truthy_dict _ _ _ _ Ho).
    destruct items; [congruence|]. apply Bool.orb_true_r. }
  rewrite (call_runtime args h lg _ (checks_named args _ n Hbr Hn Hs Hcol) Hbr Hrt).
  unfold Log.lift. cbn [Log.heap_of Log.log].
  rewrite (runtime_branch_given args _ _ a c items _ Hrp Ho Hne), Hsrc. cbn [enter].
  set (h1 := <[a := ODict c (dict_set k v items)]> (on_entry h args)).
  assert (Ha : h1 !! a = Some (ODict c (dict_set k v items))).
  { subst h1. apply list_lookup_insert_eq. eapply lookup_lt_Some. exact Ho. }
  match goal with
  | |- context [RuntimeBatchRequest.new ?ds ?dc ?da ?rp ?bi ?bsp h1] =>
      destruct (RuntimeBatchRequest_new_cases ds dc da rp bi bsp h1)
        as [(_ & _ & _ & _ & ->)|[msg ->]]
  end.
  - eexists _, _. split; [reflexivity|]. cbn [Log.heap_of].
    split; [apply lookup_head; exact Ha|discriminate].
  - eexists _, _. split; [reflexivity|]. cbn [Log.heap_of]. split; [exact Ha|discriminate].
Qed.

(** X11.  Let no request be given, the names be non-empty strs, at most one
    source be given and none twice, and let the call take the runtime
    branch with [runtime_parameters] falsy or a dict that is not empty, with
    identifiers ([batch_identifiers], or the extra keyword arguments when it
    is [None]) that are a dict and not empty, and with a
    [batch_spec_passthrough] that is a dict unless falsy.  Then the call
    returns a new [RuntimeBatchRequest] and logs nothing.  The request holds
    the caller's objects themselves: its [batch_identifiers] is the dict
    passed in, and its [runtime_parameters] is the caller's dict when that
    was not empty -- a new dict otherwise, an empty dict passed in being
    dropped.  The [runtime_parameters] holds the caller's entries and the
    source entered under its key; no [data_connector_query] and no [limit]
    are stored. *)
Theorem runtime_request_keeps_callers_objects args h lg n :
  let h0 := on_entry h args in
  let identifiers :=
    if is_None (Args.batch_identifiers args) then VRef (length h)
    else Args.batch_identifiers args in
  truthy h0 (Args.batch_request args) = false ->
  Args.datasource_name args = VStr n ->
  Forall name_required [VStr n; Args.data_connector_name args; Args.data_asset_name args] ->
  several_given args = false ->
  collision args h0 = (h0, Ok false) ->
  is_runtime h0 args = true ->
  truthy h0 (Args.runtime_parameters args) = false
  \/ nonempty_dict h0 (Args.runtime_parameters args) ->
  nonempty_dict h0 identifiers ->
  dict_if_truthy h0 (Args.batch_spec_passthrough args) ->
  exists h' r p c,
    get_batch_request_from_acceptable_arguments args (Log.State h lg)
    = (Log.State h' lg, Ok (VRef r))
    /\ length h < r
    /\ h' !! r
       = Some (OReq cls_RuntimeBatchRequest
                 (BatchRequestBase.__init__ (VStr n) (Args.data_connector_name args)
                    (Args.data_asset_name args) VNone VNone (VRef p) identifiers
                    (Args.batch_spec_passthrough args))
                 None)
    /\ h' !! p = Some (ODict c (enter (source_entry args)
                                  (entries_of h0 (Args.runtime_parameters args))))
    /\ (truthy h0 (Args.runtime_parameters args) = true -> Args.runtime_parameters args = VRef p)
    /\ (truthy h0 (Args.runtime_parameters args) = false -> p = length h0 /\ c = cls_dict).
Proof.
  cbv zeta. intros Hbr Hn Hnames Hs Hcol Hrt Hrp Hbi Hbsp.
  rewrite (call_runtime args h lg _ (checks_named args _ n Hbr Hn Hs Hcol) Hbr Hrt).
  unfold Log.lift. cbn [Log.heap_of Log.log].
  assert (Hrp' : truthy (on_entry h args) (Args.runtime_parameters args) = false
                 \/ exists a c items, Args.runtime_parameters args = VRef a
                      /\ on_entry h args !! a = Some (ODict c items) /\ items <> []).
  { destruct Hrp as [?|?]; [left; assumption|right; assumption]. }
  clear Hrp. destruct Hrp' as [Hrp|(a & c & items & Hrp & Ho & Hne)].
  - rewrite (runtime_branch_fresh args _ _ _ Hrp).
    set (h0 := on_entry h args) in *.
    assert (Hsrc : source_entry args <> None).
    { revert Hrt. unfold is_runtime, source_entry. rewrite Hrp, Bool.orb_false_r.
      destruct (negb (is_None (Args.batch_data args))); [discriminate|].
      destruct (Args.query args); cbn [truthy is_None negb]; try discriminate;
        destruct (Args.path args); cbn [truthy is_None negb orb]; discriminate. }
    set (o := ODict cls_dict (enter (source_entry args) [])).
    assert (Hk : dicts_kept h0 (h0 ++ [o])) by apply dicts_kept_app.
    rewrite RuntimeBatchRequest_new_run;
      [|exact Hnames
       |exists (length h0), cls_dict, (enter (source_entry args) []);
        split; [reflexivity|]; split; [rewrite lookup_tail_0; reflexivity|];
        destruct (source_entry args) as [[k v]|]; [apply dict_set_nonempty|congruence]
       |eapply nonempty_dict_kept; eassumption
       |eapply dict_if_truthy_kept; eassumption].
    assert (Hl0 : length h0 = S (length h)) by apply on_entry_length.
    eexists _, (length (h0 ++ [o])), (length h0), cls_dict.
    split; [reflexivity|]. split; [rewrite length_app; cbn; lia|].
    split; [apply list_lookup_middle; reflexivity|]. split.
    { rewrite lookup_app_l by (rewrite length_app; cbn; lia).
      rewrite (entries_of_falsy _ _ Hrp). apply list_lookup_middle. reflexivity. }
    split; [congruence|]. auto.
  - rewrite (runtime_branch_given args _ _ a c items _ Hrp Ho Hne).
    set (h0 := on_entry h args) in *.
    set (h1 := <[a := ODict c (enter (source_entry args) items)]> h0).
    assert (Hk : dicts_kept h0 h1).
    { apply (dicts_kept_insert h0 a c items); [exact Ho|].
      intros _. destruct (source_entry args) as [[k v]|]; [apply dict_set_nonempty|exact Hne]. }
    assert (Ha : h1 !! a = Some (ODict c (enter (source_entry args) items))).
    { subst h1. apply list_lookup_insert_eq. eapply lookup_lt_Some. exact Ho. }
    rewrite RuntimeBatchRequest_new_run;
      [|exact Hnames
       |eapply nonempty_dict_kept; [exact Hk|]; exists a, c, items; auto
       |eapply nonempty_dict_kept; eassumption
       |eapply dict_if_truthy_kept; eassumption].
    assert (Hlen : length h1 = S (length h)).
    { subst h1 h0. rewrite length_insert. apply on_entry_length. }
    eexists _, (length h1), a, c. split; [reflexivity|]. split; [lia|]. split.
    { rewrite lookup_tail_0. reflexivity. }
    split.
    { rewrite (lookup_head _ _ _ _ Ha). rewrite Hrp.
      rewrite (entries_of_dict _ _ _ _ Ho). reflexivity. }
    split; [intros _; exact Hrp|].
    rewrite Hrp, (truthy_dict _ _ _ _ Ho). destruct items; [congruence|discriminate].
Qed.

(** *** The branch that builds a [BatchRequest] *)

Lemma alloc_tail o (h l : heap) :
  alloc o (h ++ l) = (h ++ (l ++ [o]), Ok (VRef (length h + length l))).
Proof. unfold alloc. rewrite length_app, app_assoc. reflexivity. Qed.

Lemma py_setitem_tail (h l : heap) i c items k x :
  l !! i = Some (ODict c items) ->
  py_setitem (VRef (length h + i)) k x (h ++ l)
  = (h ++ <[i := ODict c (dict_set k x items)]> l, Ok tt).
Proof.
  intros Hl. erewrite py_setitem_run by (rewrite lookup_tail; exact Hl).
  rewrite insert_tail. reflexivity.
Qed.

Lemma py_update_tail (h l : heap) i j c items c' other :
  l !! i = Some (ODict c items) ->
  l !! j = Some (ODict c' other) ->
  py_update (VRef (length h + i)) (VRef (length h + j)) (h ++ l)
  = (h ++ <[i := ODict c (dict_update other items)]> l, Ok tt).
Proof.
  intros Hi Hj. unfold py_update, Py.bind, py_items.
  rewrite lookup_tail, Hj. cbv beta iota. rewrite lookup_tail, Hi, insert_tail. reflexivity.
Qed.

(** [passthrough], step by step. *)
Lemma passthrough_run args h :
  passthrough args h
  = if is_None (Args.batch_spec_passthrough args)
    then (h ++ ODict cls_dict (passthrough_entries args) :: passthrough_params args,
          Ok (VRef (length h)))
    else (h, Ok (Args.batch_spec_passthrough args)).
Proof.
  unfold passthrough, passthrough_entries, passthrough_params, method_entries.
  destruct (is_None (Args.batch_spec_passthrough args)); [|reflexivity].
  rewrite <- (app_nil_r h) at 1.
  unfold new_dict. unfold Py.bind at 1. rewrite alloc_tail. cbn [length app Nat.add].
  destruct (is_None (Args.sampling_method args)); cbn [negb];
    destruct (is_None (Args.sampling_kwargs args)); cbn [negb];
    destruct (is_None (Args.splitter_method args)); cbn [negb];
    destruct (is_None (Args.splitter_kwargs args)); cbn [negb];
    repeat first
      [ progress (unfold Py.bind at 1)
      | progress (unfold Py.ret at 1)
      | rewrite alloc_tail
      | erewrite py_setitem_tail by reflexivity
      | erewrite py_update_tail by reflexivity
      | progress (cbn [length app Nat.add insert list_insert dict_update dict_set fold_left
                       fst snd String.eqb Ascii.eqb Bool.eqb]) ];
    rewrite ?Nat.add_0_r; reflexivity.
Qed.

Lemma new_IDDict_cases v h :
  new_IDDict v h = (h ++ [ODict cls_IDDict (entries_of h v)], Ok (VRef (length h)))
  \/ exists e, new_IDDict v h = (h, Raise e).
Proof.
  unfold new_IDDict, entries_of, alloc. destruct (dict_entries h v) as [items|e]; eauto.
Qed.

(** The request [catalog_request] builds when [data_connector_query] is
    [None]: the heap gains the dict of the parameters, the [IDDict] made of
    it, what [passthrough] allocates, and the request. *)
Lemma catalog_request_assembled args ds b h :
  is_None (Args.data_connector_query args) = true ->
  Forall name_required [ds; Args.data_connector_name args; Args.data_asset_name args] ->
  let h1 := h ++ [ODict cls_dict (query_params args b); ODict cls_IDDict (query_params args b)] in
  let h2 := fst (passthrough args h1) in
  catalog_request args ds b h
  = (h2 ++ [OReq cls_BatchRequest
                 (BatchRequestBase.__init__ ds (Args.data_connector_name args)
                    (Args.data_asset_name args) (VRef (S (length h))) VNone VNone VNone
                    (if is_None (Args.batch_spec_passthrough args)
                     then VRef (length h1) else Args.batch_spec_passthrough args))
                 None],
     Ok (VRef (length h2))).
Proof.
  intros Hq Hn. cbv zeta. unfold catalog_request. rewrite Hq.
  unfold Py.bind at 1. unfold Py.bind at 1. unfold new_dict, alloc.
  unfold new_IDDict, dict_entries. rewrite lookup_tail_0. cbn [lookup list_lookup].
  unfold alloc. rewrite <- app_assoc. cbn [app].
  rewrite length_app. cbn [length]. replace (length h + 1) with (S (length h)) by lia.
  fold (query_params args b).
  set (h1 := h ++ [ODict cls_dict (query_params args b); ODict cls_IDDict (query_params args b)]).
  unfold Py.bind at 1. rewrite passthrough_run.
  assert (Hq1 : forall l, (h1 ++ l) !! S (length h) = Some (ODict cls_IDDict (query_params args b))).
  { intros l. subst h1. rewrite <- app_assoc.
    replace (S (length h)) with (length h + 1) by lia. rewrite lookup_tail. reflexivity. }
  destruct (is_None (Args.batch_spec_passthrough args)); cbn [fst].
  - destruct (BatchRequest_new_cases ds (Args.data_connector_name args)
                (Args.data_asset_name args) (VRef (S (length h))) VNone (VRef (length h1))
                (h1 ++ ODict cls_dict (passthrough_entries args) :: passthrough_params args))
      as [(_ & _ & _ & ->)|[msg Hr]]; [reflexivity|].
    exfalso. revert Hr. unfold BatchRequest.new, BatchRequest.__init__.
    unfold Py.bind at 1. unfold Py.bind at 1.
    rewrite (proj2 (validate_init_parameters_iff _ _ _ _ _ _)); [discriminate|].
    split; [exact Hn|]. split; [|discriminate].
    intros _. unfold isinstance_dict. rewrite Hq1. reflexivity.
  - destruct (BatchRequest_new_cases ds (Args.data_connector_name args)
                (Args.data_asset_name args) (VRef (S (length h))) VNone
                (Args.batch_spec_passthrough args) h1)
      as [(_ & _ & _ & ->)|[msg Hr]]; [reflexivity|].
    exfalso. revert Hr. unfold BatchRequest.new, BatchRequest.__init__.
    unfold Py.bind at 1. unfold Py.bind at 1.
    rewrite (proj2 (validate_init_parameters_iff _ _ _ _ _ _)); [discriminate|].
    split; [exact Hn|]. split; [|discriminate].
    intros _. unfold isinstance_dict. rewrite <- (app_nil_r h1), Hq1. reflexivity.
Qed.

(** The request [catalog_request] has built when it returns, whatever the
    [data_connector_query]. *)
Lemma catalog_request_inv args ds b h h' r :
  catalog_request args ds b h = (h', Ok r) ->
  exists h1 q,
    (if is_None (Args.data_connector_query args)
     then h1 = h ++ [ODict cls_dict (query_params args b);
                     ODict cls_IDDict (query_params args b)]
          /\ q = S (length h)
     else h1 = h ++ [ODict cls_IDDict (entries_of h (Args.data_connector_query args))]
          /\ q = length h)
    /\ Forall name_required [ds; Args.data_connector_name args; Args.data_asset_name args]
    /\ h' = fst (passthrough args h1)
            ++ [OReq cls_BatchRequest
                     (BatchRequestBase.__init__ ds (Args.data_connector_name args)
                        (Args.data_asset_name args) (VRef q) VNone VNone VNone
                        (if is_None (Args.batch_spec_passthrough args)
                         then VRef (length h1) else Args.batch_spec_passthrough args))
                     None]
    /\ r = VRef (length (fst (passthrough args h1))).
Proof.
  unfold catalog_request.
  assert (Hrest : forall h1 q,
    (let* batch_spec_passthrough := passthrough args in
     BatchRequest.new ds (Args.data_connector_name args) (Args.data_asset_name args)
       (VRef q) VNone batch_spec_passthrough) h1 = (h', Ok r) ->
    Forall name_required [ds; Args.data_connector_name args; Args.data_asset_name args]
    /\ h' = fst (passthrough args h1)
            ++ [OReq cls_BatchRequest
                     (BatchRequestBase.__init__ ds (Args.data_connector_name args)
                        (Args.data_asset_name args) (VRef q) VNone VNone VNone
                        (if is_None (Args.batch_spec_passthrough args)
                         then VRef (length h1) else Args.batch_spec_passthrough args))
                     None]
    /\ r = VRef (length (fst (passthrough args h1)))).
  { intros h1 q. unfold Py.bind at 1. rewrite passthrough_run.
    destruct (is_None (Args.batch_spec_passthrough args)); cbn [fst];
      match goal with
      | |- BatchRequest.new ?a ?b ?c ?d ?e ?f ?g = _ -> _ =>
          destruct (BatchRequest_new_cases a b c d e f g) as [(Hn & _ & _ & ->)|[msg ->]]
      end; try discriminate; intros [= <- <-]; auto. }
  destruct (is_None (Args.data_connector_query args)) eqn:Hq.
  - unfold Py.bind at 1. unfold Py.bind at 1. unfold new_dict, alloc.
    unfold new_IDDict, dict_entries. rewrite lookup_tail_0. cbn [lookup list_lookup].
    unfold alloc. rewrite <- app_assoc. cbn [app].
    rewrite length_app. cbn [length]. replace (length h + 1) with (S (length h)) by lia.
    fold (query_params args b). intros Hrun.
    eexists _, _. split; [split; reflexivity|]. apply Hrest. exact Hrun.
  - unfold Py.bind at 1.
    destruct (new_IDDict_cases (Args.data_connector_query args) h) as [->|(e & ->)];
      [|discriminate].
    intros Hrun. eexists _, _. split; [split; reflexivity|]. apply Hrest. exact Hrun.
Qed.

(** The branch, when it returns, has built the request by
    [catalog_request], and logged at most the deprecation warning. *)
Lemma catalog_branch_inv args kwargs ds h lg s' r :
  catalog_branch args kwargs ds (Log.State h lg) = (s', Ok r) ->
  exists b,
    catalog_request args ds b h = (Log.heap_of s', Ok r)
    /\ (is_None (Args.data_connector_query args) = false -> Log.log s' = lg)
    /\ (is_None (Args.data_connector_query args) = true ->
        negb (is_None (Args.batch_filter_parameters args))
        && negb (is_None (Args.batch_identifiers args)) = false
        /\ b = (if negb (is_None (Args.batch_filter_parameters args))
                then Args.batch_filter_parameters args
                else if negb (is_None (Args.batch_identifiers args))
                then Args.batch_identifiers args else kwargs)
        /\ Log.log s' = (if is_None (Args.batch_filter_parameters args)
                            && negb (is_None (Args.batch_identifiers args))
                         then lg ++ [deprecation_message] else lg)).
Proof.
  unfold catalog_branch.
  assert (Hlift : forall b lg0,
    Log.lift (catalog_request args ds b) (Log.State h lg0) = (s', Ok r) ->
    catalog_request args ds b h = (Log.heap_of s', Ok r) /\ Log.log s' = lg0).
  { intros b lg0. unfold Log.lift. cbn [Log.heap_of Log.log].
    destruct (catalog_request args ds b h) as [h1 r1]. intros [= <- <-]. auto. }
  destruct (is_None (Args.data_connector_query args)).
  - destruct (is_None (Args.batch_filter_parameters args)),
             (is_None (Args.batch_identifiers args)); cbn [negb andb].
    + intros Hrun. destruct (Hlift _ _ Hrun) as [Hc Hl]. exists kwargs.
      split; [exact Hc|]. split; [discriminate|auto].
    + unfold Log.bind, Log.warning. cbn [Log.heap_of Log.log].
      intros Hrun. destruct (Hlift _ _ Hrun) as [Hc Hl].
      exists (Args.batch_identifiers args). split; [exact Hc|]. split; [discriminate|auto].
    + intros Hrun. destruct (Hlift _ _ Hrun) as [Hc Hl].
      exists (Args.batch_filter_parameters args). split; [exact Hc|]. split; [discriminate|auto].
    + discriminate.
  - intros Hrun. destruct (Hlift _ _ Hrun) as [Hc Hl]. exists VNone.
    split; [exact Hc|]. split; [auto|discriminate].
Qed.

(** What the call does once the checks have passed, no request being
    given, outside the runtime branch. *)
Lemma call_catalog args h lg ds :
  checks args (on_entry h args) = (on_entry h args, Ok ds) ->
  truthy (on_entry h args) (Args.batch_request args) = false ->
  is_runtime (on_entry h args) args = false ->
  get_batch_request_from_acceptable_arguments args (Log.State h lg)
  = catalog_branch args (VRef (length h)) ds (Log.State (on_entry h args) lg).
Proof.
  intros Hc Hbr Hrt. rewrite (call_checks_ok args h lg _ _ Hc).
  unfold after_checks. cbn [Log.heap_of]. rewrite Hbr, Hrt. reflexivity.
Qed.

(** A call that returns has passed the checks. *)
Lemma call_returns_checks args h lg s' r :
  get_batch_request_from_acceptable_arguments args (Log.State h lg) = (s', Ok r) ->
  exists ds, checks args (on_entry h args) = (on_entry h args, Ok ds).
Proof.
  intros Hrun. pose proof (checks_pure args (on_entry h args)) as Hp.
  destruct (checks args (on_entry h args)) as [h1 [ds|e]] eqn:Hc; cbn in Hp; subst h1.
  - eauto.
  - rewrite (call_checks_raise args h lg _ _ Hc) in Hrun. discriminate.
Qed.

Lemma passthrough_fst args h :
  fst (passthrough args h)
  = if is_None (Args.batch_spec_passthrough args)
    then h ++ ODict cls_dict (passthrough_entries args) :: passthrough_params args
    else h.
Proof. rewrite passthrough_run. destruct (is_None _); reflexivity. Qed.

Lemma passthrough_lookup args h a o :
  h !! a = Some o -> fst (passthrough args h) !! a = Some o.
Proof.
  intros Ho. rewrite passthrough_fst. destruct (is_None _); [|exact Ho].
  apply lookup_head. exact Ho.
Qed.

Lemma passthrough_length args h : length h <= length (fst (passthrough args h)).
Proof. rewrite passthrough_fst. destruct (is_None _); [rewrite length_app|]; lia. Qed.

(** X8.  Let no request be given, the names be non-empty strs, at most one
    of [batch_data], [query], [path] be other than [None], the call not
    take the runtime branch, no [data_connector_query] be given, and
    [batch_filter_parameters] and [batch_identifiers] not both be given.
    Then the call returns a new [BatchRequest] whose [data_connector_query]
    is a new [IDDict] with the four entries [batch_filter_parameters],
    [limit], [index], [custom_filter_function], in this order, as they were
    passed, [None] included.  The filter parameters are
    [batch_filter_parameters] if given, else [batch_identifiers] if given
    (with the deprecation warning logged, and only then), else the dict of
    the extra keyword arguments.  The [limit] goes into the query only: the
    request's own [limit] is [None], as are its [runtime_parameters] and
    [batch_identifiers]. *)
Theorem catalog_request_query_is_assembled args h lg n :
  let h0 := on_entry h args in
  let filter :=
    if negb (is_None (Args.batch_filter_parameters args)) then Args.batch_filter_parameters args
    else if negb (is_None (Args.batch_identifiers args)) then Args.batch_identifiers args
    else VRef (length h) in
  truthy h0 (Args.batch_request args) = false ->
  Args.datasource_name args = VStr n ->
  Forall name_required [VStr n; Args.data_connector_name args; Args.data_asset_name args] ->
  several_given args = false ->
  is_runtime h0 args = false ->
  Args.data_connector_query args = VNone ->
  negb (is_None (Args.batch_filter_parameters args))
  && negb (is_None (Args.batch_identifiers args)) = false ->
  exists h' r q p,
    get_batch_request_from_acceptable_arguments args (Log.State h lg)
    = (Log.State h'
         (if is_None (Args.batch_filter_parameters args)
             && negb (is_None (Args.batch_identifiers args))
          then lg ++ [deprecation_message] else lg),
       Ok (VRef r))
    /\ length h < q < r
    /\ h' !! r
       = Some (OReq cls_BatchRequest
                 (BatchRequestBase.__init__ (VStr n) (Args.data_connector_name args)
                    (Args.data_asset_name args) (VRef q) VNone VNone VNone p)
                 None)
    /\ h' !! q = Some (ODict cls_IDDict (query_params args filter))
    /\ h' !! length h = Some (ODict cls_dict (Args.kwargs args)).
Proof.
  cbv zeta. intros Hbr Hn Hnames Hs Hrt Hq Hnb.
  destruct (is_runtime_false _ _ Hrt) as (_ & _ & _ & Hrp).
  rewrite (call_catalog args h lg _
             (checks_named args _ n Hbr Hn Hs (collision_falsy _ _ Hrp)) Hbr Hrt).
  set (h0 := on_entry h args).
  set (b := if negb (is_None (Args.batch_filter_parameters args))
            then Args.batch_filter_parameters args
            else if negb (is_None (Args.batch_identifiers args))
            then Args.batch_identifiers args else VRef (length h)).
  assert (Hrun : catalog_branch args (VRef (length h)) (VStr n) (Log.State h0 lg)
                 = (Log.State (fst (catalog_request args (VStr n) b h0))
                      (if is_None (Args.batch_filter_parameters args)
                          && negb (is_None (Args.batch_identifiers args))
                       then lg ++ [deprecation_message] else lg),
                    snd (catalog_request args (VStr n) b h0))).
  { unfold catalog_branch. rewrite Hq. cbn [is_None]. rewrite Hnb. subst b.
    destruct (is_None (Args.batch_filter_parameters args)),
             (is_None (Args.batch_identifiers args)); cbn [negb andb];
      unfold Log.bind, Log.warning, Log.lift; cbn [Log.heap_of Log.log];
      try match goal with
          | |- context [catalog_request ?a ?d ?x ?hh] => destruct (catalog_request a d x hh)
          end; try reflexivity; try discriminate. }
  rewrite Hrun.
  rewrite (catalog_request_assembled args (VStr n) b h0) by (try exact Hnames; rewrite Hq; reflexivity).
  cbn [fst snd].
  set (h1 := h0 ++ [ODict cls_dict (query_params args b); ODict cls_IDDict (query_params args b)]).
  assert (Hl0 : length h0 = S (length h)) by apply on_entry_length.
  assert (Hl1 : length h1 = S (S (S (length h)))).
  { subst h1. rewrite length_app, Hl0. cbn. lia. }
  pose proof (passthrough_length args h1) as Hl2.
  eexists _, _, (S (length h0)), _. split; [reflexivity|].
  split; [lia|]. split; [apply list_lookup_middle; reflexivity|].
  split.
  - apply lookup_head. apply passthrough_lookup. subst h1.
    replace (S (length h0)) with (length h0 + 1) by lia. rewrite lookup_tail. reflexivity.
  - apply lookup_head. apply passthrough_lookup. subst h1. apply lookup_head.
    apply on_entry_kwargs.
Qed.

(** *** The call as a whole *)

(** X12.  Let no request be given, the [datasource_name] be a str, at most
    one of [batch_data], [query], [path] be other than [None], the call not
    take the runtime branch and no [data_connector_query] be given.  If
    [batch_filter_parameters] and [batch_identifiers] are both given, the
    call raises the value error 'Must provide either "batch_filter_parameters"
    or "batch_identifiers", not both.', before any name is validated; nothing
    is logged and the heap gains the dict of the extra keyword arguments
    only. *)
Theorem both_filters_is_value_error args h lg n :
  truthy (on_entry h args) (Args.batch_request args) = false ->
  Args.datasource_name args = VStr n ->
  several_given args = false ->
  is_runtime (on_entry h args) args = false ->
  Args.data_connector_query args = VNone ->
  Args.batch_filter_parameters args <> VNone ->
  Args.batch_identifiers args <> VNone ->
  get_batch_request_from_acceptable_arguments args (Log.State h lg)
  = (Log.State (on_entry h args) lg, Raise (ValueError not_both_message)).
Proof.
  intros Hbr Hn Hs Hrt Hq Hf Hi.
  destruct (is_runtime_false _ _ Hrt) as (_ & _ & _ & Hrp).
  rewrite (call_catalog args h lg _
             (checks_named args _ n Hbr Hn Hs (collision_falsy _ _ Hrp)) Hbr Hrt).
  unfold catalog_branch. rewrite Hq. cbn [is_None].
  destruct (Args.batch_filter_parameters args); try congruence;
    destruct (Args.batch_identifiers args); try congruence; reflexivity.
Qed.

(** The runtime branch, when it returns, has allocated the request last. *)
Lemma runtime_branch_inv args kwargs ds h h' r :
  runtime_branch args kwargs ds h = (h', Ok r) ->
  exists h1 rp,
    length h <= length h1
    /\ Forall name_required [ds; Args.data_connector_name args; Args.data_asset_name args]
    /\ h' = h1 ++ [OReq cls_RuntimeBatchRequest
                        (BatchRequestBase.__init__ ds (Args.data_connector_name args)
                           (Args.data_asset_name args) VNone VNone rp
                           (if is_None (Args.batch_identifiers args) then kwargs
                            else Args.batch_identifiers args)
                           (Args.batch_spec_passthrough args))
                        None]
    /\ r = VRef (length h1).
Proof.
  unfold runtime_branch.
  assert (Hnew : forall h1 rp,
    length h <= length h1 ->
    RuntimeBatchRequest.new ds (Args.data_connector_name args) (Args.data_asset_name args) rp
      (if is_None (Args.batch_identifiers args) then kwargs else Args.batch_identifiers args)
      (Args.batch_spec_passthrough args) h1 = (h', Ok r) ->
    exists h1 rp,
      length h <= length h1
      /\ Forall name_required [ds; Args.data_connector_name args; Args.data_asset_name args]
      /\ h' = h1 ++ [OReq cls_RuntimeBatchRequest
                          (BatchRequestBase.__init__ ds (Args.data_connector_name args)
                             (Args.data_asset_name args) VNone VNone rp
                             (if is_None (Args.batch_identifiers args) then kwargs
                              else Args.batch_identifiers args)
                             (Args.batch_spec_passthrough args))
                          None]
      /\ r = VRef (length h1)).
  { intros h1 rp Hle.
    match goal with
    | |- RuntimeBatchRequest.new ?a ?b ?c ?d ?e ?f ?g = _ -> _ =>
        destruct (RuntimeBatchRequest_new_cases a b c d e f g) as [(Hn & _ & _ & _ & ->)|[msg ->]]
    end; [|discriminate].
    intros [= <- <-]. exists h1, rp. auto. }
  assert (Hset : forall rp h0,
    length h <= length h0 ->
    (let* _ := match source_entry args with
               | Some (k, v) => py_setitem rp k v
               | None => Py.ret tt
               end in
     RuntimeBatchRequest.new ds (Args.data_connector_name args) (Args.data_asset_name args) rp
       (if is_None (Args.batch_identifiers args) then kwargs else Args.batch_identifiers args)
       (Args.batch_spec_passthrough args)) h0 = (h', Ok r) ->
    exists h1 rp,
      length h <= length h1
      /\ Forall name_required [ds; Args.data_connector_name args; Args.data_asset_name args]
      /\ h' = h1 ++ [OReq cls_RuntimeBatchRequest
                          (BatchRequestBase.__init__ ds (Args.data_connector_name args)
                             (Args.data_asset_name args) VNone VNone rp
                             (if is_None (Args.batch_identifiers args) then kwargs
                              else Args.batch_identifiers args)
                             (Args.batch_spec_passthrough args))
                          None]
      /\ r = VRef (length h1)).
  { intros rp h0 Hle. unfold Py.bind at 1.
    destruct (source_entry args) as [[k v]|].
    - destruct (py_setitem rp k v h0) as [h2 [[]|e]] eqn:Hs; [|discriminate].
      apply Hnew.
      destruct (py_setitem_heap _ _ _ _ _ _ Hs) as [->|(a & o' & _ & ->)];
        [exact Hle|rewrite length_insert; exact Hle].
    - unfold Py.ret at 1. apply Hnew. exact Hle. }
  unfold Py.bind at 1. unfold reading at 1.
  destruct (truthy h (Args.runtime_parameters args)).
  - unfold Py.bind at 1. unfold Py.ret at 1. rewrite enter_source. apply Hset. lia.
  - unfold Py.bind at 1. unfold new_dict, alloc. rewrite enter_source. apply Hset.
    rewrite length_app. lia.
Qed.

(** What a call that returns has done: it has returned the request given,
    or has allocated a request last. *)
Lemma call_returns args h lg s' r :
  get_batch_request_from_acceptable_arguments args (Log.State h lg) = (s', Ok r) ->
  let h0 := on_entry h args in
  (truthy h0 (Args.batch_request args) = true
   /\ r = Args.batch_request args /\ s' = Log.State h0 lg
   /\ isinstance_BatchRequest h0 r = true
   /\ exists n, py_getattr r "_datasource_name" h0 = (h0, Ok (VStr n)))
  \/ (truthy h0 (Args.batch_request args) = false
      /\ exists h1 c q rp bi p n,
           Args.datasource_name args = VStr n
           /\ Forall name_required
                [VStr n; Args.data_connector_name args; Args.data_asset_name args]
           /\ length h0 <= length h1
           /\ Log.heap_of s'
              = h1 ++ [OReq c (BatchRequestBase.__init__ (VStr n) (Args.data_connector_name args)
                                 (Args.data_asset_name args) q VNone rp bi p) None]
           /\ r = VRef (length h1)
           /\ (if is_runtime h0 args then c = cls_RuntimeBatchRequest
               else c = cls_BatchRequest)).
Proof.
  intros Hrun. cbv zeta.
  destruct (call_returns_checks _ _ _ _ _ Hrun) as [ds Hc].
  destruct (checks_ok_inv _ _ _ _ Hc) as (_ & [n ->] & Hs & Hcol & Hbr).
  rewrite (call_checks_ok args h lg _ _ Hc) in Hrun. unfold after_checks in Hrun.
  cbn [Log.heap_of] in Hrun.
  destruct (truthy (on_entry h args) (Args.batch_request args)) eqn:Ht.
  - injection Hrun as Hs' Hr. subst s' r. left. destruct Hbr as [Hi Hg]. eauto 10.
  - right. split; [reflexivity|].
    destruct (is_runtime (on_entry h args) args) eqn:Hrt.
    + unfold Log.lift in Hrun. cbn [Log.heap_of Log.log] in Hrun.
      destruct (runtime_branch args (VRef (length h)) (VStr n) (on_entry h args))
        as [h' r'] eqn:Hr.
      injection Hrun as Hs' Hr'. subst s' r'.
      destruct (runtime_branch_inv _ _ _ _ _ _ Hr) as (h1 & rp & Hle & Hn & -> & ->).
      cbn [Log.heap_of]. eexists h1, _, _, _, _, _, n. eauto 10.
    + destruct (catalog_branch_inv _ _ _ _ _ _ _ Hrun) as (b & Hcr & _).
      destruct (catalog_request_inv _ _ _ _ _ _ Hcr) as (h1 & q & Hh1 & Hn & -> & ->).
      eexists _, _, _, _, _, _, n.
      split; [symmetry; exact Hbr|]. split; [exact Hn|]. split; [|eauto].
      pose proof (passthrough_length args h1) as Hl.
      destruct (is_None (Args.data_connector_query args));
        destruct Hh1 as [-> _]; rewrite length_app in Hl; lia.
Qed.

(** X4.  A value the call returns is an instance of [BatchRequest] in the
    heap the call leaves, and its [datasource_name] is a str.  It is the
    request given if one was given.  Otherwise it is an object the call has
    allocated, it does not have a [__deepcopy__] of its own, it is a
    [RuntimeBatchRequest] exactly when the call takes the runtime branch,
    and its three names are non-empty strs. *)
Theorem call_returns_a_batch_request args h lg s' r :
  get_batch_request_from_acceptable_arguments args (Log.State h lg) = (s', Ok r) ->
  isinstance_BatchRequest (Log.heap_of s') r = true
  /\ exists a c attrs own n,
       r = VRef a /\ Log.heap_of s' !! a = Some (OReq c attrs own)
       /\ dict_get "_datasource_name" attrs = Some (VStr n)
       /\ (truthy (on_entry h args) (Args.batch_request args) = true ->
           r = Args.batch_request args)
       /\ (truthy (on_entry h args) (Args.batch_request args) = false ->
           length h < a /\ own = None
           /\ (c = cls_RuntimeBatchRequest <-> is_runtime (on_entry h args) args = true)
           /\ Forall (fun k => exists s, dict_get k attrs = Some (VStr s) /\ s <> EmptyString)
                     ["_datasource_name"; "_data_connector_name"; "_data_asset_name"]).
Proof.
  intros Hrun.
  destruct (call_returns _ _ _ _ _ Hrun)
    as [(Ht & -> & -> & Hi & n & Hg)
       |(Ht & h1 & c & q & rp & bi & p & n & Hn & Hnames & Hle & Hh & -> & Hc)].
  - cbn [Log.heap_of]. split; [exact Hi|].
    unfold isinstance_BatchRequest in Hi. unfold py_getattr in Hg.
    destruct (Args.batch_request args) as [| | | | |a]; try discriminate.
    destruct (on_entry h args !! a) as [[| |c attrs own]|] eqn:Ho; try discriminate.
    destruct (dict_get "_datasource_name" attrs) as [x|] eqn:Hd; [|discriminate].
    injection Hg as ->.
    exists a, c, attrs, own, n. split; [reflexivity|]. split; [exact Ho|].
    split; [exact Hd|]. split; [reflexivity|]. congruence.
  - rewrite Hh. rewrite on_entry_length in Hle.
    assert (Hlook : (h1 ++ [OReq c (BatchRequestBase.__init__ (VStr n)
                                      (Args.data_connector_name args)
                                      (Args.data_asset_name args) q VNone rp bi p) None])
                    !! length h1
                    = Some (OReq c (BatchRequestBase.__init__ (VStr n)
                                      (Args.data_connector_name args)
                                      (Args.data_asset_name args) q VNone rp bi p) None))
      by (apply list_lookup_middle; reflexivity).
    split.
    { unfold isinstance_BatchRequest. rewrite Hlook.
      destruct (is_runtime (on_entry h args) args); subst c; reflexivity. }
    eexists (length h1), c, _, None, n. split; [reflexivity|]. split; [exact Hlook|].
    split; [reflexivity|]. split; [congruence|]. intros _.
    split; [lia|]. split; [reflexivity|]. split.
    { destruct (is_runtime (on_entry h args) args); subst c; split; congruence. }
    apply Forall_cons in Hnames. destruct Hnames as [(s1 & [= <-] & Hs1) Hnames].
    apply Forall_cons in Hnames. destruct Hnames as [(s2 & -> & Hs2) Hnames].
    apply Forall_cons in Hnames. destruct Hnames as [(s3 & -> & Hs3) _].
    repeat constructor; eexists; (split; [reflexivity|assumption]).
Qed.

(** X5.  The function is idempotent: a request it has returned, passed
    back as [batch_request] with no other argument, is returned again, the
    same object; the second call logs nothing and allocates only the empty
    dict of its extra keyword arguments. *)
Theorem call_is_idempotent args h lg s' r :
  get_batch_request_from_acceptable_arguments args (Log.State h lg) = (s', Ok r) ->
  get_batch_request_from_acceptable_arguments (passing r) s'
  = (Log.State (Log.heap_of s' ++ [ODict cls_dict []]) (Log.log s'), Ok r).
Proof.
  intros Hrun. destruct s' as [h' lg'].
  assert (Hreq : exists a c attrs own n,
             r = VRef a /\ h' !! a = Some (OReq c attrs own)
             /\ (c = cls_BatchRequest \/ c = cls_RuntimeBatchRequest)
             /\ dict_get "_datasource_name" attrs = Some (VStr n)).
  { destruct (call_returns _ _ _ _ _ Hrun)
      as [(Ht & -> & [= -> ->] & Hi & n & Hg)
         |(Ht & h1 & c & q & rp & bi & p & n & Hn & Hnames & Hle & Hh & -> & Hc)].
    - unfold isinstance_BatchRequest in Hi. unfold py_getattr in Hg.
      destruct (Args.batch_request args) as [| | | | |a]; try discriminate.
      destruct (on_entry h args !! a) as [[| |c attrs own]|] eqn:Ho; try discriminate.
      destruct (dict_get "_datasource_name" attrs) as [x|] eqn:Hd; [|discriminate].
      injection Hg as ->. exists a, c, attrs, own, n.
      repeat split; try reflexivity; try assumption.
      destruct c; try discriminate; auto.
    - cbn [Log.heap_of] in Hh. subst h'.
      eexists (length h1), c, _, None, n. split; [reflexivity|].
      split; [apply list_lookup_middle; reflexivity|].
      split; [destruct (is_runtime _ _); auto|reflexivity]. }
  destruct Hreq as (a & c & attrs & own & n & -> & Ho & Hc & Hd).
  set (args2 := passing (VRef a)).
  assert (Ho2 : on_entry h' args2 !! a = Some (OReq c attrs own)).
  { unfold on_entry. apply lookup_head. exact Ho. }
  assert (Hck : checks args2 (on_entry h' args2) = (on_entry h' args2, Ok (VStr n))).
  { apply checks_prebuilt.
    - cbn [args2 passing Args.batch_request]. unfold truthy. rewrite Ho2. reflexivity.
    - cbn [args2 passing Args.batch_request]. unfold isinstance_BatchRequest. rewrite Ho2.
      destruct Hc as [-> | ->]; reflexivity.
    - cbn [args2 passing Args.batch_request]. unfold py_getattr. rewrite Ho2, Hd. reflexivity.
    - reflexivity.
    - apply collision_falsy. reflexivity. }
  rewrite (call_checks_ok args2 h' lg' _ _ Hck). unfold after_checks. cbn [Log.heap_of].
  replace (truthy (on_entry h' args2) (Args.batch_request args2)) with true
    by (cbn [args2 passing Args.batch_request]; unfold truthy; rewrite Ho2; reflexivity).
  reflexivity.
Qed.

(** X9.  Let a call with no request given, outside the runtime branch and
    with a [data_connector_query] given, return.  The request it returns
    holds a new [IDDict] with the entries of the [data_connector_query]
    passed in -- a copy one level deep, not the caller's object.
    [batch_filter_parameters], [batch_identifiers], [limit], [index],
    [custom_filter_function] and the extra keyword arguments take no part,
    and nothing is logged, whether or not [batch_identifiers] is given. *)
Theorem supplied_query_is_copied args h lg s' r :
  get_batch_request_from_acceptable_arguments args (Log.State h lg) = (s', Ok r) ->
  truthy (on_entry h args) (Args.batch_request args) = false ->
  is_runtime (on_entry h args) args = false ->
  Args.data_connector_query args <> VNone ->
  exists a q p,
    r = VRef a
    /\ Log.heap_of s' !! a
       = Some (OReq cls_BatchRequest
                 (BatchRequestBase.__init__ (Args.datasource_name args)
                    (Args.data_connector_name args) (Args.data_asset_name args)
                    (VRef q) VNone VNone VNone p)
                 None)
    /\ length h < q
    /\ Log.heap_of s' !! q
       = Some (ODict cls_IDDict (entries_of (on_entry h args) (Args.data_connector_query args)))
    /\ Args.data_connector_query args <> VRef q
    /\ Log.log s' = lg.
Proof.
  intros Hrun Hbr Hrt Hq.
  destruct (call_returns_checks _ _ _ _ _ Hrun) as [ds Hc].
  destruct (checks_ok_inv _ _ _ _ Hc) as (_ & _ & _ & _ & Hds). rewrite Hbr in Hds. subst ds.
  rewrite (call_catalog args h lg _ Hc Hbr Hrt) in Hrun.
  assert (Hqn : is_None (Args.data_connector_query args) = false)
    by (destruct (Args.data_connector_query args); try reflexivity; congruence).
  destruct (catalog_branch_inv _ _ _ _ _ _ _ Hrun) as (b & Hcr & Hlog & _).
  destruct (catalog_request_inv _ _ _ _ _ _ Hcr) as (h1 & q & Hh1 & Hn & Hh' & ->).
  rewrite Hqn in Hh1. destruct Hh1 as [-> ->]. rewrite Hh'.
  set (h1 := on_entry h args ++ [ODict cls_IDDict (entries_of (on_entry h args)
                                                     (Args.data_connector_query args))]).
  eexists _, (length (on_entry h args)), _. split; [reflexivity|].
  split; [apply list_lookup_middle; reflexivity|].
  split; [rewrite on_entry_length; lia|]. split.
  { apply lookup_head, passthrough_lookup. subst h1. apply list_lookup_middle. reflexivity. }
  split; [|apply Hlog; exact Hqn].
  intros Heq. revert Hcr. unfold catalog_request. rewrite Hqn.
  unfold Py.bind at 1. rewrite Heq. unfold new_IDDict, dict_entries.
  rewrite lookup_ge_None_2 by lia. discriminate.
Qed.

(** X10.  Let a call with no request given, outside the runtime branch,
    return.  The [batch_spec_passthrough] of the request it returns is the
    one passed in, if one was -- [sampling_method], [sampling_kwargs],
    [splitter_method] and [splitter_kwargs] being ignored.  Otherwise it is
    a new dict with, in this order, [sampling_method] and [sampling_kwargs],
    then [splitter_method] and [splitter_kwargs], each left out when it is
    [None]; the keyword arguments of a method that is [None] are left out
    with it. *)
Theorem passthrough_is_assembled args h lg s' r :
  get_batch_request_from_acceptable_arguments args (Log.State h lg) = (s', Ok r) ->
  truthy (on_entry h args) (Args.batch_request args) = false ->
  is_runtime (on_entry h args) args = false ->
  exists a attrs p,
    r = VRef a
    /\ Log.heap_of s' !! a = Some (OReq cls_BatchRequest attrs None)
    /\ dict_get "_batch_spec_passthrough" attrs = Some p
    /\ if is_None (Args.batch_spec_passthrough args)
       then exists pa, p = VRef pa /\ length h < pa
                       /\ Log.heap_of s' !! pa = Some (ODict cls_dict (passthrough_entries args))
       else p = Args.batch_spec_passthrough args.
Proof.
  intros Hrun Hbr Hrt.
  destruct (call_returns_checks _ _ _ _ _ Hrun) as [ds Hc].
  rewrite (call_catalog args h lg _ Hc Hbr Hrt) in Hrun.
  destruct (catalog_branch_inv _ _ _ _ _ _ _ Hrun) as (b & Hcr & _).
  destruct (catalog_request_inv _ _ _ _ _ _ Hcr) as (h1 & q & Hh1 & Hn & Hh' & ->).
  rewrite Hh'.
  assert (Hl1 : length h < length h1).
  { destruct (is_None (Args.data_connector_query args)); destruct Hh1 as [-> _];
      rewrite length_app, on_entry_length; lia. }
  eexists _, _, _. split; [reflexivity|].
  split; [apply list_lookup_middle; reflexivity|].
  split; [reflexivity|].
  destruct (is_None (Args.batch_spec_passthrough args)) eqn:Hp; [|reflexivity].
  exists (length h1). split; [reflexivity|]. split; [exact Hl1|].
  apply lookup_head. rewrite passthrough_fst, Hp. apply list_lookup_middle. reflexivity.
Qed.

(** X13.  The runtime branch assigns into the caller's [runtime_parameters]
    before it validates anything.  So a call that passes the checks with a
    source ([batch_data], [query] or [path]) and a [runtime_parameters] dict
    that is not empty, but with no [batch_identifiers] and no extra keyword
    arguments, raises a [TypeError] -- and the caller's dict has the source
    entered in it all the same. *)
Theorem failed_call_has_changed_runtime_parameters args h lg n k v a c items :
  truthy (on_entry h args) (Args.batch_request args) = false ->
  Args.datasource_name args = VStr n ->
  several_given args = false ->
  collision args (on_entry h args) = (on_entry h args, Ok false) ->
  source_entry args = Some (k, v) ->
  Args.runtime_parameters args = VRef a ->
  on_entry h args !! a = Some (ODict c items) -> items <> [] ->
  Args.batch_identifiers args = VNone ->
  Args.kwargs args = [] ->
  exists h' msg,
    get_batch_request_from_acceptable_arguments args (Log.State h lg)
    = (Log.State h' lg, Raise (TypeError msg))
    /\ h' !! a = Some (ODict c (dict_set k v items)).
Proof.
  intros Hbr Hn Hs Hcol Hsrc Hrp Ho Hne Hbi Hkw.
  assert (Hrt : is_runtime (on_entry h args) args = true).
  { unfold is_runtime. rewrite Hrp, (truthy_dict _ _ _ _ Ho).
    destruct items; [congruence|]. apply Bool.orb_true_r. }
  rewrite (call_runtime args h lg _ (checks_named args _ n Hbr Hn Hs Hcol) Hbr Hrt).
  unfold Log.lift. cbn [Log.heap_of Log.log].
  rewrite (runtime_branch_given args _ _ a c items _ Hrp Ho Hne), Hsrc, Hbi.
  cbn [enter is_None].
  set (h1 := <[a := ODict c (dict_set k v items)]> (on_entry h args)).
  assert (Ha : h1 !! a = Some (ODict c (dict_set k v items))).
  { subst h1. apply list_lookup_insert_eq. eapply lookup_lt_Some. exact Ho. }
  assert (Hane : a <> length h).
  { intros ->. rewrite on_entry_kwargs, Hkw in Ho. injection Ho as _ <-. congruence. }
  assert (Hkwargs : h1 !! length h = Some (ODict cls_dict [])).
  { subst h1. rewrite list_lookup_insert_ne by exact Hane.
    rewrite on_entry_kwargs, Hkw. reflexivity. }
  match goal with
  | |- context [RuntimeBatchRequest.new ?ds ?dc ?da ?rp ?bi ?bsp h1] =>
      destruct (RuntimeBatchRequest_new_cases ds dc da rp bi bsp h1)
        as [(_ & _ & Hbad & _)|[msg ->]]
  end.
  - exfalso. destruct Hbad as (b & cb & itemsb & [= <-] & Hb & Hnb).
    rewrite Hkwargs in Hb. injection Hb as _ <-. congruence.
  - exists h1, msg. split; [reflexivity|exact Ha].
Qed.

(** ** Deep copies keep the heap well formed *)

Lemma old_val_mono n n' v : n <= n' -> old_val n v -> old_val n' v.
Proof. destruct v; cbn; auto. lia. Qed.

Lemma Forall_old_val_mono n n' (items : items_t) :
  n <= n' ->
  Forall (fun kv => old_val n (snd kv)) items -> Forall (fun kv => old_val n' (snd kv)) items.
Proof.
  intros Hle Hall. eapply Forall_impl; [exact Hall|]. intros kv. apply old_val_mono. exact Hle.
Qed.

Lemma object_ok_at_mono n n' a o : n <= n' -> object_ok_at n a o -> object_ok_at n' a o.
Proof.
  intros Hle (Hv & Hk & Hh). split; [|auto]. eapply Forall_old_val_mono; eassumption.
Qed.

Lemma well_formed_at h a o : well_formed h -> h !! a = Some o -> object_ok_at (length h) a o.
Proof. intros Hwf Ho. exact (Hwf a o Ho). Qed.

Lemma well_formed_insert h a o :
  well_formed h -> a < length h -> object_ok_at (length h) a o -> well_formed (<[a := o]> h).
Proof.
  intros Hwf Ha Ho b ob Hb. rewrite length_insert.
  destruct (decide (b = a)) as [->|Hn].
  - rewrite list_lookup_insert_eq in Hb by exact Ha. injection Hb as <-. exact Ho.
  - rewrite list_lookup_insert_ne in Hb by congruence. exact (Hwf b ob Hb).
Qed.

Lemma well_formed_alloc h o :
  well_formed h -> object_ok_at (S (length h)) (length h) o -> well_formed (h ++ [o]).
Proof.
  intros Hwf Ho b ob Hb. rewrite length_app. cbn [length].
  replace (length h + 1) with (S (length h)) by lia.
  destruct (decide (b < length h)) as [Hlt|Hge].
  - rewrite lookup_app_l in Hb by exact Hlt.
    eapply object_ok_at_mono; [|exact (Hwf b ob Hb)]. lia.
  - assert (b = length h) as ->.
    { apply lookup_lt_Some in Hb. rewrite length_app in Hb. cbn in Hb. lia. }
    rewrite list_lookup_middle in Hb by reflexivity. injection Hb as <-. exact Ho.
Qed.

Lemma memo_in_mono h h' memo : length h <= length h' -> memo_in h memo -> memo_in h' memo.
Proof. intros Hle Hm a y Hy. eapply old_val_mono; [exact Hle|]. exact (Hm a y Hy). Qed.

Lemma memo_in_set h memo a y :
  memo_in h memo -> old_val (length h) y -> memo_in h (memo_set a y memo).
Proof.
  intros Hm Hy b z. unfold memo_set. cbn [memo_get].
  destruct (Nat.eqb b a); [intros [= <-]; exact Hy|apply Hm].
Qed.

Lemma memo_in_nil h : memo_in h [].
Proof. intros a y. discriminate. Qed.

Lemma unhooked_kept_refl h : unhooked_kept h h.
Proof. intros b c attrs own Ho _. eauto. Qed.

Lemma unhooked_kept_trans h1 h2 h3 :
  unhooked_kept h1 h2 -> unhooked_kept h2 h3 -> unhooked_kept h1 h3.
Proof.
  intros H12 H23 b c attrs own Ho Hu.
  destruct (H12 _ _ _ _ Ho Hu) as [attrs2 Ho2]. exact (H23 _ _ _ _ Ho2 Hu).
Qed.

Lemma unhooked_kept_app h l : unhooked_kept h (h ++ l).
Proof.
  intros b c attrs own Ho _. exists attrs. apply lookup_app_l_Some. exact Ho.
Qed.

(** An assignment into a dict, or to an attribute. *)
Lemma unhooked_kept_entries h a o o' :
  h !! a = Some o ->
  match o, o' with
  | OReq c _ own, OReq c' _ own' => c' = c /\ own' = own
  | OReq _ _ _, _ => False
  | _, _ => True
  end ->
  unhooked_kept h (<[a := o']> h).
Proof.
  intros Ho Hsame b c attrs own Hb Hu. destruct (decide (b = a)) as [->|Hn].
  - rewrite list_lookup_insert_eq by (eapply lookup_lt_Some; exact Ho).
    rewrite Ho in Hb. injection Hb as ->.
    destruct o' as [| |c' attrs' own']; try contradiction.
    destruct Hsame as [-> ->]. eauto.
  - rewrite list_lookup_insert_ne by congruence. eauto.
Qed.

(** A change to an instance that had a [__deepcopy__] method. *)
Lemma unhooked_kept_hooked h h' a c attrs own self o' :
  unhooked_kept h h' ->
  h !! a = Some (OReq c attrs own) -> find__deepcopy__ c a own = Some (HookBound self) ->
  unhooked_kept h (<[a := o']> h').
Proof.
  intros Hk Ho Hf b cb attrsb ownb Hb Hu.
  destruct (decide (b = a)) as [->|Hn].
  - rewrite Ho in Hb. injection Hb as <- <- <-. exfalso. exact (Hu self Hf).
  - rewrite list_lookup_insert_ne by congruence. exact (Hk _ _ _ _ Hb Hu).
Qed.

(** A change to an object allocated since. *)
Lemma unhooked_kept_new h h' a o' :
  unhooked_kept h h' -> length h <= a -> unhooked_kept h (<[a := o']> h').
Proof.
  intros Hk Ha b cb attrsb ownb Hb Hu.
  assert (b < length h) by (eapply lookup_lt_Some; exact Hb).
  rewrite list_lookup_insert_ne by lia. exact (Hk _ _ _ _ Hb Hu).
Qed.

Lemma dict_set_ok_at n a c k v items :
  object_ok_at n a (ODict c items) -> old_val n v -> object_ok_at n a (ODict c (dict_set k v items)).
Proof.
  intros (Hv & Hk & _) Hx. cbn [entries] in *. split; [|split; [|exact I]].
  - apply dict_set_Forall; assumption.
  - apply dict_set_NoDup. exact Hk.
Qed.

Lemma attr_set_ok_at n a c k v attrs own :
  object_ok_at n a (OReq c attrs own) -> old_val n v ->
  object_ok_at n a (OReq c (dict_set k v attrs) own).
Proof.
  intros (Hv & Hk & Hh) Hx. cbn [entries] in *. split; [|split; [|exact Hh]].
  - apply dict_set_Forall; assumption.
  - apply dict_set_NoDup. exact Hk.
Qed.

(** An entry or an attribute that is set keeps the heap well formed. *)
Lemma assigned_closed yb k v h o o' :
  h !! yb = Some o ->
  match o with
  | ODict c items => o' = ODict c (dict_set k v items)
  | OReq c attrs own => o' = OReq c (dict_set k v attrs) own
  | OPayload _ => False
  end ->
  well_formed h -> old_val (length h) v ->
  well_formed (<[yb:=o']> h) /\ length (<[yb:=o']> h) = length h
  /\ unhooked_kept h (<[yb:=o']> h).
Proof.
  intros Ho Ho' Hwf Hv.
  assert (Hy : yb < length h) by (eapply lookup_lt_Some; exact Ho).
  pose proof (well_formed_at _ _ _ Hwf Ho) as Hok.
  split; [|split; [apply length_insert|]].
  - apply well_formed_insert; [exact Hwf|exact Hy|].
    destruct o as [c items| |c attrs own]; try contradiction; subst o'.
    + apply dict_set_ok_at; assumption.
    + apply attr_set_ok_at; assumption.
  - apply (unhooked_kept_entries h yb o o' Ho).
    destruct o as [c items| |c attrs own]; try contradiction; subst o'; auto.
Qed.

(** An assignment through a setter keeps the heap well formed. *)
Lemma setter_closed set yb k v h h' :
  setter_ok set -> well_formed h -> old_val (length h) v ->
  set (VRef yb) k v h = (h', Ok tt) ->
  well_formed h' /\ length h' = length h /\ unhooked_kept h h'.
Proof.
  intros Hset Hwf Hv Hrun.
  destruct (Hset _ _ _ _ _ Hrun) as (o & o' & Ho & -> & _ & Ho').
  eapply assigned_closed; eassumption.
Qed.

(** The same for [v[k] = x] under a name that is stored as it is. *)
Lemma py_setitem_closed v k x h h' :
  plain_attribute k = true -> well_formed h -> old_val (length h) x ->
  py_setitem v k x h = (h', Ok tt) ->
  well_formed h' /\ length h' = length h /\ unhooked_kept h h'.
Proof.
  intros Hk Hwf Hx Hrun.
  destruct (py_setitem_cases v k x h Hk)
    as [[msg Hbad]|[(a & c & items & -> & Hl & Hok)|(a & c & attrs & own & -> & Hl & Hok)]];
    [congruence| |]; rewrite Hok in Hrun; injection Hrun as <-;
    (eapply assigned_closed; [exact Hl|reflexivity|exact Hwf|exact Hx]).
Qed.

Section Closed.

Variable rec : pyval -> memo_t -> H (pyval * memo_t).
Hypothesis Hrec : closed_spec rec.

Lemma deepcopy_items_closed set yb :
  setter_ok set ->
  forall items memo h h' memo',
    well_formed h -> memo_in h memo ->
    Forall (fun kv => old_val (length h) (snd kv)) items ->
    copy._deepcopy_items rec set (VRef yb) items memo h = (h', Ok memo') ->
    well_formed h' /\ length h <= length h' /\ memo_in h' memo' /\ unhooked_kept h h'.
Proof.
  intros Hset. induction items as [|[k v] items IH]; intros memo h h' memo' Hwf Hm Hitems.
  - cbn. intros [= <- <-]. split; [exact Hwf|]. split; [lia|]. split; [exact Hm|].
    apply unhooked_kept_refl.
  - cbn [copy._deepcopy_items]. bind_step h1 p E1. destruct p as [v' memo1]. cbn [fst snd].
    bind_step h2 u E2. destruct u. intros Hloop.
    apply Forall_cons in Hitems. destruct Hitems as [Hv Hitems]. cbn [snd] in Hv.
    destruct (Hrec _ _ _ _ _ _ Hwf Hv Hm E1) as (Hwf1 & Hl1 & Hv' & Hm1 & Hk1 & _).
    destruct (setter_closed _ _ _ _ _ _ Hset Hwf1 Hv' E2) as (Hwf2 & Hl2 & Hk2).
    destruct (IH memo1 h2 h' memo' Hwf2) as (Hwf' & Hl' & Hm' & Hk').
    { eapply memo_in_mono; [|exact Hm1]. lia. }
    { eapply Forall_old_val_mono; [|exact Hitems]. lia. }
    { exact Hloop. }
    split; [exact Hwf'|]. split; [lia|]. split; [exact Hm'|].
    eapply unhooked_kept_trans; [|exact Hk'].
    eapply unhooked_kept_trans; eassumption.
Qed.

(** A new container that receives a copy of each entry. *)
Lemma deepcopy_container_closed set o x items memo h h' y memo' :
  setter_ok set ->
  well_formed h -> memo_in h memo ->
  Forall (fun kv => old_val (length h) (snd kv)) items ->
  object_ok_at (S (length h)) (length h) o ->
  (let* y := alloc o in
   let* memo := copy._deepcopy_items rec set y items (memo_set x y memo) in
   Py.ret (y, memo)) h = (h', Ok (y, memo')) ->
  y = VRef (length h) /\ length h < length h'
  /\ well_formed h' /\ memo_in h' memo' /\ unhooked_kept h h'
  /\ unhooked_kept (h ++ [o]) h'.
Proof.
  intros Hset Hwf Hm Hitems Ho.
  unfold Py.bind at 1. unfold alloc.
  bind_step h1 memo1 E1. unfold Py.ret. intros [= <- <- <-].
  assert (Hm1 : memo_in (h ++ [o]) (memo_set x (VRef (length h)) memo)).
  { apply memo_in_set; [eapply memo_in_mono; [|exact Hm]|];
      rewrite length_app; cbn; lia. }
  assert (Hi1 : Forall (fun kv => old_val (length (h ++ [o])) (snd kv)) items).
  { eapply Forall_old_val_mono; [|exact Hitems]. rewrite length_app. lia. }
  destruct (deepcopy_items_closed set (length h) Hset items _ _ _ _
              (well_formed_alloc _ _ Hwf Ho) Hm1 Hi1 E1) as (Hwf' & Hl' & Hm' & Hk').
  rewrite length_app in Hl'. cbn in Hl'.
  split; [reflexivity|]. split; [lia|]. split; [exact Hwf'|]. split; [exact Hm'|].
  split; [|exact Hk'].
  eapply unhooked_kept_trans; [apply unhooked_kept_app|exact Hk'].
Qed.

Lemma deepcopy_dict_closed a c items memo h h' y memo' :
  well_formed h -> memo_in h memo -> h !! a = Some (ODict c items) ->
  copy._deepcopy_dict rec a c items memo h = (h', Ok (y, memo')) ->
  y = VRef (length h) /\ length h < length h'
  /\ well_formed h' /\ memo_in h' memo' /\ unhooked_kept h h'.
Proof.
  intros Hwf Hm Ho Hrun.
  destruct (deepcopy_container_closed dict_setitem (ODict c []) a items memo h h' y memo'
              dict_setitem_ok Hwf Hm) as (Hy & Hl & Hwf' & Hm' & Hk & _).
  - exact (proj1 (well_formed_at _ _ _ Hwf Ho)).
  - repeat split; cbn; constructor.
  - exact Hrun.
  - auto.
Qed.

Lemma reconstruct_closed a c attrs own memo h h' y memo' :
  well_formed h -> memo_in h memo -> h !! a = Some (OReq c attrs own) ->
  unhooked c a own ->
  copy._reconstruct rec a c attrs own memo h = (h', Ok (y, memo')) ->
  y = VRef (length h) /\ length h < length h'
  /\ well_formed h' /\ memo_in h' memo' /\ unhooked_kept h h'
  /\ exists attrs', h' !! length h = Some (OReq c attrs' own).
Proof.
  intros Hwf Hm Ho Hu Hrun.
  assert (Hown : forall b, self_hook b own).
  { intros b. destruct own as [[|self]|]; cbn; try exact I.
    exfalso. apply (Hu self). reflexivity. }
  assert (Hub : forall b, unhooked c b own).
  { intros b self. pose proof (Hu a) as Ha. specialize (Hu self). revert Hu Ha.
    unfold find__deepcopy__.
    destruct own as [hk|]; [auto|]. destruct c; try discriminate. congruence. }
  destruct (deepcopy_container_closed py_setattr (OReq c [] own) a attrs memo h h' y memo'
              py_setattr_ok Hwf Hm) as (Hy & Hl & Hwf' & Hm' & Hk & Hk').
  - exact (proj1 (well_formed_at _ _ _ Hwf Ho)).
  - split; [constructor|]. split; [constructor|apply Hown].
  - exact Hrun.
  - repeat (split; [assumption|]).
    apply (Hk' (length h) c [] own); [apply list_lookup_middle; reflexivity|apply Hub].
Qed.

Lemma deepcopy_payload_closed a t memo h h' y memo' :
  well_formed h -> memo_in h memo ->
  copy._deepcopy_payload a t memo h = (h', Ok (y, memo')) ->
  y = VRef (length h) /\ length h < length h'
  /\ well_formed h' /\ memo_in h' memo' /\ unhooked_kept h h'.
Proof.
  intros Hwf Hm. unfold copy._deepcopy_payload, Py.bind, alloc, Py.ret.
  intros [= <- <- <-]. rewrite length_app. cbn [length].
  split; [reflexivity|]. split; [lia|]. split.
  { apply well_formed_alloc; [exact Hwf|]. repeat split; cbn; constructor. }
  split; [|apply unhooked_kept_app].
  apply memo_in_set; [eapply memo_in_mono; [|exact Hm]|]; rewrite ?length_app; cbn; lia.
Qed.

End Closed.

Lemma set__deepcopy___inv v hk h h' :
  set__deepcopy__ v hk h = (h', Ok tt) ->
  exists a c attrs own,
    v = VRef a /\ h !! a = Some (OReq c attrs own) /\ h' = <[a := OReq c attrs (Some hk)]> h.
Proof.
  unfold set__deepcopy__. destruct v; try discriminate.
  destruct (h !! a) as [[| |c attrs own]|] eqn:Ho; try discriminate.
  intros [= <-]. eauto 8.
Qed.

Lemma py_getattr_inv v attr h h' x :
  py_getattr v attr h = (h', Ok x) ->
  h' = h /\ exists a c attrs own,
    v = VRef a /\ h !! a = Some (OReq c attrs own) /\ dict_get attr attrs = Some x.
Proof.
  unfold py_getattr. destruct v; try discriminate.
  destruct (h !! a) as [[| |c attrs own]|] eqn:Ho; try discriminate.
  destruct (dict_get attr attrs) as [y|] eqn:Hy; [|discriminate].
  intros [= <- <-]. eauto 10.
Qed.

Lemma py_setitem_inv v k x h h' :
  py_setitem v k x h = (h', Ok tt) -> exists yb, v = VRef yb.
Proof. unfold py_setitem. destruct v; try discriminate. eauto. Qed.

(** Setting the [__deepcopy__] of an instance to [None], or to the method
    bound to that instance. *)
Lemma set__deepcopy___closed a hk h c attrs own :
  well_formed h -> h !! a = Some (OReq c attrs own) -> self_hook a (Some hk) ->
  well_formed (<[a := OReq c attrs (Some hk)]> h).
Proof.
  intros Hwf Ho Hhk. apply well_formed_insert; [exact Hwf|eapply lookup_lt_Some; exact Ho|].
  destruct (well_formed_at _ _ _ Hwf Ho) as (Hv & Hk & _). repeat split; assumption.
Qed.

Section ClosedMethod.

Variable rec : pyval -> memo_t -> H (pyval * memo_t).
Hypothesis Hrec : closed_spec rec.

Lemma method_closed self c attrs own memo h h' cp memo' :
  well_formed h -> memo_in h memo ->
  h !! self = Some (OReq c attrs own) ->
  find__deepcopy__ c self own = Some (HookBound self) ->
  memo_get self memo = None ->
  RuntimeBatchRequest.__deepcopy__ rec self memo h = (h', Ok (cp, memo')) ->
  well_formed h' /\ length h <= length h' /\ old_val (length h') cp /\ memo_in h' memo'
  /\ unhooked_kept h h'
  /\ exists b, cp = VRef b /\ length h <= b.
Proof.
  intros Hwf Hm Ho Hfind Hmemo.
  assert (Hself : self < length h) by (eapply lookup_lt_Some; exact Ho).
  destruct (holds_batch_data h attrs) eqn:Hhas.
  - destruct (holds_batch_data_true _ _ Hhas) as (d & cd & items & v & Hrp & Hd & Hv).
    assert (Hsd : self <> d) by (intros ->; congruence).
    assert (Hdl : d < length h) by (eapply lookup_lt_Some; exact Hd).
    assert (Hvold : old_val (length h) v).
    { exact (dict_get_Forall (old_val (length h)) _ _ _
               (proj1 (well_formed_at _ _ _ Hwf Hd)) Hv). }
    unfold RuntimeBatchRequest.__deepcopy__.
    unfold Py.bind at 1. unfold py_getattr_or_None. rewrite Ho, Hrp.
    unfold Py.bind at 1. unfold reading, isinstance_dict. rewrite Hd.
    unfold Py.bind at 1. unfold py_contains. rewrite Hd. unfold dict_has. rewrite Hv.
    unfold Py.bind at 1. unfold py_pop. rewrite Hd, Hv.
    set (h1 := <[d := ODict cd (dict_del "batch_data" items)]> h).
    assert (Hwf1 : well_formed h1).
    { apply well_formed_insert; [exact Hwf|exact Hdl|].
      destruct (well_formed_at _ _ _ Hwf Hd) as (Hi & Hk & _). cbn [entries] in *.
      split; [apply dict_del_Forall; exact Hi|]. split; [apply dict_del_NoDup; exact Hk|exact I]. }
    assert (Hl1 : length h1 = length h) by apply length_insert.
    assert (Hk1 : unhooked_kept h h1).
    { apply (unhooked_kept_entries h d _ _ Hd). exact I. }
    assert (Ho1 : h1 !! self = Some (OReq c attrs own)).
    { subst h1. rewrite list_lookup_insert_ne by congruence. exact Ho. }
    unfold Py.bind at 1. unfold get__deepcopy__. rewrite Ho1, Hfind.
    unfold Py.bind at 1. unfold set__deepcopy__ at 1. rewrite Ho1.
    set (h2 := <[self := OReq c attrs (Some HookNone)]> h1).
    assert (Hwf2 : well_formed h2) by exact (set__deepcopy___closed self HookNone h1 c attrs own Hwf1 Ho1 I).
    assert (Hl2 : length h2 = length h) by (subst h2; rewrite length_insert; exact Hl1).
    assert (Hk2 : unhooked_kept h h2).
    { eapply unhooked_kept_hooked; [exact Hk1|exact Ho|exact Hfind]. }
    bind_step h3 p E3. destruct p as [cp3 memo3]. cbn [fst snd].
    destruct (Hrec (VRef self) memo h2 h3 cp3 memo3 Hwf2) with (3 := E3)
      as (Hwf3 & Hl3 & Hcp3 & Hm3 & Hk3 & Hfresh).
    { cbn. lia. }
    { eapply memo_in_mono; [|exact Hm]. lia. }
    destruct (Hfresh self eq_refl Hmemo) as (b & -> & Hb).
    bind_step h4 u4 E4. destruct u4.
    destruct (set__deepcopy___inv _ _ _ _ E4) as (a4 & c4 & attrs4 & own4 & [= <-] & Ho4 & ->).
    assert (Hwf4 : well_formed (<[self := OReq c4 attrs4 (Some (HookBound self))]> h3))
      by exact (set__deepcopy___closed self (HookBound self) h3 c4 attrs4 own4 Hwf3 Ho4 eq_refl).
    assert (Hk4 : unhooked_kept h (<[self := OReq c4 attrs4 (Some (HookBound self))]> h3)).
    { eapply unhooked_kept_hooked; [|exact Ho|exact Hfind].
      eapply unhooked_kept_trans; eassumption. }
    set (h4 := <[self := OReq c4 attrs4 (Some (HookBound self))]> h3) in *.
    assert (Hl4 : length h4 = length h3) by apply length_insert.
    bind_step h5 u5 E5. destruct u5.
    destruct (set__deepcopy___inv _ _ _ _ E5) as (a5 & c5 & attrs5 & own5 & [= <-] & Ho5 & ->).
    assert (Hwf5 : well_formed (<[b := OReq c5 attrs5 (Some (HookBound b))]> h4))
      by exact (set__deepcopy___closed b (HookBound b) h4 c5 attrs5 own5 Hwf4 Ho5 eq_refl).
    assert (Hk5 : unhooked_kept h (<[b := OReq c5 attrs5 (Some (HookBound b))]> h4)).
    { apply unhooked_kept_new; [exact Hk4|lia]. }
    set (h5 := <[b := OReq c5 attrs5 (Some (HookBound b))]> h4) in *.
    assert (Hl5 : length h5 = length h3) by (subst h5; rewrite length_insert; exact Hl4).
    bind_step h6 cprp E6.
    destruct (py_getattr_inv _ _ _ _ _ E6) as (-> & _).
    bind_step h7 u7 E7. destruct u7.
    destruct (py_setitem_closed cprp "batch_data" v h5 h7 eq_refl Hwf5)
      with (2 := E7) as (Hwf7 & Hl7 & Hk7).
    { eapply old_val_mono; [|exact Hvold]. lia. }
    bind_step h8 selfrp E8.
    destruct (py_getattr_inv _ _ _ _ _ E8) as (-> & _).
    bind_step h9 u9 E9. destruct u9.
    destruct (py_setitem_closed selfrp "batch_data" v h7 h9 eq_refl Hwf7)
      with (2 := E9) as (Hwf9 & Hl9 & Hk9).
    { eapply old_val_mono; [|exact Hvold]. lia. }
    unfold Py.ret. intros [= <- <- <-].
    split; [exact Hwf9|]. split; [lia|]. split.
    { cbn. cbn in Hcp3. lia. }
    split; [eapply memo_in_mono; [|exact Hm3]; lia|]. split.
    { eapply unhooked_kept_trans; [exact Hk5|].
      eapply unhooked_kept_trans; eassumption. }
    exists b. split; [reflexivity|lia].
  - rewrite (method_without_batch_data_run rec self memo h c attrs own Ho Hhas).
    set (h1 := <[self := OReq c attrs (Some HookNone)]> h).
    assert (Hwf1 : well_formed h1) by exact (set__deepcopy___closed self HookNone h c attrs own Hwf Ho I).
    assert (Hl1 : length h1 = length h) by apply length_insert.
    intros E.
    destruct (Hrec (VRef self) memo h1 h' cp memo' Hwf1) with (3 := E)
      as (Hwf' & Hl' & Hcp & Hm' & Hk' & Hfresh).
    { cbn. lia. }
    { eapply memo_in_mono; [|exact Hm]. lia. }
    split; [exact Hwf'|]. split; [lia|]. split; [exact Hcp|]. split; [exact Hm'|]. split.
    { eapply unhooked_kept_trans; [|exact Hk'].
      eapply unhooked_kept_hooked; [apply unhooked_kept_refl|exact Ho|exact Hfind]. }
    destruct (Hfresh self eq_refl Hmemo) as (b & -> & Hb). exists b. split; [reflexivity|lia].
Qed.

End ClosedMethod.

Theorem deepcopy_memo_closed f : closed_spec (copy.deepcopy_memo f).
Proof.
  induction f as [|f IH]; intros x memo h h' y memo' Hwf Hx Hm.
  - discriminate.
  - rewrite deepcopy_memo_S. destruct x as [| | | | |a];
      try (intros [= <- <- <-]; split; [exact Hwf|]; split; [lia|]; split; [exact I|];
           split; [exact Hm|]; split; [apply unhooked_kept_refl|]; intros a; discriminate).
    cbn in Hx.
    destruct (memo_get a memo) as [y0|] eqn:Hmemo.
    { unfold Py.ret. intros [= <- <- <-]. split; [exact Hwf|]. split; [lia|].
      split; [exact (Hm _ _ Hmemo)|]. split; [exact Hm|]. split; [apply unhooked_kept_refl|].
      intros a0 [= <-]. congruence. }
    unfold Py.bind at 1. unfold load.
    destruct (h !! a) as [o|] eqn:Ho; [|discriminate].
    destruct o as [c items|t|c attrs own].
    + intros Hrun.
      destruct (deepcopy_dict_closed _ IH a c items memo h h' y memo' Hwf Hm Ho Hrun)
        as (-> & Hl & Hwf' & Hm' & Hk).
      split; [exact Hwf'|]. split; [lia|]. split; [cbn; lia|]. split; [exact Hm'|].
      split; [exact Hk|]. intros a0 _ _. exists (length h). auto.
    + intros Hrun.
      destruct (deepcopy_payload_closed a t memo h h' y memo' Hwf Hm Hrun)
        as (-> & Hl & Hwf' & Hm' & Hk).
      split; [exact Hwf'|]. split; [lia|]. split; [cbn; lia|]. split; [exact Hm'|].
      split; [exact Hk|]. intros a0 _ _. exists (length h). auto.
    + destruct (find__deepcopy__ c a own) as [[|self]|] eqn:Hfind.
      * intros Hrun.
        destruct (reconstruct_closed _ IH a c attrs own memo h h' y memo' Hwf Hm Ho)
          with (2 := Hrun) as (-> & Hl & Hwf' & Hm' & Hk & _).
        { intros s. rewrite Hfind. discriminate. }
        split; [exact Hwf'|]. split; [lia|]. split; [cbn; lia|]. split; [exact Hm'|].
        split; [exact Hk|]. intros a0 _ _. exists (length h). auto.
      * assert (self = a) as ->.
        { pose proof (proj2 (proj2 (well_formed_at _ _ _ Hwf Ho))) as Hh. cbn in Hh.
          exact (find_self_hook c a own (HookBound self) Hh Hfind). }
        bind_step h1 p E1. destruct p as [cp memo1]. cbn [fst snd].
        destruct (method_closed _ IH a c attrs own memo h h1 cp memo1 Hwf Hm Ho Hfind Hmemo E1)
          as (Hwf1 & Hl1 & Hcp & Hm1 & Hk1 & b & -> & Hb).
        destruct (py_is (VRef b) (VRef a)); unfold Py.ret; intros [= <- <- <-].
        -- split; [exact Hwf1|]. split; [lia|]. split; [exact Hcp|]. split; [exact Hm1|].
           split; [exact Hk1|]. intros a0 _ _. eauto.
        -- split; [exact Hwf1|]. split; [lia|]. split; [exact Hcp|].
           split; [apply memo_in_set; assumption|].
           split; [exact Hk1|]. intros a0 _ _. eauto.
      * intros Hrun.
        destruct (reconstruct_closed _ IH a c attrs own memo h h' y memo' Hwf Hm Ho)
          with (2 := Hrun) as (-> & Hl & Hwf' & Hm' & Hk & _).
        { intros s. rewrite Hfind. discriminate. }
        split; [exact Hwf'|]. split; [lia|]. split; [cbn; lia|]. split; [exact Hm'|].
        split; [exact Hk|]. intros a0 _ _. exists (length h). auto.
Qed.

(** [copy.deepcopy] on a well-formed heap. *)
Lemma deepcopy_closed h x fuel h' y :
  well_formed h -> old_val (length h) x ->
  copy.deepcopy fuel x h = (h', Ok y) ->
  well_formed h' /\ length h <= length h' /\ old_val (length h') y /\ unhooked_kept h h'.
Proof.
  intros Hwf Hx. unfold copy.deepcopy. bind_step h1 p E. destruct p as [y1 memo1].
  unfold Py.ret. intros [= <- <-]. cbn [fst].
  destruct (deepcopy_memo_closed fuel x [] h h1 y1 memo1 Hwf Hx (memo_in_nil h) E)
    as (Hwf' & Hl & Hy & _ & Hk & _).
  auto.
Qed.

(** *** Copies of instances *)

(** X14.  [copy.deepcopy], with [RuntimeBatchRequest.__deepcopy__] called
    for the instances that have it, keeps a well-formed heap well formed
    when it returns: every reference -- the value returned among them -- is to
    an object of the heap, the keys of every dict and the attribute names of
    every instance are distinct, and the [__deepcopy__] an instance holds of
    its own, on the originals as on the copies, is [None] or the method
    bound to that very instance, never the method of another.  An instance
    that had no [__deepcopy__] method to call has none afterwards. *)
Theorem deepcopy_keeps_heap_well_formed h x fuel h' y :
  well_formed h -> old_val (length h) x ->
  copy.deepcopy fuel x h = (h', Ok y) ->
  well_formed h' /\ length h <= length h' /\ old_val (length h') y /\ unhooked_kept h h'.
Proof.
  intros Hwf Hx. unfold copy.deepcopy. bind_step h1 p E. destruct p as [y1 memo1].
  unfold Py.ret. intros [= <- <-]. cbn [fst].
  destruct (deepcopy_memo_closed fuel x [] h h1 y1 memo1 Hwf Hx (memo_in_nil h) E)
    as (Hwf' & Hl & Hy & _ & Hk & _).
  auto.
Qed.

(** The [__deepcopy__] the original and the copy hold once an instance has
    been copied. *)
Lemma deepcopy_instance_hooks h a c attrs own fuel h' y :
  well_formed h ->
  h !! a = Some (OReq c attrs own) ->
  find__deepcopy__ c a own = Some (HookBound a) ->
  copy.deepcopy fuel (VRef a) h = (h', Ok y) ->
  y = VRef (length h)
  /\ h' !! a = Some (OReq c attrs (Some (if holds_batch_data h attrs
                                          then HookBound a else HookNone)))
  /\ exists attrs',
       h' !! length h = Some (OReq c attrs' (Some (if holds_batch_data h attrs
                                                   then HookBound (length h) else HookNone))).
Proof.
  intros Hwf Ho Hfind Hrun.
  destruct (well_formed_inv h Hwf) as [Hinv Hk].
  assert (Ha : a < length h) by (eapply lookup_lt_Some; exact Ho).
  destruct (deepcopy_spec_top h (VRef a) fuel h' y Hwf Ha Hrun) as [Hframe _].
  revert Hrun. unfold copy.deepcopy. bind_step h1 p E1. destruct p as [y1 memo1].
  unfold Py.ret. intros [= <- <-]. cbn [fst].
  destruct fuel as [|fuel]; [discriminate|].
  rewrite (deepcopy_memo_hooked fuel a c attrs own a [] h eq_refl Ho Hfind) in E1.
  revert E1. bind_step h2 q E2. destruct q as [cp memo2]. cbn [fst snd].
  intros E1.
  assert (h1 = h2 /\ y1 = cp) as [-> ->].
  { destruct (py_is cp (VRef a)); unfold Py.ret in E1; injection E1 as <- <- _; auto. }
  clear E1.
  destruct (holds_batch_data h attrs) eqn:Hhas.
  - destruct (holds_batch_data_true _ _ Hhas) as (d & cd & items & v & Hrp & Hd & Hv).
    destruct (method_with_batch_data (length h) _ (deepcopy_memo_spec _ fuel)
                (deepcopy_memo_rp _ fuel) a [] h h2 cp memo2
                c attrs own d cd items v Hinv Ha eq_refl Ho Hrp Hd Hv E2)
      as (_ & _ & _ & h3 & cpa & attrs0 & own3 & ownx0 & hk0 & d0 & cd0 & items0 & items1
          & -> & Hr & _).
    destruct fuel as [|fuel]; [discriminate|].
    destruct (method_with_batch_data_result (length h) fuel a c attrs own [] h d cd items v
                h3 _ _ Hinv Hk Ha Ho Hfind eq_refl Hrp Hd Hv Hr)
      as (attrs' & own' & ownx & d' & items' & items3 & Hcpa & Ho3 & Hc3 & Hall & Hrp' & Hd'n
          & Hd'3 & Hd3 & Hshape & Hrun).
    injection Hcpa as ->.
    rewrite Hrun in E2. injection E2 as <-.
    assert (Hdn : d < length h) by (eapply lookup_lt_Some; exact Hd).
    destruct (after_method_lookups h3 a (length h) d d' c c attrs attrs' cd cd items3 items'
                (HookBound a) v ownx own' Ho3 Hc3 Hd'3 Hd3 ltac:(lia) ltac:(lia))
      as (Ha' & Hc' & _).
    split; [reflexivity|]. split; [exact Ha'|]. exists attrs'. exact Hc'.
  - rewrite (method_without_batch_data_run _ a [] h c attrs own Ho Hhas) in E2.
    destruct fuel as [|fuel]; [discriminate|].
    set (h1 := <[a:=OReq c attrs (Some HookNone)]> h) in *.
    assert (Ho1 : h1 !! a = Some (OReq c attrs (Some HookNone))).
    { subst h1. apply list_lookup_insert_eq. exact Ha. }
    assert (Hwf1 : well_formed h1)
      by exact (set__deepcopy___closed a HookNone h c attrs own Hwf Ho I).
    assert (Hlen : length h1 = length h) by (subst h1; apply length_insert).
    assert (Hu : unhooked c a (Some HookNone)) by (intros s; discriminate).
    rewrite (deepcopy_memo_unhooked fuel a c attrs (Some HookNone)) in E2;
      [|reflexivity|exact Ho1|exact Hu].
    destruct (reconstruct_closed _ (deepcopy_memo_closed fuel) a c attrs (Some HookNone) []
                h1 h2 cp memo2 Hwf1 (memo_in_nil h1) Ho1 Hu E2)
      as (-> & _ & _ & _ & Hkept & attrs' & Hc').
    rewrite Hlen in *.
    split; [reflexivity|]. split; [|exists attrs'; exact Hc'].
    destruct (Hkept a c attrs (Some HookNone) Ho1 Hu) as [attrs2 Ha2].
    destruct (Hframe a _ Ho) as (o' & Ho' & Hst).
    rewrite Ha2 in Ho'. injection Ho' as <-. cbn in Hst. destruct Hst as [_ ->]. exact Ha2.
Qed.

(** X15.  Deep-copying a [RuntimeBatchRequest] on which the class's
    [__deepcopy__] is in force leaves a [__deepcopy__] of its own on the
    original, which keeps its attributes, and on the copy.  With a
    ["batch_data"] entry in [runtime_parameters] it is, on each, the method
    bound to that instance.  Without one it is [None] on both: the copy does
    not have the custom method, and the original no longer has it. *)
Theorem deepcopy_leaves_own_hooks h a attrs own fuel h' y :
  well_formed h ->
  h !! a = Some (OReq cls_RuntimeBatchRequest attrs own) ->
  find__deepcopy__ cls_RuntimeBatchRequest a own = Some (HookBound a) ->
  copy.deepcopy fuel (VRef a) h = (h', Ok y) ->
  exists attrs' hk hk',
    y = VRef (length h)
    /\ h' !! a = Some (OReq cls_RuntimeBatchRequest attrs (Some hk))
    /\ h' !! length h = Some (OReq cls_RuntimeBatchRequest attrs' (Some hk'))
    /\ (holds_batch_data h attrs = true -> hk = HookBound a /\ hk' = HookBound (length h))
    /\ (holds_batch_data h attrs = false ->
        hk = HookNone /\ hk' = HookNone
        /\ unhooked cls_RuntimeBatchRequest a (Some hk)
        /\ unhooked cls_RuntimeBatchRequest (length h) (Some hk')).
Proof.
  intros Hwf Ho Hfind Hrun.
  destruct (deepcopy_instance_hooks h a _ attrs own fuel h' y Hwf Ho Hfind Hrun)
    as (-> & Ha & attrs' & Hc).
  eexists attrs', _, _. split; [reflexivity|]. split; [exact Ha|]. split; [exact Hc|].
  destruct (holds_batch_data h attrs).
  - split; [auto|discriminate].
  - split; [discriminate|]. intros _. repeat split; intros s; discriminate.
Qed.

(** X16.  Sharing survives a second generation.  Let a
    [RuntimeBatchRequest] on which the class's [__deepcopy__] is in force
    hold the payload [v] under ["batch_data"], and let [y] be a deep copy of
    it.  Then a deep copy of [y] returns (given a recursion limit of twice
    the number of objects plus two), and it is a new instance whose
    [runtime_parameters] is a new dict that holds the very same [v] under
    ["batch_data"]. *)
Theorem copy_of_copy_shares_batch_data h a attrs own d cd items v fuel h1 y :
  well_formed h ->
  h !! a = Some (OReq cls_RuntimeBatchRequest attrs own) ->
  find__deepcopy__ cls_RuntimeBatchRequest a own = Some (HookBound a) ->
  dict_get "_runtime_parameters" attrs = Some (VRef d) ->
  h !! d = Some (ODict cd items) ->
  dict_get "batch_data" items = Some v ->
  copy.deepcopy fuel (VRef a) h = (h1, Ok y) ->
  (forall fuel', 2 * length h1 + 2 <= fuel' ->
     exists h2 z, copy.deepcopy fuel' y h1 = (h2, Ok z))
  /\ (forall fuel' h2 z,
        copy.deepcopy fuel' y h1 = (h2, Ok z) ->
        exists attrs2 own2 d2 items2,
          z = VRef (length h1)
          /\ y <> z
          /\ h2 !! length h1 = Some (OReq cls_RuntimeBatchRequest attrs2 own2)
          /\ dict_get "_runtime_parameters" attrs2 = Some (VRef d2)
          /\ length h1 <= d2
          /\ h2 !! d2 = Some (ODict cd items2)
          /\ dict_get "batch_data" items2 = Some v).
Proof.
  intros Hwf Ho Hfind Hrp Hd Hv Hrun.
  assert (Ha : a < length h) by (eapply lookup_lt_Some; exact Ho).
  destruct (deepcopy_closed h (VRef a) fuel h1 y Hwf Ha Hrun) as (Hwf1 & Hl1 & Hy & _).
  destruct (deepcopy_instance h a _ attrs own fuel h1 y Hwf Ho Hfind Hrun)
    as (attrs' & own' & -> & Hc' & _ & Hbd).
  destruct (Hbd d cd items v Hrp Hd Hv)
    as (-> & d' & items' & items1 & Hrp' & Hd'n & Hd' & Hv' & _).
  assert (Hfind' : find__deepcopy__ cls_RuntimeBatchRequest (length h)
                     (Some (HookBound (length h))) = Some (HookBound (length h)))
    by reflexivity.
  split.
  - intros fuel' Hfuel. apply deepcopy_total; assumption.
  - intros fuel' h2 z Hrun2.
    destruct (deepcopy_instance h1 (length h) _ attrs' _ fuel' h2 z Hwf1 Hc' Hfind' Hrun2)
      as (attrs2 & own2 & -> & Hc2 & _ & Hbd2).
    destruct (Hbd2 d' cd items' v Hrp' Hd' Hv')
      as (_ & d2 & items2 & items3 & Hrp2 & Hd2n & Hd2 & Hv2 & _).
    exists attrs2, own2, d2, items2. split; [reflexivity|].
    split; [intros [= Heq]; cbn in Hy; lia|]. auto 10.
Qed.

(** ** The JSON form of a request *)

(** X17.  [to_json_dict] takes the [__name__] of whatever the
    [data_connector_query] holds under ["custom_filter_function"], unless it
    is [None].  So on an instance whose [data_connector_query] is a dict
    with a ["custom_filter_function"] that is neither [None] nor a function
    -- the name of a function given as a str, say -- [to_json_dict] raises the
    attribute error "'...' object has no attribute '__name__'", and with it
    [id], which calls it. *)
Theorem to_json_dict_needs_a_named_filter fuel h a c attrs own q cq items f :
  well_formed h -> 2 * length h + 2 <= fuel ->
  h !! a = Some (OReq c attrs own) ->
  dict_get "_data_connector_query" attrs = Some (VRef q) ->
  h !! q = Some (ODict cq items) ->
  dict_get "custom_filter_function" items = Some f ->
  f <> VNone -> (forall name, f <> VFunc name) ->
  exists h',
    Request.to_json_dict fuel (VRef a) h = (h', Raise (no_attribute h f "__name__"))
    /\ forall content_hash,
         Request.id content_hash fuel (VRef a) h = (h', Raise (no_attribute h f "__name__")).
Proof.
  intros Hwf Hfuel Ho Hq Hd Hf Hnone Hfunc.
  destruct (deepcopy_dict_top h q cq items fuel Hwf Hd Hfuel)
    as (h1 & items' & Hrun & Hy & Hall & Hframe).
  pose proof (Hall "custom_filter_function" ltac:(discriminate)) as Hc.
  rewrite Hf in Hc. destruct Hc as (f' & Hf' & Hcp).
  assert (Hname : is_None f' = false
                  /\ py_name f' h1 = (h1, Raise (no_attribute h f "__name__"))).
  { destruct f as [| | | |name|b]; cbn in Hcp; try congruence; try (subst f'; split; reflexivity).
    destruct Hcp as (b' & -> & _ & Hs). split; [reflexivity|].
    unfold py_name, no_attribute. do 3 f_equal.
    revert Hs. unfold shape_at. cbn.
    destruct (h1 !! b') as [[]|], (h !! b) as [[]|]; cbn; congruence. }
  destruct Hname as [Hn Hp].
  assert (Hjson : Request.to_json_dict fuel (VRef a) h
                  = (h1, Raise (no_attribute h f "__name__"))).
  { unfold Request.to_json_dict, BatchRequestBase.to_json_dict.
    unfold Py.bind at 1.
    rewrite (getattr_run h a c attrs own "_data_connector_query" (VRef q) Ho Hq).
    cbn [is_None negb].
    unfold Py.bind at 1. unfold Py.bind at 1. rewrite Hrun.
    unfold Py.bind at 1. unfold py_get. rewrite Hy, Hf', Hn. cbn [negb].
    unfold Py.bind at 1. unfold Py.bind at 1. rewrite Hp. reflexivity. }
  exists h1. split; [exact Hjson|].
  intros content_hash. unfold Request.id, BatchRequestBase.id.
  unfold Py.bind at 1. fold (Request.to_json_dict fuel (VRef a)). rewrite Hjson. reflexivity.
Qed.

(** ** Batch markers *)

Lemma dict_get_set k k' v items :
  dict_get k (dict_set k' v items) = if String.eqb k k' then Some v else dict_get k items.
Proof.
  destruct (String.eqb k k') eqn:E.
  - apply String.eqb_eq in E. subst k'. apply dict_get_set_eq.
  - apply dict_get_set_ne. intros ->. rewrite String.eqb_refl in E. discriminate.
Qed.

(** [d.update(other)] for an [other] with distinct keys: its entries win. *)
Lemma dict_get_update k other :
  List.NoDup (map fst other) ->
  forall items,
    dict_get k (dict_update other items)
    = match dict_get k other with Some x => Some x | None => dict_get k items end.
Proof.
  unfold dict_update. induction other as [|[k' v] other IH]; intros Hnd items; [reflexivity|].
  cbn [fold_left fst snd map] in *. apply List.NoDup_cons_iff in Hnd. destruct Hnd as [Hin Hnd].
  rewrite (IH Hnd). cbn [dict_get]. rewrite dict_get_set.
  destruct (String.eqb k k') eqn:E; [|reflexivity].
  apply String.eqb_eq in E. subst k'.
  destruct (dict_get k other) as [x|] eqn:Hx; [|reflexivity].
  exfalso. apply Hin. clear -Hx. induction other as [|[k2 v2] other IH]; [discriminate|].
  cbn in Hx |- *. destruct (String.eqb k k2) eqn:E2.
  - apply String.eqb_eq in E2. auto.
  - right. apply IH. exact Hx.
Qed.

(** X18.  [BatchMarkers(mapping, **kwargs)], for a dict [mapping] and
    keyword arguments with distinct names, builds the markers exactly when
    ["ge_load_time"] is a key of the mapping or one of the keyword arguments
    -- whatever the value, [None] included -- and raises [InvalidBatchIdError]
    otherwise, as does [BatchMarkers()].  The markers built hold the entries
    of the mapping with the keyword arguments assigned over them, and
    [ge_load_time] is the value of the keyword argument if there is one,
    else that of the mapping. *)
Theorem batch_markers_need_ge_load_time h a c items kwargs :
  h !! a = Some (ODict c items) ->
  List.NoDup (map fst kwargs) ->
  let merged k := match dict_get k kwargs with Some x => Some x | None => dict_get k items end in
  match merged "ge_load_time" with
  | Some x =>
      exists self,
        BatchMarkers.__init__ h [VRef a] kwargs = BatchMarkers.Built self
        /\ BatchMarkers.ge_load_time self = x
        /\ forall k, dict_get k self = merged k
  | None =>
      BatchMarkers.__init__ h [VRef a] kwargs
      = BatchMarkers.InvalidBatchIdError "BatchMarkers requires a ge_load_time"
  end
  /\ BatchMarkers.__init__ h [] []
     = BatchMarkers.InvalidBatchIdError "BatchMarkers requires a ge_load_time".
Proof.
  intros Ho Hnd. cbv zeta. split; [|reflexivity].
  unfold BatchMarkers.__init__, BatchMarkers.dict__init__, dict_entries. rewrite Ho.
  unfold dict_has. rewrite (dict_get_update "ge_load_time" kwargs Hnd items).
  destruct (match dict_get "ge_load_time" kwargs with
            | Some x => Some x
            | None => dict_get "ge_load_time" items
            end) as [x|] eqn:Hx; cbn [negb]; [|reflexivity].
  exists (dict_update kwargs items). split; [reflexivity|]. split.
  - unfold BatchMarkers.ge_load_time. rewrite (dict_get_update _ kwargs Hnd items), Hx.
    reflexivity.
  - intros k. apply dict_get_update. exact Hnd.
Qed.

(** ** The properties on the sample heaps *)

Lemma sample_names : Forall name_required [VStr "s1"; VStr "c1"; VStr "a1"].
Proof. repeat constructor; eexists; (split; [reflexivity|discriminate]). Qed.

(** Closed equations are settled by evaluation. *)
Ltac by_eval := vm_compute; reflexivity.

Lemma call_returns_a_batch_request_witness :
  let run := get_batch_request_from_acceptable_arguments query_with_parameters
               (Log.State two_mappings []) in
  isinstance_BatchRequest (Log.heap_of (fst run)) (VRef 3) = true.
Proof.
  cbv zeta.
  refine (proj1 (call_returns_a_batch_request query_with_parameters two_mappings []
                   (fst (get_batch_request_from_acceptable_arguments query_with_parameters
                           (Log.State two_mappings [])))
                   (VRef 3) _)).
  by_eval.
Defined.

Lemma call_is_idempotent_witness :
  let run := get_batch_request_from_acceptable_arguments query_with_parameters
               (Log.State two_mappings []) in
  get_batch_request_from_acceptable_arguments (passing (VRef 3)) (fst run)
  = (Log.State (Log.heap_of (fst run) ++ [ODict cls_dict []]) (Log.log (fst run)),
     Ok (VRef 3)).
Proof.
  cbv zeta.
  apply (call_is_idempotent query_with_parameters two_mappings []
           (fst (get_batch_request_from_acceptable_arguments query_with_parameters
                   (Log.State two_mappings [])))
           (VRef 3)).
  by_eval.
Defined.

Lemma source_given_twice_is_value_error_witness :
  get_batch_request_from_acceptable_arguments query_with_parameters (Log.State query_mapping [])
  = (Log.State (on_entry query_mapping query_with_parameters) [],
     Raise (ValueError same_keys_message)).
Proof.
  apply (source_given_twice_is_value_error query_with_parameters query_mapping []
           0 cls_dict [("query", VStr "SELECT 2")]); reflexivity.
Defined.

Lemma falsy_source_overwrites_entry_witness :
  exists s' r,
    get_batch_request_from_acceptable_arguments empty_query (Log.State query_mapping [])
    = (s', r)
    /\ Log.heap_of s' !! 0 = Some (ODict cls_dict [("query", VStr EmptyString)])
    /\ r <> Raise (ValueError same_keys_message).
Proof.
  apply (falsy_source_overwrites_entry empty_query query_mapping [] "s1" "query"
           (VStr EmptyString) 0 cls_dict [("query", VStr "SELECT 2")]);
    try reflexivity; discriminate.
Defined.

Lemma catalog_request_query_is_assembled_witness :
  exists h' r q,
    get_batch_request_from_acceptable_arguments names_only (Log.State one_mapping [])
    = (Log.State h' [], Ok (VRef r))
    /\ h' !! q = Some (ODict cls_IDDict [("batch_filter_parameters", VRef 1);
                                         ("limit", VNone); ("index", VNone);
                                         ("custom_filter_function", VNone)]).
Proof.
  destruct (catalog_request_query_is_assembled names_only one_mapping [] "s1"
              eq_refl eq_refl sample_names eq_refl eq_refl eq_refl eq_refl)
    as (h' & r & q & p & Hrun & _ & _ & Hq & _).
  exists h', r, q. split; [exact Hrun|exact Hq].
Defined.

Lemma supplied_query_is_copied_witness :
  let run := get_batch_request_from_acceptable_arguments explicit_query
               (Log.State one_mapping []) in
  exists q, 1 < q /\ Log.heap_of (fst run) !! q = Some (ODict cls_IDDict [("a", VInt 1)]).
Proof.
  cbv zeta.
  destruct (supplied_query_is_copied explicit_query one_mapping []
              (fst (get_batch_request_from_acceptable_arguments explicit_query
                      (Log.State one_mapping [])))
              (VRef 4))
    as (a & q & p & _ & _ & Hq & Hd & _); [by_eval|by_eval|by_eval|discriminate|].
  exists q. split; [exact Hq|exact Hd].
Defined.

Lemma passthrough_is_assembled_witness :
  let run := get_batch_request_from_acceptable_arguments sampled (Log.State one_mapping []) in
  exists pa,
    Log.heap_of (fst run) !! pa
    = Some (ODict cls_dict [("sampling_method", VStr "_sample_using_random");
                            ("sampling_kwargs", VRef 0)]).
Proof.
  cbv zeta.
  destruct (passthrough_is_assembled sampled one_mapping []
              (fst (get_batch_request_from_acceptable_arguments sampled
                      (Log.State one_mapping [])))
              (VRef 6))
    as (a & attrs & p & _ & _ & _ & pa & _ & _ & Hpa); [by_eval|by_eval|by_eval|].
  exists pa. exact Hpa.
Defined.

Lemma runtime_request_keeps_callers_objects_witness :
  exists h' r c,
    get_batch_request_from_acceptable_arguments query_with_parameters
      (Log.State two_mappings [])
    = (Log.State h' [], Ok (VRef r))
    /\ h' !! r
       = Some (OReq cls_RuntimeBatchRequest
                 (BatchRequestBase.__init__ (VStr "s1") (VStr "c1") (VStr "a1") VNone VNone
                    (VRef 0) (VRef 1) VNone)
                 None)
    /\ h' !! 0 = Some (ODict c [("schema", VStr "public"); ("query", VStr "SELECT 1")]).
Proof.
  destruct (runtime_request_keeps_callers_objects query_with_parameters two_mappings [] "s1"
              eq_refl eq_refl sample_names eq_refl eq_refl eq_refl)
    as (h' & r & p & c & Hrun & _ & Hr & Hp & Halias & _).
  - right. exists 0, cls_dict, [("schema", VStr "public")].
    split; [reflexivity|]. split; [reflexivity|discriminate].
  - exists 1, cls_dict, [("run_id", VStr "r1")].
    split; [reflexivity|]. split; [reflexivity|discriminate].
  - discriminate.
  - specialize (Halias eq_refl). injection Halias as <-.
    exists h', r, c. split; [exact Hrun|]. split; [exact Hr|exact Hp].
Defined.

Lemma both_filters_is_value_error_witness :
  get_batch_request_from_acceptable_arguments both_filters (Log.State one_mapping [])
  = (Log.State (on_entry one_mapping both_filters) [], Raise (ValueError not_both_message)).
Proof.
  apply (both_filters_is_value_error both_filters one_mapping [] "s1");
    try reflexivity; discriminate.
Defined.

Lemma failed_call_has_changed_runtime_parameters_witness :
  exists h' msg,
    get_batch_request_from_acceptable_arguments query_no_identifiers
      (Log.State two_mappings [])
    = (Log.State h' [], Raise (TypeError msg))
    /\ h' !! 0 = Some (ODict cls_dict [("schema", VStr "public"); ("query", VStr "SELECT 1")]).
Proof.
  apply (failed_call_has_changed_runtime_parameters query_no_identifiers two_mappings []
           "s1" "query" (VStr "SELECT 1") 0 cls_dict [("schema", VStr "public")]);
    try reflexivity; discriminate.
Defined.

Lemma deepcopy_keeps_heap_well_formed_witness :
  well_formed (fst (copy.deepcopy 10 (VRef 3) frame_request)).
Proof.
  refine (proj1 (deepcopy_keeps_heap_well_formed frame_request (VRef 3) 10
                   (fst (copy.deepcopy 10 (VRef 3) frame_request)) (VRef 4)
                   (is_well_formed_sound frame_request eq_refl) _ _)).
  - cbn. lia.
  - by_eval.
Defined.

Lemma deepcopy_leaves_own_hooks_witness :
  let h' := fst (copy.deepcopy 10 (VRef 3) frame_request) in
  exists attrs attrs',
    h' !! 3 = Some (OReq cls_RuntimeBatchRequest attrs (Some (HookBound 3)))
    /\ h' !! 4 = Some (OReq cls_RuntimeBatchRequest attrs' (Some (HookBound 4))).
Proof.
  cbv zeta.
  destruct (deepcopy_leaves_own_hooks frame_request 3
              (BatchRequestBase.__init__ (VStr "s1") (VStr "c1") (VStr "a1") VNone VNone
                 (VRef 1) (VRef 2) VNone)
              None 10
              (fst (copy.deepcopy 10 (VRef 3) frame_request)) (VRef 4)
              (is_well_formed_sound frame_request eq_refl))
    as (attrs' & hk & hk' & _ & Ha & Hc & Hhas & _); [by_eval|by_eval|by_eval|].
  destruct Hhas as [-> ->]; [by_eval|].
  eexists _, attrs'. split; [exact Ha|exact Hc].
Defined.

Lemma copy_of_copy_shares_batch_data_witness :
  let h1 := fst (copy.deepcopy 10 (VRef 3) frame_request) in
  let h2 := fst (copy.deepcopy 20 (VRef 4) h1) in
  exists attrs2 own2 d2 items2,
    h2 !! length h1 = Some (OReq cls_RuntimeBatchRequest attrs2 own2)
    /\ dict_get "_runtime_parameters" attrs2 = Some (VRef d2)
    /\ h2 !! d2 = Some (ODict cls_dict items2)
    /\ dict_get "batch_data" items2 = Some (VRef 0).
Proof.
  cbv zeta.
  destruct (copy_of_copy_shares_batch_data frame_request 3
              (BatchRequestBase.__init__ (VStr "s1") (VStr "c1") (VStr "a1") VNone VNone
                 (VRef 1) (VRef 2) VNone)
              None 1 cls_dict [("batch_data", VRef 0)] (VRef 0) 10
              (fst (copy.deepcopy 10 (VRef 3) frame_request)) (VRef 4)
              (is_well_formed_sound frame_request eq_refl))
    as [_ Hsecond]; [by_eval|by_eval|by_eval|by_eval|by_eval|by_eval|].
  destruct (Hsecond 20
              (fst (copy.deepcopy 20 (VRef 4) (fst (copy.deepcopy 10 (VRef 3) frame_request))))
              (VRef 7))
    as (attrs2 & own2 & d2 & items2 & _ & _ & Hz & Hrp & _ & Hd & Hv); [by_eval|].
  exists attrs2, own2, d2, items2. auto.
Defined.

Lemma to_json_dict_needs_a_named_filter_witness :
  exists h',
    Request.to_json_dict 10 (VRef 1) named_filter
    = (h', Raise (AttributeError "'str' object has no attribute '__name__'")).
Proof.
  destruct (to_json_dict_needs_a_named_filter 10 named_filter 1 _ _ None 0 cls_IDDict
              [("custom_filter_function", VStr "my_filter")] (VStr "my_filter")
              (is_well_formed_sound named_filter eq_refl) ltac:(cbn; lia)
              eq_refl eq_refl eq_refl eq_refl ltac:(discriminate) ltac:(discriminate))
    as (h' & Hrun & _).
  exists h'. exact Hrun.
Defined.

Lemma batch_markers_need_ge_load_time_witness :
  exists self,
    BatchMarkers.__init__ load_time [VRef 0] [("run", VInt 1)] = BatchMarkers.Built self
    /\ BatchMarkers.ge_load_time self = VStr "20210101T000000.000000Z".
Proof.
  destruct (batch_markers_need_ge_load_time load_time 0 cls_dict
              [("ge_load_time", VStr "20210101T000000.000000Z")] [("run", VInt 1)] eq_refl)
    as [(self & Hrun & Hget & _) _].
  - repeat constructor. cbn. intros [].
  - exists self. split; [exact Hrun|exact Hget].
Defined.
